(* ===== verification/_CoqProject ===== *)
-Q . S2P
Prelude.v
Text.v
Schema.v
Storage.v
History.v
Dates.v
Alerts.v
Pegadaian.v
MetalPrice.v
Emasku.v
Notifier.v
Telegram.v
WhatsApp.v
Scheduler.v
App.v
Api.v
Http.v
Client.v
Forms.v
AlertsPage.v
Cards.v
Analytics.v
Pages.v
Dashboard.v
Nav.v
Seed.v
