(* ===== verification/Prelude.v ===== *)
(** * Verification of the gold-price tracker

  The program is a web application that tracks the price of gold in
  Indonesian rupiah.  Its server ([src/server]) scrapes three sources
  (the Emasku and Pegadaian web pages, the Metals.live JSON API), stores
  hourly snapshots in PostgreSQL ([src/shared/schema.ts], accessed
  through [src/server/storage.js]), evaluates the users' price alerts
  and sends them by Telegram and WhatsApp, and serves a REST API
  ([src/server/routes.ts]).  Its client ([src/client]) shows the prices,
  the history, the investments and two gold calculators; [src/db/seed.ts]
  fills an empty database with sample rows.  This development models
  those parts as executable Rocq definitions (a shallow embedding) and
  proves what the code does on every branch, including where it departs
  from the written specification.

  ** How the parts interact, and how the model composes them

  Every [async] function that touches shared state is a computation of
  the monad [ST S A] of this file ([S -> result A * S]): it returns a
  value, throws an [Err] (a JavaScript exception, whose effects before
  the throw are kept), or [Hang]s (an [await] that never settles, which
  no [catch] sees).  The server's module-level singletons (the
  database, the scrapers' caches, the notifiers' clients) and the clock
  form the global state [App.World]; each component is written against
  its own state and runs inside the world through a [Lens] ([zoom]),
  and the [frames] library of this file proves that an operation leaves
  the other components' states alone.  The scheduler is written against
  interfaces: [Notifier.Notifier] (the record of what the alert loop
  calls on a channel) and [Scheduler.Backends] (the record of the calls
  [routes.ts] makes), so that its theorems hold for any implementation,
  and [App] instantiates them with the real components.

  ** Files (in dependency order) and the code they model

  - [Prelude]: the [ST] monad and its laws, lenses and [frames], the
    stable descending sort of [ORDER BY ... DESC] ([order_desc], with
    its reference [first_max]), [Math.round] and the rounding of a
    [numeric(10,2)] column.
  - [Text]: the string functions the code calls ([trim], [includes],
    [startsWith], the digit filters, [split(':')[0]], [parseInt],
    [String(n)]) and PostgreSQL's numeric input; the digit lemmas.
  - [Schema] ([schema.ts]): the four tables as records, [numeric] with
    its [NaN], the conversions of the driver.
  - [Storage] ([storage.js]): the database state ([DB]: four tables
    and four sequences) and every method of [storage] as an [ST DB]
    operation; the reachability relation [db_reachable] of all writes.
  - [History] ([storage.js] lines 69-212): history, chart data and
    recent changes, the civil calendar and JavaScript numbers.
  - [Dates]: the JSON text of a timestamp ([toISOString], which
    [res.json] writes for every [Date] column) and the parser of the
    date-time string format that [new Date(text)] applies to it in the
    client.
  - [Alerts]: the [checkPriceAlerts] of the Pegadaian scraper and of
    the Metals.live client.
  - [Pegadaian], [MetalPrice], [Emasku]: the three sources, each with
    its cache or timeout, [updateGoldPrice(s)] and, for Emasku, its own
    alert loop.
  - [Notifier]: the channel interface and the id-ID number formats;
    [Telegram] and [WhatsApp] ([telegram-notifier.js],
    [whatsapp-notifier.js]) implement it; WhatsApp's client events form
    a step relation [wa_step].
  - [Scheduler] ([routes.ts] lines 17-239): the start-up update, the
    hourly job with its source fallback and alert notifications, the
    daily-summary job and [GET /api/gold-prices/current].
  - [App]: the world, its lenses and the end-to-end runs.
  - [Api] ([routes.ts] lines 241-429): the drizzle-zod validation and
    the CRUD routes.
  - [Http] ([routes.ts] lines 163-421): the route table and Express's
    choice of a handler for a method and a path ([dispatch]).
  - [Client] ([formatters.js], [InvestmentPerformance.tsx],
    [MyInvestments.tsx], [Calculator.tsx], [GoldCalculator.tsx]): the
    API's decimal texts read back with [parseFloat], the formatters,
    the investment metrics and the calculators.
  - [Forms] ([Notifications.tsx]): the alert form's state,
    [handleSubmit] and the body it posts, the alert list's description
    line, the delete button; composed with [Api]'s routes and
    [Alerts]' rule.
  - [AlertsPage] ([Notifications.tsx]): the page as a state machine
    with the server's database: the form, the dialog, the two queries,
    the create and delete mutations through [Api]'s routes with their
    toasts and refetches ([page_step], [page_reachable]), and what the
    page renders (the form's inputs, the alert cards, the history rows).
  - [Cards] ([PriceCards.tsx], [RecentChanges.tsx], [PriceAlerts.tsx],
    [PriceHistory.tsx], [formatDateTime] of [formatters.js]): what the
    dashboard's widgets show in their loading, error and loaded states,
    from the JSON of the routes ([JSON.stringify] writes [NaN] as
    [null]); [formatDateTime] with its "Today"/"Yesterday" branches
    and the en-US formats; the price history page's state, chart text
    and table.
  - [Analytics] ([ProfitAnalytics.tsx]): the page's metrics on the
    investments and the history, its best and worst investments, and
    what it renders while loading and once loaded.
  - [Pages] ([MyInvestments.tsx], [Calculator.tsx]): the investment
    form's [handleSubmit] and delete button, composed with [Api]'s
    routes; the calculator page as a state machine: a record of its
    [useState] hooks and query data, one event per handler, a step
    function whose [useEffect] runs when a dependency changed, the
    reachability relation [calc_reachable] and the texts it renders.
  - [Dashboard] ([Dashboard.tsx], [GoldCalculator.tsx],
    [InvestmentPerformance.tsx], [PriceChart.tsx]): the refresh
    setting as a state machine over time ([Refresh]), the dashboard's
    calculator as a state machine with its effect ([GoldCalc]), what
    the investment card and the price chart render ([Performance],
    [Chart]), and the page's own view ([Page]): the "Last updated"
    line, the select, the price cards and the calculator's price.
  - [Nav] ([App.tsx], [Layout.tsx], [Sidebar.tsx], [MobileNav.tsx]):
    the route table and its [<Switch>], the links of the two
    navigation bars with their highlighting, and the layout's
    [sidebarOpen] state and viewport as a state machine over menu
    presses and clicks on the links the screen shows: the visible bar's
    and the in-page links of the dashboard's widgets ([layout_step],
    [layout_run]).
  - [Seed] ([seed.ts]): the seed script and its multi-row inserts.

  ** What the theorems show

  - Invariants: every database reachable by the writes of [storage.js]
    is well formed (ids below their sequences and distinct, logs refer
    to existing alerts) ([Storage.db_reachable_wf]); the seed keeps it
    and is idempotent ([Seed]); every state of the calculator page
    shows the estimate of its current inputs, by rule induction on
    [calc_reachable] ([Pages.CalculatorPage.calc_reachable_fresh]);
    the alerts page, while it is the server's only client, always
    holds the list [GET /api/alerts] answers
    ([AlertsPage.page_alerts_fresh]); the investments page never adds
    an investment ([Pages.Investments.investments_page_never_records]);
    the dashboard's calculator always shows the buy value
    ([Dashboard.GoldCalc.gold_calc_shows_buy_value]).
  - Liveness of the client: the dashboard refetches the price
    [d / 3600000] or [d / 300000] times in [d] milliseconds on its
    hourly and real-time settings and never on "daily"
    ([Dashboard.Refresh.refresh_count]).
  - Termination: [settles m] (no [await] of [m] hangs from any state)
    is closed under [bind], [try_catch] and [zoom] ([Prelude]); the
    hourly job completes with [Ok] whenever its remote calls settle
    ([Scheduler.hourly_tick_completes]), whatever they answer.
  - Functional behaviour on every branch, errors included: the alert
    rule ([Alerts.price_alert_triggered_spec]), the latest snapshot and
    its baseline ([Storage]), history annotations and cutoffs
    ([History]), the scrapers' caches and validation, the notifiers'
    sends and logs, the validation of the routes ([Api]).
  - The wire between server and client: a timestamp written by
    [toISOString] is read back by [new Date(text)] unchanged
    ([Dates.date_parse_iso_toISOString]), which the dashboard's "Last
    updated" line composes with [formatDateTime]
    ([Dashboard.Page.last_updated_shows_snapshot_time]); the decimal
    text of the API is read back by [parseFloat] as its value
    ([Client.api_num_of_numeric]).  These lemmas are about the JavaScript builtins and
    PostgreSQL, which the development models from their
    specifications; they serve the properties of the code.
  - Refinement and equivalence: the client's investment metrics
    computed on the API's texts equal the exact sums of the database
    ([Client.calculateMetrics_refines]); the two pages' totals agree
    when the invested total is positive; the dashboard's alert widget
    and the alerts page describe the three alert types alike
    ([Cards.alert_views_agree]); the profit page's best and worst
    investments are the extremes of the portfolio
    ([Analytics.best_worst_performing]).
  - Bounds: the Metals.live snapshot has buy below sell
    ([MetalPrice.convert_buy_below_sell]).
  - Composition: one hourly job through all components
    ([App.hourly_emasku_up_silent]), the
    current-price request and its caches ([App]), the seed read by
    [getCurrentGoldPrice] ([Seed]), the investment form through
    [POST /api/investments] ([Pages.Investments]), the alert
    form through the route to the alert rule
    ([Forms.dashboard_alerts_never_fire]), the delete button through
    [String(id)] and [parseInt] to the [DELETE]
    ([Forms.dashboard_delete_alert]), the client's delete URLs through
    Express's router to their routes ([Http.client_delete_routes]),
    whose table is unambiguous ([Http.dispatch_unambiguous]), the
    recent changes of the database shown by the dashboard ([Cards]).
  - Departures from the specification and defects of the code, each a
    theorem: the Emasku path never evaluates an alert, no alert the
    dashboard's form creates has a target, every investment POST is
    rejected, channel failures
    are not isolated, a hanging source blocks the fallback, the daily
    change is measured against the day before yesterday, WhatsApp sends
    block or leak clients, NaN prices are stored and reported, the
    calculators disagree, an unchanged price is shown as a fall, the
    two alert views disagree on a type outside the three, the
    investment form can never record an investment, the projection
    is not recomputed when its inputs change, the dashboard's
    investment card throws when the price request fails
    ([Dashboard.Performance.performance_crashes_without_price]), no
    sequence of menu presses and clicks reaches Profit Analytics on a
    narrow screen ([Nav.narrow_never_reaches_analytics]; My Investments
    is reached only through the dashboard's investment card), while on
    a wide one every page is a click away and each link leads to its
    page and highlights itself alone ([Nav]).

  ** Bounds and fuel

  [Text.digits_acc] ([String(n)]) takes as fuel one more than the
  number of binary digits of [n], which [Text.digits_acc_spec] proves
  enough.  The calendar round trip is proved by evaluating all 146097
  days of one 400-year era with [vm_compute] (a few seconds) and
  extending to every day by the era's periodicity.  [TimeClip]'s
  limit of 8.64e15 ms is [10^8] days either side of the epoch, whose
  years have at most six digits ([Dates.civil_year_bound]): the widths
  [toISOString] pads to are enough for every valid time value.  The
  models are
  otherwise structurally recursive; loops over rows are folds over
  lists; the remote sites and clients are finite scripts of responses.

  ** Not modelled

  - Rendering: the markup of React components (the logo, icons, the
    "Upgrade to Pro" box), the charts, toasts, and the WhatsApp QR
    code; console output.  [formatDateTime] is modelled with the en-US
    formats; [new Date(text)] is the date-time string format's parser
    ([Dates]) on the texts the server writes, and the engine's own
    fallback for other texts, the separator ICU puts before "AM"/"PM"
    and the chart's date labels are parameters.
  - Library behaviour that the code relies on is modelled from its
    specification and is not counted as code of the repository (it
    has no entry in the manifest's map): the calendar of [Date]
    ([History.civil_from_days], [make_day]), [toISOString] and the
    date-time string format ([Dates]), and Express's choice of a route
    ([Http.dispatch]).
  - wouter's path matcher is a parameter; the theorems assume only
    that it compares the six paths of the route table as strings.
  - Plumbing: Express's middleware (its router is modelled in [Http],
    without [HEAD] requests and the decoding of parameters), node-cron's timers
    (the jobs are modelled as ticks), the HTTP and browser libraries
    (their answers are scripts), cheerio's HTML selection (the selected
    texts are inputs).
  - Machine arithmetic of doubles: numbers are exact rationals with
    [NaN] and infinities, so double rounding ([toFixed] of 1.005) and
    overflow to [Infinity] are not covered; [Math.pow] with a real
    exponent (the investment projection, the annualised return of
    [ProfitAnalytics.tsx]) and [Math.sqrt] are parameters, and so are
    [new Date(s).toISOString()] and [ToNumber] of a text.
  - [@/lib/queryClient] ([apiRequest], the default query function) and
    the [ui] components are imported by the client but are not part of
    the repository: a request succeeds on a 2xx reply, and the text of
    the error it throws otherwise is a parameter.
  - Time: a fixed offset [tz] from UTC without daylight saving.
  - PostgreSQL: numeric input in exponent form, and the sequence value
    that a failed [INSERT] consumes (the model does not advance it).
  - [src/test-emasku-scraper.js], a diagnostic script that prints the
    page structure and changes no state. *)

From Stdlib Require Export ZArith QArith Qround Lia Ascii String.
From Stdlib Require Import Sorting.
From stdpp Require Export base list strings decidable.

Declare Scope gold_scope.
Delimit Scope gold_scope with gold.
Open Scope Z_scope.

Create HintDb gold.
Create Rewrite HintDb st.
Create Rewrite HintDb gold_rw.

(** ** Results of a computation that may throw *)

(** A JavaScript [throw] carries an [Error] whose [message] is a string;
    [Err m] is that exception.  [Hang] is an [await] on a promise that
    never settles (a request sent without a timeout to a server that
    never answers): nothing after it runs, and no [catch] sees it. *)
Inductive result (A : Type) : Type :=
| Ok (a : A)
| Err (msg : string)
| Hang.
Arguments Ok {A} a.
Arguments Err {A} msg.
Arguments Hang {A}.

Definition is_ok {A} (r : result A) : bool :=
  match r with Ok _ => true | _ => false end.

(** ** The state-and-exception monad

    An [async] function of the server is modelled as [ST S A]: it reads
    and writes a state [S] and returns a value or throws.  A throw keeps
    the state changes made before it (JavaScript has no rollback), so
    the state is returned in both cases. *)
Definition ST (S A : Type) : Type := S -> result A * S.

#[export] Instance st_ret {S} : MRet (ST S) := fun A a s => (Ok a, s).
#[export] Instance st_bind {S} : MBind (ST S) := fun A B k m s =>
  match m s with
  | (Ok a, s') => k a s'
  | (Err e, s') => (Err e, s')
  | (Hang, s') => (Hang, s')
  end.

Definition throw {S A} (e : string) : ST S A := fun s => (Err e, s).
Definition hang {S A} : ST S A := fun s => (Hang, s).
Definition get {S} : ST S S := fun s => (Ok s, s).
Definition gets {S A} (f : S -> A) : ST S A := fun s => (Ok (f s), s).
Definition put {S} (s : S) : ST S unit := fun _ => (Ok tt, s).
Definition modify {S} (f : S -> S) : ST S unit := fun s => (Ok tt, f s).

(** [try { m } catch (e) { h(e) }] *)
Definition try_catch {S A} (m : ST S A) (h : string -> ST S A) : ST S A := fun s =>
  match m s with
  | (Err e, s') => h e s'
  | r => r
  end.

Open Scope gold_scope.

Section monad_laws.
Context {S A B : Type}.

Lemma run_ret (a : A) (s : S) : (mret a : ST S A) s = (Ok a, s).
Proof. reflexivity. Qed.

Lemma run_bind (m : ST S A) (k : A -> ST S B) (s : S) :
  (m ≫= k) s = match m s with
               | (Ok a, s') => k a s'
               | (Err e, s') => (Err e, s')
               | (Hang, s') => (Hang, s')
               end.
Proof. reflexivity. Qed.

Lemma run_bind_ok (m : ST S A) (k : A -> ST S B) s a s' :
  m s = (Ok a, s') -> (m ≫= k) s = k a s'.
Proof. intros H. rewrite run_bind, H. reflexivity. Qed.

Lemma run_bind_err (m : ST S A) (k : A -> ST S B) s e s' :
  m s = (Err e, s') -> (m ≫= k) s = (Err e, s').
Proof. intros H. rewrite run_bind, H. reflexivity. Qed.

Lemma run_try_ok (m : ST S A) h s a s' :
  m s = (Ok a, s') -> try_catch m h s = (Ok a, s').
Proof. intros H. unfold try_catch. rewrite H. reflexivity. Qed.

Lemma run_try_err (m : ST S A) h s e s' :
  m s = (Err e, s') -> try_catch m h s = h e s'.
Proof. intros H. unfold try_catch. rewrite H. reflexivity. Qed.

Lemma run_bind_hang (m : ST S A) (k : A -> ST S B) s s' :
  m s = (Hang, s') -> (m ≫= k) s = (Hang, s').
Proof. intros H. rewrite run_bind, H. reflexivity. Qed.

Lemma run_try_hang (m : ST S A) h s s' :
  m s = (Hang, s') -> try_catch m h s = (Hang, s').
Proof. intros H. unfold try_catch. rewrite H. reflexivity. Qed.
End monad_laws.

#[export] Hint Rewrite @run_ret @run_bind : st.

(** Unfold one layer of the monad in the goal and in hypotheses. *)
Ltac st_simpl :=
  repeat (unfold mret, mbind, st_ret, st_bind, throw, hang, get, gets, put, modify,
            try_catch in *; simpl in *).

(** ** Lenses: how a component reaches its part of the global state

    The server keeps module-level singletons ([pegadaianScraper],
    [metalPriceAPI], [whatsAppNotifier], the database handle); each
    component's operations are written against its own state and run
    inside the global state through a lens. *)
Record Lens (S T : Type) := {
  view : S -> T;
  update : T -> S -> S;
  view_update : forall t s, view (update t s) = t;
  update_view : forall s, update (view s) s = s;
  update_update : forall t t' s, update t (update t' s) = update t s
}.
Arguments view {S T} l s.
Arguments update {S T} l t s.
Arguments view_update {S T} l t s.
Arguments update_view {S T} l s.
Arguments update_update {S T} l t t' s.

(** Two lenses are independent when writing through one leaves the
    view through the other unchanged. *)
Definition independent {S T U} (l1 : Lens S T) (l2 : Lens S U) : Prop :=
  forall t s, view l2 (update l1 t s) = view l2 s.

(** Run a component operation on its part of the state. *)
Definition zoom {S T A} (l : Lens S T) (m : ST T A) : ST S A := fun s =>
  let (r, t) := m (view l s) in (r, update l t s).

Lemma zoom_result {S T A} (l : Lens S T) (m : ST T A) s :
  fst (zoom l m s) = fst (m (view l s)).
Proof. unfold zoom. destruct (m (view l s)). reflexivity. Qed.

Lemma zoom_view {S T A} (l : Lens S T) (m : ST T A) s :
  view l (snd (zoom l m s)) = snd (m (view l s)).
Proof. unfold zoom. destruct (m (view l s)). simpl. apply view_update. Qed.

Lemma zoom_other {S T U A} (l1 : Lens S T) (l2 : Lens S U) (m : ST T A) s :
  independent l1 l2 -> view l2 (snd (zoom l1 m s)) = view l2 s.
Proof. intros Hi. unfold zoom. destruct (m (view l1 s)). apply Hi. Qed.

Lemma zoom_read {W S A} (l : Lens W S) (m : ST S A) w a :
  m (view l w) = (Ok a, view l w) -> zoom l m w = (Ok a, w).
Proof. intros H. unfold zoom. rewrite H, update_view. reflexivity. Qed.

Definition lens_fst {A B} : Lens (A * B) A.
Proof.
  refine {| view := fst; update := fun a p => (a, snd p) |};
    [intros ? []| intros []| intros ? ? []]; reflexivity.
Defined.

Definition lens_snd {A B} : Lens (A * B) B.
Proof.
  refine {| view := snd; update := fun b p => (fst p, b) |};
    [intros ? []| intros []| intros ? ? []]; reflexivity.
Defined.

Lemma lens_fst_snd_independent {A B} : independent (@lens_fst A B) lens_snd.
Proof. intros ? []. reflexivity. Qed.

Lemma lens_snd_fst_independent {A B} : independent (@lens_snd A B) lens_fst.
Proof. intros ? []. reflexivity. Qed.

(** ** [ORDER BY key DESC]

    The queries of [storage.js] sort by a timestamp column in descending
    order.  SQL leaves the order of ties unspecified; the model breaks
    ties by insertion order (the older row first), which is the order a
    sequential scan of an append-only table returns.  [order_desc] is an
    insertion sort, stable in that sense. *)
Section order_desc.
Context {A : Type} (key : A -> Z).

Fixpoint ins_desc (x : A) (l : list A) : list A :=
  match l with
  | [] => [x]
  | y :: l' => if Z.leb (key y) (key x) then x :: y :: l' else y :: ins_desc x l'
  end.

Fixpoint order_desc (l : list A) : list A :=
  match l with
  | [] => []
  | x :: l' => ins_desc x (order_desc l')
  end.

(** Reference definition: the first element of maximal key. *)
Fixpoint first_max (l : list A) : option A :=
  match l with
  | [] => None
  | x :: l' =>
      match first_max l' with
      | Some y => if Z.ltb (key x) (key y) then Some y else Some x
      | None => Some x
      end
  end.

Lemma ins_desc_perm x l : ins_desc x l ≡ₚ x :: l.
Proof.
  induction l as [|y l IH]; simpl; [done|].
  destruct (Z.leb (key y) (key x)); [done|].
  rewrite IH. apply Permutation_swap.
Qed.

Lemma order_desc_perm l : order_desc l ≡ₚ l.
Proof.
  induction l as [|x l IH]; simpl; [done|].
  rewrite ins_desc_perm, IH. done.
Qed.

Lemma order_desc_length l : length (order_desc l) = length l.
Proof. apply Permutation_length, order_desc_perm. Qed.

Definition desc (x y : A) : Prop := key y <= key x.

Lemma ins_desc_sorted x l : Sorted desc l -> Sorted desc (ins_desc x l).
Proof.
  induction 1 as [|y l Hs IH Hhd]; simpl; [repeat constructor|].
  destruct (Z.leb_spec (key y) (key x)).
  - constructor; [constructor; auto|]. constructor. unfold desc. lia.
  - constructor; [done|].
    destruct l as [|z l]; simpl in *.
    + constructor. unfold desc. lia.
    + inversion Hhd; subst.
      destruct (Z.leb (key z) (key x)); constructor; unfold desc in *; lia.
Qed.

Lemma order_desc_sorted l : Sorted desc (order_desc l).
Proof. induction l; simpl; [constructor|]. by apply ins_desc_sorted. Qed.

Lemma hd_ins_desc x l :
  hd_error (ins_desc x l) =
    match hd_error l with
    | Some y => if Z.ltb (key x) (key y) then Some y else Some x
    | None => Some x
    end.
Proof.
  destruct l as [|y l]; simpl; [done|].
  destruct (Z.leb_spec (key y) (key x)), (Z.ltb_spec (key x) (key y)); simpl; done || lia.
Qed.

(** The first row of [ORDER BY key DESC] is the first row of maximal key. *)
Lemma hd_order_desc l : hd_error (order_desc l) = first_max l.
Proof. induction l as [|x l IH]; simpl; [done|]. by rewrite hd_ins_desc, IH. Qed.

Lemma first_max_in l x : first_max l = Some x -> In x l.
Proof.
  induction l as [|y l IH]; simpl; [done|].
  destruct (first_max l); [destruct (Z.ltb _ _)|]; intros [= <-]; auto.
Qed.

Lemma first_max_None l : first_max l = None -> l = [].
Proof. destruct l; simpl; [done|]. destruct (first_max l); [destruct (Z.ltb _ _)|]; done. Qed.

Lemma first_max_ge l x : first_max l = Some x -> forall y, In y l -> key y <= key x.
Proof.
  revert x. induction l as [|z l IH]; simpl; [done|]. intros x Hx y Hy.
  destruct (first_max l) as [m|] eqn:E.
  - specialize (IH m eq_refl).
    destruct (Z.ltb_spec (key z) (key m)); injection Hx as <-;
      destruct Hy as [<-|Hy]; try lia; specialize (IH y Hy); lia.
  - apply first_max_None in E as ->. injection Hx as <-. destruct Hy as [<-|[]]. lia.
Qed.
End order_desc.

(** Sorting commutes with a map that keeps the key. *)
Lemma order_desc_map {A} (key : A -> Z) (f : A -> A) l :
  (forall a, key (f a) = key a) -> order_desc key (map f l) = map f (order_desc key l).
Proof.
  intros Hk. induction l as [|x l IH]; simpl; [done|]. rewrite IH.
  generalize (order_desc key l). intros m. induction m as [|y m IHm]; simpl; [done|].
  rewrite !Hk. destruct (Z.leb (key y) (key x)); simpl; [done|]. by rewrite IHm.
Qed.

(** Filtering commutes with a map that keeps the predicate. *)
Lemma filter_map_comm {A} (P : A -> Prop) `{!forall x, Decision (P x)} (f : A -> A) l :
  (forall a, P (f a) <-> P a) -> filter P (map f l) = map f (filter P l).
Proof.
  intros HP. induction l as [|x l IH]; simpl; [done|]. rewrite !filter_cons.
  destruct (decide (P (f x))) as [Hf|Hf], (decide (P x)) as [Hx|Hx]; simpl; rewrite ?IH;
    [done| exfalso; apply Hx, HP, Hf| exfalso; apply Hf, HP, Hx| done].
Qed.

(** ** Numbers

    JavaScript numbers are modelled by exact rationals [Q]: the
    rounding error of IEEE doubles is not modelled.  [Math.round]
    rounds half-way cases towards plus infinity. *)
Definition js_round (q : Q) : Z := Qfloor (q + (1 # 2)).

(** A PostgreSQL [numeric(10,2)] value is kept in hundredths (cents).
    Converting a number into the column rounds half-way cases away from
    zero. *)
Definition numeric_round2 (q : Q) : Z :=
  if Qle_bool 0 q then Qfloor (q * 100 + (1 # 2))
  else - Qfloor (- q * 100 + (1 # 2)).

(** [lia] after turning [/] and [mod] into their defining equations. *)
Ltac zlia := Z.div_mod_to_equations; lia.

(** [Qfloor] of a fraction is Euclidean division: [lia] then handles it. *)
Lemma Qfloor_frac (n : Z) (d : positive) : Qfloor (n # d) = n / Z.pos d.
Proof. reflexivity. Qed.

Lemma js_round_Z (z : Z) : js_round (inject_Z z) = z.
Proof. unfold js_round, inject_Z, Qplus, Qfloor. simpl. rewrite Pos.mul_1_l. zlia. Qed.

(** Unfold rational arithmetic on literals down to [Z] and [/]. *)
Ltac qsimpl :=
  unfold js_round, numeric_round2, Qmult, Qplus, Qopp, Qfloor, inject_Z in *; simpl in *;
  repeat rewrite ?Pos.mul_1_l, ?Pos.mul_1_r, ?Z.mul_1_l, ?Z.mul_1_r, ?Pos2Z.inj_mul in *.

Lemma numeric_round2_Z (z : Z) : numeric_round2 (inject_Z z) = 100 * z.
Proof.
  unfold numeric_round2. destruct (Qle_bool 0 (inject_Z z)); qsimpl; zlia.
Qed.

#[export] Hint Rewrite js_round_Z numeric_round2_Z : gold_rw.

(** ** Network peers

    A remote server is modelled by the responses it will give to the
    successive requests sent to it; a request beyond the script fails as
    a refused connection.  Each request consumes one response. *)
Definition net_next {A} (script : list (result A)) : result A * list (result A) :=
  match script with
  | [] => (Err "connect ECONNREFUSED", [])
  | r :: rs => (r, rs)
  end.

(** Lens composition: a component inside a component. *)
Definition lens_compose {S T U} (l1 : Lens S T) (l2 : Lens T U) : Lens S U.
Proof.
  refine {| view := fun s => view l2 (view l1 s);
            update := fun u s => update l1 (update l2 u (view l1 s)) s |}.
  - intros u s. by rewrite !view_update.
  - intros s. by rewrite !update_view.
  - intros u u' s. by rewrite view_update, !update_update.
Defined.

(** ** Frame conditions

    [frames m f]: running [m] never changes the observation [f] of the
    state, whatever its outcome.  Operations built by [≫=], [try_catch]
    and [zoom] from framing parts frame; [frame_solve] decomposes an
    operation along that structure. *)
Definition frames {S A T} (m : ST S A) (f : S -> T) : Prop := forall s, f (snd (m s)) = f s.

Section frames.
Context {S T : Type} (f : S -> T).

Lemma frames_ret {A} (a : A) : frames (mret a) f.
Proof. done. Qed.
Lemma frames_gets {A} (g : S -> A) : frames (gets g) f.
Proof. done. Qed.
Lemma frames_throw {A} e : frames (throw (A:=A) e) f.
Proof. done. Qed.
Lemma frames_bind {A B} (m : ST S A) (k : A -> ST S B) :
  frames m f -> (forall a, frames (k a) f) -> frames (m ≫= k) f.
Proof. intros Hm Hk s. rewrite run_bind. specialize (Hm s). destruct (m s) as [[]]; simpl in *; congruence. Qed.
Lemma frames_try {A} (m : ST S A) (h : string -> ST S A) :
  frames m f -> (forall e, frames (h e) f) -> frames (try_catch m h) f.
Proof. intros Hm Hh s. specialize (Hm s). unfold try_catch. destruct (m s) as [[]]; simpl in *; congruence. Qed.
End frames.

Lemma frames_zoom_other {S T U V A} (l1 : Lens S T) (l2 : Lens S U) (g : U -> V) (m : ST T A) :
  independent l1 l2 -> frames (zoom l1 m) (fun s => g (view l2 s)).
Proof. intros Hi s. by rewrite (zoom_other l1 l2 m s Hi). Qed.

Lemma frames_zoom_view {S T U A} (l1 : Lens S T) (l2 : Lens S U) (m : ST T A) :
  independent l1 l2 -> frames (zoom l1 m) (view l2).
Proof. intros Hi s. by rewrite (zoom_other l1 l2 m s Hi). Qed.

Lemma frames_zoom {S T V A} (l : Lens S T) (g : T -> V) (m : ST T A) :
  frames m g -> frames (zoom l m) (fun s => g (view l s)).
Proof. intros Hm s. rewrite zoom_view. apply Hm. Qed.

Create HintDb frame.
#[export] Hint Resolve frames_ret frames_gets frames_throw frames_zoom_other frames_zoom_view : frame.

Ltac frame_solve :=
  repeat (cbv beta; match goal with
  | |- frames (_ ≫= _) _ => apply frames_bind; [|intros ?]
  | |- frames (try_catch _ _) _ => apply frames_try; [|intros ?]
  | |- frames (zoom _ _) _ => first [solve [eauto with frame] | apply frames_zoom]
  | |- frames (match ?x with _ => _ end) _ => destruct x
  end); eauto with frame.

(** ** Computations that settle

    [settles m]: from every state, [m] returns or throws; it never
    awaits a promise that does not settle.  Like [frames], the property
    goes through [≫=], [try_catch] and [zoom]; [settle_solve]
    decomposes an operation along that structure. *)
Definition settles {S A} (m : ST S A) : Prop := forall s, fst (m s) <> Hang.

Section settles.
Context {S : Type}.

Lemma settles_ret {A} (a : A) : settles (S:=S) (mret a).
Proof. done. Qed.
Lemma settles_gets {A} (g : S -> A) : settles (gets g).
Proof. done. Qed.
Lemma settles_get : settles (S:=S) get.
Proof. done. Qed.
Lemma settles_put (s : S) : settles (put s).
Proof. done. Qed.
Lemma settles_throw {A} e : settles (S:=S) (throw (A:=A) e).
Proof. done. Qed.
Lemma settles_bind {A B} (m : ST S A) (k : A -> ST S B) :
  settles m -> (forall a, settles (k a)) -> settles (m ≫= k).
Proof. intros Hm Hk s. rewrite run_bind. specialize (Hm s). destruct (m s) as [[a| |] s']; simpl in *; [apply Hk|congruence|done]. Qed.
Lemma settles_try {A} (m : ST S A) (h : string -> ST S A) :
  settles m -> (forall e, settles (h e)) -> settles (try_catch m h).
Proof. intros Hm Hh s. specialize (Hm s). unfold try_catch. destruct (m s) as [[a|e|] s']; simpl in *; [congruence|apply Hh|done]. Qed.

(** A [try] whose handler returns swallows every exception: it
    returns. *)
Lemma try_swallow_ok {A} (m : ST S A) (a : A) s :
  settles m -> exists a' s', try_catch m (fun _ => mret a) s = (Ok a', s').
Proof. intros Hm. specialize (Hm s). unfold try_catch. destruct (m s) as [[a'|e|] s']; [eauto|eauto|done]. Qed.
End settles.

Lemma settles_zoom {S T A} (l : Lens S T) (m : ST T A) : settles m -> settles (zoom l m).
Proof. intros Hm s. rewrite zoom_result. apply Hm. Qed.

Create HintDb settle.
#[export] Hint Resolve settles_ret settles_gets settles_get settles_put settles_throw : settle.

Ltac settle_solve :=
  repeat (cbv beta; match goal with
  | |- settles (_ ≫= _) => apply settles_bind; [|intros ?]
  | |- settles (try_catch _ _) => apply settles_try; [|intros ?]
  | |- settles (zoom _ _) => apply settles_zoom
  | |- settles (match ?x with _ => _ end) => destruct x
  | |- settles (if ?x then _ else _) => destruct x
  end); eauto with settle.

(** ** Runs of a page's events

    A page of the client reacts to one event at a time, with the
    server's state beside its own: [step st e db] is the next pair.
    [run_events] plays a list of events, and an invariant of [step]
    holds after any run. *)
Section runs.
Context {St E D : Type} (step : St -> E -> D -> St * D).

Definition run_events (p : St * D) (evs : list E) : St * D :=
  fold_left (fun p e => step (fst p) e (snd p)) evs p.

Lemma run_events_ind (R : St -> D -> Prop) :
  (forall st e db, R st db -> R (fst (step st e db)) (snd (step st e db))) ->
  forall evs p, R (fst p) (snd p) -> R (fst (run_events p evs)) (snd (run_events p evs)).
Proof. intros HR evs. induction evs as [|e evs IH]; intros p Hp; [exact Hp|]. apply IH, HR, Hp. Qed.
End runs.

(** [fold_left Z.add] with any start: the start plus the sum. *)
Lemma fold_left_add_from (a : Z) (l : list Z) : fold_left Z.add l a = a + fold_left Z.add l 0.
Proof.
  revert a. induction l as [|x l IH]; intros a; simpl; [lia|]. rewrite (IH (a + x)), (IH (0 + x)). lia.
Qed.
