(* ===== verification/Text.v ===== *)
(** * JavaScript string operations

  The string functions the scrapers and the scheduler call on page text
  and on alert fields: [trim], [includes], [startsWith], the
  [replace(/[^...]/g, '')] filters, [split(':')[0]] and
  [parseInt(s, 10)].  Strings are byte strings ([String.string]);
  [trim] removes the ASCII white space characters (tab, line feed,
  vertical tab, form feed, carriage return, space); Unicode white space
  is not modelled. *)

From S2P Require Import Prelude.

Local Open Scope string_scope.

Module Text.

Definition code (c : ascii) : nat := Ascii.nat_of_ascii c.

Definition is_digit (c : ascii) : bool := (48 <=? code c)%nat && (code c <=? 57)%nat.

Definition is_space (c : ascii) : bool :=
  ((9 <=? code c)%nat && (code c <=? 13)%nat) || (code c =? 32)%nat.

Definition digit_value (c : ascii) : Z := Z.of_nat (code c) - 48.

(** [s.replace(/[^0-9]/g, '')] and [s.replace(/[^\d]/g, '')] *)
Fixpoint keep_digits (s : string) : string :=
  match s with
  | EmptyString => EmptyString
  | String c s' => if is_digit c then String c (keep_digits s') else keep_digits s'
  end.

(** [s.replace(/[^0-9,.]/g, '')] *)
Fixpoint keep_number_chars (s : string) : string :=
  match s with
  | EmptyString => EmptyString
  | String c s' =>
      if is_digit c || Ascii.eqb c "," || Ascii.eqb c "."
      then String c (keep_number_chars s') else keep_number_chars s'
  end.

(** [s.replace(/,/g, '')] *)
Fixpoint remove_commas (s : string) : string :=
  match s with
  | EmptyString => EmptyString
  | String c s' => if Ascii.eqb c "," then remove_commas s' else String c (remove_commas s')
  end.

Fixpoint trim_start (s : string) : string :=
  match s with
  | EmptyString => EmptyString
  | String c s' => if is_space c then trim_start s' else s
  end.

Definition rev_string (s : string) : string := string_of_list_ascii (rev (list_ascii_of_string s)).

Definition trim_end (s : string) : string := rev_string (trim_start (rev_string s)).

(** [s.trim()] *)
Definition trim (s : string) : string := trim_end (trim_start s).

(** ASCII lower case. *)
Definition lower_char (c : ascii) : ascii :=
  if (65 <=? code c)%nat && (code c <=? 90)%nat then Ascii.ascii_of_nat (code c + 32) else c.

Fixpoint lowercase (s : string) : string :=
  match s with
  | EmptyString => EmptyString
  | String c s' => String (lower_char c) (lowercase s')
  end.

(** [s.startsWith(p)] *)
Fixpoint starts_with (p s : string) : bool :=
  match p, s with
  | EmptyString, _ => true
  | String a p', String b s' => Ascii.eqb a b && starts_with p' s'
  | String _ _, EmptyString => false
  end.

(** [s.includes(p)] *)
Fixpoint includes (p s : string) : bool :=
  starts_with p s ||
  match s with
  | EmptyString => false
  | String _ s' => includes p s'
  end.

(** [s.split(':')[0]]: the text before the first colon. *)
Fixpoint before_colon (s : string) : string :=
  match s with
  | EmptyString => EmptyString
  | String c s' => if Ascii.eqb c ":" then EmptyString else String c (before_colon s')
  end.

(** [s.slice(0, n)] *)
Definition slice0 (n : nat) (s : string) : string := substring 0 n s.

(** The longest prefix of decimal digits, with its value. *)
Fixpoint digit_prefix (s : string) : list Z :=
  match s with
  | String c s' => if is_digit c then digit_value c :: digit_prefix s' else []
  | EmptyString => []
  end.

Definition digits_value (ds : list Z) : Z := fold_left (fun acc d => acc * 10 + d) ds 0.

(** [parseInt(s, 10)]: leading white space, an optional sign, then the
    longest run of digits; [None] is [NaN] (no digit). *)
Definition parse_digits (s : string) : option Z :=
  match digit_prefix s with
  | [] => None
  | ds => Some (digits_value ds)
  end.

Definition parse_int (s : string) : option Z :=
  match trim_start s with
  | String "-" r => option_map Z.opp (parse_digits r)
  | String "+" r => parse_digits r
  | s1 => parse_digits s1
  end.

(** The text after the longest prefix of digits. *)
Fixpoint drop_digits (s : string) : string :=
  match s with
  | String c s' => if is_digit c then drop_digits s' else s
  | EmptyString => EmptyString
  end.

(** PostgreSQL's input of a [numeric] from text: surrounding white
    space, an optional sign, digits with at most one decimal point and
    at least one digit.  [None] is "invalid input syntax"; the exponent
    form ([1e5]) and the special values other than [NaN] are not
    modelled and are rejected. *)
Definition parse_decimal (s : string) : option Q :=
  let t := trim s in
  let '(neg, r) := match t with
                   | String "-" r => (true, r)
                   | String "+" r => (false, r)
                   | _ => (false, t)
                   end in
  let ip := digit_prefix r in
  let sgn (q : Q) := if neg then Qopp q else q in
  match drop_digits r with
  | EmptyString => match ip with [] => None | _ => Some (sgn (inject_Z (digits_value ip))) end
  | String "." f =>
      let fp := digit_prefix f in
      match drop_digits f, ip, fp with
      | EmptyString, [], [] => None
      | EmptyString, _, _ =>
          Some (sgn (Qplus (inject_Z (digits_value ip)) (digits_value fp # Z.to_pos (10 ^ Z.of_nat (length fp)))))
      | _, _, _ => None
      end
  | _ => None
  end.

(** The character of a decimal digit, and the text of a list of digits. *)
Definition digit_char (d : Z) : ascii := Ascii.ascii_of_nat (48 + Z.to_nat d).
Arguments digit_char : simpl never.

(** [String(n)] for an integer: the decimal digits of a non-negative
    [n], most significant first.  The fuel bounds the number of digits
    and [digits_fuel] is enough (a number has at most as many decimal
    digits as binary ones). *)
Fixpoint digits_acc (fuel : nat) (n : Z) (acc : string) : string :=
  match fuel with
  | O => acc
  | S f =>
      let acc' := String (digit_char (n mod 10)) acc in
      if Z.ltb n 10 then acc' else digits_acc f (n / 10) acc'
  end.

Definition digits_fuel (n : Z) : nat := S (Z.to_nat (Z.log2 n)).

Definition Z_to_string (z : Z) : string :=
  if Z.ltb z 0 then String "-" (digits_acc (digits_fuel (- z)) (- z) EmptyString)
  else digits_acc (digits_fuel z) z EmptyString.

(** The text of a list of digits. *)

Fixpoint string_of_digits (ds : list Z) : string :=
  match ds with
  | [] => EmptyString
  | d :: r => String (digit_char d) (string_of_digits r)
  end.

(** The text does not start with a digit. *)
Definition no_digit_start (s : string) : bool :=
  match s with String c _ => negb (is_digit c) | EmptyString => true end.

(** ** Lemmas *)

Lemma digit_value_bounds c : is_digit c = true -> 0 <= digit_value c <= 9.
Proof.
  unfold is_digit, digit_value. intros H.
  apply andb_true_iff in H as [H1 H2]. apply Nat.leb_le in H1, H2. lia.
Qed.

Lemma digits_value_app ds d : digits_value (ds ++ [d]) = digits_value ds * 10 + d.
Proof. unfold digits_value. by rewrite fold_left_app. Qed.

Lemma digits_value_acc ds a :
  fold_left (fun acc d => acc * 10 + d) ds a = a * 10 ^ Z.of_nat (length ds) + digits_value ds.
Proof.
  unfold digits_value. revert a. induction ds as [|d ds IH]; intros a; simpl.
  - lia.
  - rewrite (IH (a * 10 + d)), (IH (0 * 10 + d)).
    rewrite Nat2Z.inj_succ, Z.pow_succ_r by lia. lia.
Qed.

Lemma digits_value_nonneg ds : Forall (fun d => 0 <= d) ds -> 0 <= digits_value ds.
Proof.
  induction ds as [|d ds IH] using rev_ind; [done|]. intros Hf.
  apply Forall_app in Hf as [Hf Hd]. inversion Hd; subst.
  rewrite digits_value_app. specialize (IH Hf). lia.
Qed.

Lemma digit_prefix_digits s : Forall (fun d => 0 <= d <= 9) (digit_prefix s).
Proof.
  induction s as [|c s IH]; simpl; [constructor|].
  destruct (is_digit c) eqn:E; [|constructor].
  constructor; [by apply digit_value_bounds|done].
Qed.

Lemma parse_digits_nonneg s v : parse_digits s = Some v -> 0 <= v.
Proof.
  unfold parse_digits. intros H. pose proof (digit_prefix_digits s) as Hd.
  destruct (digit_prefix s) eqn:E; [discriminate|]. injection H as <-.
  apply digits_value_nonneg. eapply Forall_impl; [|exact Hd]. simpl. lia.
Qed.

Lemma keep_digits_only s : forallb is_digit (list_ascii_of_string (keep_digits s)) = true.
Proof. induction s as [|c s IH]; simpl; [done|]. destruct (is_digit c) eqn:E; simpl; auto with bool. Qed.

Lemma digit_not_space c : is_digit c = true -> is_space c = false.
Proof.
  unfold is_digit, is_space.
  destruct (Nat.leb_spec 48 (code c)), (Nat.leb_spec (code c) 57),
    (Nat.leb_spec 9 (code c)), (Nat.leb_spec (code c) 13), (Nat.eqb_spec (code c) 32);
    simpl; done || lia.
Qed.

Lemma trim_start_digits s : forallb is_digit (list_ascii_of_string s) = true -> trim_start s = s.
Proof.
  destruct s as [|c s]; simpl; [done|]. intros H. apply andb_true_iff in H as [H _].
  by rewrite digit_not_space.
Qed.

Lemma starts_with_spec p s : starts_with p s = true <-> exists r, s = p ++ r.
Proof.
  revert s. induction p as [|a p IH]; intros s; simpl.
  - split; [eauto|done].
  - destruct s as [|b s]; simpl.
    + split; [done|]. by intros [r ?].
    + rewrite andb_true_iff, IH. split.
      * intros [Hab [r ->]]. apply Ascii.eqb_eq in Hab as ->. eauto.
      * intros [r [= -> ->]]. rewrite Ascii.eqb_refl. eauto.
Qed.

Lemma digit_char_digit d : 0 <= d <= 9 -> is_digit (digit_char d) = true /\ digit_value (digit_char d) = d.
Proof.
  intros Hd. unfold is_digit, digit_value, code, digit_char.
  rewrite Ascii.nat_ascii_embedding by lia. split; [|lia].
  apply andb_true_iff. split; apply Nat.leb_le; lia.
Qed.

Lemma string_of_digits_app ds ds' : string_of_digits (ds ++ ds') = string_of_digits ds ++ string_of_digits ds'.
Proof. induction ds as [|d ds IH]; simpl; [done|]. by rewrite IH. Qed.

Lemma string_app_nil_r (s : string) : s ++ EmptyString = s.
Proof. induction s as [|c s IH]; [done|]. exact (f_equal (String c) IH). Qed.

Lemma string_app_cons c (s r : string) : String c s ++ r = String c (s ++ r).
Proof. reflexivity. Qed.

Lemma string_app_nil_l (r : string) : EmptyString ++ r = r.
Proof. reflexivity. Qed.

Lemma string_app_assoc (a b c : string) : (a ++ b) ++ c = a ++ (b ++ c).
Proof. induction a as [|x a IH]; [done|]. exact (f_equal (String x) IH). Qed.

(** Reading the digits back: the longest digit prefix of a list of
    digits followed by a text that does not start with a digit is that
    list, and what follows it is that text. *)
Lemma digit_prefix_app ds rest :
  Forall (fun d => 0 <= d <= 9) ds -> no_digit_start rest = true ->
  digit_prefix (string_of_digits ds ++ rest) = ds /\ drop_digits (string_of_digits ds ++ rest) = rest.
Proof.
  intros Hds Hr. induction Hds as [|d ds Hd _ [IH1 IH2]]; cbn [string_of_digits].
  - rewrite string_app_nil_l. destruct rest as [|c r]; simpl in *; [done|].
    apply negb_true_iff in Hr. by rewrite Hr.
  - rewrite string_app_cons. cbn [digit_prefix drop_digits].
    destruct (digit_char_digit d Hd) as [-> ->]. by rewrite IH1, IH2.
Qed.

Lemma digits_acc_S f n acc : digits_acc (S f) n acc =
  if Z.ltb n 10 then String (digit_char (n mod 10)) acc
  else digits_acc f (n / 10) (String (digit_char (n mod 10)) acc).
Proof. reflexivity. Qed.

(** [digits_acc] writes the digits of [n] before [acc] when the fuel
    exceeds the number of binary digits of [n]. *)
Lemma digits_acc_spec f n acc : 0 <= n < 2 ^ Z.of_nat (S f) ->
  exists ds, digits_acc (S f) n acc = string_of_digits ds ++ acc /\ ds <> [] /\
             Forall (fun d => 0 <= d <= 9) ds /\ digits_value ds = n.
Proof.
  revert n acc. induction f as [|f IH]; intros n acc Hn.
  - simpl in Hn. exists [n]. cbn [digits_acc string_of_digits]. destruct (Z.ltb_spec n 10); [|lia].
    rewrite Z.mod_small by lia. unfold digits_value. simpl. split_and!; [done|done|constructor; [lia|done]|lia].
  - rewrite digits_acc_S. destruct (Z.ltb_spec n 10).
    + exists [n]. rewrite Z.mod_small by lia. unfold digits_value. cbn.
      split_and!; [done|done|constructor; [lia|done]|lia].
    + destruct (IH (n / 10) (String (digit_char (n mod 10)) acc))
        as (ds & Heq & Hne & Hf & Hv).
      { rewrite (Nat2Z.inj_succ (S f)), Z.pow_succ_r in Hn by lia. split; [apply Z.div_pos; lia|].
        apply Z.div_lt_upper_bound; lia. }
      exists (ds ++ [n mod 10])%list. rewrite Heq, string_of_digits_app, string_app_assoc. split_and!.
      * done.
      * by destruct ds.
      * apply Forall_app. split; [done|]. constructor; [|done]. pose proof (Z.mod_pos_bound n 10). lia.
      * rewrite digits_value_app, Hv. pose proof (Z.div_mod n 10). lia.
Qed.

(** [String(n)] of a non-negative integer is its decimal digits. *)
Lemma Z_to_string_digits n : 0 <= n ->
  exists ds, Z_to_string n = string_of_digits ds /\ ds <> [] /\
             Forall (fun d => 0 <= d <= 9) ds /\ digits_value ds = n.
Proof.
  intros Hn. unfold Z_to_string. destruct (Z.ltb_spec n 0); [lia|]. unfold digits_fuel.
  destruct (digits_acc_spec (Z.to_nat (Z.log2 n)) n EmptyString) as (ds & -> & ?).
  - split; [done|]. rewrite Nat2Z.inj_succ, Z2Nat.id by apply Z.log2_nonneg.
    destruct (Z.eq_dec n 0) as [->|]; [done|]. apply Z.log2_spec. lia.
  - exists ds. by rewrite string_app_nil_r.
Qed.

(** [parseInt] of a text that starts with a digit reads its digits. *)
Lemma parse_int_digit_start c s : is_digit c = true -> parse_int (String c s) = parse_digits (String c s).
Proof.
  intros Hc. unfold parse_int. cbn [trim_start]. rewrite (digit_not_space c Hc).
  destruct c as [[] [] [] [] [] [] [] []]; vm_compute in Hc; try discriminate; reflexivity.
Qed.

Lemma parse_digits_of_digits ds : ds <> [] -> Forall (fun d => 0 <= d <= 9) ds ->
  parse_digits (string_of_digits ds) = Some (digits_value ds).
Proof.
  intros Hne Hds. unfold parse_digits.
  destruct (digit_prefix_app ds EmptyString Hds eq_refl) as [Hp _]. rewrite string_app_nil_r in Hp.
  rewrite Hp. by destruct ds.
Qed.

Lemma parse_int_of_digits ds : ds <> [] -> Forall (fun d => 0 <= d <= 9) ds ->
  parse_int (string_of_digits ds) = Some (digits_value ds).
Proof.
  intros Hne Hds. destruct ds as [|d r]; [done|]. cbn [string_of_digits].
  inversion Hds as [|? ? Hd _]; subst.
  rewrite parse_int_digit_start by apply (digit_char_digit d Hd).
  exact (parse_digits_of_digits (d :: r) Hne Hds).
Qed.

(** [parseInt(String(n), 10)] is [n] for every integer [n]: the
    fuel of [String(n)] is enough and the digits are read back, after
    the sign of a negative number. *)
Lemma parse_int_Z_to_string n : parse_int (Z_to_string n) = Some n.
Proof.
  destruct (Z.ltb_spec n 0) as [Hn|Hn].
  - destruct (Z_to_string_digits (- n)) as (ds & Hs & Hne & Hds & Hv); [lia|].
    unfold Z_to_string. destruct (Z.ltb_spec n 0); [|lia]. unfold Z_to_string in Hs.
    destruct (Z.ltb_spec (- n) 0); [lia|]. rewrite Hs.
    unfold parse_int. cbn [trim_start is_space]. change (option_map Z.opp (parse_digits (string_of_digits ds)) = Some n).
    rewrite parse_digits_of_digits by done. simpl. f_equal. lia.
  - destruct (Z_to_string_digits n Hn) as (ds & -> & Hne & Hds & <-). by apply parse_int_of_digits.
Qed.

End Text.
