(* ===== verification/Schema.v ===== *)
(** * The database schema ([src/shared/schema.ts])

  The four tables [gold_prices], [price_alerts], [investments] and
  [notification_logs] as records, one field per column, nullable
  columns as [option].  A [decimal(p, 2)] column holds a PostgreSQL
  [numeric], kept here in hundredths; PostgreSQL's [numeric] also has a
  [NaN] value, which a JavaScript [NaN] becomes when it is inserted.
  Timestamps are milliseconds since the epoch. *)

From S2P Require Import Prelude Text.

Module Schema.
Import Text.

(** A [numeric] value of scale 2: [NVal c] is [c / 100]. *)
Inductive numeric := NNaN | NVal (cents : Z).

#[export] Instance numeric_eq_dec : EqDecision numeric.
Proof. solve_decision. Defined.

(** A JavaScript value handed to the driver for a column, or read back
    from a computation: [null]/[undefined], [NaN] or a number. *)
Inductive jsval := JNull | JNaN | JNum (q : Q).

(** [numeric(10,2)]: at most 10 digits of which 2 after the point, so
    the absolute value is below [10^8]. *)
Definition numeric_limit : Z := 10 ^ 10.

(** Conversion of a non-null JavaScript number into a [decimal(10,2)]
    column: rounded to two decimals, then checked against the
    precision ("numeric field overflow"). *)
Definition to_numeric (q : Q) : result numeric :=
  let c := numeric_round2 q in
  if Z.abs c <? numeric_limit then Ok (NVal c)
  else Err "numeric field overflow".

(** The column value for a nullable [decimal(10,2)] column. *)
Definition to_numeric_col (v : jsval) : result (option numeric) :=
  match v with
  | JNull => Ok None
  | JNaN => Ok (Some NNaN)
  | JNum q => match to_numeric q with Ok n => Ok (Some n) | Err e => Err e | Hang => Hang end
  end.

(** The column value for a [decimal(10,2) NOT NULL] column. *)
Definition to_numeric_notnull (col : string) (v : jsval) : result numeric :=
  match to_numeric_col v with
  | Ok (Some n) => Ok n
  | Ok None => Err ("null value in column " ++ col ++ " violates not-null constraint")
  | Err e => Err e
  | Hang => Hang
  end.

(** A [numeric(10,2)] column given as text (the JSON of an HTTP request
    after validation): [NaN] in any case, or a decimal number. *)
Definition numeric_of_text (s : string) : result numeric :=
  if String.eqb (lowercase (trim s)) "nan" then Ok NNaN
  else match parse_decimal s with
       | Some q => to_numeric q
       | None => Err ("invalid input syntax for type numeric: " ++ s)
       end.

(** A [numeric(5,3)] value, in thousandths ([purity]). *)
Inductive numeric3 := N3NaN | N3Val (thousandths : Z).

Definition round_half_away (q : Q) : Z :=
  if Qle_bool 0 q then Qfloor (q + (1 # 2)) else - Qfloor (- q + (1 # 2)).

Definition numeric3_of_text (s : string) : result numeric3 :=
  if String.eqb (lowercase (trim s)) "nan" then Ok N3NaN
  else match parse_decimal s with
       | Some q =>
           let t := round_half_away (q * inject_Z 1000) in
           if Z.abs t <? 10 ^ 5 then Ok (N3Val t) else Err "numeric field overflow"
       | None => Err ("invalid input syntax for type numeric: " ++ s)
       end.

(** [parseFloat] of the string the driver returns for a [numeric]. *)
Definition parse_float (n : numeric) : jsval :=
  match n with NNaN => JNaN | NVal c => JNum (c # 100) end.

(** [goldPrices] *)
Record GoldPrice := {
  gp_id : Z;
  gp_date : Z;
  gp_buyPrice : numeric;
  gp_sellPrice : numeric;
  gp_pricePerGram : numeric;
  gp_source : string;
  gp_highPrice : option numeric;
  gp_lowPrice : option numeric
}.

(** The object passed to [storage.insertGoldPrice]; fields that are
    not columns of the table ([price], [unit], [currency], sent by the
    Emasku scraper) are dropped by the query builder and are not
    modelled. *)
Record GoldPriceInsert := {
  gi_date : Z;
  gi_buyPrice : jsval;
  gi_sellPrice : jsval;
  gi_pricePerGram : jsval;
  gi_source : option string;
  gi_highPrice : jsval;
  gi_lowPrice : jsval
}.

(** [priceAlerts]; [alertType] is free text ('increase', 'decrease',
    'daily' by convention). *)
Record PriceAlert := {
  pa_id : Z;
  pa_alertType : string;
  pa_targetPrice : option numeric;
  pa_whatsappEnabled : option bool;
  pa_telegramEnabled : option bool;
  pa_phoneNumber : option string;
  pa_telegramChatId : option string;
  pa_active : option bool;
  pa_createdAt : Z;
  pa_lastTriggered : option Z;
  pa_dailyTime : option string
}.

(** [notificationLogs] *)
Record NotificationLog := {
  nl_id : Z;
  nl_alertId : option Z;
  nl_channel : string;
  nl_message : string;
  nl_status : string;
  nl_errorMessage : option string;
  nl_sentAt : Z
}.

(** The object passed to [storage.createNotificationLog]. *)
Record NotificationLogInsert := {
  li_alertId : option Z;
  li_channel : option string;
  li_message : option string;
  li_status : option string;
  li_errorMessage : option string;
  li_sentAt : option Z
}.

(** [investments] *)
Record Investment := {
  inv_id : Z;
  inv_purchaseDate : Z;
  inv_weight : numeric;
  inv_purchasePrice : numeric;
  inv_purity : numeric3;
  inv_notes : option string;
  inv_createdAt : Z
}.

(** A property of a row object read by name, as JavaScript sees it:
    a column's value, or [undefined] for a name that is not a column. *)
Inductive jsany :=
| JSUndefined
| JSNull
| JSBool (b : bool)
| JSString (s : string)
| JSNumeric (n : numeric)
| JSDate (t : Z).

Definition of_option {A} (f : A -> jsany) (o : option A) : jsany :=
  match o with Some a => f a | None => JSNull end.

(** [alert[key]] for a row of [price_alerts]. *)
Definition alert_prop (a : PriceAlert) (key : string) : jsany :=
  if String.eqb key "id" then JSNumeric (NVal (100 * pa_id a))
  else if String.eqb key "alertType" then JSString (pa_alertType a)
  else if String.eqb key "targetPrice" then of_option JSNumeric (pa_targetPrice a)
  else if String.eqb key "whatsappEnabled" then of_option JSBool (pa_whatsappEnabled a)
  else if String.eqb key "telegramEnabled" then of_option JSBool (pa_telegramEnabled a)
  else if String.eqb key "phoneNumber" then of_option JSString (pa_phoneNumber a)
  else if String.eqb key "telegramChatId" then of_option JSString (pa_telegramChatId a)
  else if String.eqb key "active" then of_option JSBool (pa_active a)
  else if String.eqb key "createdAt" then JSDate (pa_createdAt a)
  else if String.eqb key "lastTriggered" then of_option JSDate (pa_lastTriggered a)
  else if String.eqb key "dailyTime" then of_option JSString (pa_dailyTime a)
  else JSUndefined.

(** JavaScript truthiness of a property value. *)
Definition js_truthy (v : jsany) : bool :=
  match v with
  | JSUndefined | JSNull => false
  | JSBool b => b
  | JSString s => match s with EmptyString => false | _ => true end
  | JSNumeric n => match n with NNaN => false | NVal c => negb (c =? 0) end
  | JSDate _ => true
  end.

(** JavaScript truthiness of a nullable boolean or text column. *)
Definition truthy_bool (b : option bool) : bool := match b with Some true => true | _ => false end.
Definition truthy_text (s : option string) : bool :=
  match s with Some (String _ _) => true | _ => false end.

(** ** Lemmas *)

Lemma to_numeric_ok q n : to_numeric q = Ok n ->
  exists c, n = NVal c /\ c = numeric_round2 q /\ Z.abs c < numeric_limit.
Proof.
  unfold to_numeric. destruct (Z.ltb_spec (Z.abs (numeric_round2 q)) numeric_limit);
    intros [=]; eauto.
Qed.

Lemma to_numeric_Z (z : Z) : Z.abs z < 10 ^ 8 -> to_numeric (inject_Z z) = Ok (NVal (100 * z)).
Proof.
  intros Hz. unfold to_numeric. rewrite numeric_round2_Z.
  destruct (Z.ltb_spec (Z.abs (100 * z)) numeric_limit); [done|].
  unfold numeric_limit in *. lia.
Qed.

Lemma to_numeric_notnull_Z col (z : Z) :
  Z.abs z < 10 ^ 8 -> to_numeric_notnull col (JNum (inject_Z z)) = Ok (NVal (100 * z)).
Proof. intros Hz. unfold to_numeric_notnull, to_numeric_col. by rewrite to_numeric_Z. Qed.

End Schema.
