(* ===== verification/Storage.v ===== *)
(** * The persistence gateway ([src/server/storage.js])

  The database is a record of four tables, each a list of rows in
  insertion order, and one serial sequence per table.  Each method of
  the [storage] object is an operation of [ST DB]; the PostgreSQL
  behaviour the methods rely on (column conversion, NOT NULL and
  foreign-key checks, [LIMIT]) is written out where a method depends
  on it.  Calendar arithmetic uses a fixed local-time offset [tz]
  (milliseconds east of UTC, no daylight saving), a Section variable of
  the operations that read the local date. *)

From S2P Require Import Prelude Schema.

Module Storage.
Import Schema.

Record DB := {
  goldPrices : list GoldPrice;
  priceAlerts : list PriceAlert;
  notificationLogs : list NotificationLog;
  investments : list Investment;
  seq_goldPrices : Z;
  seq_priceAlerts : Z;
  seq_notificationLogs : Z;
  seq_investments : Z
}.

Definition empty_db : DB := {|
  goldPrices := []; priceAlerts := []; notificationLogs := []; investments := [];
  seq_goldPrices := 1; seq_priceAlerts := 1; seq_notificationLogs := 1; seq_investments := 1 |}.

Definition set_goldPrices (l : list GoldPrice) (seq : Z) (db : DB) : DB := {|
  goldPrices := l; priceAlerts := priceAlerts db; notificationLogs := notificationLogs db;
  investments := investments db; seq_goldPrices := seq; seq_priceAlerts := seq_priceAlerts db;
  seq_notificationLogs := seq_notificationLogs db; seq_investments := seq_investments db |}.

Definition set_priceAlerts (l : list PriceAlert) (seq : Z) (db : DB) : DB := {|
  goldPrices := goldPrices db; priceAlerts := l; notificationLogs := notificationLogs db;
  investments := investments db; seq_goldPrices := seq_goldPrices db; seq_priceAlerts := seq;
  seq_notificationLogs := seq_notificationLogs db; seq_investments := seq_investments db |}.

Definition set_investments (l : list Investment) (seq : Z) (db : DB) : DB := {|
  goldPrices := goldPrices db; priceAlerts := priceAlerts db; notificationLogs := notificationLogs db;
  investments := l; seq_goldPrices := seq_goldPrices db; seq_priceAlerts := seq_priceAlerts db;
  seq_notificationLogs := seq_notificationLogs db; seq_investments := seq |}.

Definition set_notificationLogs (l : list NotificationLog) (seq : Z) (db : DB) : DB := {|
  goldPrices := goldPrices db; priceAlerts := priceAlerts db; notificationLogs := l;
  investments := investments db; seq_goldPrices := seq_goldPrices db;
  seq_priceAlerts := seq_priceAlerts db; seq_notificationLogs := seq;
  seq_investments := seq_investments db |}.

(** Results of the [result] monad, used for the checks of one INSERT. *)
#[export] Instance result_ret : MRet result := fun A a => Ok a.
#[export] Instance result_bind : MBind result := fun A B k r =>
  match r with Ok a => k a | Err e => Err e | Hang => Hang end.

(** Case analysis on every checked value of a [result] computation. *)
Ltac result_cases :=
  unfold mbind, result_bind, mret, result_ret;
  repeat match goal with |- context [match ?r with Ok _ => _ | Err _ => _ | Hang => _ end] => destruct r end.

(** Lift a checked value into [ST]. *)
Definition lift {S A} (r : result A) : ST S A := fun s => (r, s).

Definition day_ms : Z := 86400000.
Definition hour_ms : Z := 3600000.

(** [parseFloat(a) - parseFloat(b)] *)
Definition js_sub (a b : jsval) : jsval :=
  match a, b with JNum x, JNum y => JNum (x - y) | _, _ => JNaN end.

(** The row returned by [getCurrentGoldPrice], with the three change
    fields the method attaches. *)
Record CurrentPrice := {
  cp_row : GoldPrice;
  cp_priceChange : jsval;
  cp_buyPriceChange : jsval;
  cp_sellPriceChange : jsval
}.

Section with_timezone.
Variable tz : Z.

(** Local midnight at the start of the day containing [t]. *)
Definition start_of_day (t : Z) : Z := t - (t + tz) mod day_ms.

(** [yesterday = new Date(); yesterday.setDate(yesterday.getDate() - 1);
     yesterday.setHours(0, 0, 0, 0)] *)
Definition yesterday_start (now : Z) : Z := start_of_day (now - day_ms).

(** The second query of [getCurrentGoldPrice] (lines 24-33): the
    newest row dated between [yesterday - 24h] and [yesterday]. *)
Definition yesterday_price (now : Z) (rows : list GoldPrice) : option GoldPrice :=
  let y := yesterday_start now in
  hd_error (order_desc gp_date
    (filter (fun r => y - day_ms <= gp_date r <= y) rows)).

(** [storage.getCurrentGoldPrice] (lines 8-54). *)
Definition getCurrentGoldPrice (now : Z) : ST DB (option CurrentPrice) :=
  db ← get;
  match hd_error (order_desc gp_date (goldPrices db)) with
  | None => mret None
  | Some cur =>
      match yesterday_price now (goldPrices db) with
      | Some yp =>
          mret (Some {| cp_row := cur;
             cp_priceChange := js_sub (parse_float (gp_pricePerGram cur)) (parse_float (gp_pricePerGram yp));
             cp_buyPriceChange := js_sub (parse_float (gp_buyPrice cur)) (parse_float (gp_buyPrice yp));
             cp_sellPriceChange := js_sub (parse_float (gp_sellPrice cur)) (parse_float (gp_sellPrice yp)) |})
      | None =>
          mret (Some {| cp_row := cur; cp_priceChange := JNum 0;
                        cp_buyPriceChange := JNum 0; cp_sellPriceChange := JNum 0 |})
      end
  end.
End with_timezone.

(** The row an INSERT would store, or the error PostgreSQL raises. *)
Definition gold_price_row (id : Z) (gi : GoldPriceInsert) : result GoldPrice :=
  b ← to_numeric_notnull "buy_price" (gi_buyPrice gi);
  s ← to_numeric_notnull "sell_price" (gi_sellPrice gi);
  p ← to_numeric_notnull "price_per_gram" (gi_pricePerGram gi);
  h ← to_numeric_col (gi_highPrice gi);
  l ← to_numeric_col (gi_lowPrice gi);
  mret {| gp_id := id; gp_date := gi_date gi; gp_buyPrice := b; gp_sellPrice := s;
          gp_pricePerGram := p;
          gp_source := match gi_source gi with Some src => src | None => "pegadaian" end;
          gp_highPrice := h; gp_lowPrice := l |}.

(** [storage.insertGoldPrice] (lines 56-67): [INSERT ... RETURNING]. *)
Definition insertGoldPrice (gi : GoldPriceInsert) : ST DB GoldPrice :=
  db ← get;
  row ← lift (gold_price_row (seq_goldPrices db) gi);
  put (set_goldPrices (goldPrices db ++ [row]) (seq_goldPrices db + 1) db);;
  mret row.

(** [storage.getPriceAlerts] (lines 215-227): the active alerts, newest first. *)
Definition getPriceAlerts : ST DB (list PriceAlert) :=
  db ← get;
  mret (order_desc pa_createdAt (filter (fun a => pa_active a = Some true) (priceAlerts db))).

(** [storage.getPriceAlertById] (lines 229-241) *)
Definition getPriceAlertById (id : Z) : ST DB (option PriceAlert) :=
  db ← get;
  mret (hd_error (filter (fun a => pa_id a = id) (priceAlerts db))).

Definition set_lastTriggered (id now : Z) (a : PriceAlert) : PriceAlert :=
  if bool_decide (pa_id a = id) then
    {| pa_id := pa_id a; pa_alertType := pa_alertType a; pa_targetPrice := pa_targetPrice a;
       pa_whatsappEnabled := pa_whatsappEnabled a; pa_telegramEnabled := pa_telegramEnabled a;
       pa_phoneNumber := pa_phoneNumber a; pa_telegramChatId := pa_telegramChatId a;
       pa_active := pa_active a; pa_createdAt := pa_createdAt a; pa_lastTriggered := Some now;
       pa_dailyTime := pa_dailyTime a |}
  else a.

(** [storage.updateAlertLastTriggered] (lines 270-281):
    [UPDATE price_alerts SET last_triggered = now WHERE id = ...]. *)
Definition updateAlertLastTriggered (id now : Z) : ST DB unit :=
  modify (fun db => set_priceAlerts (map (set_lastTriggered id now) (priceAlerts db))
                      (seq_priceAlerts db) db).

(** The row of a [notification_logs] INSERT: NOT NULL columns, the
    foreign key on [alert_id], and the default of [sent_at]. *)
Definition notification_log_row (db : DB) (now : Z) (li : NotificationLogInsert)
  : result NotificationLog :=
  match li_channel li, li_message li, li_status li with
  | Some ch, Some msg, Some st =>
      match li_alertId li with
      | Some aid =>
          if decide (Exists (fun a => pa_id a = aid) (priceAlerts db)) then Ok tt
          else Err "insert or update on table notification_logs violates foreign key constraint"
      | None => Ok tt
      end ≫= fun _ =>
      Ok {| nl_id := seq_notificationLogs db; nl_alertId := li_alertId li; nl_channel := ch;
            nl_message := msg; nl_status := st; nl_errorMessage := li_errorMessage li;
            nl_sentAt := match li_sentAt li with Some t => t | None => now end |}
  | None, _, _ => Err "null value in column channel violates not-null constraint"
  | _, None, _ => Err "null value in column message violates not-null constraint"
  | _, _, None => Err "null value in column status violates not-null constraint"
  end.

(** [storage.createNotificationLog] (lines 296-307) *)
Definition createNotificationLog (now : Z) (li : NotificationLogInsert) : ST DB NotificationLog :=
  db ← get;
  row ← lift (notification_log_row db now li);
  put (set_notificationLogs (notificationLogs db ++ [row]) (seq_notificationLogs db + 1) db);;
  mret row.

(** [SELECT ... LIMIT n]: a negative limit is an error. *)
Definition sql_limit {A} (n : Z) (l : list A) : result (list A) :=
  if n <? 0 then Err "LIMIT must not be negative" else Ok (take (Z.to_nat n) l).

(** [storage.getNotificationLogs] (lines 309-321) *)
Definition getNotificationLogs (limit : Z) : ST DB (list NotificationLog) :=
  db ← get;
  lift (sql_limit limit (order_desc nl_sentAt (notificationLogs db))).

(** [storage.deletePriceAlert] (lines 283-293): the foreign key of
    [notification_logs.alert_id] forbids deleting a referenced alert. *)
Definition deletePriceAlert (id : Z) : ST DB bool :=
  db ← get;
  if decide (Exists (fun l => nl_alertId l = Some id) (notificationLogs db))
  then throw "update or delete on table price_alerts violates foreign key constraint"
  else put (set_priceAlerts (filter (fun a => pa_id a <> id) (priceAlerts db))
              (seq_priceAlerts db) db);; mret true.

(** The values of [db.insert(priceAlerts).values(data)] and
    [db.update(priceAlerts).set(data)] once the request body has been
    validated: [None] is a key that is absent, [Some None] an explicit
    [null].  A timestamp cannot come out of a JSON body, so
    [createdAt] and [lastTriggered] are never given a value. *)
Record PriceAlertInput := {
  ai_id : option Z;
  ai_alertType : option string;
  ai_targetPrice : option (option string);
  ai_whatsappEnabled : option (option bool);
  ai_telegramEnabled : option (option bool);
  ai_phoneNumber : option (option string);
  ai_telegramChatId : option (option string);
  ai_active : option (option bool);
  ai_dailyTime : option (option string)
}.

(** A nullable numeric column given as text. *)
Definition numeric_opt (v : option string) : result (option numeric) :=
  match v with
  | Some t => n ← numeric_of_text t; mret (Some n)
  | None => mret None
  end.

(** A column of the row: the given value, else [dflt]. *)
Definition col {A} (given : option A) (dflt : A) : A := default dflt given.

(** The row of an INSERT into [price_alerts] with the column defaults
    of the schema. *)
Definition alert_row (id now : Z) (ai : PriceAlertInput) : result PriceAlert :=
  ty ← match ai_alertType ai with
       | Some t => Ok t
       | None => Err "null value in column alert_type violates not-null constraint"
       end;
  tp ← numeric_opt (mjoin (ai_targetPrice ai));
  mret {| pa_id := id; pa_alertType := ty; pa_targetPrice := tp;
          pa_whatsappEnabled := col (ai_whatsappEnabled ai) (Some false);
          pa_telegramEnabled := col (ai_telegramEnabled ai) (Some false);
          pa_phoneNumber := mjoin (ai_phoneNumber ai); pa_telegramChatId := mjoin (ai_telegramChatId ai);
          pa_active := col (ai_active ai) (Some true); pa_createdAt := now; pa_lastTriggered := None;
          pa_dailyTime := mjoin (ai_dailyTime ai) |}.

Definition pk_violation (table : string) : string :=
  "duplicate key value violates unique constraint " ++ table ++ "_pkey".

(** [storage.createPriceAlert] (lines 243-254): an id given in the body
    is used as is and does not advance the sequence. *)
Definition createPriceAlert (now : Z) (ai : PriceAlertInput) : ST DB PriceAlert :=
  db ← get;
  let id := col (ai_id ai) (seq_priceAlerts db) in
  let seq' := match ai_id ai with Some _ => seq_priceAlerts db | None => seq_priceAlerts db + 1 end in
  row ← lift (alert_row id now ai);
  if decide (Exists (fun a => pa_id a = id) (priceAlerts db)) then throw (pk_violation "price_alerts")
  else put (set_priceAlerts (priceAlerts db ++ [row]) seq' db);; mret row.

(** The columns of an UPDATE applied to a row. *)
Definition alert_set (ai : PriceAlertInput) (a : PriceAlert) : result PriceAlert :=
  tp ← match ai_targetPrice ai with Some v => numeric_opt v | None => Ok (pa_targetPrice a) end;
  mret {| pa_id := col (ai_id ai) (pa_id a); pa_alertType := col (ai_alertType ai) (pa_alertType a);
          pa_targetPrice := tp;
          pa_whatsappEnabled := col (ai_whatsappEnabled ai) (pa_whatsappEnabled a);
          pa_telegramEnabled := col (ai_telegramEnabled ai) (pa_telegramEnabled a);
          pa_phoneNumber := col (ai_phoneNumber ai) (pa_phoneNumber a);
          pa_telegramChatId := col (ai_telegramChatId ai) (pa_telegramChatId a);
          pa_active := col (ai_active ai) (pa_active a); pa_createdAt := pa_createdAt a;
          pa_lastTriggered := pa_lastTriggered a; pa_dailyTime := col (ai_dailyTime ai) (pa_dailyTime a) |}.

Definition alert_input_empty (ai : PriceAlertInput) : bool :=
  match ai with
  | {| ai_id := None; ai_alertType := None; ai_targetPrice := None; ai_whatsappEnabled := None;
       ai_telegramEnabled := None; ai_phoneNumber := None; ai_telegramChatId := None;
       ai_active := None; ai_dailyTime := None |} => true
  | _ => false
  end.

(** [storage.updatePriceAlert] (lines 256-268): [UPDATE ... SET data
    WHERE id = ... RETURNING]; drizzle refuses an empty [SET]; a new id
    must be free and the old one unreferenced by the logs. *)
Definition updatePriceAlert (id : Z) (ai : PriceAlertInput) : ST DB (option PriceAlert) :=
  if alert_input_empty ai then throw "No values to set" else
  db ← get;
  match list_find (fun a => pa_id a = id) (priceAlerts db) with
  | None => mret None
  | Some (i, a) =>
      a' ← lift (alert_set ai a);
      if decide (pa_id a' <> id /\ Exists (fun b => pa_id b = pa_id a') (priceAlerts db))
      then throw (pk_violation "price_alerts")
      else if decide (pa_id a' <> id /\ Exists (fun l => nl_alertId l = Some id) (notificationLogs db))
      then throw "update or delete on table price_alerts violates foreign key constraint"
      else put (set_priceAlerts (<[i := a']> (priceAlerts db)) (seq_priceAlerts db) db);; mret (Some a')
  end.

(** The validated body of an investment; [purchaseDate] is a
    timestamp, which no JSON body can carry. *)
Record InvestmentInput := {
  iv_id : option Z;
  iv_purchaseDate : option Z;
  iv_weight : option string;
  iv_purchasePrice : option string;
  iv_purity : option string;
  iv_notes : option (option string)
}.

Definition numeric_notnull (colname : string) (v : option string) : result numeric :=
  match v with
  | Some t => numeric_of_text t
  | None => Err ("null value in column " ++ colname ++ " violates not-null constraint")
  end.

(** The row of an INSERT into [investments]; [purity] defaults to
    0.999. *)
Definition investment_row (id now : Z) (iv : InvestmentInput) : result Investment :=
  d ← match iv_purchaseDate iv with
      | Some t => Ok t
      | None => Err "null value in column purchase_date violates not-null constraint"
      end;
  w ← numeric_notnull "weight" (iv_weight iv);
  p ← numeric_notnull "purchase_price" (iv_purchasePrice iv);
  pu ← match iv_purity iv with Some t => numeric3_of_text t | None => Ok (N3Val 999) end;
  mret {| inv_id := id; inv_purchaseDate := d; inv_weight := w; inv_purchasePrice := p;
          inv_purity := pu; inv_notes := mjoin (iv_notes iv); inv_createdAt := now |}.

(** [storage.getInvestments] (lines 324-335) *)
Definition getInvestments : ST DB (list Investment) :=
  gets (fun db => order_desc inv_purchaseDate (investments db)).

(** [storage.createInvestment] (lines 337-348) *)
Definition createInvestment (now : Z) (iv : InvestmentInput) : ST DB Investment :=
  db ← get;
  let id := col (iv_id iv) (seq_investments db) in
  let seq' := match iv_id iv with Some _ => seq_investments db | None => seq_investments db + 1 end in
  row ← lift (investment_row id now iv);
  if decide (Exists (fun i => inv_id i = id) (investments db)) then throw (pk_violation "investments")
  else put (set_investments (investments db ++ [row]) seq' db);; mret row.

Definition investment_set (iv : InvestmentInput) (i : Investment) : result Investment :=
  w ← match iv_weight iv with Some t => numeric_of_text t | None => Ok (inv_weight i) end;
  p ← match iv_purchasePrice iv with Some t => numeric_of_text t | None => Ok (inv_purchasePrice i) end;
  pu ← match iv_purity iv with Some t => numeric3_of_text t | None => Ok (inv_purity i) end;
  mret {| inv_id := col (iv_id iv) (inv_id i); inv_purchaseDate := col (iv_purchaseDate iv) (inv_purchaseDate i);
          inv_weight := w; inv_purchasePrice := p; inv_purity := pu;
          inv_notes := col (iv_notes iv) (inv_notes i); inv_createdAt := inv_createdAt i |}.

Definition investment_input_empty (iv : InvestmentInput) : bool :=
  match iv with
  | {| iv_id := None; iv_purchaseDate := None; iv_weight := None; iv_purchasePrice := None;
       iv_purity := None; iv_notes := None |} => true
  | _ => false
  end.

(** [storage.updateInvestment] (lines 350-362) *)
Definition updateInvestment (id : Z) (iv : InvestmentInput) : ST DB (option Investment) :=
  if investment_input_empty iv then throw "No values to set" else
  db ← get;
  match list_find (fun i => inv_id i = id) (investments db) with
  | None => mret None
  | Some (k, i) =>
      i' ← lift (investment_set iv i);
      if decide (inv_id i' <> id /\ Exists (fun j => inv_id j = inv_id i') (investments db))
      then throw (pk_violation "investments")
      else put (set_investments (<[k := i']> (investments db)) (seq_investments db) db);; mret (Some i')
  end.

(** [storage.deleteInvestment] (lines 364-374) *)
Definition deleteInvestment (id : Z) : ST DB bool :=
  db ← get;
  put (set_investments (filter (fun i => inv_id i <> id) (investments db)) (seq_investments db) db);;
  mret true.

(** ** Well-formedness of the database

    Every row's serial id lies between 1 and the next value of its
    sequence, ids are distinct, and every notification log that names
    an alert names an existing one (the foreign key). *)
Definition ids_below {A} (id : A -> Z) (l : list A) (seq : Z) : Prop :=
  Forall (fun r => 1 <= id r < seq) l /\ NoDup (map id l) /\ 1 <= seq.

Definition logs_reference_alerts (db : DB) : Prop :=
  Forall (fun l => forall aid, nl_alertId l = Some aid -> Exists (fun a => pa_id a = aid) (priceAlerts db))
    (notificationLogs db).

Definition wf_db (db : DB) : Prop :=
  ids_below gp_id (goldPrices db) (seq_goldPrices db) /\
  NoDup (map pa_id (priceAlerts db)) /\
  ids_below nl_id (notificationLogs db) (seq_notificationLogs db) /\
  logs_reference_alerts db /\
  NoDup (map inv_id (investments db)).

(** The writes of [storage.js], as one type of database operations. *)
Inductive db_op :=
| OpInsertGoldPrice (gi : GoldPriceInsert)
| OpCreateNotificationLog (now : Z) (li : NotificationLogInsert)
| OpUpdateAlertLastTriggered (id now : Z)
| OpDeletePriceAlert (id : Z)
| OpCreatePriceAlert (now : Z) (ai : PriceAlertInput)
| OpUpdatePriceAlert (id : Z) (ai : PriceAlertInput)
| OpCreateInvestment (now : Z) (iv : InvestmentInput)
| OpUpdateInvestment (id : Z) (iv : InvestmentInput)
| OpDeleteInvestment (id : Z).

Definition run_db_op (o : db_op) : ST DB unit :=
  match o with
  | OpInsertGoldPrice gi => insertGoldPrice gi;; mret tt
  | OpCreateNotificationLog now li => createNotificationLog now li;; mret tt
  | OpUpdateAlertLastTriggered id now => updateAlertLastTriggered id now
  | OpDeletePriceAlert id => deletePriceAlert id;; mret tt
  | OpCreatePriceAlert now ai => createPriceAlert now ai;; mret tt
  | OpUpdatePriceAlert id ai => updatePriceAlert id ai;; mret tt
  | OpCreateInvestment now iv => createInvestment now iv;; mret tt
  | OpUpdateInvestment id iv => updateInvestment id iv;; mret tt
  | OpDeleteInvestment id => deleteInvestment id;; mret tt
  end.

(** The databases reachable from the empty database by the writes. *)
Inductive db_reachable : DB -> Prop :=
| reach_empty : db_reachable empty_db
| reach_step db o : db_reachable db -> db_reachable (snd (run_db_op o db)).

(** ** Lemmas *)

Lemma map_fmap {A B} (f : A -> B) l : map f l = f <$> l.
Proof. reflexivity. Qed.

Lemma Exists_lookup {A} (P : A -> Prop) l k b : l !! k = Some b -> P b -> Exists P l.
Proof. intros Hk Hb. apply Exists_exists. exists b. split; [|done]. by eapply list_elem_of_In, list_elem_of_lookup_2. Qed.

(** Appending a row whose key is fresh keeps the keys distinct. *)
Lemma uniq_snoc {A} (f : A -> Z) l r :
  NoDup (map f l) -> ~ Exists (fun a => f a = f r) l -> NoDup (map f (l ++ [r])).
Proof.
  intros Hnd Hfresh. rewrite map_app. apply list.NoDup_app. split; [done|]. split; [|apply NoDup_singleton].
  simpl. intros x Hx ->%list_elem_of_singleton. apply Hfresh.
  apply list_elem_of_In, in_map_iff in Hx as (y & Hy & Hin). apply Exists_exists. exists y.
  split; [exact Hin|done].
Qed.

(** Replacing row [i] by a row with the same key, or with a key no row
    has, keeps the keys distinct. *)
Lemma uniq_insert {A} (f : A -> Z) l i a x :
  l !! i = Some a -> NoDup (map f l) -> (f x = f a \/ ~ Exists (fun b => f b = f x) l) ->
  NoDup (map f (<[i:=x]> l)).
Proof.
  intros Hi Hnd Hx. rewrite !map_fmap, list_fmap_insert in *. apply NoDup_alt. intros j k y Hj Hk.
  assert (Hli : (f <$> l) !! i = Some (f a)) by (by rewrite list_lookup_fmap, Hi).
  assert (Hother : forall m, i <> m -> (f <$> l) !! m = Some (f x) -> False).
  { intros m Hm Hlm. rewrite list_lookup_fmap in Hlm. apply fmap_Some in Hlm as (b & Hb & Hfb).
    destruct Hx as [Hx|Hx].
    - apply Hm. eapply NoDup_lookup; [exact Hnd|exact Hli|]. rewrite <- Hx, list_lookup_fmap, Hb, Hfb. done.
    - apply Hx. by eapply Exists_lookup. }
  apply list_lookup_insert_Some in Hj as [(Hij & Hy & _)|(Hij & Hj)], Hk as [(Hik & Hy' & _)|(Hik & Hk)];
    subst.
  - done.
  - by destruct (Hother k Hik Hk).
  - by destruct (Hother j Hij Hj).
  - by eapply NoDup_lookup.
Qed.

(** A property of some row still holds of some row after row [i] is
    replaced, when the replacement keeps it. *)
Lemma Exists_insert {A} (P : A -> Prop) l i x :
  Exists P l -> (forall a, l !! i = Some a -> P a -> P x) -> Exists P (<[i:=x]> l).
Proof.
  intros (b & Hb & HPb)%Exists_exists Hkeep. apply list_elem_of_In, list_elem_of_lookup in Hb as [j Hj].
  destruct (decide (i = j)) as [<-|Hij].
  - apply (Exists_lookup _ _ i x); [|by eapply Hkeep]. apply list_lookup_insert_eq. by eapply lookup_lt_Some.
  - apply (Exists_lookup _ _ j b); [|done]. by rewrite list_lookup_insert_ne.
Qed.

Lemma ids_below_snoc {A} (id : A -> Z) l seq r :
  ids_below id l seq -> id r = seq -> ids_below id (l ++ [r]) (seq + 1).
Proof.
  intros (Hf & Hnd & Hs) Hr. split; [|split; [|lia]].
  - apply Forall_app. split; [eapply Forall_impl; [|exact Hf]; simpl; lia|]. repeat constructor; lia.
  - rewrite map_app. apply list.NoDup_app. split; [done|]. split; [|apply NoDup_singleton].
    simpl. intros x Hx ->%list_elem_of_singleton.
    apply list_elem_of_In, in_map_iff in Hx as (y & Hyr & Hy).
    rewrite Forall_forall in Hf. specialize (Hf y Hy). lia.
Qed.

Lemma in_map_filter {A} (id : A -> Z) (P : A -> Prop) `{!forall x, Decision (P x)} l y :
  In y (map id (filter P l)) -> In y (map id l).
Proof.
  intros (x & <- & Hx)%in_map_iff. apply in_map.
  apply list_elem_of_In in Hx. apply list_elem_of_filter in Hx as [_ Hx].
  by apply list_elem_of_In.
Qed.

Lemma insertGoldPrice_run gi db :
  insertGoldPrice gi db =
    match gold_price_row (seq_goldPrices db) gi with
    | Ok row => (Ok row, set_goldPrices (goldPrices db ++ [row]) (seq_goldPrices db + 1) db)
    | Err e => (Err e, db)
    | Hang => (Hang, db)
    end.
Proof. unfold insertGoldPrice, lift. st_simpl. by destruct (gold_price_row _ _). Qed.

Lemma gold_price_row_ok id gi row :
  gold_price_row id gi = Ok row -> gp_id row = id /\ gp_date row = gi_date gi.
Proof.
  unfold gold_price_row. result_cases; by intros [= <-].
Qed.

Lemma gold_price_row_id id gi row : gold_price_row id gi = Ok row -> gp_id row = id.
Proof. intros H. by apply gold_price_row_ok in H as [? _]. Qed.

Lemma gold_price_row_date id gi row : gold_price_row id gi = Ok row -> gp_date row = gi_date gi.
Proof. intros H. by apply gold_price_row_ok in H as [_ ?]. Qed.

Lemma createNotificationLog_run now li db :
  createNotificationLog now li db =
    match notification_log_row db now li with
    | Ok row => (Ok row, set_notificationLogs (notificationLogs db ++ [row]) (seq_notificationLogs db + 1) db)
    | Err e => (Err e, db)
    | Hang => (Hang, db)
    end.
Proof. unfold createNotificationLog, lift. st_simpl. by destruct (notification_log_row _ _ _). Qed.

Lemma notification_log_row_ok db now li row :
  notification_log_row db now li = Ok row ->
  nl_id row = seq_notificationLogs db /\
  (forall aid, nl_alertId row = Some aid -> Exists (fun a => pa_id a = aid) (priceAlerts db)).
Proof.
  unfold notification_log_row, mbind, result_bind.
  destruct (li_channel li), (li_message li), (li_status li); try discriminate.
  destruct (li_alertId li) as [aid|] eqn:Ea.
  - destruct (decide _) as [Ex|]; [|discriminate]. intros [= <-]. split; [done|].
    simpl. by intros ? [= <-].
  - intros [= <-]. split; [done|]. simpl. done.
Qed.

Lemma frames_lift {S T A} (f : S -> T) (r : result A) : frames (lift r) f.
Proof. done. Qed.

Lemma insertGoldPrice_alerts gi : frames (insertGoldPrice gi) priceAlerts.
Proof. intros db. rewrite insertGoldPrice_run. by destruct (gold_price_row _ _). Qed.

Lemma insertGoldPrice_logs gi : frames (insertGoldPrice gi) notificationLogs.
Proof. intros db. rewrite insertGoldPrice_run. by destruct (gold_price_row _ _). Qed.

#[export] Hint Resolve frames_lift insertGoldPrice_alerts insertGoldPrice_logs : frame.

Lemma wf_insertGoldPrice gi db : wf_db db -> wf_db (snd (insertGoldPrice gi db)).
Proof.
  rewrite insertGoldPrice_run. destruct (gold_price_row _ gi) as [row| |] eqn:E; [|done|done].
  intros (Hg & Ha & Hl & Hr & Hi). split; [|done].
  apply ids_below_snoc; [done|]. by apply gold_price_row_id in E.
Qed.

Lemma wf_createNotificationLog now li db : wf_db db -> wf_db (snd (createNotificationLog now li db)).
Proof.
  rewrite createNotificationLog_run. destruct (notification_log_row _ _ _) as [row| |] eqn:E; [|done|done].
  apply notification_log_row_ok in E as [Hid Hfk].
  intros (Hg & Ha & Hl & Hr & Hi). do 2 (split; [done|]). split; [by apply ids_below_snoc|].
  split; [|done]. apply Forall_app. split; [done|]. by constructor.
Qed.

(** The foreign key survives a change of the alerts that keeps every
    referenced id. *)
Lemma logs_reference_weaken db db' :
  notificationLogs db' = notificationLogs db ->
  (forall aid, Exists (fun a => pa_id a = aid) (priceAlerts db) ->
               (exists l, In l (notificationLogs db) /\ nl_alertId l = Some aid) ->
               Exists (fun a => pa_id a = aid) (priceAlerts db')) ->
  logs_reference_alerts db -> logs_reference_alerts db'.
Proof.
  unfold logs_reference_alerts. intros Hl Hkeep Hr. rewrite Hl. rewrite Forall_forall in Hr |- *.
  intros l Hin aid Haid. apply Hkeep; [by apply (Hr l Hin)|]. eauto.
Qed.

Lemma Exists_map_id {A} (id : A -> Z) (f : A -> A) (l : list A) x :
  (forall r, id (f r) = id r) -> Exists (fun a => id a = x) l -> Exists (fun a => id a = x) (map f l).
Proof. intros Hid Hex. apply Exists_map. eapply Exists_impl; [|exact Hex]. intros a. simpl. by rewrite Hid. Qed.

Lemma set_lastTriggered_id id now a : pa_id (set_lastTriggered id now a) = pa_id a.
Proof. unfold set_lastTriggered. by case_bool_decide. Qed.

Lemma wf_updateAlertLastTriggered id now db : wf_db db -> wf_db (snd (updateAlertLastTriggered id now db)).
Proof.
  intros (Hg & Ha & Hl & Hr & Hi). st_simpl. unfold updateAlertLastTriggered, modify. simpl.
  split; [done|]. split.
  { simpl. rewrite map_map. erewrite map_ext; [done|]. intros; apply set_lastTriggered_id. }
  split; [done|]. split; [|done].
  apply (logs_reference_weaken db); [done| |exact Hr]. simpl. intros aid Hex _.
  apply Exists_map_id; [apply set_lastTriggered_id|done].
Qed.

Lemma NoDup_map_filter {A} (id : A -> Z) (P : A -> Prop) `{!forall x, Decision (P x)} l :
  NoDup (map id l) -> NoDup (map id (filter P l)).
Proof.
  intros Hnd. induction l as [|x l IH]; [done|]. rewrite filter_cons. simpl in Hnd.
  inversion Hnd as [|? ? Hx Hnd']; subst.
  case_decide; simpl; [|by apply IH].
  constructor; [|by apply IH]. intros Hin. apply Hx.
  apply list_elem_of_In. eapply in_map_filter. by apply list_elem_of_In.
Qed.

Lemma wf_deletePriceAlert id db : wf_db db -> wf_db (snd (deletePriceAlert id db)).
Proof.
  intros Hwf. unfold deletePriceAlert. st_simpl.
  destruct (decide _) as [|Hno]; simpl; [done|]. destruct Hwf as (Hg & Ha & Hl & Hr & Hi).
  split; [done|]. split; [by apply NoDup_map_filter|]. split; [done|]. split; [|done].
  apply (logs_reference_weaken db); [done| |exact Hr]. simpl. intros aid Hex (l & Hin & Haid).
  apply Exists_exists in Hex as (a & Ha' & <-). apply Exists_exists. exists a. split; [|done].
  apply list_elem_of_In, list_elem_of_filter. split; [|by apply list_elem_of_In].
  intros <-. apply Hno. apply Exists_exists. eauto.
Qed.

Lemma alert_row_id id now ai a : alert_row id now ai = Ok a -> pa_id a = id.
Proof.
  unfold alert_row. result_cases; by intros [= <-].
Qed.

Lemma wf_createPriceAlert now ai db : wf_db db -> wf_db (snd (createPriceAlert now ai db)).
Proof.
  intros (Hg & Ha & Hl & Hr & Hi). unfold createPriceAlert, lift. st_simpl.
  destruct (alert_row _ now ai) as [row| |] eqn:E; simpl; [|done..].
  apply alert_row_id in E. destruct (decide _) as [|Hfresh]; simpl; [done|].
  split; [done|]. split; [apply uniq_snoc; [done|by rewrite E]|]. split; [done|]. split; [|done].
  apply (logs_reference_weaken db); [done| |exact Hr]. simpl. intros aid Hex _.
  apply Exists_app. by left.
Qed.

Lemma wf_updatePriceAlert id ai db : wf_db db -> wf_db (snd (updatePriceAlert id ai db)).
Proof.
  intros (Hg & Ha & Hl & Hr & Hi). unfold updatePriceAlert, lift. destruct (alert_input_empty ai); [done|].
  st_simpl. destruct (list_find _ _) as [[k a]|] eqn:Hf; simpl; [|done].
  apply list_find_Some in Hf as (Hk & Hid & _).
  destruct (alert_set ai a) as [a'| |]; simpl; [|done..].
  destruct (decide _) as [|Hpk]; simpl; [done|]. destruct (decide _) as [|Hfk]; simpl; [done|].
  split; [done|]. split.
  { eapply uniq_insert; [exact Hk|done|]. destruct (decide (pa_id a' = id)) as [->|Hne]; [by left|].
    right. intros Hex. apply Hpk. split; [done|]. eapply Exists_impl; [|exact Hex]. simpl. done. }
  split; [done|]. split; [|done].
  apply (logs_reference_weaken db); [done| |exact Hr]. simpl. intros aid Hex (l & Hin & Haid).
  apply Exists_insert; [done|]. intros b Hb Hbid. rewrite Hk in Hb. injection Hb as <-. subst aid.
  destruct (decide (pa_id a' = id)) as [|Hne]; [congruence|]. exfalso. apply Hfk. split; [done|].
  apply Exists_exists. exists l. split; [done|]. by rewrite Haid, Hid.
Qed.

Lemma investment_row_id id now iv i : investment_row id now iv = Ok i -> inv_id i = id.
Proof.
  unfold investment_row. result_cases; by intros [= <-].
Qed.

Lemma wf_createInvestment now iv db : wf_db db -> wf_db (snd (createInvestment now iv db)).
Proof.
  intros (Hg & Ha & Hl & Hr & Hi). unfold createInvestment, lift. st_simpl.
  destruct (investment_row _ now iv) as [row| |] eqn:E; simpl; [|done..].
  apply investment_row_id in E. destruct (decide _) as [|Hfresh]; simpl; [done|].
  do 4 (split; [done|]). apply uniq_snoc; [done|by rewrite E].
Qed.

Lemma wf_updateInvestment id iv db : wf_db db -> wf_db (snd (updateInvestment id iv db)).
Proof.
  intros (Hg & Ha & Hl & Hr & Hi). unfold updateInvestment, lift. destruct (investment_input_empty iv); [done|].
  st_simpl. destruct (list_find _ _) as [[k i]|] eqn:Hf; simpl; [|done].
  apply list_find_Some in Hf as (Hk & Hid & _).
  destruct (investment_set iv i) as [i'| |]; simpl; [|done..].
  destruct (decide _) as [|Hpk]; simpl; [done|].
  do 4 (split; [done|]). eapply uniq_insert; [exact Hk|done|].
  destruct (decide (inv_id i' = id)) as [->|Hne]; [by left|].
  right. intros Hex. apply Hpk. split; [done|]. eapply Exists_impl; [|exact Hex]. simpl. done.
Qed.

Lemma wf_deleteInvestment id db : wf_db db -> wf_db (snd (deleteInvestment id db)).
Proof.
  intros (Hg & Ha & Hl & Hr & Hi). unfold deleteInvestment. st_simpl.
  do 4 (split; [done|]). by apply NoDup_map_filter.
Qed.

Lemma run_db_op_wf o db : wf_db db -> wf_db (snd (run_db_op o db)).
Proof.
  destruct o; simpl; intros Hwf.
  - pose proof (wf_insertGoldPrice gi db Hwf). st_simpl. by destruct (insertGoldPrice gi db) as [[]].
  - pose proof (wf_createNotificationLog now li db Hwf). st_simpl. by destruct (createNotificationLog now li db) as [[]].
  - by apply wf_updateAlertLastTriggered.
  - pose proof (wf_deletePriceAlert id db Hwf). st_simpl. by destruct (deletePriceAlert id db) as [[]].
  - pose proof (wf_createPriceAlert now ai db Hwf). st_simpl. by destruct (createPriceAlert now ai db) as [[]].
  - pose proof (wf_updatePriceAlert id ai db Hwf). st_simpl. by destruct (updatePriceAlert id ai db) as [[]].
  - pose proof (wf_createInvestment now iv db Hwf). st_simpl. by destruct (createInvestment now iv db) as [[]].
  - pose proof (wf_updateInvestment id iv db Hwf). st_simpl. by destruct (updateInvestment id iv db) as [[]].
  - pose proof (wf_deleteInvestment id db Hwf). st_simpl. by destruct (deleteInvestment id db) as [[]].
Qed.

(** The reads of the storage object settle: a query answers. *)
Lemma getCurrentGoldPrice_settles tz now : settles (getCurrentGoldPrice tz now).
Proof. unfold getCurrentGoldPrice. settle_solve. Qed.

Lemma getPriceAlerts_settles : settles getPriceAlerts.
Proof. unfold getPriceAlerts. settle_solve. Qed.

#[export] Hint Resolve getCurrentGoldPrice_settles getPriceAlerts_settles : settle.

(** ** Properties *)

Lemma yesterday_start_eq tz now : yesterday_start tz now = start_of_day tz now - day_ms.
Proof. unfold yesterday_start, start_of_day, day_ms. zlia. Qed.

(** C6: the databases reachable from the empty database by the writes
    of [storage.js] (snapshots, logs, alert and investment create,
    update and delete, [lastTriggered]) are well formed: snapshot and
    log ids lie below their sequences and are distinct, alert and
    investment ids are distinct, and every logged alert id names an
    existing alert. *)
Theorem db_reachable_wf db : db_reachable db -> wf_db db.
Proof.
  induction 1 as [|db o _ IH].
  - unfold wf_db, ids_below, logs_reference_alerts; simpl. repeat split; constructor || lia.
  - by apply run_db_op_wf.
Qed.

(** C11: [getCurrentGoldPrice] only reads; it returns [null] exactly when
    the table is empty and otherwise a stored row of latest date. *)
Theorem getCurrentGoldPrice_latest tz now db :
  snd (getCurrentGoldPrice tz now db) = db /\
  match fst (getCurrentGoldPrice tz now db) with
  | Ok None => goldPrices db = []
  | Ok (Some cp) => In (cp_row cp) (goldPrices db) /\
                    forall r, In r (goldPrices db) -> gp_date r <= gp_date (cp_row cp)
  | Err _ | Hang => False
  end.
Proof.
  unfold getCurrentGoldPrice. st_simpl. rewrite hd_order_desc.
  destruct (first_max gp_date (goldPrices db)) as [cur|] eqn:E.
  - pose proof (first_max_in _ _ _ E). pose proof (first_max_ge _ _ _ E).
    by destruct (yesterday_price tz now (goldPrices db)).
  - split; [done|]. by apply (first_max_None gp_date).
Qed.

(** The run of [getCurrentGoldPrice] in the form the clients of the
    storage use: it returns a row of latest date and keeps the database. *)
Lemma getCurrentGoldPrice_run tz now db :
  exists ocp, getCurrentGoldPrice tz now db = (Ok ocp, db) /\
              option_map cp_row ocp = first_max gp_date (goldPrices db).
Proof.
  unfold getCurrentGoldPrice. st_simpl. rewrite hd_order_desc.
  destruct (first_max gp_date (goldPrices db)); [|by eexists].
  destruct (yesterday_price tz now (goldPrices db)); by eexists.
Qed.

Lemma getCurrentGoldPrice_frames tz now {T} (f : DB -> T) : frames (getCurrentGoldPrice tz now) f.
Proof. intros db. destruct (getCurrentGoldPrice_run tz now db) as (? & -> & _). done. Qed.

#[export] Hint Resolve getCurrentGoldPrice_frames : frame.

(** C31: the "yesterday" row that [getCurrentGoldPrice] subtracts is
    dated between the local midnight that starts the day before
    yesterday and the midnight that starts yesterday: a snapshot taken
    yesterday after midnight is never the baseline of the change. *)
Theorem yesterday_price_window tz now rows yp :
  yesterday_price tz now rows = Some yp ->
  start_of_day tz now - 2 * day_ms <= gp_date yp <= start_of_day tz now - day_ms.
Proof.
  unfold yesterday_price. rewrite hd_order_desc, yesterday_start_eq. intros H.
  apply first_max_in, list_elem_of_In, list_elem_of_filter in H as [H _]. lia.
Qed.

(** ** Witnesses *)

Definition sample_row (id date ppg : Z) : GoldPrice := {|
  gp_id := id; gp_date := date; gp_buyPrice := NVal (100 * ppg); gp_sellPrice := NVal (90 * ppg);
  gp_pricePerGram := NVal (100 * ppg); gp_source := "pegadaian";
  gp_highPrice := None; gp_lowPrice := None |}.

Definition sample_insert (date ppg : Z) : GoldPriceInsert := {|
  gi_date := date; gi_buyPrice := JNum (inject_Z ppg); gi_sellPrice := JNum (inject_Z ppg);
  gi_pricePerGram := JNum (inject_Z ppg); gi_source := None; gi_highPrice := JNull;
  gi_lowPrice := JNull |}.

Lemma db_reachable_wf_witness :
  let db := snd (run_db_op (OpInsertGoldPrice (sample_insert 0 1058000)) empty_db) in
  db_reachable db /\ wf_db db.
Proof.
  intros db. split; [apply reach_step, reach_empty|].
  apply db_reachable_wf, reach_step, reach_empty.
Defined.

(** At 10:00 on day 3 (UTC), with snapshots at noon of day 2
    (yesterday) and noon of day 1, the baseline is the day-1 row. *)
Lemma yesterday_price_window_witness :
  let now := 3 * day_ms + 10 * hour_ms in
  let rows := [sample_row 1 (day_ms + 12 * hour_ms) 1045000;
               sample_row 2 (2 * day_ms + 12 * hour_ms) 1050500;
               sample_row 3 now 1058000] in
  yesterday_price 0 now rows = Some (sample_row 1 (day_ms + 12 * hour_ms) 1045000) /\
  start_of_day 0 now - 2 * day_ms <= day_ms + 12 * hour_ms <= start_of_day 0 now - day_ms.
Proof.
  intros now rows. split; [vm_compute; reflexivity|].
  apply (yesterday_price_window 0 now rows (sample_row 1 (day_ms + 12 * hour_ms) 1045000)).
  vm_compute. reflexivity.
Defined.

End Storage.
