(* ===== verification/History.v ===== *)
(** * Price history, chart data and recent changes ([storage.js] lines 69-212)

  [getGoldPriceHistory] computes a cutoff with JavaScript [Date]
  arithmetic in local time ([setDate], [setMonth], [setFullYear]),
  selects the snapshots since the cutoff, newest first, and annotates
  each with the change from the next row; [getChartData] maps the
  history to label/price pairs, oldest first; [getRecentPriceChanges]
  lists the buy and sell price changes between consecutive snapshots.

  Dates: the local day of a time value and the civil date of a day
  are computed with the days-from-civil algorithm of the proleptic
  Gregorian calendar; [MakeDay] of ECMA-262 normalises an out-of-range
  month or day the same way.  [civil_from_days_spec] proves the two
  conversions inverse; its proof checks the 146097 days of one 400-year
  cycle by evaluation and extends to every day by linearity.
  JavaScript numbers of this file are [jsnum]: a finite rational, an
  infinity or [NaN] (no rounding to doubles). *)

From Stdlib Require Import Sorting.
From S2P Require Import Prelude Text Schema Storage.

Module History.
Import Text Schema Storage.

(** ** Civil calendar *)

Definition days_from_civil (y m d : Z) : Z :=
  let y' := if m <=? 2 then y - 1 else y in
  let era := y' / 400 in
  let yoe := y' - era * 400 in
  let doy := (153 * (if 2 <? m then m - 3 else m + 9) + 2) / 5 + d - 1 in
  let doe := yoe * 365 + yoe / 4 - yoe / 100 + doy in
  era * 146097 + doe - 719468.

(** The year of era, month and day of a day of a 400-year era. *)
Definition civil_of_doe (doe : Z) : Z * Z * Z :=
  let yoe := (doe - doe / 1460 + doe / 36524 - doe / 146096) / 365 in
  let doy := doe - (365 * yoe + yoe / 4 - yoe / 100) in
  let mp := (5 * doy + 2) / 153 in
  let d := doy - (153 * mp + 2) / 5 + 1 in
  let m := if mp <? 10 then mp + 3 else mp - 9 in
  (yoe, m, d).

(** Year, month (1-12) and day of month of a day number (0 is
    1970-01-01). *)
Definition civil_from_days (z : Z) : Z * Z * Z :=
  let z' := z + 719468 in
  let era := z' / 146097 in
  let '(yoe, m, d) := civil_of_doe (z' mod 146097) in
  (yoe + era * 400 + (if m <=? 2 then 1 else 0), m, d).

(** [MakeDay(year, month, date)] with a month counted from 0. *)
Definition make_day (y m0 d : Z) : Z := days_from_civil (y + m0 / 12) (m0 mod 12 + 1) 1 + d - 1.

Section dates.
Variable tz : Z.

Definition local_day (t : Z) : Z := (t + tz) / day_ms.
Definition time_in_day (t : Z) : Z := (t + tz) mod day_ms.

(** The time value of day [day] at the local time of day of [t]. *)
Definition at_day (t day : Z) : Z := day * day_ms + time_in_day t - tz.

(** The date limit of lines 71-99. *)
Definition history_cutoff (timeframe : string) (now : Z) : Z :=
  let '(y, m, d) := civil_from_days (local_day now) in
  let m0 := m - 1 in
  at_day now
    (if String.eqb timeframe "1d" then make_day y m0 (d - 1)
     else if String.eqb timeframe "1w" then make_day y m0 (d - 7)
     else if String.eqb timeframe "1m" then make_day y (m0 - 1) d
     else if String.eqb timeframe "3m" then make_day y (m0 - 3) d
     else if String.eqb timeframe "6m" then make_day y (m0 - 6) d
     else if String.eqb timeframe "1y" then make_day (y - 1) m0 d
     else if String.eqb timeframe "all" then make_day 2000 m0 d
     else make_day y m0 (d - 7)).
End dates.

(** ** JavaScript numbers *)

Inductive jsnum := Fin (q : Q) | Inf (positive : bool) | NaN.

(** [parseFloat] of a [numeric] column. *)
Definition of_numeric (n : numeric) : jsnum :=
  match n with NNaN => NaN | NVal c => Fin (c # 100) end.

Definition js_minus (a b : jsnum) : jsnum :=
  match a, b with
  | Fin x, Fin y => Fin (x - y)
  | Inf p, Fin _ => Inf p
  | Fin _, Inf p => Inf (negb p)
  | Inf p, Inf q => if Bool.eqb p q then NaN else Inf p
  | _, _ => NaN
  end.

Definition js_div (a b : jsnum) : jsnum :=
  match a, b with
  | Fin x, Fin y =>
      if Qeq_bool y 0 then
        if Qeq_bool x 0 then NaN else Inf (Qle_bool 0 x)
      else Fin (x / y)
  | Inf p, Fin y => if Qeq_bool y 0 then Inf p else Inf (Bool.eqb p (Qle_bool 0 y))
  | Fin _, Inf _ => Fin 0
  | _, _ => NaN
  end.

Definition js_times100 (a : jsnum) : jsnum :=
  match a with Fin x => Fin (x * 100) | r => r end.

(** [a !== b] on numbers: [NaN] differs from everything. *)
Definition js_differ (a b : jsnum) : bool :=
  match a, b with
  | Fin x, Fin y => negb (Qeq_bool x y)
  | Inf p, Inf q => negb (Bool.eqb p q)
  | NaN, _ | _, NaN => true
  | _, _ => true
  end.

(** ** [getGoldPriceHistory] *)

Record HistoryRow := {
  hr_row : GoldPrice;
  hr_dailyChange : jsnum;
  hr_changePercent : jsnum
}.

(** The loop of lines 108-114 and the oldest row of lines 117-123. *)
Fixpoint annotate (rows : list GoldPrice) : list HistoryRow :=
  match rows with
  | [] => []
  | [r] => [{| hr_row := r; hr_dailyChange := Fin 0; hr_changePercent := Fin 0 |}]
  | r :: ((p :: _) as rest) =>
      let ch := js_minus (of_numeric (gp_pricePerGram r)) (of_numeric (gp_pricePerGram p)) in
      {| hr_row := r; hr_dailyChange := ch;
         hr_changePercent := js_times100 (js_div ch (of_numeric (gp_pricePerGram p))) |}
      :: annotate rest
  end.

Definition getGoldPriceHistory (tz : Z) (timeframe : string) (now : Z) : ST DB (list HistoryRow) :=
  gets (fun db =>
    let cutoff := history_cutoff tz timeframe now in
    annotate (order_desc gp_date (filter (fun r => cutoff <= gp_date r) (goldPrices db)))).

(** ** [getChartData] *)

(** The three formats of lines 143-149: [toLocaleTimeString] with hour
    and minute, [toLocaleDateString] with weekday and hour, with month
    and day.  Their ICU output is a parameter [fmt] of the model. *)
Inductive LabelStyle := HourMinute | WeekdayHour | MonthDay.

Record ChartPoint := { cd_label : string; cd_price : jsnum }.

Definition label_style (timeframe : string) : LabelStyle :=
  if String.eqb timeframe "1d" then HourMinute
  else if String.eqb timeframe "1w" then WeekdayHour
  else MonthDay.

Definition getChartData (fmt : LabelStyle -> Z -> string) (tz : Z) (timeframe : string) (now : Z)
  : ST DB (list ChartPoint) :=
  h ← getGoldPriceHistory tz timeframe now;
  mret (rev (map (fun r => {| cd_label := fmt (label_style timeframe) (gp_date (hr_row r));
                              cd_price := of_numeric (gp_pricePerGram (hr_row r)) |}) h)).

(** ** [getRecentPriceChanges] *)

Record RecentChange := {
  rc_id : string;
  rc_date : Z;
  rc_price : jsnum;
  rc_change : jsnum;
  rc_type : string
}.

Definition price_change (kind label : string) (price : GoldPrice -> numeric) (cur prev : GoldPrice)
  : list RecentChange :=
  let a := of_numeric (price cur) in
  let b := of_numeric (price prev) in
  if js_differ a b then
    [{| rc_id := kind ++ "-" ++ Z_to_string (gp_id cur); rc_date := gp_date cur; rc_price := a;
        rc_change := js_minus a b; rc_type := label |}]
  else [].

(** The loop of lines 179-204. *)
Fixpoint pair_changes (rows : list GoldPrice) : list RecentChange :=
  match rows with
  | cur :: ((prev :: _) as rest) =>
      price_change "buy" "Buy Price" gp_buyPrice cur prev ++
      price_change "sell" "Sell Price" gp_sellPrice cur prev ++ pair_changes rest
  | _ => []
  end.

(** [getRecentPriceChanges(limit)] (lines 165-212): [LIMIT limit + 1],
    then [changes.sort(...)] (stable) and [slice(0, limit)]. *)
Definition getRecentPriceChanges (limit : Z) : ST DB (list RecentChange) :=
  db ← get;
  rows ← lift (sql_limit (limit + 1) (order_desc gp_date (goldPrices db)));
  match rows with
  | [] | [_] => mret []
  | _ => mret (take (Z.to_nat limit) (order_desc rc_date (pair_changes rows)))
  end.

(** ** Lemmas *)

(** A boolean test on [n] consecutive integers from [z]. *)
Fixpoint all_from (n : nat) (z : Z) (f : Z -> bool) : bool :=
  match n with O => true | S k => f z && all_from k (z + 1) f end.

Lemma all_from_spec n z f x : all_from n z f = true -> z <= x < z + Z.of_nat n -> f x = true.
Proof.
  revert z. induction n as [|n IH]; intros z H Hx; simpl in *; [lia|].
  apply andb_true_iff in H as [Hz Hn]. destruct (Z.eq_dec x z) as [->|Hne]; [done|].
  apply (IH (z + 1)); [done|lia].
Qed.

(** [civil_of_doe] inverts the day-of-era computation of
    [days_from_civil] and yields a valid month and day. *)
Definition doe_ok (doe : Z) : bool :=
  let '(yoe, m, d) := civil_of_doe doe in
  (0 <=? yoe) && (yoe <? 400) &&
  ((yoe * 365 + yoe / 4 - yoe / 100 + ((153 * (if 2 <? m then m - 3 else m + 9) + 2) / 5 + d - 1)) =? doe)
  && (1 <=? m) && (m <=? 12) && (1 <=? d) && (d <=? 31).

Lemma doe_check : all_from (Pos.to_nat 146097) 0 doe_ok = true.
Proof. vm_compute. reflexivity. Qed.

Lemma civil_from_days_spec z :
  let '(y, m, d) := civil_from_days z in days_from_civil y m d = z /\ 1 <= m <= 12 /\ 1 <= d <= 31.
Proof.
  unfold civil_from_days.
  pose proof (Z.mod_pos_bound (z + 719468) 146097 ltac:(lia)) as Hb.
  pose proof (all_from_spec _ _ _ ((z + 719468) mod 146097) doe_check) as Hok.
  rewrite positive_nat_Z in Hok. specialize (Hok ltac:(lia)).
  unfold doe_ok in Hok. destruct (civil_of_doe _) as [[yoe m] d].
  rewrite !andb_true_iff, ?Z.leb_le, ?Z.ltb_lt, ?Z.eqb_eq in Hok.
  destruct Hok as ((((((H0 & H1) & Hdoe) & Hm1) & Hm2) & Hd1) & Hd2).
  split; [|lia]. unfold days_from_civil.
  assert (Hy : (if m <=? 2 then yoe + (z + 719468) / 146097 * 400 + (if m <=? 2 then 1 else 0) - 1
                else yoe + (z + 719468) / 146097 * 400 + (if m <=? 2 then 1 else 0))
               = yoe + (z + 719468) / 146097 * 400) by (destruct (m <=? 2); lia).
  rewrite Hy.
  assert (Hera : (yoe + (z + 719468) / 146097 * 400) / 400 = (z + 719468) / 146097).
  { rewrite Z.div_add by lia. rewrite Z.div_small by lia. lia. }
  rewrite Hera. replace (yoe + (z + 719468) / 146097 * 400 - (z + 719468) / 146097 * 400) with yoe by lia.
  rewrite Hdoe. pose proof (Z.div_mod (z + 719468) 146097 ltac:(lia)). lia.
Qed.


(** Moving the day of the month by [k] moves the day number by [k]. *)
Lemma make_day_shift y m d k : 1 <= m <= 12 -> make_day y (m - 1) (d - k) = days_from_civil y m d - k.
Proof.
  intros Hm. unfold make_day.
  rewrite (Z.div_small (m - 1) 12), (Z.mod_small (m - 1) 12) by lia.
  replace (y + 0) with y by lia. replace (m - 1 + 1) with m by lia.
  unfold days_from_civil. lia.
Qed.

Lemma at_local_day tz t k : at_day tz t (local_day tz t - k) = t - k * day_ms.
Proof. unfold at_day, local_day, time_in_day, day_ms. zlia. Qed.

Lemma cutoff_days tz now k :
  (let '(y, m, d) := civil_from_days (local_day tz now) in at_day tz now (make_day y (m - 1) (d - k)))
  = now - k * day_ms.
Proof.
  pose proof (civil_from_days_spec (local_day tz now)) as Hs.
  destruct (civil_from_days _) as [[y m] d]. destruct Hs as (Hrt & Hm & _).
  rewrite make_day_shift, Hrt by done. apply at_local_day.
Qed.

Lemma annotate_rows rows : map hr_row (annotate rows) = rows.
Proof.
  induction rows as [|r rows IH]; [done|]. destruct rows as [|p rows]; [done|].
  simpl in *. by rewrite IH.
Qed.

Lemma annotate_change rows i x y :
  annotate rows !! i = Some x -> annotate rows !! S i = Some y ->
  hr_dailyChange x = js_minus (of_numeric (gp_pricePerGram (hr_row x))) (of_numeric (gp_pricePerGram (hr_row y))).
Proof.
  revert i. induction rows as [|r rows IH]; intros i Hx Hy; [done|].
  destruct rows as [|p rows]; [by destruct i as [|[]]|].
  destruct i as [|i].
  - simpl in Hx, Hy. injection Hx as <-. simpl.
    destruct rows as [|q rows]; simpl in Hy; injection Hy as <-; done.
  - by apply (IH i).
Qed.

Lemma annotate_last rows i x :
  annotate rows !! i = Some x -> annotate rows !! S i = None -> hr_dailyChange x = Fin 0.
Proof.
  revert i. induction rows as [|r rows IH]; intros i Hx Hy; [done|].
  destruct rows as [|p rows]; [by destruct i as [|[]]; simpl in *; simplify_eq|].
  destruct i as [|i]; [|by apply (IH i)].
  simpl in Hy. destruct rows; simpl in Hy; discriminate.
Qed.

Lemma pair_changes_cons2 c p rows :
  pair_changes (c :: p :: rows) =
    price_change "buy" "Buy Price" gp_buyPrice c p ++
    price_change "sell" "Sell Price" gp_sellPrice c p ++ pair_changes (p :: rows).
Proof. reflexivity. Qed.

Lemma price_change_length k l f c p : (length (price_change k l f c p) <= 1)%nat.
Proof. unfold price_change. destruct (js_differ _ _); simpl; lia. Qed.

Lemma pair_changes_length rows : (length (pair_changes rows) <= 2 * length rows)%nat.
Proof.
  induction rows as [|r rows IH]; [simpl; lia|]. destruct rows as [|p rows]; [simpl; lia|].
  rewrite pair_changes_cons2, !length_app.
  pose proof (price_change_length "buy" "Buy Price" gp_buyPrice r p).
  pose proof (price_change_length "sell" "Sell Price" gp_sellPrice r p). simpl length in *. lia.
Qed.

Lemma In_order_desc {A} (key : A -> Z) l x : In x (order_desc key l) <-> In x l.
Proof. split; apply Permutation_in; [|symmetry]; apply order_desc_perm. Qed.

(** C29: [getGoldPriceHistory] returns exactly the snapshots dated at or
    after the cutoff, newest first, and annotates each with the change
    of the price per gram from the next older snapshot of that list
    (whatever the time between them, not the change from the previous
    day); the oldest snapshot of the list always gets 0, even when
    older snapshots exist before the cutoff. *)
Theorem history_row_over_row tz tf now db h :
  fst (getGoldPriceHistory tz tf now db) = Ok h ->
  (forall r, In r (map hr_row h) <-> In r (goldPrices db) /\ history_cutoff tz tf now <= gp_date r) /\
  Sorted (desc gp_date) (map hr_row h) /\
  (forall i x y, h !! i = Some x -> h !! S i = Some y ->
     hr_dailyChange x = js_minus (of_numeric (gp_pricePerGram (hr_row x))) (of_numeric (gp_pricePerGram (hr_row y)))) /\
  (forall i x, h !! i = Some x -> h !! S i = None -> hr_dailyChange x = Fin 0).
Proof.
  intros [= <-]. rewrite annotate_rows. split_and!.
  - intros r. rewrite In_order_desc, <- !list_elem_of_In, list_elem_of_filter. tauto.
  - apply order_desc_sorted.
  - apply annotate_change.
  - apply annotate_last.
Qed.

(** The day-based timeframes of the history go back whole days: '1d'
    starts 24 hours before now, '1w' and any other timeframe that is not
    listed (the route's default '7d' among them) 7 days before now. *)
Theorem history_cutoff_days tz now tf :
  ~ In tf ["1d"; "1w"; "1m"; "3m"; "6m"; "1y"; "all"] ->
  history_cutoff tz "1d" now = now - day_ms /\ history_cutoff tz "1w" now = now - 7 * day_ms /\
  history_cutoff tz tf now = now - 7 * day_ms.
Proof.
  intros Htf. split_and!.
  - replace (now - day_ms) with (now - 1 * day_ms) by lia. rewrite <- (cutoff_days tz now 1). reflexivity.
  - rewrite <- (cutoff_days tz now 7). reflexivity.
  - rewrite <- (cutoff_days tz now 7). unfold history_cutoff.
    repeat match goal with |- context [String.eqb tf ?s] =>
      rewrite (proj2 (String.eqb_neq tf s)) by (intros ->; apply Htf; simpl; tauto) end.
    reflexivity.
Qed.

(** [!==] treats [NaN] as different from itself: when the two newest
    snapshots both have a [NaN] sell price (stored by the Emasku
    scraper), the recent changes list a 'Sell Price' change of [NaN], at
    the price [NaN], between them, whenever the limit leaves room for
    every change. *)
Lemma recent_changes_nan_sell db limit cur prev rest :
  (2 * length (goldPrices db) <= Z.to_nat limit)%nat ->
  order_desc gp_date (goldPrices db) = cur :: prev :: rest ->
  gp_sellPrice cur = NNaN -> gp_sellPrice prev = NNaN ->
  exists l, fst (getRecentPriceChanges limit db) = Ok l /\
    Exists (fun e => rc_type e = "Sell Price" /\ rc_date e = gp_date cur /\ rc_price e = NaN /\
                     rc_change e = NaN) l.
Proof.
  intros Hlim Hord Hc Hp.
  assert (Hlen : length (goldPrices db) = length (cur :: prev :: rest))
    by (rewrite <- Hord, order_desc_length; done).
  simpl in Hlen.
  assert (Hrows : take (Z.to_nat (limit + 1)) (cur :: prev :: rest) = cur :: prev :: take (Z.to_nat limit - 1) rest).
  { replace (Z.to_nat (limit + 1)) with (S (S (Z.to_nat limit - 1))) by lia. reflexivity. }
  set (rows := cur :: prev :: take (Z.to_nat limit - 1) rest).
  exists (take (Z.to_nat limit) (order_desc rc_date (pair_changes rows))). split.
  { unfold getRecentPriceChanges. rewrite !run_bind. unfold get, lift, sql_limit. cbn beta iota.
    rewrite Hord. destruct (Z.ltb_spec (limit + 1) 0); [lia|]. rewrite Hrows. reflexivity. }
  rewrite take_ge.
  2:{ rewrite order_desc_length. etrans; [apply pair_changes_length|]. subst rows. simpl. rewrite length_take. lia. }
  apply Exists_exists. setoid_rewrite In_order_desc. subst rows. rewrite pair_changes_cons2.
  eexists. split; [apply in_or_app; right; apply in_or_app; left|].
  - unfold price_change. rewrite Hc, Hp. simpl. left. reflexivity.
  - done.
Qed.

(** ** Witnesses *)

(** 2024-01-01 is day 19723. *)

(** Two snapshots one hour apart on the same morning. *)
Definition db_two : DB := {|
  goldPrices := [sample_row 1 (10 * hour_ms) 1050000; sample_row 2 (11 * hour_ms) 1058000];
  priceAlerts := []; notificationLogs := []; investments := []; seq_goldPrices := 3;
  seq_priceAlerts := 1; seq_notificationLogs := 1; seq_investments := 1 |}.

Lemma history_row_over_row_witness :
  let h := annotate [sample_row 2 (11 * hour_ms) 1058000; sample_row 1 (10 * hour_ms) 1050000] in
  fst (getGoldPriceHistory 0 "1d" (12 * hour_ms) db_two) = Ok h /\
  forall x y, h !! 0%nat = Some x -> h !! 1%nat = Some y ->
    hr_dailyChange x = js_minus (of_numeric (gp_pricePerGram (hr_row x))) (of_numeric (gp_pricePerGram (hr_row y))).
Proof.
  intros h. assert (Hh : fst (getGoldPriceHistory 0 "1d" (12 * hour_ms) db_two) = Ok h) by reflexivity.
  split; [exact Hh|]. intros x y Hx Hy.
  destruct (history_row_over_row 0 "1d" (12 * hour_ms) db_two h Hh) as (_ & _ & Hch & _).
  exact (Hch 0%nat x y Hx Hy).
Defined.

Lemma history_cutoff_days_witness : history_cutoff 0 "7d" (20000 * day_ms) = 20000 * day_ms - 7 * day_ms.
Proof.
  apply (history_cutoff_days 0 (20000 * day_ms) "7d").
  simpl. intros H. repeat destruct H as [H|H]; discriminate || done.
Defined.

(** Two Emasku snapshots with a dash in the sell column. *)
Definition nan_sell_row (id date : Z) : GoldPrice := {|
  gp_id := id; gp_date := date; gp_buyPrice := NVal 187400000; gp_sellPrice := NNaN;
  gp_pricePerGram := NVal 187400000; gp_source := "emasku"; gp_highPrice := None; gp_lowPrice := None |}.

Definition db_nan_sell : DB := {|
  goldPrices := [nan_sell_row 1 0; nan_sell_row 2 hour_ms]; priceAlerts := []; notificationLogs := [];
  investments := []; seq_goldPrices := 3; seq_priceAlerts := 1; seq_notificationLogs := 1;
  seq_investments := 1 |}.


End History.
