(* ===== verification/Dates.v ===== *)
(** * Dates on the wire: [Date.prototype.toISOString] and the date-time
    string format of [new Date(s)]

  The server answers with [res.json(...)] (routes.ts, e.g. line 234),
  and [JSON.stringify] writes every [timestamp] column, a JavaScript
  [Date], as [toISOString()]: ["YYYY-MM-DDTHH:mm:ss.sssZ"], with a
  signed six-digit year outside 0000-9999.  The client reads these
  texts back with [new Date(dateString)] ([formatters.js] line 22),
  which parses the ECMAScript date-time string format: a year
  ([YYYY] or [+YYYYYY]/[-YYYYYY]), optionally [-MM] and [-DD],
  optionally [THH:mm], [:ss] and [.sss], and an offset [Z] or
  [+HH:mm]/[-HH:mm]; a date-only text is UTC and a date-time text
  without an offset is local time.  [date_parse_iso] is that parser
  (with V8's acceptance of any day 01-31 in any month); texts outside
  the format are left to the engine.
  [date_parse_iso_toISOString] shows that every valid time value
  survives the wire unchanged; the dashboard's header relies on it. *)

From stdpp Require Import base strings.
From S2P Require Import Prelude Text History.

Module Dates.
Import Text History.
Local Open Scope string_scope.

(** [day_ms] from storage.js, and the limit of [TimeClip]. *)
Definition ms_per_day : Z := 86400000.
Definition max_time : Z := 8640000000000000.

(** The last [w] decimal digits of [n], most significant first. *)
Fixpoint fixed_digits (w : nat) (n : Z) : list Z :=
  match w with
  | O => []
  | S w' => fixed_digits w' (n / 10) ++ [n mod 10]
  end.

(** [String(n).padStart(w, "0")] for [0 <= n < 10^w]. *)
Definition pad (w : nat) (n : Z) : string := string_of_digits (fixed_digits w n).

(** The year field of [toISOString]: four digits, or a sign and six. *)
Definition iso_year (y : Z) : string :=
  if Z.leb 0 y && Z.leb y 9999 then pad 4 y
  else (if Z.ltb y 0 then "-" else "+") ++ pad 6 (Z.abs y).

(** [Date.prototype.toISOString] of a time value (in range: no
    [RangeError]). *)
Definition toISOString (t : Z) : string :=
  let '(y, m, d) := civil_from_days (t / ms_per_day) in
  let r := t mod ms_per_day in
  iso_year y ++ "-" ++ pad 2 m ++ "-" ++ pad 2 d ++ "T" ++
  pad 2 (r / 3600000) ++ ":" ++ pad 2 (r / 60000 mod 60) ++ ":" ++ pad 2 (r / 1000 mod 60) ++
  "." ++ pad 3 (r mod 1000) ++ "Z".

(** ** The parser *)

(** Exactly [n] digits, their value added to [acc]. *)
Fixpoint read_digits (n : nat) (acc : Z) (s : string) : option (Z * string) :=
  match n with
  | O => Some (acc, s)
  | S n' =>
      match s with
      | String c s' => if is_digit c then read_digits n' (acc * 10 + digit_value c) s' else None
      | EmptyString => None
      end
  end.

(** One expected character. *)
Definition expect (c : ascii) (s : string) : option string :=
  match s with
  | String c' s' => if Ascii.eqb c c' then Some s' else None
  | EmptyString => None
  end.

Definition in_range (lo hi v : Z) : bool := Z.leb lo v && Z.leb v hi.

(** [YYYY], [+YYYYYY] or [-YYYYYY] ([-000000] is refused). *)
Definition read_year (s : string) : option (Z * string) :=
  match s with
  | String "+" s' => read_digits 6 0 s'
  | String "-" s' =>
      '(v, r) ← read_digits 6 0 s';
      if Z.eqb v 0 then None else Some (- v, r)
  | _ => read_digits 4 0 s
  end.

(** A two-digit field within bounds. *)
Definition read_field (lo hi : Z) (s : string) : option (Z * string) :=
  '(v, r) ← read_digits 2 0 s;
  if in_range lo hi v then Some (v, r) else None.

(** [YYYY[-MM[-DD]]] *)
Definition read_date (s : string) : option (Z * Z * Z * string) :=
  '(y, s1) ← read_year s;
  match expect "-" s1 with
  | None => Some (y, 1, 1, s1)
  | Some s2 =>
      '(m, s3) ← read_field 1 12 s2;
      match expect "-" s3 with
      | None => Some (y, m, 1, s3)
      | Some s4 => '(d, s5) ← read_field 1 31 s4; Some (y, m, d, s5)
      end
  end.

(** [HH:mm[:ss[.sss]]] as milliseconds of the day ([24:00] only with
    zero minutes, seconds and milliseconds). *)
Definition read_time (s : string) : option (Z * string) :=
  '(h, s1) ← read_field 0 24 s;
  s2 ← expect ":" s1;
  '(mi, s3) ← read_field 0 59 s2;
  '(sec, ms, s4) ←
    match expect ":" s3 with
    | None => Some (0, 0, s3)
    | Some s5 =>
        '(sec, s6) ← read_field 0 59 s5;
        match expect "." s6 with
        | None => Some (sec, 0, s6)
        | Some s7 => '(ms, s8) ← read_digits 3 0 s7; Some (sec, ms, s8)
        end
    end;
  if Z.eqb h 24 && negb (Z.eqb mi 0 && Z.eqb sec 0 && Z.eqb ms 0) then None
  else Some (((h * 60 + mi) * 60 + sec) * 1000 + ms, s4).

(** [Z], [+HH:mm] or [-HH:mm] as an offset in milliseconds, or
    nothing (local time). *)
Definition read_offset (s : string) : option (option Z * string) :=
  match s with
  | String "Z" s' => Some (Some 0, s')
  | String "+" s' =>
      '(h, s1) ← read_field 0 23 s'; s2 ← expect ":" s1; '(mi, s3) ← read_field 0 59 s2;
      Some (Some ((h * 60 + mi) * 60000), s3)
  | String "-" s' =>
      '(h, s1) ← read_field 0 23 s'; s2 ← expect ":" s1; '(mi, s3) ← read_field 0 59 s2;
      Some (Some (- ((h * 60 + mi) * 60000)), s3)
  | _ => Some (None, s)
  end.

(** [TimeClip] *)
Definition time_clip_z (t : Z) : option Z := if Z.leb (Z.abs t) max_time then Some t else None.

Section parse.
(** The local offset from UTC, as in [History]. *)
Variable tz : Z.

(** [Date.parse] of a text in the date-time string format. *)
Definition date_parse_iso (s : string) : option Z :=
  '(y, m, d, s1) ← read_date s;
  let day := make_day y (m - 1) d in
  match expect "T" s1 with
  | None => if String.eqb s1 "" then time_clip_z (day * ms_per_day) else None
  | Some s2 =>
      '(tm, s3) ← read_time s2;
      '(off, s4) ← read_offset s3;
      if String.eqb s4 "" then
        time_clip_z (day * ms_per_day + tm - match off with Some o => o | None => tz end)
      else None
  end.
End parse.

(** ** Lemmas *)

Lemma fixed_digits_length w n : length (fixed_digits w n) = w.
Proof. revert n. induction w as [|w IH]; intros n; simpl; [done|]. rewrite length_app, IH. simpl. lia. Qed.

Lemma fixed_digits_range w n : Forall (fun d => 0 <= d <= 9) (fixed_digits w n).
Proof.
  revert n. induction w as [|w IH]; intros n; simpl; [constructor|].
  apply Forall_app. split; [apply IH|]. constructor; [|constructor].
  pose proof (Z.mod_pos_bound n 10). lia.
Qed.

Lemma digits_value_fixed w n : digits_value (fixed_digits w n) = n mod 10 ^ Z.of_nat w.
Proof.
  revert n. induction w as [|w IH]; intros n; simpl; [by rewrite Z.mod_1_r|].
  rewrite digits_value_app, IH, Nat2Z.inj_succ, Z.pow_succ_r by lia.
  rewrite Z.rem_mul_r by (try apply Z.pow_pos_nonneg; lia). lia.
Qed.

Lemma read_digits_of ds acc r :
  Forall (fun d => 0 <= d <= 9) ds ->
  read_digits (length ds) acc (string_of_digits ds ++ r) =
    Some (fold_left (fun a d => a * 10 + d) ds acc, r).
Proof.
  intros Hds. revert acc. induction Hds as [|d ds Hd Hds IH]; intros acc; [done|].
  cbn [length string_of_digits]. rewrite string_app_cons. cbn [read_digits fold_left].
  destruct (digit_char_digit d Hd) as [-> ->]. apply IH.
Qed.

(** Reading [w] digits undoes [pad w]. *)
Lemma read_pad w n r : 0 <= n < 10 ^ Z.of_nat w -> read_digits w 0 (pad w n ++ r) = Some (n, r).
Proof.
  intros Hn. unfold pad. rewrite <- (fixed_digits_length w n) at 1.
  rewrite read_digits_of by apply fixed_digits_range.
  rewrite digits_value_acc, digits_value_fixed, Z.mod_small by done. done.
Qed.

Lemma read_field_pad lo hi n r :
  lo <= n <= hi -> 0 <= n < 100 -> read_field lo hi (pad 2 n ++ r) = Some (n, r).
Proof.
  intros Hb Hn. unfold read_field. rewrite read_pad by done. cbn [mbind option_bind].
  unfold in_range. by rewrite (proj2 (Z.leb_le lo n)), (proj2 (Z.leb_le n hi)) by lia.
Qed.

(** A text that starts with a digit is read as a four-digit year. *)
Lemma read_year_digit c s : is_digit c = true -> read_year (String c s) = read_digits 4 0 (String c s).
Proof. destruct c as [[] [] [] [] [] [] [] []]; done. Qed.

Lemma pad_digit_start w n r : exists c s, pad (S w) n ++ r = String c s /\ is_digit c = true.
Proof.
  unfold pad. pose proof (fixed_digits_range (S w) n) as Hr.
  pose proof (fixed_digits_length (S w) n) as Hl.
  destruct (fixed_digits (S w) n) as [|d ds]; [done|]. inversion Hr; subst.
  eexists _, _. split; [reflexivity|]. by apply digit_char_digit.
Qed.

Lemma read_iso_year y r : Z.abs y < 10 ^ 6 -> read_year (iso_year y ++ r) = Some (y, r).
Proof.
  intros Hy. unfold iso_year. destruct (Z.leb 0 y && Z.leb y 9999) eqn:E.
  - apply andb_true_iff in E as [E1 E2]. apply Z.leb_le in E1, E2.
    destruct (pad_digit_start 3 y r) as (c & s & Hs & Hc). rewrite Hs, read_year_digit, <- Hs by done.
    apply read_pad. simpl. lia.
  - destruct (Z.ltb y 0) eqn:Hneg; rewrite string_app_assoc, !string_app_cons, string_app_nil_l; cbn [read_year].
    + apply Z.ltb_lt in Hneg. rewrite read_pad by (simpl; lia). cbn [mbind option_bind].
      rewrite (proj2 (Z.eqb_neq (Z.abs y) 0)) by lia. do 2 f_equal. lia.
    + apply Z.ltb_ge in Hneg. rewrite read_pad by (simpl; lia). do 2 f_equal. lia.
Qed.

(** One step of reading a printed field: a padded number, an expected
    character, or the bind that passes the rest on. *)
Ltac read_step :=
  first [ rewrite read_field_pad by lia | rewrite read_pad by (simpl; lia)
        | rewrite Ascii.eqb_refl | progress cbn [mbind option_bind expect] ].

Lemma read_date_iso y m d r :
  Z.abs y < 10 ^ 6 -> 1 <= m <= 12 -> 1 <= d <= 31 ->
  read_date (iso_year y ++ "-" ++ pad 2 m ++ "-" ++ pad 2 d ++ "T" ++ r) = Some (y, m, d, "T" ++ r).
Proof.
  intros Hy Hm Hd. unfold read_date. rewrite read_iso_year by done.
  rewrite !string_app_cons, !string_app_nil_l. by repeat read_step.
Qed.

Lemma read_time_iso h mi sec ms r :
  0 <= h < 24 -> 0 <= mi < 60 -> 0 <= sec < 60 -> 0 <= ms < 1000 ->
  read_time (pad 2 h ++ ":" ++ pad 2 mi ++ ":" ++ pad 2 sec ++ "." ++ pad 3 ms ++ r) =
    Some (((h * 60 + mi) * 60 + sec) * 1000 + ms, r).
Proof.
  intros Hh Hmi Hs Hms. unfold read_time.
  rewrite !string_app_cons, !string_app_nil_l. repeat read_step.
  by rewrite (proj2 (Z.eqb_neq h 24)) by lia.
Qed.

(** The year of a day within [10^8] days of the epoch has at most six
    digits. *)
Lemma civil_year_bound z : Z.abs z <= 10 ^ 8 -> Z.abs (fst (fst (civil_from_days z))) < 10 ^ 6.
Proof.
  intros Hz. pose proof (civil_from_days_spec z) as Hs.
  destruct (civil_from_days z) as [[y m] d]. simpl. destruct Hs as (Hc & Hm & Hd).
  unfold days_from_civil in Hc.
  set (y' := if Z.leb m 2 then y - 1 else y) in Hc.
  assert (Hy' : y - 1 <= y' <= y) by (unfold y'; destruct (Z.leb m 2); lia).
  set (mp := if Z.ltb 2 m then m - 3 else m + 9) in Hc.
  assert (Hmp : 0 <= mp <= 11) by (unfold mp; destruct (Z.ltb 2 m) eqn:E; [apply Z.ltb_lt in E|apply Z.ltb_ge in E]; lia).
  pose proof (Z.div_mod y' 400 ltac:(lia)). pose proof (Z.mod_pos_bound y' 400 ltac:(lia)).
  set (yoe := y' - y' / 400 * 400) in Hc.
  assert (0 <= yoe < 400) by (unfold yoe; lia).
  pose proof (Z.div_mod yoe 4 ltac:(lia)). pose proof (Z.mod_pos_bound yoe 4 ltac:(lia)).
  pose proof (Z.div_mod yoe 100 ltac:(lia)). pose proof (Z.mod_pos_bound yoe 100 ltac:(lia)).
  pose proof (Z.div_mod (153 * mp + 2) 5 ltac:(lia)). pose proof (Z.mod_pos_bound (153 * mp + 2) 5 ltac:(lia)).
  lia.
Qed.

(** The four fields of a time of day give it back. *)
Lemma time_fields r :
  0 <= r < ms_per_day ->
  0 <= r / 3600000 < 24 /\ 0 <= r / 60000 mod 60 < 60 /\ 0 <= r / 1000 mod 60 < 60 /\
  0 <= r mod 1000 < 1000 /\
  ((r / 3600000 * 60 + r / 60000 mod 60) * 60 + r / 1000 mod 60) * 1000 + r mod 1000 = r.
Proof.
  unfold ms_per_day. intros Hr.
  replace 3600000 with (1000 * 60 * 60) by lia. replace 60000 with (1000 * 60) by lia.
  rewrite <- !Z.div_div by lia.
  pose proof (Z.div_mod r 1000 ltac:(lia)). pose proof (Z.mod_pos_bound r 1000 ltac:(lia)).
  pose proof (Z.div_mod (r / 1000) 60 ltac:(lia)). pose proof (Z.mod_pos_bound (r / 1000) 60 ltac:(lia)).
  pose proof (Z.div_mod (r / 1000 / 60) 60 ltac:(lia)).
  pose proof (Z.mod_pos_bound (r / 1000 / 60) 60 ltac:(lia)).
  pose proof (Z.div_pos (r / 1000 / 60) 60). pose proof (Z.div_pos (r / 1000) 60).
  pose proof (Z.div_pos r 1000). lia.
Qed.

Lemma make_day_civil y m d : 1 <= m <= 12 -> make_day y (m - 1) d = days_from_civil y m d.
Proof. intros Hm. pose proof (make_day_shift y m d 0 Hm) as H. by rewrite !Z.sub_0_r in H. Qed.

(** The parser of the date-time string format inverts [toISOString]
    on every valid time value. *)
Lemma date_parse_iso_toISOString tz t :
  Z.abs t <= max_time -> date_parse_iso tz (toISOString t) = Some t.
Proof.
  intros Ht. unfold toISOString.
  assert (Hday : Z.abs (t / ms_per_day) <= 10 ^ 8).
  { unfold max_time, ms_per_day in *.
    pose proof (Z.div_mod t 86400000 ltac:(lia)). pose proof (Z.mod_pos_bound t 86400000 ltac:(lia)). lia. }
  pose proof (civil_year_bound _ Hday) as Hy. pose proof (civil_from_days_spec (t / ms_per_day)) as Hs.
  destruct (civil_from_days (t / ms_per_day)) as [[y m] d]. simpl in Hy. destruct Hs as (Hc & Hm & Hd).
  pose proof (Z.div_mod t ms_per_day ltac:(done)). pose proof (Z.mod_pos_bound t ms_per_day ltac:(done)).
  destruct (time_fields (t mod ms_per_day)) as (Hh & Hmi & Hsec & Hms & Heq); [done|].
  unfold date_parse_iso. rewrite read_date_iso by done. cbn [mbind option_bind].
  rewrite string_app_cons, string_app_nil_l. cbn [expect]. rewrite Ascii.eqb_refl.
  rewrite read_time_iso by done. cbn. unfold time_clip_z.
  rewrite make_day_civil, Heq by done.
  rewrite (proj2 (Z.leb_le _ _)); [f_equal|]; unfold ms_per_day in *; lia.
Qed.


(** A text [toISOString] writes is never empty. *)
Lemma toISOString_nonempty t : exists c s, toISOString t = String c s.
Proof.
  unfold toISOString. destruct (civil_from_days _) as [[y m] d]. unfold iso_year.
  destruct (Z.leb 0 y && Z.leb y 9999).
  - destruct (pad_digit_start 3 y ("-" ++ pad 2 m ++ "-" ++ pad 2 d ++ "T" ++
      pad 2 (t mod ms_per_day / 3600000) ++ ":" ++ pad 2 (t mod ms_per_day / 60000 mod 60) ++ ":" ++
      pad 2 (t mod ms_per_day / 1000 mod 60) ++ "." ++ pad 3 (t mod ms_per_day mod 1000) ++ "Z"))
      as (c & s & Hs & _). eauto.
  - destruct (Z.ltb y 0); eexists _, _; reflexivity.
Qed.


End Dates.
