(* ===== verification/Alerts.v ===== *)
(** * Price-alert evaluation ([checkPriceAlerts] of the Pegadaian scraper
    and of the Metals.live client)

  [pegadaian-scraper.js] and [metal-price-api.js] carry the same
  [checkPriceAlerts] method: read the current price and the active
  alerts, skip daily alerts, and keep an increase (decrease) alert when
  the price per gram is at least (at most) its target.  The loop body is
  [price_alert_triggered]; the method runs on the database through a
  lens and reads the clock for [getCurrentGoldPrice]. *)

From S2P Require Import Prelude Schema Storage.

Module Alerts.
Import Schema Storage.

(** [parseFloat(alert.targetPrice)]: [parseFloat(null)] is [NaN]. *)
Definition alert_target (a : PriceAlert) : jsval :=
  match pa_targetPrice a with
  | Some n => parse_float n
  | None => JNaN
  end.

(** The body of the loop of lines 171-186. *)
Definition price_alert_triggered (cp : CurrentPrice) (a : PriceAlert) : bool :=
  if String.eqb (pa_alertType a) "daily" then false
  else
    match alert_target a, parse_float (gp_pricePerGram (cp_row cp)) with
    | JNum target, JNum current =>
        if String.eqb (pa_alertType a) "increase" then Qle_bool target current
        else if String.eqb (pa_alertType a) "decrease" then Qle_bool current target
        else false
    | _, _ => false
    end.

(** What [checkPriceAlerts] returns: [[]] when there is no price yet,
    otherwise [{ triggeredAlerts, currentPrice }]. *)
Inductive CheckResult :=
| NoCurrentPrice
| Checked (triggeredAlerts : list PriceAlert) (currentPrice : CurrentPrice).

Definition triggered_alerts (cp : CurrentPrice) (alerts : list PriceAlert) : list PriceAlert :=
  filter (fun a => price_alert_triggered cp a = true) alerts.

Section check.
Context {W : Type} (db : Lens W DB) (clock : W -> Z) (tz : Z).

(** [checkPriceAlerts] (pegadaian-scraper.js lines 160-193). *)
Definition checkPriceAlerts : ST W CheckResult :=
  now ← gets clock;
  cur ← zoom db (getCurrentGoldPrice tz now);
  match cur with
  | None => mret NoCurrentPrice
  | Some cp =>
      alerts ← zoom db getPriceAlerts;
      mret (Checked (triggered_alerts cp alerts) cp)
  end.
End check.

(** The alert ids of a run of [checkPriceAlerts]. *)
Definition triggered_ids (r : result CheckResult) : list Z :=
  match r with
  | Ok (Checked l _) => map pa_id l
  | _ => []
  end.

(** ** Lemmas *)

Definition active_alerts (db : DB) : list PriceAlert :=
  order_desc pa_createdAt (filter (fun a => pa_active a = Some true) (priceAlerts db)).

Lemma checkPriceAlerts_run {W} (db : Lens W DB) clock tz w :
  exists ocp, option_map cp_row ocp = first_max gp_date (goldPrices (view db w)) /\
  checkPriceAlerts db clock tz w =
    (Ok (match ocp with
         | None => NoCurrentPrice
         | Some cp => Checked (triggered_alerts cp (active_alerts (view db w))) cp
         end), w).
Proof.
  destruct (getCurrentGoldPrice_run tz (clock w) (view db w)) as (ocp & Hrun & Hrow).
  exists ocp. split; [done|]. unfold checkPriceAlerts, zoom. st_simpl. rewrite Hrun.
  rewrite update_view. destruct ocp; [|done]. st_simpl. by rewrite update_view.
Qed.

Lemma price_alert_triggered_row cp cp' a :
  cp_row cp = cp_row cp' -> price_alert_triggered cp a = price_alert_triggered cp' a.
Proof. unfold price_alert_triggered. by intros ->. Qed.

Lemma set_lastTriggered_triggered id t cp a :
  price_alert_triggered cp (set_lastTriggered id t a) = price_alert_triggered cp a.
Proof. unfold set_lastTriggered. by case_bool_decide. Qed.

Lemma active_alerts_update id t seq db :
  active_alerts (set_priceAlerts (map (set_lastTriggered id t) (priceAlerts db)) seq db) =
  map (set_lastTriggered id t) (active_alerts db).
Proof.
  unfold active_alerts. simpl. rewrite <- order_desc_map.
  - f_equal. apply filter_map_comm. intros a. unfold set_lastTriggered. by case_bool_decide.
  - intros a. unfold set_lastTriggered. by case_bool_decide.
Qed.

(** ** Properties *)

Lemma parse_float_NVal c : parse_float (NVal c) = JNum (c # 100).
Proof. reflexivity. Qed.

Lemma Qle_bool_cents (t c : Z) : Qle_bool (t # 100) (c # 100) = bool_decide (t <= c).
Proof.
  change (Z.leb (t * 100) (c * 100) = bool_decide (t <= c)).
  destruct (Z.leb_spec (t * 100) (c * 100)); case_bool_decide; done || lia.
Qed.

(** C10: the alert rule of [checkPriceAlerts], on every branch: an alert
    fires exactly when its target and the current price per gram are
    numbers and it is an increase alert with the price at or above the
    target, or a decrease alert with the price at or below it.  Equality
    fires; daily alerts and alerts without a target never fire. *)
Theorem price_alert_triggered_spec cp a :
  price_alert_triggered cp a = true <->
  exists t c, pa_targetPrice a = Some (NVal t) /\ gp_pricePerGram (cp_row cp) = NVal c /\
    ((pa_alertType a = "increase" /\ t <= c) \/ (pa_alertType a = "decrease" /\ c <= t)).
Proof.
  unfold price_alert_triggered, alert_target.
  destruct (String.eqb_spec (pa_alertType a) "daily") as [Hd|Hd].
  { split; [done|]. intros (t & c & _ & _ & [[H _]|[H _]]); rewrite Hd in H; discriminate. }
  destruct (pa_targetPrice a) as [[|t]|], (gp_pricePerGram (cp_row cp)) as [|c]; simpl;
    try (split; [done|]; intros (? & ? & ? & ? & _); discriminate).
  rewrite Qle_bool_cents, (Qle_bool_cents c t).
  destruct (String.eqb_spec (pa_alertType a) "increase") as [Hi|Hi];
    [|destruct (String.eqb_spec (pa_alertType a) "decrease") as [Hde|Hde]].
  - rewrite bool_decide_eq_true. split.
    + intros H. exists t, c. auto.
    + intros (? & ? & [= <-] & [= <-] & [[_ H]|[H _]]); [done|]. by rewrite H in Hi.
  - rewrite bool_decide_eq_true. split.
    + intros H. exists t, c. auto.
    + intros (? & ? & [= <-] & [= <-] & [[H _]|[_ H]]); [by rewrite H in Hi|done].
  - split; [done|]. intros (? & ? & _ & _ & [[H _]|[H _]]); contradiction.
Qed.

Section no_gate.
Context {W : Type} (db : Lens W DB) (clock : W -> Z) (tz : Z).

(** C12: [checkPriceAlerts] has no frequency gate: after an alert's
    [lastTriggered] is set to any time, a later check, at any clock,
    fires exactly the same alerts as before. *)
Theorem checkPriceAlerts_no_frequency_gate w w2 id t :
  view db w2 = snd (updateAlertLastTriggered id t (view db w)) ->
  triggered_ids (fst (checkPriceAlerts db clock tz w2)) =
  triggered_ids (fst (checkPriceAlerts db clock tz w)).
Proof.
  intros Hw2.
  destruct (checkPriceAlerts_run db clock tz w) as (o1 & Hr1 & ->).
  destruct (checkPriceAlerts_run db clock tz w2) as (o2 & Hr2 & ->). simpl.
  rewrite Hw2 in Hr2 |- *. simpl in Hr2. rewrite <- Hr1 in Hr2.
  destruct o1 as [cp1|], o2 as [cp2|]; simpl in *; try discriminate; [|done].
  injection Hr2 as Hrow. rewrite active_alerts_update. unfold triggered_alerts.
  rewrite filter_map_comm.
  - rewrite map_map. unfold set_lastTriggered. erewrite map_ext; [|intros a; by case_bool_decide].
    f_equal. apply list_filter_iff. intros a. by rewrite (price_alert_triggered_row cp2 cp1).
  - intros a. by rewrite set_lastTriggered_triggered.
Qed.
End no_gate.

(** ** Witnesses *)

Definition sample_alert (id : Z) (type : string) (target : option Z) (created : Z) : PriceAlert := {|
  pa_id := id; pa_alertType := type; pa_targetPrice := option_map (fun t => NVal (100 * t)) target;
  pa_whatsappEnabled := Some false; pa_telegramEnabled := Some true; pa_phoneNumber := None;
  pa_telegramChatId := Some "123456789"; pa_active := Some true; pa_createdAt := created;
  pa_lastTriggered := None; pa_dailyTime := None |}.

Definition current_at (ppg : Z) : CurrentPrice := {|
  cp_row := sample_row 1 0 ppg; cp_priceChange := JNum 0; cp_buyPriceChange := JNum 0;
  cp_sellPriceChange := JNum 0 |}.

(** The boundary cases of the specification's section 8. *)
Example increase_boundary_fires :
  price_alert_triggered (current_at 1000000) (sample_alert 1 "increase" (Some 1000000) 0) = true.
Proof. reflexivity. Qed.

Example increase_below_silent :
  price_alert_triggered (current_at 999999) (sample_alert 1 "increase" (Some 1000000) 0) = false.
Proof. reflexivity. Qed.

(** A database with the snapshot of the end-to-end scenario and an
    increase alert at 1,050,000 that it crosses. *)
Definition db_crossed : DB := {|
  goldPrices := [sample_row 1 0 1058000]; priceAlerts := [sample_alert 1 "increase" (Some 1050000) 0];
  notificationLogs := []; investments := []; seq_goldPrices := 2; seq_priceAlerts := 2;
  seq_notificationLogs := 1; seq_investments := 1 |}.

Lemma checkPriceAlerts_no_frequency_gate_witness :
  let w := (db_crossed, 0) in
  let w2 := (snd (updateAlertLastTriggered 1 0 db_crossed), hour_ms) in
  triggered_ids (fst (checkPriceAlerts lens_fst snd 0 w2)) = [1].
Proof.
  intros w w2.
  rewrite (checkPriceAlerts_no_frequency_gate lens_fst snd 0 w w2 1 0 eq_refl).
  vm_compute. reflexivity.
Defined.

End Alerts.
