(* ===== verification/Pegadaian.v ===== *)
(** * The Pegadaian scraper ([src/server/pegadaian-scraper.js])

  The scraper object keeps a 15-minute cache ([lastScrapeTime],
  [lastData]).  The page is modelled by the text of the six cheerio
  selections the parser reads; the remote site by the script of its
  responses ([Prelude.net_next]), with a request counter so that the
  number of network calls can be stated.  [updateGoldPrices] reaches
  the database and the scraper's state through lenses, the clock
  through a function of the global state. *)

From S2P Require Import Prelude Text Schema Storage.

Module Pegadaian.
Import Text Schema Storage.

(** The text of the selections [parseGoldPrices] reads (before [trim]). *)
Record PegPage := {
  pp_dateText : string;          (** [.price-gold-chart .date] *)
  pp_pricePerGramText : string;  (** first [.items-price .data-price] *)
  pp_buyPriceText : string;      (** [.items-price:contains("Harga Beli") .data-price] *)
  pp_sellPriceText : string;     (** [.items-price:contains("Harga Jual") .data-price] *)
  pp_highPriceText : string;     (** [.items-price:contains("Tertinggi") .data-price] *)
  pp_lowPriceText : string       (** [.items-price:contains("Terendah") .data-price] *)
}.

(** The [goldData] object.  A number field that may be [null] is an
    [option Z]; [highPrice]/[lowPrice] are absent ([None]), [null]
    ([Some None]) or a number.  [date] is the page's date text, or
    [None] for [new Date().toISOString()]. *)
Record PegData := {
  pd_date : option string;
  pd_pricePerGram : option Z;
  pd_buyPrice : option Z;
  pd_sellPrice : Q;
  pd_source : string;
  pd_highPrice : option (option Z);
  pd_lowPrice : option (option Z)
}.

(** The fields of the [PegadaianScraper] object and the remote site. *)
Record PegState := {
  lastScrapeTime : option Z;
  lastData : option PegData;
  peg_net : list (result PegPage);
  peg_requests : nat
}.

Definition cache_ttl_ms : Z := 15 * 60 * 1000.

(** [extractNumber] (lines 82-94). *)
Definition extractNumber (text : string) : option Z :=
  match text with
  | EmptyString => None
  | _ => match keep_digits text with
         | EmptyString => None
         | ns => parse_int ns
         end
  end.

(** [a || b] on a number that may be [null]: [0] and [null] are falsy. *)
Definition js_or_num (a b : option Z) : option Z :=
  match a with
  | Some n => if decide (n = 0) then b else Some n
  | None => b
  end.

(** [parseGoldPrices] (lines 37-77).  The sell-price fallback is
    [pricePerGram * 0.915], where a [null] price per gram counts as 0. *)
Definition parseGoldPrices (page : PegPage) : PegData :=
  let ppg := extractNumber (trim (pp_pricePerGramText page)) in
  let buy := js_or_num (extractNumber (trim (pp_buyPriceText page))) ppg in
  let sell :=
    match extractNumber (trim (pp_sellPriceText page)) with
    | Some n => if decide (n = 0) then Qmult (inject_Z (default 0%Z ppg)) (915 # 1000) else inject_Z n
    | None => Qmult (inject_Z (default 0%Z ppg)) (915 # 1000)
    end in
  let high := trim (pp_highPriceText page) in
  let low := trim (pp_lowPriceText page) in
  {| pd_date := match trim (pp_dateText page) with EmptyString => None | d => Some d end;
     pd_pricePerGram := ppg; pd_buyPrice := buy; pd_sellPrice := sell; pd_source := "pegadaian";
     pd_highPrice := match high with EmptyString => None | _ => Some (extractNumber high) end;
     pd_lowPrice := match low with EmptyString => None | _ => Some (extractNumber low) end |}.

Definition set_net (net : list (result PegPage)) (s : PegState) : PegState :=
  {| lastScrapeTime := lastScrapeTime s; lastData := lastData s; peg_net := net;
     peg_requests := S (peg_requests s) |}.

Definition set_cache (t : Z) (d : PegData) (s : PegState) : PegState :=
  {| lastScrapeTime := Some t; lastData := Some d; peg_net := peg_net s;
     peg_requests := peg_requests s |}.

(** [fetchPage] (lines 17-32): one GET request, without a timeout. *)
Definition fetchPage : ST PegState PegPage := fun s =>
  let (r, rest) := net_next (peg_net s) in
  match r with
  | Ok page => (Ok page, set_net rest s)
  | Err m => (Err ("Failed to fetch Pegadaian data: " ++ m), set_net rest s)
  | Hang => (Hang, set_net rest s)
  end.

(** The condition of line 103: a scrape less than 15 minutes old. *)
Definition cache_hit (now : Z) (s : PegState) : bool :=
  match lastScrapeTime s, lastData s with
  | Some t, Some _ => bool_decide (now - t < cache_ttl_ms)
  | _, _ => false
  end.

(** [fetchGoldPrices] (lines 99-122). *)
Definition fetchGoldPrices (now : Z) : ST PegState PegData :=
  s ← get;
  match lastData s with
  | Some d => if cache_hit now s then mret d else
      page ← fetchPage; let d' := parseGoldPrices page in modify (set_cache now d');; mret d'
  | None =>
      page ← fetchPage; let d' := parseGoldPrices page in modify (set_cache now d');; mret d'
  end.

(** The number given to the driver for [highPrice]/[lowPrice]:
    [goldData.highPrice ? goldData.highPrice.toString() : null]. *)
Definition optional_price (v : option (option Z)) : jsval :=
  match v with
  | Some (Some n) => if decide (n = 0) then JNull else JNum (inject_Z n)
  | _ => JNull
  end.

(** The row of [updateGoldPrices] (lines 138-146). *)
Definition peg_insert (now : Z) (d : PegData) (buy ppg : Z) : GoldPriceInsert := {|
  gi_date := now; gi_buyPrice := JNum (inject_Z buy); gi_sellPrice := JNum (pd_sellPrice d);
  gi_pricePerGram := JNum (inject_Z ppg); gi_source := Some (pd_source d);
  gi_highPrice := optional_price (pd_highPrice d); gi_lowPrice := optional_price (pd_lowPrice d) |}.

Section pipeline.
Context {W : Type} (db : Lens W DB) (pg : Lens W PegState) (clock : W -> Z).

(** [updateGoldPrices] (lines 127-155). *)
Definition updateGoldPrices : ST W GoldPrice :=
  now ← gets clock;
  d ← zoom pg (fetchGoldPrices now);
  match pd_buyPrice d, pd_pricePerGram d with
  | Some buy, Some ppg => zoom db (insertGoldPrice (peg_insert now d buy ppg))
  | _, _ => throw "Failed to get valid gold price data"
  end.
End pipeline.

(** ** Lemmas *)

Lemma fetchGoldPrices_hit now s :
  cache_hit now s = true -> exists d, lastData s = Some d /\ fetchGoldPrices now s = (Ok d, s).
Proof.
  intros H. unfold fetchGoldPrices. st_simpl. destruct (lastData s) as [d|] eqn:E.
  - rewrite H. eauto.
  - unfold cache_hit in H. rewrite E in H. by destruct (lastScrapeTime s).
Qed.

(** A cache miss sends exactly one request and caches what it parsed. *)
Definition fetch_fresh (now : Z) (s : PegState) : result PegData * PegState :=
  match net_next (peg_net s) with
  | (Ok page, rest) => (Ok (parseGoldPrices page), set_cache now (parseGoldPrices page) (set_net rest s))
  | (Err m, rest) => (Err ("Failed to fetch Pegadaian data: " ++ m), set_net rest s)
  | (Hang, rest) => (Hang, set_net rest s)
  end.

Lemma fetchGoldPrices_miss now s :
  cache_hit now s = false -> fetchGoldPrices now s = fetch_fresh now s.
Proof.
  unfold fetchGoldPrices, fetch_fresh, fetchPage. st_simpl. intros Hm.
  destruct (lastData s); [rewrite Hm|]; destruct (net_next (peg_net s)) as [[] ?]; reflexivity.
Qed.

Lemma cache_hit_set_cache t now d s :
  cache_hit now (set_cache t d s) = bool_decide (now - t < cache_ttl_ms).
Proof. reflexivity. Qed.

(** ** Properties *)

(** Two fetches of the Pegadaian page within 15 minutes of a fresh
    scrape issue exactly one network request and return the same data;
    once 15 minutes have passed the next fetch misses the cache. *)
Theorem fetchGoldPrices_ttl t1 t2 s d s1 :
  cache_hit t1 s = false -> fetchGoldPrices t1 s = (Ok d, s1) ->
  peg_requests s1 = S (peg_requests s) /\
  (t2 - t1 < cache_ttl_ms -> fetchGoldPrices t2 s1 = (Ok d, s1)) /\
  (cache_ttl_ms <= t2 - t1 -> cache_hit t2 s1 = false).
Proof.
  intros Hm. rewrite fetchGoldPrices_miss by done. unfold fetch_fresh.
  destruct (net_next (peg_net s)) as [[page| |] rest]; intros [= <- <-].
  split; [done|]. split; intros Ht.
  - destruct (fetchGoldPrices_hit t2 (set_cache t1 (parseGoldPrices page) (set_net rest s)))
      as (d & [= <-] & Hd); [by rewrite cache_hit_set_cache, bool_decide_eq_true|done].
  - rewrite cache_hit_set_cache. apply bool_decide_eq_false. lia.
Qed.

Section pipeline_props.
Context {W : Type} (db : Lens W DB) (pg : Lens W PegState) (clock : W -> Z).
Hypothesis Hpd : independent pg db.

Lemma updateGoldPrices_run w :
  updateGoldPrices db pg clock w =
  match fetchGoldPrices (clock w) (view pg w) with
  | (Ok d, t) =>
      match pd_buyPrice d, pd_pricePerGram d with
      | Some buy, Some ppg => zoom db (insertGoldPrice (peg_insert (clock w) d buy ppg)) (update pg t w)
      | _, _ => (Err "Failed to get valid gold price data", update pg t w)
      end
  | (Err e, t) => (Err e, update pg t w)
  | (Hang, t) => (Hang, update pg t w)
  end.
Proof.
  unfold updateGoldPrices. st_simpl. unfold zoom.
  destruct (fetchGoldPrices (clock w) (view pg w)) as [[d| |] t]; [|done|done].
  by destruct (pd_buyPrice d), (pd_pricePerGram d).
Qed.

Lemma invalid_data_throws w t d :
  pd_pricePerGram d = None ->
  match pd_buyPrice d, pd_pricePerGram d with
  | Some buy, Some ppg => zoom db (insertGoldPrice (peg_insert (clock w) d buy ppg)) (update pg t w)
  | _, _ => (Err "Failed to get valid gold price data", update pg t w)
  end = (Err "Failed to get valid gold price data", update pg t w).
Proof. intros ->. by destruct (pd_buyPrice d). Qed.

(** C22: the scraper caches what it parsed before [updateGoldPrices]
    validates it.  When a fresh page yields no price per gram, the
    update throws and stores nothing, and every update in the next 15
    minutes throws the same error from the cache without a request. *)
Theorem updateGoldPrices_caches_invalid w page rest :
  cache_hit (clock w) (view pg w) = false ->
  peg_net (view pg w) = Ok page :: rest ->
  pd_pricePerGram (parseGoldPrices page) = None ->
  let r := updateGoldPrices db pg clock w in
  fst r = Err "Failed to get valid gold price data" /\
  view db (snd r) = view db w /\
  forall w2, view pg w2 = view pg (snd r) -> clock w2 - clock w < cache_ttl_ms ->
    fst (updateGoldPrices db pg clock w2) = Err "Failed to get valid gold price data" /\
    view pg (snd (updateGoldPrices db pg clock w2)) = view pg w2.
Proof.
  intros Hm Hnet Hppg r. unfold r. rewrite updateGoldPrices_run, fetchGoldPrices_miss by done.
  unfold fetch_fresh. rewrite Hnet. cbn [net_next]. rewrite invalid_data_throws by done.
  split; [done|]. split; [apply Hpd|]. intros w2 Hw2 Ht. simpl in Hw2. rewrite view_update in Hw2.
  destruct (fetchGoldPrices_hit (clock w2) (view pg w2)) as (d & Hd & Hrun).
  { rewrite Hw2, cache_hit_set_cache. apply bool_decide_eq_true. lia. }
  rewrite updateGoldPrices_run, Hrun. rewrite Hw2 in Hd. injection Hd as <-.
  rewrite invalid_data_throws by done. simpl. by rewrite update_view.
Qed.
End pipeline_props.

(** ** Witnesses *)

(** The price page as the site renders it, and one whose price-per-gram
    selection is empty. *)
Definition page_ok : PegPage := {|
  pp_dateText := ""; pp_pricePerGramText := " Rp 1.058.000 "; pp_buyPriceText := "Rp 1.058.000";
  pp_sellPriceText := "Rp 967.000"; pp_highPriceText := ""; pp_lowPriceText := "" |}.

Definition page_no_price : PegPage := {|
  pp_dateText := ""; pp_pricePerGramText := ""; pp_buyPriceText := "";
  pp_sellPriceText := ""; pp_highPriceText := ""; pp_lowPriceText := "" |}.

Definition peg_cold (net : list (result PegPage)) : PegState :=
  {| lastScrapeTime := None; lastData := None; peg_net := net; peg_requests := 0 |}.

Lemma fetchGoldPrices_ttl_witness :
  fetchGoldPrices 0 (peg_cold [Ok page_ok]) =
    (Ok (parseGoldPrices page_ok), set_cache 0 (parseGoldPrices page_ok) (set_net [] (peg_cold [Ok page_ok]))) /\
  peg_requests (set_cache 0 (parseGoldPrices page_ok) (set_net [] (peg_cold [Ok page_ok]))) = 1%nat /\
  fetchGoldPrices (10 * 60 * 1000) (set_cache 0 (parseGoldPrices page_ok) (set_net [] (peg_cold [Ok page_ok]))) =
    (Ok (parseGoldPrices page_ok), set_cache 0 (parseGoldPrices page_ok) (set_net [] (peg_cold [Ok page_ok]))).
Proof.
  assert (H1 : cache_hit 0 (peg_cold [Ok page_ok]) = false) by reflexivity.
  assert (H2 : fetchGoldPrices 0 (peg_cold [Ok page_ok]) =
    (Ok (parseGoldPrices page_ok), set_cache 0 (parseGoldPrices page_ok) (set_net [] (peg_cold [Ok page_ok]))))
    by reflexivity.
  destruct (fetchGoldPrices_ttl 0 (10 * 60 * 1000) _ _ _ H1 H2) as (Hr & Hin & _).
  split; [exact H2|]. split; [exact Hr|]. apply Hin. unfold cache_ttl_ms. lia.
Defined.

(** The global state of the witnesses: database, scraper, clock. *)
Definition wdb : Lens ((DB * PegState) * Z) DB := lens_compose lens_fst lens_fst.
Definition wpg : Lens ((DB * PegState) * Z) PegState := lens_compose lens_fst lens_snd.

Lemma wpg_wdb_independent : independent wpg wdb.
Proof. intros ? [[]]. reflexivity. Qed.

Lemma updateGoldPrices_caches_invalid_witness :
  let w := ((empty_db, peg_cold [Ok page_no_price]), 0) in
  fst (updateGoldPrices wdb wpg snd w) = Err "Failed to get valid gold price data" /\
  view wdb (snd (updateGoldPrices wdb wpg snd w)) = empty_db.
Proof.
  intros w.
  destruct (updateGoldPrices_caches_invalid wdb wpg snd wpg_wdb_independent w page_no_price []
              eq_refl eq_refl eq_refl) as (H1 & H2 & _).
  split; [exact H1|exact H2].
Defined.

End Pegadaian.
