(* ===== verification/MetalPrice.v ===== *)
(** * The Metals.live client ([src/server/metal-price-api.js])

  The client converts the USD/troy-ounce spot price of the JSON
  response into IDR per gram with fixed constants, derives buy and sell
  prices with a 3% spread, and keeps a 15-minute cache like the
  Pegadaian scraper.  The JSON response is modelled by what the code
  inspects: whether it is an array, and the [gold] field of each
  element. *)

From S2P Require Import Prelude Schema Storage Alerts.

Module MetalPrice.
Import Schema Storage.

(** [response.data]: not an array, or the [gold] field of each element
    ([None] when absent). *)
Inductive MetalResponse :=
| NotAnArray
| SpotArray (golds : list (option Q)).

(** [formattedData] (lines 51-59); [date] is the clock, [highPrice] and
    [lowPrice] are [null], [source] is 'metals.live'. *)
Record MetalData := {
  md_pricePerGram : Z;
  md_buyPrice : Z;
  md_sellPrice : Z
}.

Record MetalState := {
  lastFetchTime : option Z;
  lastData : option MetalData;
  metal_net : list (result MetalResponse);
  metal_requests : nat
}.

Definition cache_ttl_ms : Z := 15 * 60 * 1000.
Definition USD_TO_IDR : Q := inject_Z 15500.
Definition TROY_OZ_TO_GRAM : Q := 311034768 # 10000000.

(** [item => item.gold]: a number is truthy unless it is 0. *)
Definition truthy_gold (g : option Q) : bool :=
  match g with Some q => negb (Qeq_bool q 0) | None => false end.

(** [response.data.find(item => item.gold)] followed by [goldData.gold]. *)
Fixpoint find_gold (items : list (option Q)) : option Q :=
  match items with
  | [] => None
  | g :: rest => if truthy_gold g then g else find_gold rest
  end.

(** Lines 41-49: the conversion and the spread. *)
Definition convert (priceUSD : Q) : MetalData :=
  let ppg := js_round (priceUSD * USD_TO_IDR / TROY_OZ_TO_GRAM) in
  {| md_pricePerGram := ppg;
     md_buyPrice := js_round (inject_Z ppg * (97 # 100));
     md_sellPrice := js_round (inject_Z ppg * (103 # 100)) |}.

Definition cache_hit (now : Z) (s : MetalState) : bool :=
  match lastFetchTime s, lastData s with
  | Some t, Some _ => bool_decide (now - t < cache_ttl_ms)
  | _, _ => false
  end.

Definition after_request (rest : list (result MetalResponse)) (s : MetalState) : MetalState :=
  {| lastFetchTime := lastFetchTime s; lastData := lastData s; metal_net := rest;
     metal_requests := S (metal_requests s) |}.

Definition set_cache (t : Z) (d : MetalData) (s : MetalState) : MetalState :=
  {| lastFetchTime := Some t; lastData := Some d; metal_net := metal_net s;
     metal_requests := metal_requests s |}.

(** Lines 25-65: the request, the checks of the response, the
    conversion and the cache update. *)
Definition request_spot (now : Z) : ST MetalState MetalData := fun s =>
  let (resp, rest) := net_next (metal_net s) in
  let s1 := after_request rest s in
  match resp with
  | Hang => (Hang, s1)
  | Err m => (Err m, s1)
  | Ok NotAnArray => (Err "Invalid response format from metals API", s1)
  | Ok (SpotArray golds) =>
      match find_gold golds with
      | None => (Err "Gold price not found in the response", s1)
      | Some p => (Ok (convert p), set_cache now (convert p) s1)
      end
  end.

(** [fetchGoldPrice] (lines 14-70); the request has no timeout. *)
Definition fetchGoldPrice (now : Z) : ST MetalState MetalData := fun s =>
  match lastData s with
  | Some d => if cache_hit now s then (Ok d, s) else request_spot now s
  | None => request_spot now s
  end.

Section pipeline.
Context {W : Type} (db : Lens W DB) (mp : Lens W MetalState) (clock : W -> Z).

(** The row of [updateGoldPrice] (lines 86-94). *)
Definition metal_insert (now : Z) (d : MetalData) : GoldPriceInsert := {|
  gi_date := now; gi_buyPrice := JNum (inject_Z (md_buyPrice d));
  gi_sellPrice := JNum (inject_Z (md_sellPrice d));
  gi_pricePerGram := JNum (inject_Z (md_pricePerGram d)); gi_source := Some "metals.live";
  gi_highPrice := JNull; gi_lowPrice := JNull |}.

(** [updateGoldPrice] (lines 75-103): the null checks of line 80 never
    hold for the numbers [fetchGoldPrice] returns. *)
Definition updateGoldPrice : ST W GoldPrice :=
  now ← gets clock;
  d ← zoom mp (fetchGoldPrice now);
  zoom db (insertGoldPrice (metal_insert now d)).

(** [checkPriceAlerts] (lines 108-141) is the same method as the
    Pegadaian scraper's. *)
Definition checkPriceAlerts (tz : Z) : ST W Alerts.CheckResult := Alerts.checkPriceAlerts db clock tz.
End pipeline.

(** ** Properties *)

Lemma spread_rounding (n : Z) :
  17 <= n -> js_round (inject_Z n * (97 # 100)) < js_round (inject_Z n * (103 # 100)).
Proof. intros Hn. qsimpl. zlia. Qed.

(** C32: the Metals.live snapshot has its buy price below its sell price
    (3% under and 3% over the spot price) as soon as the price per gram
    is 17 IDR or more, the opposite of the [buyPrice >= sellPrice]
    invariant the specification requires of every snapshot. *)
Theorem convert_buy_below_sell p :
  17 <= md_pricePerGram (convert p) -> md_buyPrice (convert p) < md_sellPrice (convert p).
Proof. apply spread_rounding. Qed.

(** ** Witnesses *)

Lemma convert_buy_below_sell_witness :
  17 <= md_pricePerGram (convert (inject_Z 2345)) /\
  md_buyPrice (convert (inject_Z 2345)) < md_sellPrice (convert (inject_Z 2345)).
Proof.
  assert (H : 17 <= md_pricePerGram (convert (inject_Z 2345))) by (vm_compute; discriminate).
  split; [exact H|]. apply convert_buy_below_sell, H.
Defined.

End MetalPrice.
