(* ===== verification/Emasku.v ===== *)
(** * The Emasku scraper ([src/server/emasku-scraper.js])

  The scraper reads the first [table.table] of the page row by row,
  looks for the REGULAR section and in it the "1 gr" row, and takes the
  buy and sell prices from its third and fifth cells.  The page is
  modelled as the rows of that table (the text of the row and the texts
  of its [td] cells), [None] when the page has no such table; the site
  as the script of its answers, where a request that does not answer
  within the 15-second timeout is a timeout error.  Numbers are
  JavaScript numbers that may be [NaN] ([None]). *)

From S2P Require Import Prelude Text Schema Storage.

Module Emasku.
Import Text Schema Storage.

Record EmRow := {
  er_text : string;           (** [$(row).text()] *)
  er_cells : list string      (** the text of each [td] *)
}.

(** The first [table.table] of the page, or [None]. *)
Definition EmPage := option (list EmRow).

(** What one [axios.get] with a 15-second timeout yields. *)
Inductive EmAnswer :=
| EmOk (page : EmPage)
| EmTimeout                  (** [error.code === 'ECONNABORTED'] *)
| EmStatus (code : Z)        (** [error.response] *)
| EmNoResponse               (** [error.request] *)
| EmSetup (msg : string).    (** any other error *)

Record EmState := {
  em_net : list EmAnswer;
  em_requests : nat
}.

(** The [priceData] object: buy and sell prices, possibly [NaN]. *)
Record EmData := {
  ed_buyPrice : option Z;
  ed_sellPrice : option Z
}.

(** [fetchPage] (lines 14-48). *)
Definition fetchPage : ST EmState EmPage := fun s =>
  let (a, rest) := match em_net s with [] => (EmNoResponse, []) | a :: r => (a, r) end in
  let s1 := {| em_net := rest; em_requests := S (em_requests s) |} in
  match a with
  | EmOk page => (Ok page, s1)
  | EmTimeout => (Err "Timeout fetching data from Emasku", s1)
  | EmStatus c => (Err ("Server error (" ++ Z_to_string c ++ ") from Emasku"), s1)
  | EmNoResponse => (Err "No response from Emasku", s1)
  | EmSetup m => (Err ("Failed to fetch data from Emasku: " ++ m), s1)
  end.

(** [extractNumber] (lines 145-155):
    [parseInt(text.replace(/[^0-9,.]/g, '').replace(/,/g, ''), 10)]. *)
Definition extractNumber (text : string) : option Z :=
  parse_int (remove_commas (keep_number_chars text)).

(** [x <= 0] on a number that may be [NaN]: false for [NaN]. *)
Definition js_le_zero (x : option Z) : bool :=
  match x with Some n => Z.leb n 0 | None => false end.

Definition nth_text (i : nat) (cells : list string) : string := nth i cells EmptyString.

(** The [each] callback of lines 71-122 over the remaining rows, with
    the [regularPriceFound] flag: the flag and the first price pair, or
    the error thrown by the callback. *)
Fixpoint scan_rows (regular : bool) (rows : list EmRow) : result (bool * option (option Z * option Z)) :=
  match rows with
  | [] => Ok (regular, None)
  | row :: rest =>
      if includes "REGULAR" (trim (er_text row)) then scan_rows true rest
      else if regular && String.eqb (trim (nth_text 0 (er_cells row))) "1 gr" then
        if Nat.leb 5 (length (er_cells row)) then
          let buy := extractNumber (trim (nth_text 2 (er_cells row))) in
          let sell := extractNumber (trim (nth_text 4 (er_cells row))) in
          if js_le_zero buy || js_le_zero sell then Err "Invalid price values from Emasku"
          else Ok (regular, Some (buy, sell))
        else scan_rows regular rest
      else scan_rows regular rest
  end.

Definition parse_error (m : string) : string := "Failed to parse data from Emasku: " ++ m.

(** [parseGoldPrices] (lines 53-140). *)
Definition parseGoldPrices (page : EmPage) : result EmData :=
  match page with
  | None => Err (parse_error "Could not find price table in Emasku website")
  | Some rows =>
      match scan_rows false rows with
      | Err m => Err (parse_error m)
      | Hang => Hang
      | Ok (found, res) =>
          if negb found then Err (parse_error "REGULAR section not found in Emasku table")
          else match res with
               | None => Err (parse_error "No valid gold price data found from Emasku")
               | Some (buy, sell) => Ok {| ed_buyPrice := buy; ed_sellPrice := sell |}
               end
      end
  end.

(** [fetchGoldPrices] (lines 160-168). *)
Definition fetchGoldPrices : ST EmState EmData :=
  page ← fetchPage;
  lift (parseGoldPrices page).

(** A JavaScript number that may be [NaN], handed to the driver. *)
Definition js_number (x : option Z) : jsval :=
  match x with Some n => JNum (inject_Z n) | None => JNaN end.

(** The row of [updateGoldPrices] (lines 182-191); [price], [unit] and
    [currency] are not columns. *)
Definition emasku_insert (now buy : Z) (d : EmData) : GoldPriceInsert := {|
  gi_date := now; gi_buyPrice := JNum (inject_Z buy); gi_sellPrice := js_number (ed_sellPrice d);
  gi_pricePerGram := JNum (inject_Z buy); gi_source := Some "Emasku";
  gi_highPrice := JNull; gi_lowPrice := JNull |}.

Section pipeline.
Context {W : Type} (db : Lens W DB) (em : Lens W EmState) (clock : W -> Z) (tz : Z).

(** [updateGoldPrices] (lines 173-199): [!priceData.buyPrice] rejects a
    [NaN] or zero buy price only. *)
Definition updateGoldPrices : ST W EmData :=
  d ← zoom em fetchGoldPrices;
  match ed_buyPrice d with
  | Some buy =>
      if decide (buy = 0) then throw "Invalid gold price data from Emasku"
      else now ← gets clock; zoom db (insertGoldPrice (emasku_insert now buy d));; mret d
  | None => throw "Invalid gold price data from Emasku"
  end.

(** The local hour of a timestamp ([now.getHours()]). *)
Definition local_hour (t : Z) : Z := ((t + tz) mod day_ms) / hour_ms.

(** [x >= y] and [x <= y] where [x] is [currentPrice.price], a property
    the row does not have ([undefined]): always false. *)
Definition js_ge_undefined (y : jsany) : bool := false.

(** The loop of [checkPriceAlerts] (lines 212-267), one alert at a time. *)
Fixpoint check_loop (now : Z) (alerts : list PriceAlert) : ST W unit :=
  match alerts with
  | [] => mret tt
  | a :: rest =>
      if negb (js_truthy (alert_prop a "isActive")) then check_loop now rest
      else
        (* [hoursDiff < alert.frequency]: [frequency] is [undefined], the
           comparison is false and the alert is never skipped here. *)
        let should : ST W bool :=
          if String.eqb (pa_alertType a) "increase" then mret (js_ge_undefined (alert_prop a "targetPrice"))
          else if String.eqb (pa_alertType a) "decrease" then mret (js_ge_undefined (alert_prop a "targetPrice"))
          else if String.eqb (pa_alertType a) "daily" then
            match pa_dailyTime a with
            | None => throw "Cannot read properties of null (reading 'split')"
            | Some dt =>
                mret (match parse_int (before_colon dt) with
                      | Some h => bool_decide (h = local_hour now)
                      | None => false
                      end)
            end
          else mret false in
        should ≫= fun (b : bool) =>
        if b then
          zoom db (updateAlertLastTriggered (pa_id a) now) ≫= fun _ =>
          zoom db (createNotificationLog now
                     {| li_alertId := Some (pa_id a); li_channel := None; li_message := None;
                        li_status := None; li_errorMessage := None; li_sentAt := Some now |}) ≫= fun _ =>
          check_loop now rest
        else check_loop now rest
  end.

(** [checkPriceAlerts] (lines 204-271): every error is caught and logged. *)
Definition checkPriceAlerts : ST W unit :=
  try_catch
    (now ← gets clock;
     cur ← zoom db (getCurrentGoldPrice tz now);
     match cur with
     | None => mret tt
     | Some _ => alerts ← zoom db getPriceAlerts; check_loop now alerts
     end)
    (fun _ => mret tt).
End pipeline.

(** ** Lemmas *)

Lemma alert_prop_isActive a : alert_prop a "isActive" = JSUndefined.
Proof. reflexivity. Qed.

Section pipeline_props.
Context {W : Type} (db : Lens W DB) (em : Lens W EmState) (clock : W -> Z) (tz : Z).
Hypothesis Hed : independent em db.

Lemma fetch_zoom_ok w page rest :
  em_net (view em w) = EmOk page :: rest ->
  zoom em fetchGoldPrices w =
    (parseGoldPrices page, update em {| em_net := rest; em_requests := S (em_requests (view em w)) |} w).
Proof.
  intros H. unfold zoom, fetchGoldPrices, fetchPage, lift. st_simpl. rewrite H.
  by destruct (parseGoldPrices page).
Qed.

Lemma check_loop_skips now alerts w : check_loop db tz now alerts w = (Ok tt, w).
Proof. induction alerts as [|a rest IH]; [done|]. simpl. rewrite ?alert_prop_isActive. apply IH. Qed.

(** The alert check that the scheduler runs after a successful
    Emasku update tests [alert.isActive], which is not a column of
    [price_alerts]: every alert is skipped, so the check returns
    normally and changes nothing, whatever the alerts and prices. *)
Lemma checkPriceAlerts_inert w : checkPriceAlerts db clock tz w = (Ok tt, w).
Proof.
  unfold checkPriceAlerts. apply run_try_ok. st_simpl.
  destruct (getCurrentGoldPrice_run tz (clock w) (view db w)) as (ocp & Hrun & _).
  rewrite (zoom_read db _ w ocp Hrun). destruct ocp; [|done]. st_simpl.
  rewrite update_view. apply check_loop_skips.
Qed.

(** C33: a sell cell without digits (a dash, an empty cell) parses as
    [NaN], which passes the [<= 0] validation; when the buy price is a
    valid number, [updateGoldPrices] succeeds and the stored snapshot has
    the numeric [NaN] as its sell price. *)
Theorem updateGoldPrices_stores_nan_sell w page rest buy :
  em_net (view em w) = EmOk page :: rest ->
  parseGoldPrices page = Ok {| ed_buyPrice := Some buy; ed_sellPrice := None |} ->
  0 < buy < 10 ^ 8 ->
  exists row, fst (updateGoldPrices db em clock w) = Ok {| ed_buyPrice := Some buy; ed_sellPrice := None |} /\
    goldPrices (view db (snd (updateGoldPrices db em clock w))) = goldPrices (view db w) ++ [row] /\
    gp_sellPrice row = NNaN /\ gp_buyPrice row = NVal (100 * buy).
Proof.
  intros Hnet Hparse Hbuy. unfold updateGoldPrices.
  pose proof (fetch_zoom_ok w page rest Hnet) as Hf. rewrite Hparse in Hf.
  rewrite (run_bind_ok _ _ w _ _ Hf). simpl.
  destruct (decide (buy = 0)); [lia|]. st_simpl. unfold zoom.
  rewrite Hed, insertGoldPrice_run.
  unfold gold_price_row, mbind, result_bind, mret, result_ret. simpl.
  rewrite !to_numeric_notnull_Z by lia. simpl.
  eexists. split; [reflexivity|]. rewrite view_update. simpl. split; [reflexivity|]. done.
Qed.
End pipeline_props.

(** ** Witnesses *)

(** The REGULAR section of the price table, with a dash in the sell
    column of the 1-gram row. *)
Definition page_dash_sell : EmPage := Some [
  {| er_text := " REGULAR "; er_cells := [] |};
  {| er_text := "1 gr Rp. 1,874,000 Rp. -"; er_cells := ["1 gr"; "Rp."; "1,874,000"; "Rp."; "-"] |}].

Definition wdb : Lens ((DB * EmState) * Z) DB := lens_compose lens_fst lens_fst.
Definition wem : Lens ((DB * EmState) * Z) EmState := lens_compose lens_fst lens_snd.

Lemma wem_wdb_independent : independent wem wdb.
Proof. intros ? [[]]. reflexivity. Qed.

Lemma updateGoldPrices_stores_nan_sell_witness :
  let w := ((empty_db, {| em_net := [EmOk page_dash_sell]; em_requests := 0 |}), 0) in
  exists row, goldPrices (view wdb (snd (updateGoldPrices wdb wem snd w))) = [row] /\
              gp_sellPrice row = NNaN.
Proof.
  intros w.
  destruct (updateGoldPrices_stores_nan_sell wdb wem snd wem_wdb_independent w page_dash_sell []
              1874000 eq_refl eq_refl) as (row & _ & Hrows & Hsell & _); [lia|].
  exists row. split; [exact Hrows|exact Hsell].
Defined.

End Emasku.
