(* ===== verification/Notifier.v ===== *)
(** * Notification channels: the interface and the shared formatting

  The scheduler of [routes.ts] talks to the two notifier singletons
  ([telegramNotifier], [whatsAppNotifier]) through the same three
  members: the guard it tests before calling a channel
  ([alert.telegramEnabled && alert.telegramChatId], resp. WhatsApp),
  [sendPriceAlert(alert, currentPrice)] and
  [sendDailySummary(alert, priceData)].  [Notifier] is that interface,
  a record of operations over the global state; the scheduler's
  theorems are proved for any [Notifier], and [Telegram] and [WhatsApp]
  implement it.  Both notifiers format amounts with
  [Intl.NumberFormat('id-ID', ...)], modelled here after the CLDR data
  of the [id] locale (group separator '.', decimal separator ',', the
  currency pattern "Rp" followed by a no-break space). *)

From S2P Require Import Prelude Text Schema Storage.

Module Notifier.
Import Text Schema Storage.

Record Notifier (W : Type) := {
  enabled : PriceAlert -> bool;
  sendPriceAlert : PriceAlert -> CurrentPrice -> ST W bool;
  sendDailySummary : PriceAlert -> option CurrentPrice -> ST W bool
}.
Arguments enabled {W} n a.
Arguments sendPriceAlert {W} n a cp.
Arguments sendDailySummary {W} n a cp.

(** The object passed to [storage.createNotificationLog] by a notifier
    ([sendNotification], [sendMessage]). *)
Definition log_insert (channel msg status : string) (err : option string) (now : Z)
  : NotificationLogInsert := {|
  li_alertId := None; li_channel := Some channel; li_message := Some msg; li_status := Some status;
  li_errorMessage := err; li_sentAt := Some now |}.

(** A string given by its bytes (UTF-8 text of the sources). *)
Fixpoint bytes (l : list nat) : string :=
  match l with [] => EmptyString | b :: r => String (Ascii.ascii_of_nat b) (bytes r) end.

Definition nbsp : string := bytes [194; 160]%nat.
Definition newline : string := bytes [10]%nat.

(** Digits of a non-negative integer grouped by three with '.'. *)
Fixpoint group_rev (ds : list ascii) : list ascii :=
  match ds with
  | a :: b :: c :: (_ :: _) as rest => a :: b :: c :: "." :: group_rev rest
  | _ => ds
  end%char.

Definition group_thousands (n : Z) : string :=
  string_of_list_ascii (rev (group_rev (rev (list_ascii_of_string (Z_to_string n))))).

(** The fraction digits of hundredths with [minimumFractionDigits: 0]:
    trailing zeros are dropped. *)
Definition fraction (h : Z) : string :=
  if Z.eqb h 0 then EmptyString
  else if Z.eqb (h mod 10) 0 then "," ++ Z_to_string (h / 10)
  else if Z.ltb h 10 then ",0" ++ Z_to_string h
  else "," ++ Z_to_string h.

(** [new Intl.NumberFormat('id-ID', { style: 'currency', currency: 'IDR',
    minimumFractionDigits: 0 }).format(v)] for a value of a
    [decimal(10,2)] column. *)
Definition format_idr (v : numeric) : string :=
  match v with
  | NNaN => "Rp" ++ nbsp ++ "NaN"
  | NVal c =>
      (if Z.ltb c 0 then "-" else "") ++ "Rp" ++ nbsp ++
      group_thousands (Z.abs c / 100) ++ fraction (Z.abs c mod 100)
  end.

(** [new Intl.NumberFormat('id-ID', { minimumFractionDigits: 0 }).format(x)]
    for a difference of two prices, in hundredths. *)
Definition format_decimal (c : Z) : string :=
  (if Z.ltb c 0 then "-" else "") ++ group_thousands (Z.abs c / 100) ++ fraction (Z.abs c mod 100).

(** [const priceChange = priceData.priceChange || 0] and the signed text
    of lines 131-134 of telegram-notifier.js: [NaN] and 0 give "+0". *)
Definition price_change_text (v : jsval) : string :=
  match v with
  | JNum q =>
      let c := numeric_round2 q in
      if Z.leb 0 c then "+" ++ format_decimal c else format_decimal c
  | _ => "+0"
  end.

(** The database after one notifier log on channel [ch]. *)
Definition logged (ch : string) (d : DB) (msg status : string) (err : option string) (t : Z) : DB :=
  snd (createNotificationLog t (log_insert ch msg status err t) d).

(** ** Lemmas *)

(** A notifier's log insert has no alert id and its NOT NULL columns
    set: it always succeeds. *)
Lemma log_insert_row d now ch msg st err t :
  notification_log_row d now (log_insert ch msg st err t) =
    Ok {| nl_id := seq_notificationLogs d; nl_alertId := None; nl_channel := ch; nl_message := msg;
          nl_status := st; nl_errorMessage := err; nl_sentAt := t |}.
Proof. reflexivity. Qed.

Lemma logged_logs ch d msg st err t :
  notificationLogs (logged ch d msg st err t) = notificationLogs d ++
    [{| nl_id := seq_notificationLogs d; nl_alertId := None; nl_channel := ch; nl_message := msg;
        nl_status := st; nl_errorMessage := err; nl_sentAt := t |}].
Proof. unfold logged. by rewrite createNotificationLog_run, log_insert_row. Qed.

Lemma logged_alerts ch d msg st err t : priceAlerts (logged ch d msg st err t) = priceAlerts d.
Proof. unfold logged. by rewrite createNotificationLog_run, log_insert_row. Qed.

End Notifier.
