(* ===== verification/Telegram.v ===== *)
(** * The Telegram notifier ([src/server/telegram-notifier.js])

  The notifier holds a bot when [TELEGRAM_BOT_TOKEN] was set at start
  ([tg_bot]).  The Telegram API is the script of the outcomes of the
  successive [bot.sendMessage] calls; [tg_sent] records every message
  handed to it.  Each send logs one notification record, 'sent' or
  'failed'; a price alert or summary whose send succeeded sets the
  alert's [lastTriggered]. *)

From S2P Require Import Prelude Text Schema Storage Alerts Notifier.

Module Telegram.
Import Text Schema Storage Alerts Notifier.

Record TgState := {
  tg_bot : bool;
  tg_net : list (result unit);
  tg_sent : list (string * string)
}.

(** [bot.sendMessage(chatId, message, { parse_mode: 'HTML' })] *)
Definition bot_send (chatId msg : string) : ST TgState unit := fun s =>
  let (r, rest) := net_next (tg_net s) in
  (r, {| tg_bot := tg_bot s; tg_net := rest; tg_sent := tg_sent s ++ [(chatId, msg)] |}).

(** The first bytes of the two message templates, as they are in the
    source file. *)
Definition bell : string := bytes [195; 176; 197; 184; 226; 128; 157; 226; 128; 157]%nat.
Definition chart : string := bytes [195; 176; 197; 184; 226; 128; 156; 197; 160]%nat.

(** Lines 79-83. *)
Definition price_alert_message (alertType formattedPrice : string) : string :=
  if String.eqb alertType "increase" then
    bell ++ " <b>Price Increase Alert</b>" ++ newline ++ newline ++
    "Gold price has increased above your target of " ++ formattedPrice ++ "." ++ newline ++ newline ++
    "Current price: " ++ formattedPrice
  else if String.eqb alertType "decrease" then
    bell ++ " <b>Price Decrease Alert</b>" ++ newline ++ newline ++
    "Gold price has decreased below your target of " ++ formattedPrice ++ "." ++ newline ++ newline ++
    "Current price: " ++ formattedPrice
  else "".

(** Lines 138-142. *)
Definition daily_message (cp : CurrentPrice) : string :=
  chart ++ " <b>Daily Gold Price Summary</b>" ++ newline ++ newline ++
  "Current Price: " ++ format_idr (gp_pricePerGram (cp_row cp)) ++
  " (" ++ price_change_text (cp_priceChange cp) ++ ")" ++ newline ++
  "Buy Price: " ++ format_idr (gp_buyPrice (cp_row cp)) ++ newline ++
  "Sell Price: " ++ format_idr (gp_sellPrice (cp_row cp)) ++ newline ++ newline ++
  "<i>Data source: Pegadaian</i>".

(** [!alert.telegramEnabled || !alert.telegramChatId], negated. *)
Definition telegram_enabled (a : PriceAlert) : bool :=
  truthy_bool (pa_telegramEnabled a) && truthy_text (pa_telegramChatId a).

Section telegram.
Context {W : Type} (db : Lens W DB) (tg : Lens W TgState) (clock : W -> Z).

(** [sendNotification] (lines 21-59). *)
Definition sendNotification (chatId : option string) (message : string) : ST W unit :=
  try_catch
    (s ← gets (view tg);
     if negb (tg_bot s)
     then throw "Telegram Bot not initialized. Check TELEGRAM_BOT_TOKEN environment variable."
     else
       match chatId with
       | Some (String c cs) =>
           zoom tg (bot_send (String c cs) message);;
           now ← gets clock;
           zoom db (createNotificationLog now (log_insert "telegram" message "sent" None now));;
           mret tt
       | _ => throw "Chat ID is required to send a Telegram notification"
       end)
    (fun e =>
       now ← gets clock;
       zoom db (createNotificationLog now (log_insert "telegram" message "failed" (Some e) now));;
       throw e).

(** [sendPriceAlert] (lines 64-99); its [catch] only rethrows. *)
Definition sendPriceAlert (a : PriceAlert) (cp : CurrentPrice) : ST W bool :=
  if negb (telegram_enabled a) then mret false
  else
    let message := price_alert_message (pa_alertType a) (format_idr (gp_pricePerGram (cp_row cp))) in
    match message with
    | EmptyString => mret false
    | _ =>
        sendNotification (pa_telegramChatId a) message;;
        now ← gets clock;
        zoom db (updateAlertLastTriggered (pa_id a) now);;
        mret true
    end.

(** [sendDailySummary] (lines 104-154): [priceData] is [null] when the
    database has no price. *)
Definition sendDailySummary (a : PriceAlert) (pd : option CurrentPrice) : ST W bool :=
  if negb (telegram_enabled a) then mret false
  else
    match pd with
    | None => throw "Cannot read properties of null (reading 'pricePerGram')"
    | Some cp =>
        sendNotification (pa_telegramChatId a) (daily_message cp);;
        now ← gets clock;
        zoom db (updateAlertLastTriggered (pa_id a) now);;
        mret true
    end.

(** The notifier as the scheduler sees it. *)
Definition telegramNotifier : Notifier W := {|
  enabled := telegram_enabled;
  Notifier.sendPriceAlert := sendPriceAlert;
  Notifier.sendDailySummary := sendDailySummary |}.
End telegram.

(** ** Lemmas *)

Lemma telegram_enabled_chat a :
  telegram_enabled a = true -> exists c cs, pa_telegramChatId a = Some (String c cs).
Proof.
  unfold telegram_enabled, truthy_text. intros H. apply andb_true_iff in H as [_ H].
  destruct (pa_telegramChatId a) as [[|c cs]|]; try discriminate. eauto.
Qed.

Section telegram_props.
Context {W : Type} (db : Lens W DB) (tg : Lens W TgState) (clock : W -> Z).
Hypothesis Htd : independent tg db.
Hypothesis Hdt : independent db tg.
Hypothesis Hct : forall t w, clock (update tg t w) = clock w.
Hypothesis Hcd : forall d w, clock (update db d w) = clock w.

(** The state after the bot has been handed [msg] for [chat]. *)
Definition after_send (w : W) (chat msg : string) (rest : list (result unit)) : W :=
  update tg {| tg_bot := tg_bot (view tg w); tg_net := rest;
               tg_sent := tg_sent (view tg w) ++ [(chat, msg)] |} w.

Lemma sendNotification_run w c cs msg r rest :
  tg_bot (view tg w) = true -> tg_net (view tg w) = r :: rest ->
  sendNotification db tg clock (Some (String c cs)) msg w =
    let w1 := after_send w (String c cs) msg rest in
    match r with
    | Ok _ => (Ok tt, update db (logged "telegram" (view db w) msg "sent" None (clock w)) w1)
    | Err e => (Err e, update db (logged "telegram" (view db w) msg "failed" (Some e) (clock w)) w1)
    | Hang => (Hang, w1)
    end.
Proof.
  intros Hbot Hnet. unfold sendNotification, logged, after_send, zoom. st_simpl.
  rewrite Hbot. simpl. unfold bot_send. rewrite Hnet. simpl. destruct r as [[]|e|]; simpl;
    rewrite ?Hct, ?Htd, ?createNotificationLog_run, ?log_insert_row, ?Hbot; reflexivity.
Qed.

(** C14: when the Telegram API rejects the message of a price alert,
    [sendPriceAlert] fails with the API's error after logging one
    'failed' notification carrying that error, and the alert's
    [lastTriggered] is left as it was (the update comes after the send),
    so a later check sees the alert as never triggered. *)
Theorem sendPriceAlert_send_failure w a cp e rest :
  telegram_enabled a = true ->
  pa_alertType a = "increase" \/ pa_alertType a = "decrease" ->
  tg_bot (view tg w) = true -> tg_net (view tg w) = Err e :: rest ->
  fst (sendPriceAlert db tg clock a cp w) = Err e /\
  priceAlerts (view db (snd (sendPriceAlert db tg clock a cp w))) = priceAlerts (view db w) /\
  exists l, notificationLogs (view db (snd (sendPriceAlert db tg clock a cp w)))
              = notificationLogs (view db w) ++ [l] /\
            nl_status l = "failed" /\ nl_errorMessage l = Some e /\ nl_alertId l = None.
Proof.
  intros Hen Htype Hbot Hnet. destruct (telegram_enabled_chat a Hen) as (c & cs & Hchat).
  unfold sendPriceAlert. rewrite Hen. simpl.
  destruct Htype as [-> | ->]; simpl; st_simpl; rewrite Hchat;
    rewrite (sendNotification_run w c cs _ _ rest Hbot Hnet); simpl;
    rewrite view_update; unfold logged; rewrite createNotificationLog_run, log_insert_row;
    simpl; eauto 10.
Qed.

(** C17: when the Telegram API accepts it, [sendPriceAlert] returns
    [true] after handing the bot exactly one message for the alert's
    chat, the template of the alert's type filled with the current price
    per gram in both places (the target price is not shown), logging one
    'sent' notification, and setting [lastTriggered] of that alert, and
    of no other, to the current time. *)
Theorem sendPriceAlert_delivers w a cp chat rest :
  telegram_enabled a = true -> pa_telegramChatId a = Some chat ->
  pa_alertType a = "increase" \/ pa_alertType a = "decrease" ->
  tg_bot (view tg w) = true -> tg_net (view tg w) = Ok tt :: rest ->
  let w' := snd (sendPriceAlert db tg clock a cp w) in
  fst (sendPriceAlert db tg clock a cp w) = Ok true /\
  tg_sent (view tg w') = tg_sent (view tg w) ++
    [(chat, price_alert_message (pa_alertType a) (format_idr (gp_pricePerGram (cp_row cp))))] /\
  priceAlerts (view db w') = map (set_lastTriggered (pa_id a) (clock w)) (priceAlerts (view db w)) /\
  exists l, notificationLogs (view db w') = notificationLogs (view db w) ++ [l] /\
            nl_status l = "sent" /\ nl_channel l = "telegram".
Proof.
  intros Hen Hc Htype Hbot Hnet w'. destruct (telegram_enabled_chat a Hen) as (c & cs & Hchat).
  rewrite Hchat in Hc. injection Hc as <-. subst w'.
  unfold sendPriceAlert. rewrite Hen. simpl.
  destruct Htype as [Ht | Ht]; rewrite Ht; simpl; st_simpl; rewrite Hchat;
    rewrite (sendNotification_run w c cs _ _ rest Hbot Hnet); simpl;
    unfold zoom, after_send, logged; simpl; rewrite ?Hcd, ?Hct, ?view_update, ?update_update, ?Hdt, ?view_update;
    simpl; repeat split; eauto 10.
Qed.

End telegram_props.

(** ** Witnesses *)

Definition wdb : Lens ((DB * TgState) * Z) DB := lens_compose lens_fst lens_fst.
Definition wtg : Lens ((DB * TgState) * Z) TgState := lens_compose lens_fst lens_snd.

Lemma wtg_wdb_independent : independent wtg wdb.
Proof. intros ? [[]]. reflexivity. Qed.
Lemma wdb_wtg_independent : independent wdb wtg.
Proof. intros ? [[]]. reflexivity. Qed.
Lemma snd_update_wtg t (w : (DB * TgState) * Z) : snd (update wtg t w) = snd w.
Proof. by destruct w as [[]]. Qed.
Lemma snd_update_wdb d (w : (DB * TgState) * Z) : snd (update wdb d w) = snd w.
Proof. by destruct w as [[]]. Qed.

#[local] Hint Resolve wtg_wdb_independent wdb_wtg_independent snd_update_wtg snd_update_wdb : core.

Definition tg_world (net : list (result unit)) : (DB * TgState) * Z :=
  ((db_crossed, {| tg_bot := true; tg_net := net; tg_sent := [] |}), 5 * hour_ms).

Lemma sendPriceAlert_send_failure_witness :
  let w := tg_world [Err "ETELEGRAM: 403 Forbidden: bot was blocked by the user"] in
  let a := sample_alert 1 "increase" (Some 1050000) 0 in
  fst (sendPriceAlert wdb wtg snd a (current_at 1058000) w)
    = Err "ETELEGRAM: 403 Forbidden: bot was blocked by the user" /\
  priceAlerts (view wdb (snd (sendPriceAlert wdb wtg snd a (current_at 1058000) w))) = [a].
Proof.
  intros w a.
  destruct (sendPriceAlert_send_failure wdb wtg snd wtg_wdb_independent snd_update_wtg
              w a (current_at 1058000) "ETELEGRAM: 403 Forbidden: bot was blocked by the user" [])
    as (H1 & H2 & _); [reflexivity|left; reflexivity|reflexivity|reflexivity|].
  split; [exact H1|]. rewrite H2. reflexivity.
Defined.

Lemma sendPriceAlert_delivers_witness :
  let w := tg_world [Ok tt] in
  let a := sample_alert 1 "increase" (Some 1050000) 0 in
  fst (sendPriceAlert wdb wtg snd a (current_at 1058000) w) = Ok true /\
  map pa_lastTriggered (priceAlerts (view wdb (snd (sendPriceAlert wdb wtg snd a (current_at 1058000) w))))
    = [Some (5 * hour_ms)].
Proof.
  intros w a.
  destruct (sendPriceAlert_delivers wdb wtg snd wtg_wdb_independent wdb_wtg_independent
              snd_update_wtg snd_update_wdb w a (current_at 1058000) "123456789" [])
    as (H1 & _ & H3 & _); [reflexivity|reflexivity|left; reflexivity|reflexivity|reflexivity|].
  split; [exact H1|]. rewrite H3. reflexivity.
Defined.

End Telegram.
