(* ===== verification/WhatsApp.v ===== *)
(** * The WhatsApp notifier ([src/server/whatsapp-notifier.js])

  The notifier drives a [whatsapp-web.js] client.  Its state is the two
  flags of the class ([clientInitialized], [clientReady]), the number of
  [Client] objects it has created (each one a browser session with its
  own listeners, never destroyed), whether the [initialize()] started by
  the constructor is still in flight, and the scripts of the outcomes of
  the client's [initialize()] and [sendMessage()] calls.  The client's
  own events ('ready', the settling of the constructor's unawaited
  [initialize()]) are the step relation [wa_event]; the notifier's
  methods are state-passing functions. *)

From S2P Require Import Prelude Text Schema Storage Alerts Notifier.

Module WhatsApp.
Import Text Schema Storage Alerts Notifier.

Record WaState := {
  wa_initialized : bool;
  wa_ready : bool;
  wa_clients : nat;
  wa_pending : bool;
  wa_init : list (result unit);
  wa_net : list (result unit);
  wa_sent : list (string * string)
}.

Definition set_flags (init ready : bool) (clients : nat) (pending : bool) (s : WaState) : WaState := {|
  wa_initialized := init; wa_ready := ready; wa_clients := clients; wa_pending := pending;
  wa_init := wa_init s; wa_net := wa_net s; wa_sent := wa_sent s |}.

(** [this.client = new Client(...)], the listeners attached (lines
    21-46), then [this.clientInitialized = true] (line 49). *)
Definition new_client (s : WaState) : WaState :=
  set_flags true (wa_ready s) (S (wa_clients s)) (wa_pending s) s.

(** [await this.client.initialize()] (line 50). *)
Definition client_initialize : ST WaState unit := fun s =>
  let (r, rest) := net_next (wa_init s) in
  (r, {| wa_initialized := wa_initialized s; wa_ready := wa_ready s; wa_clients := wa_clients s;
         wa_pending := wa_pending s; wa_init := rest; wa_net := wa_net s; wa_sent := wa_sent s |}).

(** [initializeClient] (lines 16-55), awaited. *)
Definition initializeClient : ST WaState unit :=
  try_catch
    (s ← get;
     if wa_initialized s then mret tt
     else modify new_client;; client_initialize)
    (fun _ => modify (fun s => set_flags false (wa_ready s) (wa_clients s) (wa_pending s) s)).

(** The constructor (lines 7-11): the flags are cleared and
    [initializeClient()] is called without [await]; its synchronous part
    creates the first client, and its [initialize()] stays in flight. *)
Definition wa_new (init net : list (result unit)) : WaState := {|
  wa_initialized := true; wa_ready := false; wa_clients := 1; wa_pending := true;
  wa_init := init; wa_net := net; wa_sent := [] |}.

(** The client's asynchronous events. *)
Inductive wa_event : WaState -> WaState -> Prop :=
(** the 'ready' listener of any client created so far (lines 35-38) *)
| ev_ready s :
    (0 < wa_clients s)%nat ->
    wa_event s (set_flags (wa_initialized s) true (wa_clients s) (wa_pending s) s)
(** the constructor's [initialize()] resolves *)
| ev_boot_resolve s :
    wa_pending s = true ->
    wa_event s (set_flags (wa_initialized s) (wa_ready s) (wa_clients s) false s)
(** the constructor's [initialize()] rejects: the [catch] of lines 51-54 *)
| ev_boot_reject s :
    wa_pending s = true ->
    wa_event s (set_flags false (wa_ready s) (wa_clients s) false s).

(** [this.client.sendMessage(chatId, message)] (line 78) *)
Definition client_send (chatId msg : string) : ST WaState unit := fun s =>
  let (r, rest) := net_next (wa_net s) in
  (r, {| wa_initialized := wa_initialized s; wa_ready := wa_ready s; wa_clients := wa_clients s;
         wa_pending := wa_pending s; wa_init := wa_init s; wa_net := rest;
         wa_sent := wa_sent s ++ [(chatId, msg)] |}).

(** [`${phoneNumber.replace(/[^0-9]/g, '')}@c.us`] (lines 72-75) *)
Definition chat_id (phone : string) : string := keep_digits phone ++ "@c.us".

Definition bell : string := bytes [240; 159; 148; 148]%nat.
Definition chart : string := bytes [240; 159; 147; 138]%nat.

(** Lines 123-127. *)
Definition price_alert_message (alertType formattedPrice : string) : string :=
  if String.eqb alertType "increase" then
    bell ++ " *Price Increase Alert*" ++ newline ++ newline ++
    "Gold price has increased above your target of " ++ formattedPrice ++ "." ++ newline ++ newline ++
    "Current price: " ++ formattedPrice
  else if String.eqb alertType "decrease" then
    bell ++ " *Price Decrease Alert*" ++ newline ++ newline ++
    "Gold price has decreased below your target of " ++ formattedPrice ++ "." ++ newline ++ newline ++
    "Current price: " ++ formattedPrice
  else "".

(** Lines 182-186. *)
Definition daily_message (cp : CurrentPrice) : string :=
  chart ++ " *Daily Gold Price Summary*" ++ newline ++ newline ++
  "Current Price: " ++ format_idr (gp_pricePerGram (cp_row cp)) ++
  " (" ++ price_change_text (cp_priceChange cp) ++ ")" ++ newline ++
  "Buy Price: " ++ format_idr (gp_buyPrice (cp_row cp)) ++ newline ++
  "Sell Price: " ++ format_idr (gp_sellPrice (cp_row cp)) ++ newline ++ newline ++
  "_Data source: Pegadaian_".

(** [!alert.whatsappEnabled || !alert.phoneNumber], negated. *)
Definition whatsapp_enabled (a : PriceAlert) : bool :=
  truthy_bool (pa_whatsappEnabled a) && truthy_text (pa_phoneNumber a).

Definition not_ready_msg : string :=
  "WhatsApp client not ready. Please scan the QR code to authenticate.".

Section whatsapp.
Context {W : Type} (db : Lens W DB) (wa : Lens W WaState) (clock : W -> Z).

(** [sendMessage] (lines 60-103). *)
Definition sendMessage (phone message : string) : ST W unit :=
  try_catch
    (s ← gets (view wa);
     (if wa_initialized s then mret tt else zoom wa initializeClient);;
     s' ← gets (view wa);
     if negb (wa_ready s') then throw not_ready_msg
     else
       zoom wa (client_send (chat_id phone) message);;
       now ← gets clock;
       zoom db (createNotificationLog now (log_insert "whatsapp" message "sent" None now));;
       mret tt)
    (fun e =>
       now ← gets clock;
       zoom db (createNotificationLog now (log_insert "whatsapp" message "failed" (Some e) now));;
       throw e).

(** [alert.phoneNumber] once the guard has passed. *)
Definition phone_of (a : PriceAlert) : string := default EmptyString (pa_phoneNumber a).

(** [sendPriceAlert] (lines 108-143); its [catch] only rethrows. *)
Definition sendPriceAlert (a : PriceAlert) (cp : CurrentPrice) : ST W bool :=
  if negb (whatsapp_enabled a) then mret false
  else
    let message := price_alert_message (pa_alertType a) (format_idr (gp_pricePerGram (cp_row cp))) in
    match message with
    | EmptyString => mret false
    | _ =>
        sendMessage (phone_of a) message;;
        now ← gets clock;
        zoom db (updateAlertLastTriggered (pa_id a) now);;
        mret true
    end.

(** [sendDailySummary] (lines 148-198). *)
Definition sendDailySummary (a : PriceAlert) (pd : option CurrentPrice) : ST W bool :=
  if negb (whatsapp_enabled a) then mret false
  else
    match pd with
    | None => throw "Cannot read properties of null (reading 'pricePerGram')"
    | Some cp =>
        sendMessage (phone_of a) (daily_message cp);;
        now ← gets clock;
        zoom db (updateAlertLastTriggered (pa_id a) now);;
        mret true
    end.

Definition whatsAppNotifier : Notifier W := {|
  enabled := whatsapp_enabled;
  Notifier.sendPriceAlert := sendPriceAlert;
  Notifier.sendDailySummary := sendDailySummary |}.
End whatsapp.

(** The state after [n] calls of an operation whose results are
    dropped (the scheduler catches each alert's errors). *)
Fixpoint attempts {S} (n : nat) (m : ST S unit) (s : S) : S :=
  match n with O => s | S k => attempts k m (snd (m s)) end.

(** The notifier's own steps and the client's events. *)
Inductive wa_step : WaState -> WaState -> Prop :=
| step_event s s' : wa_event s s' -> wa_step s s'
| step_initialize s : wa_step s (snd (initializeClient s))
| step_send s chat msg : wa_step s (snd (client_send chat msg s)).

Inductive wa_steps : WaState -> WaState -> Prop :=
| steps_refl s : wa_steps s s
| steps_cons s s1 s2 : wa_step s s1 -> wa_steps s1 s2 -> wa_steps s s2.

(** ** Lemmas *)

Lemma whatsapp_enabled_phone a :
  whatsapp_enabled a = true -> exists c cs, pa_phoneNumber a = Some (String c cs).
Proof.
  unfold whatsapp_enabled, truthy_text. intros H. apply andb_true_iff in H as [_ H].
  destruct (pa_phoneNumber a) as [[|c cs]|]; try discriminate. eauto.
Qed.

Lemma wa_step_ready s s' : wa_step s s' -> wa_ready s = true -> wa_ready s' = true.
Proof.
  intros [s0 s1 Hev| s0| s0 chat msg]; [destruct Hev; simpl; done| |].
  - unfold initializeClient, client_initialize, new_client. st_simpl.
    destruct (wa_initialized s0); simpl; [done|]. destruct (net_next _) as [[]]; done.
  - unfold client_send. by destruct (net_next _).
Qed.

Section whatsapp_props.
Context {W : Type} (db : Lens W DB) (wa : Lens W WaState) (clock : W -> Z).
Hypothesis Hwd : independent wa db.
Hypothesis Hdw : independent db wa.
Hypothesis Hcw : forall s w, clock (update wa s w) = clock w.
Hypothesis Hcd : forall d w, clock (update db d w) = clock w.

Lemma sendMessage_not_ready_run w phone msg :
  wa_initialized (view wa w) = true -> wa_ready (view wa w) = false ->
  sendMessage db wa clock phone msg w =
    (Err not_ready_msg, update db (logged "whatsapp" (view db w) msg "failed" (Some not_ready_msg) (clock w)) w).
Proof.
  intros Hi Hr. unfold sendMessage, logged, zoom. st_simpl. rewrite Hi. simpl. rewrite Hr. simpl.
  by rewrite ?createNotificationLog_run, ?log_insert_row.
Qed.

(** The client state after a failed re-initialisation. *)
Definition reinit_failed (s : WaState) (rest : list (result unit)) : WaState := {|
  wa_initialized := false; wa_ready := wa_ready s; wa_clients := S (wa_clients s);
  wa_pending := wa_pending s; wa_init := rest; wa_net := wa_net s; wa_sent := wa_sent s |}.

Lemma sendMessage_reinit_fail_run w phone msg e rest :
  wa_initialized (view wa w) = false -> wa_ready (view wa w) = false ->
  wa_init (view wa w) = Err e :: rest ->
  sendMessage db wa clock phone msg w =
    (Err not_ready_msg, update db (logged "whatsapp" (view db w) msg "failed" (Some not_ready_msg) (clock w))
                          (update wa (reinit_failed (view wa w) rest) w)).
Proof.
  intros Hi Hr Hinit. unfold sendMessage, logged, zoom. st_simpl. rewrite Hi. simpl.
  unfold initializeClient, client_initialize, new_client. st_simpl. rewrite Hi. simpl. rewrite Hinit.
  simpl. rewrite view_update. simpl. rewrite Hr. simpl. rewrite Hcw, Hwd.
  unfold reinit_failed, set_flags. by rewrite Hr.
Qed.

(** A send while the session is initialised but not yet ready
    (the QR code not scanned) fails at once with the "not ready" error:
    nothing is handed to the client, and one 'failed' notification with
    that reason is logged. *)
Theorem sendMessage_not_ready w phone msg :
  wa_initialized (view wa w) = true -> wa_ready (view wa w) = false ->
  fst (sendMessage db wa clock phone msg w) = Err not_ready_msg /\
  view wa (snd (sendMessage db wa clock phone msg w)) = view wa w /\
  notificationLogs (view db (snd (sendMessage db wa clock phone msg w))) =
    notificationLogs (view db w) ++
      [{| nl_id := seq_notificationLogs (view db w); nl_alertId := None; nl_channel := "whatsapp";
          nl_message := msg; nl_status := "failed"; nl_errorMessage := Some not_ready_msg;
          nl_sentAt := clock w |}].
Proof.
  intros Hi Hr. rewrite (sendMessage_not_ready_run w phone msg Hi Hr). simpl.
  rewrite Hdw, view_update, logged_logs. done.
Qed.

(** C23: when the client is not initialised (the constructor's
    [initialize()] has failed), [sendMessage] awaits a fresh
    [initialize()] before testing readiness; if that call never
    settles, the send never returns and logs nothing, instead of
    failing at once as not ready. *)
Theorem sendMessage_blocks_uninitialized w phone msg rest :
  wa_initialized (view wa w) = false -> wa_init (view wa w) = Hang :: rest ->
  fst (sendMessage db wa clock phone msg w) = Hang /\
  view db (snd (sendMessage db wa clock phone msg w)) = view db w.
Proof.
  intros Hi Hinit. unfold sendMessage, zoom. st_simpl. rewrite Hi. simpl.
  unfold initializeClient, client_initialize, new_client. st_simpl. rewrite Hi. simpl.
  rewrite Hinit. simpl. by rewrite Hwd.
Qed.

(** C24: while the session is not ready and re-initialisation keeps
    failing, every send creates one more [Client] (a browser session
    with its listeners, never destroyed) and leaves the notifier
    uninitialised: [n] sends create [n] clients, transmit nothing, and
    log [n] failures. *)
Theorem sendMessage_leaks_clients n w phone msg e rest :
  wa_initialized (view wa w) = false -> wa_ready (view wa w) = false ->
  wa_init (view wa w) = repeat (Err e) n ++ rest ->
  let w' := attempts n (sendMessage db wa clock phone msg) w in
  wa_clients (view wa w') = (wa_clients (view wa w) + n)%nat /\
  wa_initialized (view wa w') = false /\ wa_sent (view wa w') = wa_sent (view wa w) /\
  length (notificationLogs (view db w')) = (length (notificationLogs (view db w)) + n)%nat.
Proof.
  revert w. induction n as [|n IH]; intros w Hi Hr Hinit; cbn [attempts]; [rewrite !Nat.add_0_r; done|].
  rewrite (sendMessage_reinit_fail_run w phone msg e (repeat (Err e) n ++ rest) Hi Hr Hinit). cbn [snd].
  destruct (IH (update db (logged "whatsapp" (view db w) msg "failed" (Some not_ready_msg) (clock w))
                 (update wa (reinit_failed (view wa w) (repeat (Err e) n ++ rest)) w)))
    as (H1 & H2 & H3 & H4); rewrite ?Hdw, ?view_update; try done.
  rewrite H1, H3, H4, ?Hdw, ?view_update, ?logged_logs, ?length_app. simpl. split_and!; lia || done.
Qed.

End whatsapp_props.

(** C25: no step of the client or of the notifier ever clears
    [clientReady]: the notifier has no 'disconnected' listener, so a
    session lost after pairing is still treated as ready. *)
Theorem wa_steps_ready s s' : wa_steps s s' -> wa_ready s = true -> wa_ready s' = true.
Proof. induction 1; eauto using wa_step_ready. Qed.

(** ** Witnesses *)

Definition wdb : Lens ((DB * WaState) * Z) DB := lens_compose lens_fst lens_fst.
Definition wwa : Lens ((DB * WaState) * Z) WaState := lens_compose lens_fst lens_snd.

Lemma wwa_wdb_independent : independent wwa wdb.
Proof. intros ? [[]]. reflexivity. Qed.
Lemma wdb_wwa_independent : independent wdb wwa.
Proof. intros ? [[]]. reflexivity. Qed.
Lemma snd_update_wwa t (w : (DB * WaState) * Z) : snd (update wwa t w) = snd w.
Proof. by destruct w as [[]]. Qed.
Lemma snd_update_wdb_wa d (w : (DB * WaState) * Z) : snd (update wdb d w) = snd w.
Proof. by destruct w as [[]]. Qed.

#[local] Hint Resolve wwa_wdb_independent wdb_wwa_independent snd_update_wwa snd_update_wdb_wa : core.

(** Right after start: the first client initialising, not yet paired. *)
Definition w_booting : (DB * WaState) * Z := ((db_crossed, wa_new [] []), 0).

Lemma sendMessage_not_ready_witness :
  fst (sendMessage wdb wwa snd "+62 812-3456-7890" "hi" w_booting) = Err not_ready_msg /\
  view wwa (snd (sendMessage wdb wwa snd "+62 812-3456-7890" "hi" w_booting)) = view wwa w_booting /\
  length (notificationLogs (view wdb (snd (sendMessage wdb wwa snd "+62 812-3456-7890" "hi" w_booting)))) = 1%nat.
Proof.
  destruct (sendMessage_not_ready wdb wwa snd wdb_wwa_independent w_booting "+62 812-3456-7890" "hi")
    as (H1 & H2 & H3); [reflexivity|reflexivity|].
  split_and!; [exact H1|exact H2|]. rewrite H3. reflexivity.
Defined.

(** After the constructor's [initialize()] has failed: the next
    [initialize()] launches a browser that never answers. *)
Definition wa_boot_failed (init : list (result unit)) : WaState :=
  set_flags false false 1 false (wa_new init []).

Lemma sendMessage_blocks_uninitialized_witness :
  let w := ((db_crossed, wa_boot_failed [Hang]), 0) in
  fst (sendMessage wdb wwa snd "+62 812-3456-7890" "hi" w) = Hang.
Proof.
  intros w. eapply proj1, (sendMessage_blocks_uninitialized wdb wwa snd); auto.
Defined.

Lemma sendMessage_leaks_clients_witness :
  let w := ((db_crossed, wa_boot_failed (repeat (Err "Failed to launch the browser process") 3)), 0) in
  wa_clients (view wwa (attempts 3 (sendMessage wdb wwa snd "+62 812-3456-7890" "hi") w)) = 4%nat.
Proof.
  intros w. eapply proj1, (sendMessage_leaks_clients wdb wwa snd); auto.
Defined.

(** Paired, then the constructor's [initialize()] rejects and a later
    send re-initialises: the session still counts as ready. *)
Definition wa_paired : WaState := set_flags true true 1 true (wa_new [] []).

Lemma wa_steps_ready_witness :
  wa_ready (snd (initializeClient (set_flags false true 1 false wa_paired))) = true.
Proof.
  apply (wa_steps_ready wa_paired); [|reflexivity].
  eapply steps_cons; [apply step_event, ev_boot_reject; reflexivity|].
  eapply steps_cons; [apply step_initialize|]. apply steps_refl.
Defined.

End WhatsApp.
