(* ===== verification/Scheduler.v ===== *)
(** * The scheduler and the current-price handler ([src/server/routes.ts])

  [registerRoutes] runs a first price update at start (lines 20-40),
  schedules an hourly price update with alert notifications (lines
  43-113) and an hourly daily-summary job (lines 116-156), and serves
  [GET /api/gold-prices/current] (lines 163-239).  All of them are
  written here against [Backends], the record of the operations they
  call on the three price sources and the two notifiers, so that the
  theorems of this file hold for any implementation of those
  operations; [App] instantiates it with the real components. *)

From S2P Require Import Prelude Text Schema Storage Alerts Notifier Emasku.

Module Scheduler.
Import Text Schema Storage Alerts Notifier.

(** What [routes.ts] calls on the sources and the notifiers.  The
    results of the update methods are not used by the routes. *)
Record Backends (W : Type) := {
  emasku_update : ST W unit;
  emasku_check : ST W unit;
  peg_update : ST W unit;
  peg_check : ST W CheckResult;
  metal_update : ST W unit;
  metal_check : ST W CheckResult;
  telegram : Notifier W;
  whatsapp : Notifier W
}.
Arguments emasku_update {W} b.
Arguments emasku_check {W} b.
Arguments peg_update {W} b.
Arguments peg_check {W} b.
Arguments metal_update {W} b.
Arguments metal_check {W} b.
Arguments telegram {W} b.
Arguments whatsapp {W} b.

(** The reply of the current-price handler. *)
Inductive Response :=
| RJson (cp : CurrentPrice)
| RStatus (code : Z) (message : string).

(** [currentHour < 10 ? `0${currentHour}:00` : `${currentHour}:00`] *)
Definition hour_str (h : Z) : string :=
  if Z.ltb h 10 then "0" ++ Z_to_string h ++ ":00" else Z_to_string h ++ ":00".

(** The filter of lines 124-128. *)
Definition is_daily_for (hs : string) (a : PriceAlert) : bool :=
  String.eqb (pa_alertType a) "daily" &&
  match pa_dailyTime a with
  | Some (String _ _ as dt) => starts_with (slice0 2 hs) dt
  | _ => false
  end.

(** The hour as two digits, zero-padded. *)
Definition pad2 (h : Z) : string := if Z.ltb h 10 then "0" ++ Z_to_string h else Z_to_string h.

(** [req.query.refresh === 'true'] and the staleness test of line 172. *)
Definition needs_fetch (now : Z) (cur : option CurrentPrice) (refresh : bool) : bool :=
  match cur with
  | None => true
  | Some c => bool_decide (now - gp_date (cp_row c) > 3 * 60 * 60 * 1000) || refresh
  end.

Section routes.
Context {W : Type} (b : Backends W) (db : Lens W DB) (clock : W -> Z) (tz : Z).

(** [await storage.getCurrentGoldPrice()] *)
Definition read_current : ST W (option CurrentPrice) :=
  now ← gets clock; zoom db (getCurrentGoldPrice tz now).

(** The start-up update (lines 20-40). *)
Definition startup : ST W unit :=
  try_catch
    (try_catch (emasku_update b)
       (fun _ => try_catch (peg_update b) (fun _ => metal_update b)))
    (fun _ => mret tt).

(** The body of the notification loops (lines 68-80 and 94-106): both
    channels inside one [try]. *)
Definition notify_alert (cp : CurrentPrice) (a : PriceAlert) : ST W unit :=
  try_catch
    ((if enabled (telegram b) a then sendPriceAlert (telegram b) a cp;; mret tt else mret tt);;
     (if enabled (whatsapp b) a then sendPriceAlert (whatsapp b) a cp;; mret tt else mret tt))
    (fun _ => mret tt).

Fixpoint notify_loop (cp : CurrentPrice) (alerts : list PriceAlert) : ST W unit :=
  match alerts with
  | [] => mret tt
  | a :: rest => notify_alert cp a;; notify_loop cp rest
  end.

(** [const { triggeredAlerts, currentPrice } = await ...checkPriceAlerts()]
    and the loop: when there is no price the method returns [[]] and the
    [for ... of] of [undefined] throws. *)
Definition dispatch (r : CheckResult) : ST W unit :=
  match r with
  | NoCurrentPrice => throw "triggeredAlerts is not iterable"
  | Checked alerts cp => notify_loop cp alerts
  end.

(** The hourly price job (lines 43-113). *)
Definition hourly_tick : ST W unit :=
  try_catch
    (try_catch (emasku_update b;; emasku_check b)
       (fun _ =>
          try_catch (peg_update b;; r ← peg_check b; dispatch r)
            (fun _ => metal_update b;; r ← metal_check b; dispatch r)))
    (fun _ => mret tt).

Fixpoint daily_loop (cp : option CurrentPrice) (alerts : list PriceAlert) : ST W unit :=
  match alerts with
  | [] => mret tt
  | a :: rest =>
      try_catch
        ((if enabled (telegram b) a then sendDailySummary (telegram b) a cp;; mret tt else mret tt);;
         (if enabled (whatsapp b) a then sendDailySummary (whatsapp b) a cp;; mret tt else mret tt))
        (fun _ => mret tt);;
      daily_loop cp rest
  end.

(** The daily-summary job (lines 116-156). *)
Definition daily_tick : ST W unit :=
  try_catch
    (now ← gets clock;
     let hs := hour_str (Emasku.local_hour tz now) in
     alerts ← zoom db getPriceAlerts;
     match filter (fun a => is_daily_for hs a = true) alerts with
     | [] => mret tt
     | daily => cp ← read_current; daily_loop cp daily
     end)
    (fun _ => mret tt).

(** One source update followed by a fresh read, its error message
    prefixed as in lines 180-203. *)
Definition fetch_from (prefix : string) (update : ST W unit) : ST W (option CurrentPrice) :=
  try_catch (update;; read_current) (fun e => throw (prefix ++ e)).

(** The branch of an explicitly requested source (lines 174-203). *)
Definition explicit_source (source : option string) : option (ST W (option CurrentPrice)) :=
  match source with
  | Some s =>
      if String.eqb s "emasku" then Some (fetch_from "Failed to fetch from Emasku: " (emasku_update b))
      else if String.eqb s "pegadaian" then Some (fetch_from "Failed to fetch from Pegadaian: " (peg_update b))
      else if String.eqb s "metals" then Some (fetch_from "Failed to fetch from Metals.live: " (metal_update b))
      else None
  | None => None
  end.

(** The fetch of lines 172-227: the requested source, or the three
    sources in turn. *)
Definition refetch_current (source : option string) : ST W (option CurrentPrice) :=
  match explicit_source source with
  | Some m => m
  | None =>
      try_catch (emasku_update b;; read_current)
        (fun _ => try_catch (peg_update b;; read_current)
                    (fun _ => metal_update b;; read_current))
  end.

(** [GET /api/gold-prices/current] (lines 163-239). *)
Definition getCurrent (refresh : bool) (source : option string) : ST W Response :=
  try_catch
    (cur ← read_current;
     now ← gets clock;
     cur' ← (if needs_fetch now cur refresh then refetch_current source else mret cur);
     match cur' with
     | None => mret (RStatus 404 "No gold price data available")
     | Some c => mret (RJson c)
     end)
    (fun _ => mret (RStatus 500 "Error fetching current gold price")).
End routes.

(** ** Lemmas *)

Lemma try_catch_swallow {S A} (m : ST S A) (a : A) s e s' :
  m s = (Err e, s') -> try_catch m (fun _ => mret a) s = (Ok a, s').
Proof. intros H. by rewrite (run_try_err _ _ _ _ _ H). Qed.

(** Case analysis over the 24 hours of a day: one goal per hour. *)
Ltac hour_cases h :=
  replace h with (Z.of_nat (Z.to_nat h)) by lia;
  let n := fresh "n" in
  assert (Hn : (Z.to_nat h < 24)%nat) by lia; revert Hn; generalize (Z.to_nat h) as n; intros n Hn;
  do 24 (destruct n as [|n]; [shelve|]); lia.

Lemma slice_hour_str h : 0 <= h < 24 -> slice0 2 (hour_str h) = pad2 h.
Proof. intros Hh. hour_cases h. Unshelve. all: reflexivity. Qed.

Lemma pad2_nonempty h : 0 <= h < 24 -> exists c s, pad2 h = String c s.
Proof. intros Hh. hour_cases h. Unshelve. all: eexists _, _; reflexivity. Qed.

Lemma local_hour_bounds tz t : 0 <= Emasku.local_hour tz t < 24.
Proof. unfold Emasku.local_hour, day_ms, hour_ms. zlia. Qed.

Section routes_props.
Context {W : Type} (b : Backends W) (db : Lens W DB) (clock : W -> Z) (tz : Z).

(** C13: the two channels of an alert share one [try]: when Telegram is
    enabled for the alert and its send throws, the error is swallowed
    and the WhatsApp send is never attempted, whatever WhatsApp's
    settings; the state is the one Telegram's failure left. *)
Theorem notify_alert_telegram_failure_skips_whatsapp cp a w e w1 :
  enabled (telegram b) a = true ->
  sendPriceAlert (telegram b) a cp w = (Err e, w1) ->
  notify_alert b cp a w = (Ok tt, w1).
Proof.
  intros Hen Hsend. unfold notify_alert. apply try_catch_swallow with e.
  rewrite Hen. apply run_bind_err, run_bind_err, Hsend.
Qed.

(** C19: the sources are tried in sequence with no timeout around them:
    when Emasku fails and the Pegadaian update never settles, the hourly
    job never settles either and the Metals.live fallback is never
    run. *)
Theorem hourly_tick_peg_hang w e w1 w2 :
  emasku_update b w = (Err e, w1) -> peg_update b w1 = (Hang, w2) ->
  hourly_tick b w = (Hang, w2).
Proof.
  intros Hem Hpeg. unfold hourly_tick. apply run_try_hang.
  rewrite (run_try_err _ _ _ _ _ (run_bind_err _ _ _ _ _ Hem)).
  apply run_try_hang, run_bind_hang, Hpeg.
Qed.

(** The current-price handler answers from the database, without
    calling any source, when the newest snapshot is at most three hours
    old and no refresh is requested. *)
Theorem getCurrent_fresh_no_fetch w c source :
  read_current db clock tz w = (Ok (Some c), w) ->
  clock w - gp_date (cp_row c) <= 3 * 60 * 60 * 1000 ->
  getCurrent b db clock tz false source w = (Ok (RJson c), w).
Proof.
  intros Hread Hage. unfold getCurrent. apply run_try_ok.
  rewrite (run_bind_ok _ _ _ _ _ Hread). st_simpl. unfold needs_fetch.
  rewrite bool_decide_eq_false_2 by lia. reflexivity.
Qed.
End routes_props.

(** The daily-summary job selects an alert at local hour [h] exactly
    when it is a daily alert whose [dailyTime] begins with [h] as two
    zero-padded digits: the minutes are ignored ('20:45' is sent in the
    20:00 run) and a time written without the leading zero ('8:00')
    never matches. *)
Theorem is_daily_for_hour h a :
  0 <= h < 24 ->
  is_daily_for (hour_str h) a = true <->
  pa_alertType a = "daily" /\ exists rest, pa_dailyTime a = Some (pad2 h ++ rest)%string.
Proof.
  intros Hh. unfold is_daily_for. rewrite andb_true_iff, String.eqb_eq, slice_hour_str by done.
  destruct (pad2_nonempty h Hh) as (c0 & s0 & Hp).
  destruct (pa_dailyTime a) as [[|c dt]|].
  - split; [by intros [_ ?]|]. intros [_ [r Hr]]. rewrite Hp in Hr. discriminate.
  - rewrite starts_with_spec. split; intros [? [r Hr]]; split; eauto; exists r; congruence.
  - split; [by intros [_ ?]|]. intros [_ [r Hr]]. discriminate.
Qed.

Section termination.
Context {W : Type} (b : Backends W) (db : Lens W DB) (clock : W -> Z) (tz : Z).
(** Every call of the jobs to a source or a notifier answers: no
    request waits for a server that never replies. *)
Hypothesis Hemu : settles (emasku_update b).
Hypothesis Hemc : settles (emasku_check b).
Hypothesis Hpu : settles (peg_update b).
Hypothesis Hpc : settles (peg_check b).
Hypothesis Hmu : settles (metal_update b).
Hypothesis Hmc : settles (metal_check b).
Hypothesis Htg : forall a cp, settles (sendPriceAlert (telegram b) a cp).
Hypothesis Hwa : forall a cp, settles (sendPriceAlert (whatsapp b) a cp).
Hypothesis Htgd : forall a cp, settles (sendDailySummary (telegram b) a cp).
Hypothesis Hwad : forall a cp, settles (sendDailySummary (whatsapp b) a cp).

Lemma notify_loop_settles cp alerts : settles (notify_loop b cp alerts).
Proof.
  induction alerts as [|a rest IH]; simpl; [apply settles_ret|].
  apply settles_bind; [|intros; exact IH]. unfold notify_alert. settle_solve.
Qed.

Lemma dispatch_settles r : settles (dispatch b r).
Proof. destruct r; simpl; [apply settles_throw|apply notify_loop_settles]. Qed.

Lemma daily_loop_settles cp alerts : settles (daily_loop b cp alerts).
Proof.
  induction alerts as [|a rest IH]; simpl; [apply settles_ret|].
  apply settles_bind; [|intros; exact IH]. settle_solve.
Qed.
End termination.

#[export] Hint Resolve dispatch_settles : settle.

(** C20: when every source and notifier call answers, the hourly job
    completes: its fallback chain and its alert loop end, and its outer
    [try] swallows every exception, so the cron callback returns. *)
Theorem hourly_tick_completes {W} (b : Backends W) w :
  settles (emasku_update b) -> settles (emasku_check b) -> settles (peg_update b) ->
  settles (peg_check b) -> settles (metal_update b) -> settles (metal_check b) ->
  (forall a cp, settles (sendPriceAlert (telegram b) a cp)) ->
  (forall a cp, settles (sendPriceAlert (whatsapp b) a cp)) ->
  exists w', hourly_tick b w = (Ok tt, w').
Proof.
  intros Hemu Hemc Hpu Hpc Hmu Hmc Htg Hwa.
  destruct (try_swallow_ok (try_catch (emasku_update b;; emasku_check b) (fun _ =>
     try_catch (peg_update b;; r ← peg_check b; dispatch b r) (fun _ => metal_update b;; r ← metal_check b; dispatch b r)))
     tt w) as ([] & w' & H).
  - settle_solve; apply dispatch_settles; auto.
  - exists w'. exact H.
Qed.

(** The daily-summary job completes when every notifier call answers. *)
Theorem daily_tick_completes {W} (b : Backends W) (db : Lens W DB) clock tz w :
  (forall a cp, settles (sendDailySummary (telegram b) a cp)) ->
  (forall a cp, settles (sendDailySummary (whatsapp b) a cp)) ->
  exists w', daily_tick b db clock tz w = (Ok tt, w').
Proof.
  intros Htg Hwa. destruct (try_swallow_ok (A:=unit) (now ← gets clock;
     let hs := hour_str (Emasku.local_hour tz now) in
     alerts ← zoom db getPriceAlerts;
     match filter (fun a => is_daily_for hs a = true) alerts with
     | [] => mret tt
     | daily => cp ← read_current db clock tz; daily_loop b cp daily
     end) tt w) as ([] & w' & H).
  - settle_solve; unfold read_current; settle_solve. apply daily_loop_settles; auto.
  - exists w'. exact H.
Qed.

(** ** Witnesses *)

(** Backends whose sources fail at once and whose notifiers send
    nothing. *)
Definition failing_backends : Backends unit := {|
  emasku_update := throw "getaddrinfo ENOTFOUND"; emasku_check := mret tt;
  peg_update := throw "getaddrinfo ENOTFOUND"; peg_check := mret NoCurrentPrice;
  metal_update := throw "getaddrinfo ENOTFOUND"; metal_check := mret NoCurrentPrice;
  telegram := {| enabled := fun _ => false; Notifier.sendPriceAlert := fun _ _ => mret false;
                 Notifier.sendDailySummary := fun _ _ => mret false |};
  whatsapp := {| enabled := fun _ => false; Notifier.sendPriceAlert := fun _ _ => mret false;
                 Notifier.sendDailySummary := fun _ _ => mret false |} |}.

Lemma hourly_tick_completes_witness : exists w', hourly_tick failing_backends tt = (Ok tt, w').
Proof.
  apply (hourly_tick_completes failing_backends tt);
    cbn [emasku_update emasku_check peg_update peg_check metal_update metal_check telegram whatsapp
         failing_backends Notifier.sendPriceAlert]; try (intros ? ?; apply settles_ret); eauto with settle.
Defined.

End Scheduler.
