(* ===== verification/App.v ===== *)
(** * The server as a whole: the singletons wired into the scheduler

  The module-level singletons of the server (the database, the three
  price sources, the two notifiers) and the clock form the [World];
  each component reaches its part through a lens, and [backends] is
  the [Scheduler.Backends] record of [routes.ts]'s calls on the real
  components.  The theorems follow one hourly job or one request through
  all of them. *)

From S2P Require Import Prelude Text Schema Storage Alerts Notifier Pegadaian MetalPrice Emasku Telegram WhatsApp Scheduler.

Module App.
Import Schema Storage Alerts Notifier Scheduler.

Record World := {
  w_db : DB;
  w_em : Emasku.EmState;
  w_pg : Pegadaian.PegState;
  w_mp : MetalPrice.MetalState;
  w_tg : Telegram.TgState;
  w_wa : WhatsApp.WaState;
  w_clock : Z
}.

Ltac lens_laws := first [intros ? [] | intros [] | intros ? ? []]; reflexivity.

Definition ldb : Lens World DB.
Proof.
  refine {| view := w_db; update := fun x w => {| w_db := x; w_em := w_em w; w_pg := w_pg w;
    w_mp := w_mp w; w_tg := w_tg w; w_wa := w_wa w; w_clock := w_clock w |} |}; lens_laws.
Defined.
Definition lem : Lens World Emasku.EmState.
Proof.
  refine {| view := w_em; update := fun x w => {| w_db := w_db w; w_em := x; w_pg := w_pg w;
    w_mp := w_mp w; w_tg := w_tg w; w_wa := w_wa w; w_clock := w_clock w |} |}; lens_laws.
Defined.
Definition lpg : Lens World Pegadaian.PegState.
Proof.
  refine {| view := w_pg; update := fun x w => {| w_db := w_db w; w_em := w_em w; w_pg := x;
    w_mp := w_mp w; w_tg := w_tg w; w_wa := w_wa w; w_clock := w_clock w |} |}; lens_laws.
Defined.
Definition lmp : Lens World MetalPrice.MetalState.
Proof.
  refine {| view := w_mp; update := fun x w => {| w_db := w_db w; w_em := w_em w; w_pg := w_pg w;
    w_mp := x; w_tg := w_tg w; w_wa := w_wa w; w_clock := w_clock w |} |}; lens_laws.
Defined.
Definition ltg : Lens World Telegram.TgState.
Proof.
  refine {| view := w_tg; update := fun x w => {| w_db := w_db w; w_em := w_em w; w_pg := w_pg w;
    w_mp := w_mp w; w_tg := x; w_wa := w_wa w; w_clock := w_clock w |} |}; lens_laws.
Defined.
Definition lwa : Lens World WhatsApp.WaState.
Proof.
  refine {| view := w_wa; update := fun x w => {| w_db := w_db w; w_em := w_em w; w_pg := w_pg w;
    w_mp := w_mp w; w_tg := w_tg w; w_wa := x; w_clock := w_clock w |} |}; lens_laws.
Defined.

Section wiring.
Variable tz : Z.

(** The calls of [routes.ts] on the singletons. *)
Definition backends : Backends World := {|
  emasku_update := Emasku.updateGoldPrices ldb lem w_clock;; mret tt;
  emasku_check := Emasku.checkPriceAlerts ldb w_clock tz;
  peg_update := Pegadaian.updateGoldPrices ldb lpg w_clock;; mret tt;
  peg_check := Alerts.checkPriceAlerts ldb w_clock tz;
  metal_update := MetalPrice.updateGoldPrice ldb lmp w_clock;; mret tt;
  metal_check := MetalPrice.checkPriceAlerts ldb w_clock tz;
  telegram := Telegram.telegramNotifier ldb ltg w_clock;
  whatsapp := WhatsApp.whatsAppNotifier ldb lwa w_clock |}.

Definition hourly (w : World) : result unit * World := hourly_tick backends w.
Definition current (refresh : bool) (source : option string) (w : World) : result Response * World :=
  getCurrent backends ldb w_clock tz refresh source w.
End wiring.

(** ** Lemmas *)

Ltac indep := intros ? []; reflexivity.
Lemma lem_ldb : independent lem ldb. Proof. indep. Qed.
Lemma lem_lpg : independent lem lpg. Proof. indep. Qed.
Lemma lem_lmp : independent lem lmp. Proof. indep. Qed.
Lemma lem_ltg : independent lem ltg. Proof. indep. Qed.
Lemma lem_lwa : independent lem lwa. Proof. indep. Qed.
Lemma ldb_lpg : independent ldb lpg. Proof. indep. Qed.
Lemma ldb_lmp : independent ldb lmp. Proof. indep. Qed.
Lemma ldb_ltg : independent ldb ltg. Proof. indep. Qed.
Lemma ldb_lwa : independent ldb lwa. Proof. indep. Qed.
Lemma ldb_lem : independent ldb lem. Proof. indep. Qed.
Lemma lpg_ldb : independent lpg ldb. Proof. indep. Qed.
Lemma lpg_lmp : independent lpg lmp. Proof. indep. Qed.

#[export] Hint Resolve lem_ldb lem_lpg lem_lmp lem_ltg lem_lwa ldb_lpg ldb_lmp ldb_ltg ldb_lwa
  ldb_lem lpg_ldb lpg_lmp : frame.

(** The observations the Emasku update never changes. *)
Lemma emasku_update_frames tz :
  frames (emasku_update (backends tz)) w_tg /\ frames (emasku_update (backends tz)) w_wa /\
  frames (emasku_update (backends tz)) w_pg /\ frames (emasku_update (backends tz)) w_mp /\
  frames (emasku_update (backends tz)) (fun w => priceAlerts (w_db w)) /\
  frames (emasku_update (backends tz)) (fun w => notificationLogs (w_db w)).
Proof.
  simpl. unfold Emasku.updateGoldPrices.
  split_and!;
    [change w_tg with (view ltg)
    |change w_wa with (view lwa)
    |change w_pg with (view lpg)
    |change w_mp with (view lmp)
    |change (fun w => priceAlerts (w_db w)) with (fun w => priceAlerts (view ldb w))
    |change (fun w => notificationLogs (w_db w)) with (fun w => notificationLogs (view ldb w))];
    frame_solve.
Qed.

Lemma read_current_id tz w : exists o, read_current ldb w_clock tz w = (Ok o, w).
Proof.
  destruct (getCurrentGoldPrice_run tz (w_clock w) (w_db w)) as (o & Hrun & _).
  exists o. unfold read_current. st_simpl. by apply zoom_read.
Qed.

Lemma needs_fetch_refresh now cur : needs_fetch now cur true = true.
Proof. destruct cur; simpl; [apply orb_true_r|done]. Qed.

(** The database after the Pegadaian update stores [row]. *)
Definition with_row (w : World) (row : GoldPrice) : World :=
  update ldb (set_goldPrices (goldPrices (w_db w) ++ [row]) (seq_goldPrices (w_db w) + 1) (w_db w)) w.

Lemma peg_update_cached tz w d buy ppg row :
  Pegadaian.cache_hit (w_clock w) (w_pg w) = true -> Pegadaian.lastData (w_pg w) = Some d ->
  Pegadaian.pd_buyPrice d = Some buy -> Pegadaian.pd_pricePerGram d = Some ppg ->
  gold_price_row (seq_goldPrices (w_db w)) (Pegadaian.peg_insert (w_clock w) d buy ppg) = Ok row ->
  peg_update (backends tz) w = (Ok tt, with_row w row).
Proof.
  intros Hhit Hd Hb Hp Hrow.
  destruct (Pegadaian.fetchGoldPrices_hit _ _ Hhit) as (d' & Hd' & Hf). rewrite Hd in Hd'. injection Hd' as <-.
  simpl. rewrite run_bind, (Pegadaian.updateGoldPrices_run ldb lpg w_clock w).
  change (view lpg w) with (w_pg w). rewrite Hf, Hb, Hp. change (w_pg w) with (view lpg w).
  rewrite update_view. unfold zoom. rewrite insertGoldPrice_run. change (view ldb w) with (w_db w).
  by rewrite Hrow.
Qed.

(** C1: the primary path never notifies: when the Emasku update
    succeeds, the hourly job runs the Emasku alert check (which skips
    every alert) and stops there, so no message is sent on either
    channel, no notification is logged, no alert is marked triggered,
    and the other two sources are not contacted, whatever the alerts
    and the price. *)
Theorem hourly_emasku_up_silent tz w :
  fst (emasku_update (backends tz) w) = Ok tt ->
  let w' := snd (hourly tz w) in
  fst (hourly tz w) = Ok tt /\ w_tg w' = w_tg w /\ w_wa w' = w_wa w /\
  w_pg w' = w_pg w /\ w_mp w' = w_mp w /\
  priceAlerts (w_db w') = priceAlerts (w_db w) /\ notificationLogs (w_db w') = notificationLogs (w_db w).
Proof.
  intros Hok w'. destruct (emasku_update (backends tz) w) as [r w1] eqn:E. simpl in Hok. subst r.
  assert (Hh : hourly tz w = (Ok tt, w1)).
  { unfold hourly, hourly_tick. apply run_try_ok, run_try_ok. rewrite (run_bind_ok _ _ _ _ _ E).
    apply Emasku.checkPriceAlerts_inert. }
  subst w'. rewrite Hh. simpl.
  destruct (emasku_update_frames tz) as (H1 & H2 & H3 & H4 & H5 & H6).
  specialize (H1 w); specialize (H2 w); specialize (H3 w); specialize (H4 w); specialize (H5 w);
    specialize (H6 w). rewrite E in H1, H2, H3, H4, H5, H6. simpl in *. by split_and!.
Qed.

(** C21: [refresh=true] does not reach the source: within 15 minutes of
    the last Pegadaian scrape, [GET /api/gold-prices/current?refresh=true
    &source=pegadaian] sends no request to Pegadaian and stores one more
    snapshot, a copy of the cached data dated now. *)
Theorem current_refresh_reuses_cache tz w d buy ppg row :
  Pegadaian.cache_hit (w_clock w) (w_pg w) = true -> Pegadaian.lastData (w_pg w) = Some d ->
  Pegadaian.pd_buyPrice d = Some buy -> Pegadaian.pd_pricePerGram d = Some ppg ->
  gold_price_row (seq_goldPrices (w_db w)) (Pegadaian.peg_insert (w_clock w) d buy ppg) = Ok row ->
  let w' := snd (current tz true (Some "pegadaian") w) in
  w_pg w' = w_pg w /\ goldPrices (w_db w') = goldPrices (w_db w) ++ [row] /\
  gp_date row = w_clock w.
Proof.
  intros Hhit Hd Hb Hp Hrow w'.
  pose proof (peg_update_cached tz w d buy ppg row Hhit Hd Hb Hp Hrow) as Hu.
  destruct (read_current_id tz w) as [o1 Hr1]. destruct (read_current_id tz (with_row w row)) as [o2 Hr2].
  assert (Hrf : refetch_current (backends tz) ldb w_clock tz (Some "pegadaian") w = (Ok o2, with_row w row)).
  { unfold refetch_current, explicit_source. cbn [String.eqb Ascii.eqb Bool.eqb andb].
    unfold fetch_from. apply run_try_ok. by rewrite (run_bind_ok _ _ _ _ _ Hu). }
  assert (Hc : snd (current tz true (Some "pegadaian") w) = with_row w row).
  { unfold current, getCurrent, try_catch. rewrite run_bind, Hr1. st_simpl.
    rewrite needs_fetch_refresh, Hrf. by destruct o2. }
  subst w'. rewrite Hc. split_and!; [done|done|]. by apply gold_price_row_date in Hrow.
Qed.

(** ** Scenarios and witnesses *)

Definition world (db : DB) (em : list Emasku.EmAnswer) (peg : Pegadaian.PegState)
  (tg : list (result unit)) (now : Z) : World := {|
  w_db := db; w_em := {| Emasku.em_net := em; Emasku.em_requests := 0 |}; w_pg := peg;
  w_mp := {| MetalPrice.lastFetchTime := None; MetalPrice.lastData := None; MetalPrice.metal_net := [];
             MetalPrice.metal_requests := 0 |};
  w_tg := {| Telegram.tg_bot := true; Telegram.tg_net := tg; Telegram.tg_sent := [] |};
  w_wa := WhatsApp.wa_new [] []; w_clock := now |}.

(** The database of the specification's end-to-end scenario: no
    snapshot yet, and an increase alert at 1,050,000 on Telegram. *)
Definition scenario_db : DB := {|
  goldPrices := []; priceAlerts := [sample_alert 1 "increase" (Some 1050000) 0];
  notificationLogs := []; investments := []; seq_goldPrices := 1; seq_priceAlerts := 2;
  seq_notificationLogs := 1; seq_investments := 1 |}.


Lemma hourly_emasku_up_silent_witness :
  let w := world scenario_db [Emasku.EmOk Emasku.page_dash_sell] (Pegadaian.peg_cold []) [Ok tt]
             (10 * hour_ms) in
  fst (hourly 0 w) = Ok tt /\ notificationLogs (w_db (snd (hourly 0 w))) = [] /\
  priceAlerts (w_db (snd (hourly 0 w))) = priceAlerts scenario_db.
Proof.
  intros w. destruct (hourly_emasku_up_silent 0 w) as (H1 & _ & _ & _ & _ & H6 & H7); [reflexivity|].
  split_and!; [exact H1|exact H7|exact H6].
Defined.

(** Five minutes after a scrape of the page. *)
Definition peg_warm : Pegadaian.PegState := {|
  Pegadaian.lastScrapeTime := Some 0; Pegadaian.lastData := Some (Pegadaian.parseGoldPrices Pegadaian.page_ok);
  Pegadaian.peg_net := []; Pegadaian.peg_requests := 1 |}.

Lemma current_refresh_reuses_cache_witness :
  let w := world scenario_db [] peg_warm [] (5 * 60 * 1000) in
  w_pg (snd (current 0 true (Some "pegadaian") w)) = peg_warm /\
  length (goldPrices (w_db (snd (current 0 true (Some "pegadaian") w)))) = 1%nat.
Proof.
  intros w.
  edestruct (current_refresh_reuses_cache 0 w (Pegadaian.parseGoldPrices Pegadaian.page_ok) 1058000 1058000)
    as (H1 & H2 & _); [reflexivity|reflexivity|reflexivity|reflexivity|reflexivity|].
  split; [exact H1|]. rewrite H2. reflexivity.
Defined.

(** An alert on both channels, with Telegram rejecting the message. *)
Definition both_channels : PriceAlert := {|
  pa_id := 1; pa_alertType := "increase"; pa_targetPrice := Some (NVal 105000000);
  pa_whatsappEnabled := Some true; pa_telegramEnabled := Some true; pa_phoneNumber := Some "+62 812-3456-7890";
  pa_telegramChatId := Some "123456789"; pa_active := Some true; pa_createdAt := 0;
  pa_lastTriggered := None; pa_dailyTime := None |}.

Lemma notify_alert_telegram_failure_skips_whatsapp_witness :
  let w := world scenario_db [] peg_warm [Err "ETELEGRAM: 400 Bad Request: chat not found"] 0 in
  let w1 := snd (Telegram.sendPriceAlert ldb ltg w_clock both_channels (current_at 1058000) w) in
  notify_alert (backends 0) (current_at 1058000) both_channels w = (Ok tt, w1) /\
  WhatsApp.wa_sent (w_wa w1) = [].
Proof.
  intros w w1. split; [|reflexivity].
  apply (notify_alert_telegram_failure_skips_whatsapp (backends 0) _ _ _ "ETELEGRAM: 400 Bad Request: chat not found");
    [reflexivity|].
  vm_compute. reflexivity.
Defined.

Lemma hourly_tick_peg_hang_witness :
  let w := world scenario_db [Emasku.EmTimeout] (Pegadaian.peg_cold [Hang]) [] 0 in
  fst (hourly_tick (backends 0) w) = Hang.
Proof. intros w. erewrite hourly_tick_peg_hang; reflexivity. Defined.

Lemma getCurrent_fresh_no_fetch_witness :
  let w := world {| goldPrices := [sample_row 1 (9 * hour_ms) 1058000]; priceAlerts := [];
                    notificationLogs := []; investments := []; seq_goldPrices := 2; seq_priceAlerts := 1;
                    seq_notificationLogs := 1; seq_investments := 1 |} [] (Pegadaian.peg_cold []) []
             (10 * hour_ms) in
  exists c, getCurrent (backends 0) ldb w_clock 0 false None w = (Ok (RJson c), w).
Proof.
  intros w. eexists. apply getCurrent_fresh_no_fetch; [reflexivity|]. vm_compute. discriminate.
Defined.

Definition daily_0830 : PriceAlert := {|
  pa_id := 2; pa_alertType := "daily"; pa_targetPrice := None; pa_whatsappEnabled := Some false;
  pa_telegramEnabled := Some true; pa_phoneNumber := None; pa_telegramChatId := Some "123456789";
  pa_active := Some true; pa_createdAt := 0; pa_lastTriggered := None; pa_dailyTime := Some "08:30" |}.

Lemma is_daily_for_hour_witness : is_daily_for (hour_str 8) daily_0830 = true.
Proof.
  apply is_daily_for_hour; [lia|]. split; [reflexivity|]. exists ":30"%string. reflexivity.
Defined.

End App.
