(* ===== verification/Api.v ===== *)
(** * Request validation and the CRUD routes ([src/server/routes.ts]
    lines 241-429, [src/shared/schema.ts] lines 55-74)

  A request body is a JSON value.  The routes validate it with the zod
  schemas that [drizzle-zod]'s [createInsertSchema] derives from the
  tables: a column is optional when it is nullable or has a default,
  nullable when it is not [notNull]; a [text] or [decimal] column
  expects a string, a [boolean] column a boolean, an [integer] or
  [serial] column a number and a [timestamp] column a [Date] object,
  which no JSON value is.  Unknown keys are stripped.  A failed
  validation answers 400 with the list of issues; any other error 500. *)

From S2P Require Import Prelude Text Schema Storage History Alerts.

Module Api.
Import Text Schema Storage History Alerts.
Local Open Scope string_scope.

Inductive json :=
| Jnull
| Jbool (b : bool)
| Jnum (q : Q)
| Jstr (s : string)
| Jarr (l : list json)
| Jobj (fields : list (string * json)).

(** [obj[key]] after [JSON.parse]: the last occurrence of a key wins. *)
Definition json_get (key : string) (fields : list (string * json)) : option json :=
  fold_left (fun acc kv => if String.eqb (fst kv) key then Some (snd kv) else acc) fields None.

Inductive ztype := ZString | ZNumber | ZBoolean | ZDate.

Record zfield := {
  zf_key : string;
  zf_type : ztype;
  zf_optional : bool;
  zf_nullable : bool
}.

(** The zod type of a column of [createInsertSchema]. *)
Definition zcol (key : string) (ty : ztype) (notNull hasDefault : bool) : zfield := {|
  zf_key := key; zf_type := ty; zf_optional := negb notNull || hasDefault; zf_nullable := negb notNull |}.

(** [priceAlertsInsertSchema] (schema.ts line 61, from lines 19-31). *)
Definition priceAlertsInsertSchema : list zfield := [
  zcol "id" ZNumber true true; zcol "alertType" ZString true false;
  zcol "targetPrice" ZString false false; zcol "whatsappEnabled" ZBoolean false true;
  zcol "telegramEnabled" ZBoolean false true; zcol "phoneNumber" ZString false false;
  zcol "telegramChatId" ZString false false; zcol "active" ZBoolean false true;
  zcol "createdAt" ZDate true true; zcol "lastTriggered" ZDate false false;
  zcol "dailyTime" ZString false false].

(** [investmentsInsertSchema] (schema.ts line 66, from lines 34-42). *)
Definition investmentsInsertSchema : list zfield := [
  zcol "id" ZNumber true true; zcol "purchaseDate" ZDate true false;
  zcol "weight" ZString true false; zcol "purchasePrice" ZString true false;
  zcol "purity" ZString true true; zcol "notes" ZString false false;
  zcol "createdAt" ZDate true true].

(** [schema.partial()]: every key optional. *)
Definition partial (sch : list zfield) : list zfield :=
  map (fun f => {| zf_key := zf_key f; zf_type := zf_type f; zf_optional := true;
                   zf_nullable := zf_nullable f |}) sch.

Definition type_name (t : ztype) : string :=
  match t with ZString => "string" | ZNumber => "number" | ZBoolean => "boolean" | ZDate => "date" end.

Definition json_type (j : json) : string :=
  match j with
  | Jnull => "null" | Jbool _ => "boolean" | Jnum _ => "number" | Jstr _ => "string"
  | Jarr _ => "array" | Jobj _ => "object"
  end.

Definition has_type (t : ztype) (j : json) : bool :=
  match t, j with
  | ZString, Jstr _ | ZNumber, Jnum _ | ZBoolean, Jbool _ => true
  | _, _ => false
  end.

(** A zod issue: the key and the message. *)
Definition issue := (string * string)%type.

(** One key of the object schema. *)
Definition check_field (f : zfield) (v : option json) : list issue :=
  match v with
  | None => if zf_optional f then [] else [(zf_key f, "Required")]
  | Some Jnull => if zf_nullable f then [] else [(zf_key f, "Expected " ++ type_name (zf_type f) ++ ", received null")]
  | Some j =>
      if has_type (zf_type f) j then []
      else [(zf_key f, "Expected " ++ type_name (zf_type f) ++ ", received " ++ json_type j)]
  end.

(** [schema.parse(body)]: the issues, or the keys of the schema that
    the body has. *)
Definition zod_parse (sch : list zfield) (body : json) : list issue + list (string * json) :=
  match body with
  | Jobj fields =>
      match flat_map (fun f => check_field f (json_get (zf_key f) fields)) sch with
      | [] => inr (omap (fun f => (fun v => (zf_key f, v)) <$> json_get (zf_key f) fields) sch)
      | issues => inl issues
      end
  | j => inl [(EmptyString, "Expected object, received " ++ json_type j)]
  end.

(** ** From a validated object to the values of the query *)

(** An integer column given a JSON number: PostgreSQL rejects a
    fraction. *)
Definition int_of (q : Q) : result Z :=
  let r := Qred q in
  if Pos.eqb (Qden r) 1 then Ok (Qnum r) else Err "invalid input syntax for type integer".

(** The [id] key, when the body gives one. *)
Definition id_of (obj : list (string * json)) : result (option Z) :=
  match json_get "id" obj with
  | Some (Jnum q) => z ← int_of q; mret (Some z)
  | _ => Ok None
  end.

Definition opt_field {A} (f : json -> option A) (key : string) (obj : list (string * json)) : option (option A) :=
  match json_get key obj with
  | None => None
  | Some Jnull => Some None
  | Some j => Some (f j)
  end.

Definition as_string (j : json) : option string := match j with Jstr s => Some s | _ => None end.
Definition as_bool (j : json) : option bool := match j with Jbool b => Some b | _ => None end.

Definition alert_input (obj : list (string * json)) : result PriceAlertInput :=
  id ← id_of obj;
  mret {| ai_id := id;
          ai_alertType := match json_get "alertType" obj with Some (Jstr s) => Some s | _ => None end;
          ai_targetPrice := opt_field as_string "targetPrice" obj;
          ai_whatsappEnabled := opt_field as_bool "whatsappEnabled" obj;
          ai_telegramEnabled := opt_field as_bool "telegramEnabled" obj;
          ai_phoneNumber := opt_field as_string "phoneNumber" obj;
          ai_telegramChatId := opt_field as_string "telegramChatId" obj;
          ai_active := opt_field as_bool "active" obj;
          ai_dailyTime := opt_field as_string "dailyTime" obj |}.

Definition investment_input (obj : list (string * json)) : result InvestmentInput :=
  id ← id_of obj;
  mret {| iv_id := id; iv_purchaseDate := None;
          iv_weight := match json_get "weight" obj with Some (Jstr s) => Some s | _ => None end;
          iv_purchasePrice := match json_get "purchasePrice" obj with Some (Jstr s) => Some s | _ => None end;
          iv_purity := match json_get "purity" obj with Some (Jstr s) => Some s | _ => None end;
          iv_notes := opt_field as_string "notes" obj |}.

(** ** The routes *)

(** What a route answers: [res.json(a)], [res.status(201).json(a)],
    [res.status(204).end()], or an error status with its body. *)
Inductive Reply (A : Type) :=
| RJson (a : A)
| RCreated (a : A)
| RNoContent
| RBadRequest (issues : list issue)
| RNotFound (message : string)
| RError (message : string).
Arguments RJson {A} a.
Arguments RCreated {A} a.
Arguments RNoContent {A}.
Arguments RBadRequest {A} issues.
Arguments RNotFound {A} message.
Arguments RError {A} message.

(** [req.query.x as string || dflt] *)
Definition query_or (q : option string) (dflt : string) : string :=
  match q with Some (String c s) => String c s | _ => dflt end.

(** [parseInt(req.query.limit as string) || dflt]: [NaN] and 0 give the
    default. *)
Definition limit_or (q : option string) (dflt : Z) : Z :=
  match q ≫= parse_int with Some z => if Z.eqb z 0 then dflt else z | None => dflt end.

(** [parseInt(req.params.id)]: [NaN] reaches PostgreSQL, which rejects
    it as an integer. *)
Definition param_id (p : string) : result Z :=
  match parse_int p with Some z => Ok z | None => Err "invalid input syntax for type integer: NaN" end.

(** The [try { ... } catch] of a route: any error but a validation error
    answers 500 with the route's message. *)
Definition guarded {A} (msg : string) (m : ST DB (Reply A)) : ST DB (Reply A) :=
  try_catch m (fun _ => mret (RError msg)).

(** A validated body, or the 400 answer. *)
Definition validated {B} (sch : list zfield) (body : json) (k : list (string * json) -> ST DB (Reply B))
  : ST DB (Reply B) :=
  match zod_parse sch body with
  | inl issues => mret (RBadRequest issues)
  | inr obj => k obj
  end.

Section routes.
Variables (tz now : Z) (fmt : LabelStyle -> Z -> string).

(** [GET /api/gold-prices/history] (lines 242-251) *)
Definition getHistoryRoute (timeframe : option string) : ST DB (Reply (list HistoryRow)) :=
  guarded "Error fetching gold price history"
    (h ← getGoldPriceHistory tz (query_or timeframe "7d") now; mret (RJson h)).

(** [GET /api/gold-prices/chart] (lines 254-263) *)
Definition getChartRoute (timeframe : option string) : ST DB (Reply (list ChartPoint)) :=
  guarded "Error fetching chart data"
    (c ← getChartData fmt tz (query_or timeframe "1d") now; mret (RJson c)).

(** [GET /api/gold-prices/recent-changes] (lines 266-275) *)
Definition getRecentChangesRoute (limit : option string) : ST DB (Reply (list RecentChange)) :=
  guarded "Error fetching recent price changes"
    (c ← getRecentPriceChanges (limit_or limit 5); mret (RJson c)).

(** [GET /api/alerts] (lines 282-290) *)
Definition getAlertsRoute : ST DB (Reply (list PriceAlert)) :=
  guarded "Error fetching price alerts" (a ← getPriceAlerts; mret (RJson a)).

(** [GET /api/alerts/:id] (lines 293-306) *)
Definition getAlertRoute (id : string) : ST DB (Reply PriceAlert) :=
  guarded "Error fetching price alert"
    (i ← lift (param_id id);
     a ← getPriceAlertById i;
     match a with None => mret (RNotFound "Price alert not found") | Some a => mret (RJson a) end).

(** [POST /api/alerts] (lines 309-321) *)
Definition postAlertRoute (body : json) : ST DB (Reply PriceAlert) :=
  validated priceAlertsInsertSchema body (fun obj =>
    guarded "Error creating price alert"
      (ai ← lift (alert_input obj); a ← createPriceAlert now ai; mret (RCreated a))).

(** [PUT /api/alerts/:id] (lines 324-341) *)
Definition putAlertRoute (id : string) (body : json) : ST DB (Reply PriceAlert) :=
  validated (partial priceAlertsInsertSchema) body (fun obj =>
    guarded "Error updating price alert"
      (ai ← lift (alert_input obj);
       i ← lift (param_id id);
       a ← updatePriceAlert i ai;
       match a with None => mret (RNotFound "Price alert not found") | Some a => mret (RJson a) end)).

(** [DELETE /api/alerts/:id] (lines 344-352) *)
Definition deleteAlertRoute (id : string) : ST DB (Reply unit) :=
  guarded "Error deleting price alert" (i ← lift (param_id id); deletePriceAlert i;; mret RNoContent).

(** [GET /api/notification-logs] (lines 359-368) *)
Definition getLogsRoute (limit : option string) : ST DB (Reply (list NotificationLog)) :=
  guarded "Error fetching notification logs" (l ← getNotificationLogs (limit_or limit 100); mret (RJson l)).

(** [GET /api/investments] (lines 375-383) *)
Definition getInvestmentsRoute : ST DB (Reply (list Investment)) :=
  guarded "Error fetching investments" (l ← getInvestments; mret (RJson l)).

(** [POST /api/investments] (lines 386-398) *)
Definition postInvestmentRoute (body : json) : ST DB (Reply Investment) :=
  validated investmentsInsertSchema body (fun obj =>
    guarded "Error creating investment"
      (iv ← lift (investment_input obj); i ← createInvestment now iv; mret (RCreated i))).

(** [PUT /api/investments/:id] (lines 401-418) *)
Definition putInvestmentRoute (id : string) (body : json) : ST DB (Reply Investment) :=
  validated (partial investmentsInsertSchema) body (fun obj =>
    guarded "Error updating investment"
      (iv ← lift (investment_input obj);
       i ← lift (param_id id);
       r ← updateInvestment i iv;
       match r with None => mret (RNotFound "Investment not found") | Some r => mret (RJson r) end)).

(** [DELETE /api/investments/:id] (lines 421-429) *)
Definition deleteInvestmentRoute (id : string) : ST DB (Reply unit) :=
  guarded "Error deleting investment" (i ← lift (param_id id); deleteInvestment i;; mret RNoContent).
End routes.

(** ** Lemmas *)

Lemma json_get_snoc k l k' v :
  json_get k (l ++ [(k', v)]) = if String.eqb k' k then Some v else json_get k l.
Proof. unfold json_get. rewrite fold_left_app. simpl. by destruct (String.eqb k' k). Qed.

(** The validated object keeps a key of the schema with the value the
    body gives it, and drops the other keys. *)
Lemma zod_object_get sch fields k :
  json_get k (omap (fun f => (fun v => (zf_key f, v)) <$> json_get (zf_key f) fields) sch) =
  if existsb (fun f => String.eqb (zf_key f) k) sch then json_get k fields else None.
Proof.
  induction sch as [|x sch IH] using rev_ind; [done|].
  rewrite omap_app, existsb_app. simpl. rewrite orb_false_r.
  destruct (String.eqb_spec (zf_key x) k) as [<-|Hne]; rewrite ?orb_true_r, ?orb_false_r.
  - destruct (json_get (zf_key x) fields) as [v|] eqn:E; simpl.
    + rewrite json_get_snoc, String.eqb_refl. done.
    + rewrite app_nil_r, IH. by destruct (existsb _ sch).
  - destruct (json_get (zf_key x) fields) as [v|]; simpl; [|by rewrite app_nil_r].
    rewrite json_get_snoc. by destruct (String.eqb_spec (zf_key x) k).
Qed.

Lemma zod_parse_get sch fields obj k : zod_parse sch (Jobj fields) = inr obj ->
  json_get k obj = if existsb (fun f => String.eqb (zf_key f) k) sch then json_get k fields else None.
Proof. unfold zod_parse. destruct (flat_map _ sch); [|discriminate]. intros [= <-]. apply zod_object_get. Qed.

Lemma zod_parse_issue sch fields f iss :
  In f sch -> In iss (check_field f (json_get (zf_key f) fields)) ->
  exists issues, zod_parse sch (Jobj fields) = inl issues /\ In iss issues.
Proof.
  intros Hf Hiss. unfold zod_parse.
  assert (Hin : In iss (flat_map (fun f => check_field f (json_get (zf_key f) fields)) sch))
    by (apply in_flat_map; eauto).
  destruct (flat_map _ sch) as [|i rest]; [done|]. eauto.
Qed.

(** The 400 answer of a route whose body fails validation. *)
Lemma validated_rejects {B} sch body issues (k : list (string * json) -> ST DB (Reply B)) db :
  zod_parse sch body = inl issues -> validated sch body k db = (Ok (RBadRequest issues), db).
Proof. intros H. unfold validated. by rewrite H. Qed.

(** A JSON number for [targetPrice] is an issue of the alert schema. *)
Lemma number_target_issue fields q : json_get "targetPrice" fields = Some (Jnum q) ->
  exists issues, zod_parse priceAlertsInsertSchema (Jobj fields) = inl issues /\
    In ("targetPrice", "Expected string, received number") issues.
Proof.
  intros Hq. apply (zod_parse_issue priceAlertsInsertSchema fields (zcol "targetPrice" ZString false false)).
  - simpl. tauto.
  - simpl. rewrite Hq. simpl. tauto.
Qed.

Lemma check_date_required v : check_field (zcol "purchaseDate" ZDate true false) v <> [].
Proof. destruct v as [[]|]; simpl; discriminate. Qed.

(** C2: [POST /api/alerts] rejects every body whose [targetPrice] is a
    JSON number with 400 and the issue "Expected string, received
    number", and leaves the database unchanged: the insert schema of a
    [decimal] column expects a string. *)
Theorem postAlert_rejects_number_target now fields q db :
  json_get "targetPrice" fields = Some (Jnum q) ->
  exists issues, postAlertRoute now (Jobj fields) db = (Ok (RBadRequest issues), db) /\
    In ("targetPrice", "Expected string, received number") issues.
Proof.
  intros Hq. destruct (number_target_issue fields q Hq) as (issues & Hz & Hin).
  exists issues. split; [|done]. unfold postAlertRoute. by apply validated_rejects.
Qed.

(** C3: [POST /api/investments] answers 400 to every request and never
    writes: [purchaseDate] is a required [timestamp] column, whose
    schema expects a [Date] object, and a JSON body cannot hold one. *)
Theorem postInvestment_always_rejected now body db :
  exists issues, postInvestmentRoute now body db = (Ok (RBadRequest issues), db).
Proof.
  unfold postInvestmentRoute.
  destruct body as [| | | | |fields]; try (eexists; reflexivity).
  destruct (check_field (zcol "purchaseDate" ZDate true false) (json_get "purchaseDate" fields)) as [|i r] eqn:Ed;
    [by destruct (check_date_required (json_get "purchaseDate" fields))|].
  destruct (zod_parse_issue investmentsInsertSchema fields (zcol "purchaseDate" ZDate true false) i)
    as (issues & Hz & _).
  - simpl. tauto.
  - simpl zf_key. rewrite Ed. by left.
  - exists issues. by apply validated_rejects.
Qed.

(** C26: the server does not check that an increase or decrease alert has
    a target price: a body with [alertType: 'increase'] and a Telegram
    chat but no [targetPrice] is stored (201) as an active alert without
    target, which no price ever triggers. *)
Theorem postAlert_accepts_untargeted now db chat :
  ~ Exists (fun a => pa_id a = seq_priceAlerts db) (priceAlerts db) ->
  exists a, fst (postAlertRoute now
                   (Jobj [("alertType", Jstr "increase"); ("telegramEnabled", Jbool true);
                          ("telegramChatId", Jstr chat)]) db) = Ok (RCreated a) /\
    pa_targetPrice a = None /\ pa_active a = Some true /\ forall cp, price_alert_triggered cp a = false.
Proof.
  intros Hfresh. unfold postAlertRoute, validated, guarded, try_catch. simpl.
  unfold createPriceAlert, lift. st_simpl. destruct (decide _) as [|_]; [done|]. simpl.
  eexists. split; [reflexivity|]. split_and!; [done|done|]. intros cp. reflexivity.
Qed.


(** ** Witnesses *)

(** The body the alert form of the dashboard posts for an increase
    alert at 1,050,000 on Telegram. *)
Definition form_body : list (string * json) := [
  ("alertType", Jstr "increase"); ("targetPrice", Jnum 1050000); ("whatsappEnabled", Jbool false);
  ("telegramEnabled", Jbool true); ("phoneNumber", Jnull); ("telegramChatId", Jstr "123456789");
  ("dailyTime", Jnull); ("active", Jbool true)].

Lemma postAlert_rejects_number_target_witness :
  exists issues, postAlertRoute 0 (Jobj form_body) empty_db = (Ok (RBadRequest issues), empty_db) /\
    In ("targetPrice", "Expected string, received number") issues.
Proof. apply (postAlert_rejects_number_target 0 form_body 1050000 empty_db). reflexivity. Defined.

Lemma postAlert_accepts_untargeted_witness :
  exists a, fst (postAlertRoute 0 (Jobj [("alertType", Jstr "increase"); ("telegramEnabled", Jbool true);
                                         ("telegramChatId", Jstr "123456789")]) empty_db) = Ok (RCreated a) /\
    pa_targetPrice a = None /\ pa_active a = Some true /\ forall cp, price_alert_triggered cp a = false.
Proof. apply (postAlert_accepts_untargeted 0 empty_db "123456789"). simpl. intros H. inversion H. Defined.


End Api.
