(* ===== verification/Http.v ===== *)
(** * The route table of [registerRoutes] ([src/server/routes.ts])

  [registerRoutes] registers fourteen handlers with [app.get],
  [app.post], [app.put] and [app.delete] under the prefix ["/api"]
  (line 18).  Express runs the first handler whose method and path
  pattern match the request; every handler answers, so no later one
  runs.  A pattern is compiled by path-to-regexp with Express's
  defaults: literal segments compared without regard to case, a
  parameter [:id] that takes one non-empty segment, and one optional
  trailing slash.  [dispatch] is that choice, [Endpoint] names the
  handler with its parameter (each is a route of [Api] or
  [Scheduler]), and [NoRoute] is Express's default 404.  The
  parameters are taken as they appear in the path ([decodeURIComponent]
  changes nothing in the texts the client sends, decimal integers). *)

From stdpp Require Import base list strings.
From S2P Require Import Prelude Text.

Module Http.
Import Text.
Local Open Scope string_scope.

(** The handlers, by the line of their registration. *)
Inductive Endpoint :=
| GetCurrent                      (** line 163 *)
| GetHistory                      (** line 242 *)
| GetChart                        (** line 254 *)
| GetRecentChanges                (** line 266 *)
| GetAlerts                       (** line 282 *)
| GetAlert (id : string)          (** line 293 *)
| PostAlert                       (** line 309 *)
| PutAlert (id : string)          (** line 324 *)
| DeleteAlert (id : string)       (** line 344 *)
| GetNotificationLogs             (** line 359 *)
| GetInvestments                  (** line 375 *)
| PostInvestment                  (** line 386 *)
| PutInvestment (id : string)     (** line 401 *)
| DeleteInvestment (id : string)  (** line 421 *)
| NoRoute.

#[export] Instance Endpoint_eq_dec : EqDecision Endpoint.
Proof. solve_decision. Defined.

(** A segment of a pattern: a literal, or a parameter. *)
Inductive seg := Lit (s : string) | Param.

(** A registered route: its method, its pattern after the prefix
    ["/api"], and the handler it runs on the captured parameters. *)
Record Route := { r_method : string; r_pattern : list seg; r_endpoint : list string -> Endpoint }.

Definition one_param (k : string -> Endpoint) (ps : list string) : Endpoint :=
  match ps with [p] => k p | _ => NoRoute end.

(** The registrations of lines 163-421, in order. *)
Definition routes : list Route := [
  {| r_method := "GET"; r_pattern := [Lit "api"; Lit "gold-prices"; Lit "current"]; r_endpoint := fun _ => GetCurrent |};
  {| r_method := "GET"; r_pattern := [Lit "api"; Lit "gold-prices"; Lit "history"]; r_endpoint := fun _ => GetHistory |};
  {| r_method := "GET"; r_pattern := [Lit "api"; Lit "gold-prices"; Lit "chart"]; r_endpoint := fun _ => GetChart |};
  {| r_method := "GET"; r_pattern := [Lit "api"; Lit "gold-prices"; Lit "recent-changes"];
     r_endpoint := fun _ => GetRecentChanges |};
  {| r_method := "GET"; r_pattern := [Lit "api"; Lit "alerts"]; r_endpoint := fun _ => GetAlerts |};
  {| r_method := "GET"; r_pattern := [Lit "api"; Lit "alerts"; Param]; r_endpoint := one_param GetAlert |};
  {| r_method := "POST"; r_pattern := [Lit "api"; Lit "alerts"]; r_endpoint := fun _ => PostAlert |};
  {| r_method := "PUT"; r_pattern := [Lit "api"; Lit "alerts"; Param]; r_endpoint := one_param PutAlert |};
  {| r_method := "DELETE"; r_pattern := [Lit "api"; Lit "alerts"; Param]; r_endpoint := one_param DeleteAlert |};
  {| r_method := "GET"; r_pattern := [Lit "api"; Lit "notification-logs"]; r_endpoint := fun _ => GetNotificationLogs |};
  {| r_method := "GET"; r_pattern := [Lit "api"; Lit "investments"]; r_endpoint := fun _ => GetInvestments |};
  {| r_method := "POST"; r_pattern := [Lit "api"; Lit "investments"]; r_endpoint := fun _ => PostInvestment |};
  {| r_method := "PUT"; r_pattern := [Lit "api"; Lit "investments"; Param]; r_endpoint := one_param PutInvestment |};
  {| r_method := "DELETE"; r_pattern := [Lit "api"; Lit "investments"; Param];
     r_endpoint := one_param DeleteInvestment |} ].

(** [s.split(c)] *)
Fixpoint split_on (c : ascii) (s : string) : list string :=
  match s with
  | EmptyString => [EmptyString]
  | String c' s' =>
      let rest := split_on c s' in
      if Ascii.eqb c c' then EmptyString :: rest
      else match rest with [] => [String c' EmptyString] | w :: ws => String c' w :: ws end
  end.

(** The segments of a path: it starts with a slash, and one trailing
    slash is allowed ([strict: false]). *)
Definition path_segments (path : string) : option (list string) :=
  match split_on "/" path with
  | EmptyString :: segs =>
      Some (if String.eqb (List.last segs "/") "" then removelast segs else segs)
  | _ => None
  end.

(** The compiled pattern: literals without regard to case, a parameter
    one non-empty segment; the captured parameters in order. *)
Fixpoint match_segs (pat : list seg) (segs : list string) : option (list string) :=
  match pat, segs with
  | [], [] => Some []
  | Lit l :: pat', s :: segs' =>
      if String.eqb (lowercase s) (lowercase l) then match_segs pat' segs' else None
  | Param :: pat', s :: segs' =>
      if String.eqb s "" then None else ps ← match_segs pat' segs'; Some (s :: ps)
  | _, _ => None
  end.

Definition route_match (method : string) (segs : list string) (r : Route) : option Endpoint :=
  if String.eqb method (r_method r) then r_endpoint r <$> match_segs (r_pattern r) segs else None.

(** Express's router: the first route that matches, else 404. *)
Fixpoint first_match (method : string) (segs : list string) (rs : list Route) : Endpoint :=
  match rs with
  | [] => NoRoute
  | r :: rs' => match route_match method segs r with Some e => e | None => first_match method segs rs' end
  end.

Definition dispatch (method path : string) : Endpoint :=
  match path_segments path with
  | Some segs => first_match method segs routes
  | None => NoRoute
  end.

(** Two patterns some path could match both: the same length, and no
    position where both are literals that differ. *)
Fixpoint compatible (p1 p2 : list seg) : bool :=
  match p1, p2 with
  | [], [] => true
  | Lit a :: p1', Lit b :: p2' => String.eqb (lowercase a) (lowercase b) && compatible p1' p2'
  | _ :: p1', _ :: p2' => compatible p1' p2'
  | _, _ => false
  end.

(** ** Lemmas *)

Lemma match_segs_compatible p1 p2 segs ps1 ps2 :
  match_segs p1 segs = Some ps1 -> match_segs p2 segs = Some ps2 -> compatible p1 p2 = true.
Proof.
  revert p2 ps1 ps2 segs. induction p1 as [|a p1 IH]; intros p2 ps1 ps2 segs H1 H2;
    destruct segs as [|s segs], p2 as [|b p2]; try destruct a as [x|]; try destruct b as [y|];
    simpl in *; unfold mbind, option_bind in *; repeat case_match; simplify_eq; try done;
    try (eapply IH; eassumption).
  apply andb_true_iff. split; [|eapply IH; eassumption]. apply String.eqb_eq.
  repeat match goal with H : String.eqb _ _ = true |- _ => apply String.eqb_eq in H end. congruence.
Qed.

(** No two routes of the table answer the same request. *)
Definition table_exclusive (rs : list Route) : bool :=
  forallb (fun i => forallb (fun j =>
    bool_decide (i = j) ||
    match rs !! i, rs !! j with
    | Some r1, Some r2 => negb (String.eqb (r_method r1) (r_method r2)) ||
                          negb (compatible (r_pattern r1) (r_pattern r2))
    | _, _ => true
    end) (seq 0 (length rs))) (seq 0 (length rs)).

Lemma routes_exclusive : table_exclusive routes = true.
Proof. vm_compute. reflexivity. Qed.

(** The route table is unambiguous: whatever the method and the path,
    at most one registered route matches it, so the order of the
    registrations does not matter and [dispatch] runs the one route
    that matches. *)
Theorem dispatch_unambiguous method segs i j r1 r2 :
  routes !! i = Some r1 -> routes !! j = Some r2 ->
  is_Some (route_match method segs r1) -> is_Some (route_match method segs r2) -> i = j.
Proof.
  intros H1 H2 [e1 He1] [e2 He2]. unfold route_match in He1, He2.
  destruct (String.eqb method (r_method r1)) eqn:M1, (String.eqb method (r_method r2)) eqn:M2; try done.
  destruct (match_segs (r_pattern r1) segs) as [ps1|] eqn:S1; [|done].
  destruct (match_segs (r_pattern r2) segs) as [ps2|] eqn:S2; [|done].
  pose proof (match_segs_compatible _ _ _ _ _ S1 S2) as Hc.
  apply String.eqb_eq in M1, M2.
  pose proof routes_exclusive as Hx. unfold table_exclusive in Hx.
  pose proof (lookup_lt_Some _ _ _ H1). pose proof (lookup_lt_Some _ _ _ H2).
  rewrite forallb_forall in Hx. specialize (Hx i ltac:(apply in_seq; lia)).
  rewrite forallb_forall in Hx. specialize (Hx j ltac:(apply in_seq; lia)).
  rewrite H1, H2, <- M1, <- M2, String.eqb_refl, Hc in Hx. simpl in Hx.
  rewrite orb_false_r in Hx. by apply bool_decide_eq_true in Hx.
Qed.

Lemma digit_not_slash c : is_digit c = true -> Ascii.eqb "/" c = false.
Proof. intros H. destruct c as [[] [] [] [] [] [] [] []]; vm_compute in H |- *; congruence. Qed.

(** A text without a slash is one segment. *)
Lemma split_on_plain x :
  forallb (fun c => negb (Ascii.eqb "/" c)) (list_ascii_of_string x) = true -> split_on "/" x = [x].
Proof.
  induction x as [|c x IH]; intros H; [done|]. simpl in H. apply andb_true_iff in H as [Hc H].
  apply negb_true_iff in Hc. simpl. by rewrite Hc, (IH H).
Qed.

Lemma digits_plain ds : Forall (fun d => 0 <= d <= 9) ds ->
  forallb (fun c => negb (Ascii.eqb "/" c)) (list_ascii_of_string (string_of_digits ds)) = true.
Proof.
  induction 1 as [|d ds Hd _ IH]; [done|]. cbn [string_of_digits list_ascii_of_string forallb].
  rewrite digit_not_slash, IH; [done|]. by apply digit_char_digit.
Qed.

(** [String(id)] is one non-empty segment. *)
Lemma Z_to_string_segment id :
  split_on "/" (Z_to_string id) = [Z_to_string id] /\ exists c s, Z_to_string id = String c s.
Proof.
  assert (Hpos : forall n, 0 <= n ->
            forallb (fun c => negb (Ascii.eqb "/" c)) (list_ascii_of_string (Z_to_string n)) = true /\
            exists c s, Z_to_string n = String c s).
  { intros n Hn. destruct (Z_to_string_digits n Hn) as (ds & -> & Hne & Hds & _).
    split; [by apply digits_plain|]. destruct ds; [done|]. eauto. }
  destruct (Z.ltb_spec id 0) as [Hneg|Hnn].
  - assert (Hs : Z_to_string id = String "-" (Z_to_string (- id))).
    { unfold Z_to_string. rewrite (proj2 (Z.ltb_lt id 0)), (proj2 (Z.ltb_ge (- id) 0)) by lia. done. }
    destruct (Hpos (- id) ltac:(lia)) as [Hp _]. rewrite Hs. split; [|eauto].
    apply split_on_plain. cbn [list_ascii_of_string forallb]. by rewrite Hp.
  - destruct (Hpos id Hnn) as [Hp Hne]. split; [by apply split_on_plain|done].
Qed.

(** The delete requests of the client, [`/api/alerts/${id}`] and
    [`/api/investments/${id}`] with the id of a row, reach the delete
    route of that table with the id's text, which the route's
    [parseInt] reads back as the id. *)
Theorem client_delete_routes id :
  dispatch "DELETE" ("/api/alerts/" ++ Z_to_string id) = DeleteAlert (Z_to_string id) /\
  dispatch "DELETE" ("/api/investments/" ++ Z_to_string id) = DeleteInvestment (Z_to_string id) /\
  parse_int (Z_to_string id) = Some id.
Proof.
  destruct (Z_to_string_segment id) as [Hsplit (c & s & Hcs)].
  pose proof (parse_int_Z_to_string id) as Hp.
  remember (Z_to_string id) as x eqn:Hx; clear Hx.
  split_and!; [| |done]; unfold dispatch, path_segments; simpl;
    rewrite string_app_nil_l, Hsplit; simpl;
    rewrite Hcs; reflexivity.
Qed.

(** A query function that joined the query key
    [['/api/gold-prices/history', timeframe]] with slashes would ask
    for a path no route has: Express answers 404 for every timeframe
    of one segment. *)
Lemma joined_history_key_no_route tf :
  split_on "/" tf = [tf] -> tf <> "" ->
  dispatch "GET" ("/api/gold-prices/history/" ++ tf) = NoRoute.
Proof.
  intros Hsplit Hne. unfold dispatch, path_segments. simpl.
  rewrite string_app_nil_l, Hsplit. simpl. by destruct tf.
Qed.

End Http.
