(* ===== verification/Client.v ===== *)
(** * The dashboard's computations on the API's data
    ([src/client/src/lib/formatters.js], the metrics of
    [InvestmentPerformance.tsx] and [MyInvestments.tsx], the two gold
    calculators)

  The server sends a [decimal] column as the text PostgreSQL prints for
  a [numeric] of scale 2 ([numeric_text]: "1058000.00", "NaN"); the
  client turns it back into a number with [parseFloat] and computes on
  JavaScript numbers.  [parseFloat] is modelled on the grammar of
  ECMA-262 ([StrDecimalLiteral]: sign, [Infinity], digits, a point,
  digits, an exponent, the longest valid prefix after leading white
  space) with exact rationals; rounding to doubles is not modelled, so
  two models of the same number may differ as Rocq terms and
  [js_equiv] is the equality of JavaScript numbers, a setoid with
  [Proper] instances for the arithmetic.  The formatters follow
  [Number.prototype.toFixed] and the CLDR data of the [id] locale for
  [Intl.NumberFormat]; [Number::toString] of a number of [10^21] or
  more (exponent notation of a double) is a parameter. *)

From Stdlib Require Import Morphisms Setoid Qabs Lqa.
From S2P Require Import Prelude Text Schema Storage History Notifier.

Module Client.
Import Text Schema Storage History Notifier.
Local Open Scope string_scope.

(** ** JavaScript numbers: equality and arithmetic *)

(** [a === b] on numbers, as a proposition on their models. *)
Definition js_equiv (a b : jsnum) : Prop :=
  match a, b with
  | Fin x, Fin y => x == y
  | Inf p, Inf q => p = q
  | NaN, NaN => True
  | _, _ => False
  end.

Definition js_plus (a b : jsnum) : jsnum :=
  match a, b with
  | Fin x, Fin y => Fin (x + y)
  | Inf p, Fin _ | Fin _, Inf p => Inf p
  | Inf p, Inf q => if Bool.eqb p q then Inf p else NaN
  | _, _ => NaN
  end.

Definition js_mult (a b : jsnum) : jsnum :=
  match a, b with
  | Fin x, Fin y => Fin (x * y)
  | Inf p, Fin y | Fin y, Inf p => if Qeq_bool y 0 then NaN else Inf (Bool.eqb p (Qle_bool 0 y))
  | Inf p, Inf q => Inf (Bool.eqb p q)
  | _, _ => NaN
  end.

Definition js_isNaN (a : jsnum) : bool := match a with NaN => true | _ => false end.

(** [x >= 0] and [x === 1]. *)
Definition js_ge0 (a : jsnum) : bool :=
  match a with Fin x => Qle_bool 0 x | Inf p => p | NaN => false end.
Definition js_is1 (a : jsnum) : bool := match a with Fin x => Qeq_bool x 1 | _ => false end.

(** [x > 0] *)
Definition js_gt0 (a : jsnum) : bool :=
  match a with Fin x => negb (Qle_bool x 0) | Inf p => p | NaN => false end.

(** ** [parseFloat] *)

Definition sign_split (t : string) : bool * string :=
  match t with
  | String "-" r => (true, r)
  | String "+" r => (false, r)
  | _ => (false, t)
  end.

Definition pow10 (e : Z) : Q := Qpower (inject_Z 10) e.

(** The value of an optional exponent part [e[+-]digits] at the start
    of the text; [0] when there is none (an [e] without digits is not
    part of the number). *)
Definition exponent (r : string) : Z :=
  match r with
  | String c r' =>
      if Ascii.eqb c "e" || Ascii.eqb c "E" then
        let '(neg, r'') := sign_split r' in
        match digit_prefix r'' with
        | [] => 0
        | ds => if neg then - digits_value ds else digits_value ds
        end
      else 0
  | EmptyString => 0
  end.

(** The value of the longest decimal literal at the start of the text
    ([DecimalDigits], an optional point and digits, an optional
    exponent); [None] when it has no digit. *)
Definition decimal_literal (r : string) : option Q :=
  let ip := digit_prefix r in
  let '(fp, rest) := match drop_digits r with
                     | String "." f => (digit_prefix f, drop_digits f)
                     | r1 => ([], r1)
                     end in
  match ip, fp with
  | [], [] => None
  | _, _ =>
      Some (inject_Z (digits_value (ip ++ fp)%list) / pow10 (Z.of_nat (length fp))
            * pow10 (exponent rest))%Q
  end.

(** [parseFloat(s)]: after leading white space and a sign, [Infinity]
    or the longest decimal literal; [NaN] when there is no digit. *)
Definition parseFloat (s : string) : jsnum :=
  let '(neg, r) := sign_split (trim_start s) in
  if starts_with "Infinity" r then Inf (negb neg)
  else
    match decimal_literal r with
    | None => NaN
    | Some q => Fin (if neg then (- q)%Q else q)
    end.

(** The text of a [numeric(p, 2)] value as PostgreSQL prints it and the
    JSON of a row carries it: a sign, the integer part, a point and two
    decimals. *)
Definition numeric_text (n : numeric) : string :=
  match n with
  | NNaN => "NaN"
  | NVal c =>
      (if Z.ltb c 0 then "-" else "") ++ Z_to_string (Z.abs c / 100) ++ "." ++
      string_of_digits [Z.abs c mod 100 / 10; Z.abs c mod 10]
  end.

(** ** [formatters.js] *)

(** A value handed to a formatter: [undefined], [null], a string (a
    column of the API's JSON) or a number (a computed value). *)
Inductive jsarg := VUndefined | VNull | VString (s : string) | VNumber (x : jsnum).

(** [typeof value === 'string' ? parseFloat(value) : value], after the
    [null]/[undefined] test. *)
Definition num_value (v : jsarg) : option jsnum :=
  match v with
  | VUndefined | VNull => None
  | VString s => Some (parseFloat s)
  | VNumber x => Some x
  end.

Definition infinity_sign : string := bytes [226; 136; 158]%nat.

(** [new Intl.NumberFormat('id-ID', { style: 'currency', currency:
    'IDR', minimumFractionDigits: 0, maximumFractionDigits: 0 })
    .format(x)]: rounded half away from zero, grouped by '.', the sign of
    a negative value kept when it rounds to 0. *)
Definition format_idr0 (x : jsnum) : string :=
  match x with
  | Fin q =>
      (if Qle_bool 0 q then "" else "-") ++ "Rp" ++ nbsp ++ group_thousands (round_half_away (Qabs q))
  | Inf p => (if p then "" else "-") ++ "Rp" ++ nbsp ++ infinity_sign
  | NaN => "Rp" ++ nbsp ++ "NaN"
  end.

(** [formatCurrency] (lines 2-15) *)
Definition formatCurrency (v : jsarg) : string :=
  match num_value v with
  | None | Some NaN => "N/A"
  | Some x => format_idr0 x
  end.

Section to_fixed.
(** [Number::toString] of a number of [10^21] or more. *)
Variable number_to_string : Q -> string.

(** The digits of [n] with a point before the last [f] of them, padded
    with zeros to at least one digit before the point. *)
Definition fixed_digits (f : nat) (n : Z) : string :=
  let m := Z_to_string n in
  if Nat.eqb f 0 then m
  else
    let k := String.length m in
    let m' := if Nat.leb k f then string_of_digits (repeat 0 (f + 1 - k)) ++ m else m in
    let k' := Nat.max k (f + 1) in
    substring 0 (k' - f) m' ++ "." ++ substring (k' - f) f m'.

(** [x.toFixed(f)]: [n] is the integer closest to [|x| * 10^f], the
    larger one on a tie. *)
Definition toFixed (f : nat) (x : jsnum) : result string :=
  if Nat.ltb 100 f then Err "toFixed() digits argument must be between 0 and 100"
  else
    match x with
    | NaN => Ok "NaN"
    | Inf p => Ok (if p then "Infinity" else "-Infinity")
    | Fin q =>
        let s := if Qle_bool 0 q then "" else "-" in
        let a := Qabs q in
        if Qle_bool (inject_Z (10 ^ 21)) a then Ok (s ++ number_to_string a)
        else Ok (s ++ fixed_digits f (Qfloor (a * inject_Z (10 ^ Z.of_nat f) + (1 # 2))%Q))
    end.

(** [x >= 0 ? '+' : ''], the sign the pages write before a number. *)
Definition plus_sign (x : jsnum) : string := if js_ge0 x then "+" else "".

(** [formatPercentage] (lines 69-77) *)
Definition formatPercentage (v : jsarg) (decimals : nat) : result string :=
  match num_value v with
  | None | Some NaN => Ok "N/A"
  | Some x =>
      s ← toFixed decimals x;
      mret ((if js_ge0 x then "+" else "") ++ s ++ "%")
  end.

(** [formatWeight] (lines 80-88) *)
Definition formatWeight (v : jsarg) (decimals : nat) : result string :=
  match num_value v with
  | None | Some NaN => Ok "N/A"
  | Some x =>
      s ← toFixed decimals x;
      mret (s ++ " " ++ (if js_is1 x then "gram" else "grams"))
  end.
End to_fixed.

(** ** Investment metrics *)

(** [parseFloat(x.col)] for a [decimal] column [col] of a row of the
    API's JSON. *)
Definition api_num (n : numeric) : jsnum := parseFloat (numeric_text n).

(** [investments.reduce((sum, inv) => sum + parseFloat(inv.col), 0)] *)
Definition sum_column (col : Investment -> numeric) (invs : list Investment) : jsnum :=
  fold_left (fun sum inv => js_plus sum (api_num (col inv))) invs (Fin 0).

Record Metrics := {
  totalInvestment : jsnum;
  totalWeight : jsnum;
  currentValue : jsnum;
  totalProfit : jsnum;
  profitPercentage : jsnum;
  profitIfSold : jsnum
}.

Definition zero_metrics : Metrics := {|
  totalInvestment := Fin 0; totalWeight := Fin 0; currentValue := Fin 0; totalProfit := Fin 0;
  profitPercentage := Fin 0; profitIfSold := Fin 0 |}.

(** [calculateMetrics] of [InvestmentPerformance.tsx] (lines 23-57):
    [investments] and [currentPriceData] are [undefined] until their
    queries answer; an empty list is truthy. *)
Definition calculateMetrics (investments : option (list Investment)) (currentPriceData : option GoldPrice)
  : Metrics :=
  match investments, currentPriceData with
  | Some invs, Some cp =>
      let ti := sum_column inv_purchasePrice invs in
      let tw := sum_column inv_weight invs in
      let cv := js_mult tw (api_num (gp_pricePerGram cp)) in
      let tp := js_minus cv ti in
      let sv := js_mult tw (api_num (gp_sellPrice cp)) in
      {| totalInvestment := ti; totalWeight := tw; currentValue := cv; totalProfit := tp;
         profitPercentage := if js_gt0 ti then js_times100 (js_div tp ti) else Fin 0;
         profitIfSold := js_minus sv ti |}
  | _, _ => zero_metrics
  end.

(** [calculateTotals] of [MyInvestments.tsx] (lines 113-143): the same
    sums, without the guard on the percentage. *)
Definition calculateTotals (investments : option (list Investment)) (currentGoldPrice : option GoldPrice)
  : Metrics :=
  match investments, currentGoldPrice with
  | Some ((_ :: _) as invs), Some cp =>
      let ti := sum_column inv_purchasePrice invs in
      let tw := sum_column inv_weight invs in
      let cv := js_mult tw (api_num (gp_pricePerGram cp)) in
      let tp := js_minus cv ti in
      let sv := js_mult tw (api_num (gp_sellPrice cp)) in
      {| totalInvestment := ti; totalWeight := tw; currentValue := cv; totalProfit := tp;
         profitPercentage := js_times100 (js_div tp ti); profitIfSold := js_minus sv ti |}
  | _, _ => zero_metrics
  end.

(** One row of the table of [MyInvestments.tsx] (lines 304-306): the
    current value, the profit and its percentage; without a current
    price the value is computed with 0. *)
Definition investment_row (currentGoldPrice : option GoldPrice) (inv : Investment) : jsnum * jsnum * jsnum :=
  let cv := js_mult (api_num (inv_weight inv))
              (match currentGoldPrice with Some cp => api_num (gp_pricePerGram cp) | None => Fin 0 end) in
  let profit := js_minus cv (api_num (inv_purchasePrice inv)) in
  (cv, profit, js_times100 (js_div profit (api_num (inv_purchasePrice inv)))).

(** ** The two gold calculators *)

(** [calculateGoldValue] of the calculator page ([Calculator.tsx]
    lines 31-44): the new [calculatedValue], or the previous one when
    the price is not loaded or an input is not a number. *)
Definition calculateGoldValue (goldData : option GoldPrice) (weight purity calculationType : string)
  (calculatedValue : jsnum) : jsnum :=
  match goldData with
  | None => calculatedValue
  | Some g =>
      let weightValue := parseFloat weight in
      let purityValue := parseFloat purity in
      if js_isNaN weightValue || js_isNaN purityValue then calculatedValue
      else if String.eqb calculationType "buy" then
        js_mult (js_mult weightValue purityValue) (api_num (gp_buyPrice g))
      else js_mult (js_mult weightValue purityValue) (api_num (gp_sellPrice g))
  end.

(** [x || d] for a number: [NaN] and [0] are falsy. *)
Definition js_or (x d : jsnum) : jsnum :=
  match x with Fin q => if Qeq_bool q 0 then d else x | Inf _ => x | NaN => d end.

Section gold_calculator.
(** [ToNumber] of a string, applied by [*] to the price the dashboard
    passes as a string. *)
Variable string_to_number : string -> jsnum.

(** [handleCalculate] of the dashboard's [GoldCalculator.tsx] (lines
    22-32); [calculationType] is part of the component's state but the
    price is always [currentPrice]. *)
Definition handleCalculate (currentPrice : option string) (weight purity calculationType : string)
  (calculatedValue : jsnum) : jsnum :=
  match currentPrice with
  | None | Some EmptyString => calculatedValue
  | Some price =>
      let weightValue := js_or (parseFloat weight) (Fin 0) in
      let purityValue := js_or (parseFloat purity) (Fin (999 # 1000)) in
      js_mult (js_mult weightValue purityValue) (string_to_number price)
  end.

(** The dashboard's calculator: [<GoldCalculator currentPrice=
    {goldData?.buyPrice} />] ([Dashboard.tsx] line 84). *)
Definition dashboardCalculator (goldData : option GoldPrice) (weight purity calculationType : string)
  (calculatedValue : jsnum) : jsnum :=
  handleCalculate (option_map (fun g => numeric_text (gp_buyPrice g)) goldData) weight purity
    calculationType calculatedValue.
End gold_calculator.

(** ** The portfolio in exact arithmetic *)

Definition numeric_cents (n : numeric) : Z := match n with NVal c => c | NNaN => 0 end.

(** The sum of a column over the investments, in rupiah. *)
Definition column_sum (col : Investment -> numeric) (invs : list Investment) : Q :=
  fold_right (fun inv acc => (numeric_cents (col inv) # 100) + acc)%Q 0%Q invs.

(** Two metrics objects whose numbers are equal. *)
Definition metrics_equiv (m m' : Metrics) : Prop :=
  js_equiv (totalInvestment m) (totalInvestment m') /\ js_equiv (totalWeight m) (totalWeight m') /\
  js_equiv (currentValue m) (currentValue m') /\ js_equiv (totalProfit m) (totalProfit m') /\
  js_equiv (profitPercentage m) (profitPercentage m') /\ js_equiv (profitIfSold m) (profitIfSold m').

(** ** Lemmas *)

Lemma Qeq_bool_compat x x' y y' : x == x' -> y == y' -> Qeq_bool x y = Qeq_bool x' y'.
Proof. intros Hx Hy. apply Bool.eq_iff_eq_true. rewrite !Qeq_bool_iff, Hx, Hy. reflexivity. Qed.

Lemma Qle_bool_compat x x' y y' : x == x' -> y == y' -> Qle_bool x y = Qle_bool x' y'.
Proof. intros Hx Hy. apply Bool.eq_iff_eq_true. rewrite !Qle_bool_iff, Hx, Hy. reflexivity. Qed.

#[export] Instance js_equiv_Equivalence : Equivalence js_equiv.
Proof.
  split.
  - intros [x|p|]; simpl; [reflexivity|reflexivity|exact I].
  - intros [x|p|] [y|q|]; simpl; try tauto; intros H; by symmetry.
  - intros [x|p|] [y|q|] [z|r|]; simpl; try tauto; intros H1 H2; by etransitivity.
Qed.

(** The tactics of the [Proper] instances: rewrite the rational
    equalities of the context into the Boolean tests and the results. *)
Ltac qcompat :=
  repeat match goal with
  | H : ?x == ?x' |- context [Qeq_bool ?x ?y] => progress rewrite (Qeq_bool_compat x x' y y H (Qeq_refl y))
  | H : ?x == ?x' |- context [Qle_bool ?y ?x] => progress rewrite (Qle_bool_compat y y x x' (Qeq_refl y) H)
  | H : ?x == ?x' |- context [Qle_bool ?x ?y] => progress rewrite (Qle_bool_compat x x' y y H (Qeq_refl y))
  end.

Ltac qrewrite := repeat match goal with H : _ == _ |- _ => progress rewrite H end.

Ltac js_proper :=
  simpl in *; try tauto; subst; qcompat; repeat case_match; simpl; try done; qrewrite; reflexivity.

#[export] Instance Fin_Proper : Proper (Qeq ==> js_equiv) Fin.
Proof. intros x y H. exact H. Qed.

#[export] Instance js_plus_Proper : Proper (js_equiv ==> js_equiv ==> js_equiv) js_plus.
Proof.
  intros [x|p|] [x'|p'|] Hx [y|q|] [y'|q'|] Hy; js_proper.
Qed.

#[export] Instance js_minus_Proper : Proper (js_equiv ==> js_equiv ==> js_equiv) js_minus.
Proof. intros [x|p|] [x'|p'|] Hx [y|q|] [y'|q'|] Hy; unfold js_minus; js_proper. Qed.

#[export] Instance js_mult_Proper : Proper (js_equiv ==> js_equiv ==> js_equiv) js_mult.
Proof. intros [x|p|] [x'|p'|] Hx [y|q|] [y'|q'|] Hy; js_proper. Qed.

#[export] Instance js_div_Proper : Proper (js_equiv ==> js_equiv ==> js_equiv) js_div.
Proof. intros [x|p|] [x'|p'|] Hx [y|q|] [y'|q'|] Hy; unfold js_div; js_proper. Qed.

#[export] Instance js_times100_Proper : Proper (js_equiv ==> js_equiv) js_times100.
Proof. intros [x|p|] [x'|p'|] Hx; unfold js_times100; js_proper. Qed.

#[export] Instance js_gt0_Proper : Proper (js_equiv ==> eq) js_gt0.
Proof. intros [x|p|] [x'|p'|] Hx; js_proper. Qed.

#[export] Instance js_ge0_Proper : Proper (js_equiv ==> eq) js_ge0.
Proof. intros [x|p|] [x'|p'|] Hx; js_proper. Qed.

#[export] Instance js_isNaN_Proper : Proper (js_equiv ==> eq) js_isNaN.
Proof. intros [x|p|] [x'|p'|] Hx; js_proper. Qed.

Lemma round_half_away_compat q q' : q == q' -> round_half_away q = round_half_away q'.
Proof.
  intros H. unfold round_half_away. qcompat.
  destruct (Qle_bool 0 q'); [|f_equal]; apply Qfloor_comp; qrewrite; reflexivity.
Qed.

(** What the formatters show depends only on the number. *)
#[export] Instance format_idr0_Proper : Proper (js_equiv ==> eq) format_idr0.
Proof.
  intros [x|p|] [y|q|] H; simpl in H; try tauto; [|by subst].
  unfold format_idr0. qcompat. by rewrite (round_half_away_compat _ _ (Qabs_wd _ _ H)).
Qed.

#[export] Instance toFixed_Proper n2s f : Proper (Qeq ==> eq) n2s -> Proper (js_equiv ==> eq) (toFixed n2s f).
Proof.
  intros Hn [x|p|] [y|q|] H; simpl in H; try tauto; [|by subst].
  unfold toFixed. destruct (Nat.ltb 100 f); [done|]. qcompat.
  rewrite (Qle_bool_compat _ _ (Qabs x) (Qabs y)) by (reflexivity || by apply Qabs_wd).
  destruct (Qle_bool _ (Qabs y)); [by rewrite (Hn _ _ (Qabs_wd _ _ H))|].
  do 3 f_equal. apply Qfloor_comp. by rewrite H.
Qed.

(** A text that starts with a digit: no white space, sign or
    [Infinity] before it. *)
Lemma digit_start_facts c r : is_digit c = true ->
  trim_start (String c r) = String c r /\ sign_split (String c r) = (false, String c r) /\
  starts_with "Infinity" (String c r) = false.
Proof.
  intros Hc. split; [by cbn; rewrite digit_not_space|].
  destruct c as [[][][][][][][][]]; simpl in Hc |- *; done.
Qed.

(** The digits of [numeric_text]: the integer part and two decimals
    make up the number of hundredths. *)
Lemma numeric_digits (A : Z) : 0 <= A ->
  exists ds, Z_to_string (A / 100) = string_of_digits ds /\ ds <> [] /\
    Forall (fun d => 0 <= d <= 9) (ds ++ [A mod 100 / 10; A mod 10])%list /\
    digits_value (ds ++ [A mod 100 / 10; A mod 10])%list = A.
Proof.
  intros HA. destruct (Z_to_string_digits (A / 100)) as (ds & Hs & Hne & Hf & Hv); [apply Z.div_pos; lia|].
  exists ds. split_and!; [done|done| |].
  - apply Forall_app. split; [done|]. repeat constructor; zlia.
  - change [A mod 100 / 10; A mod 10] with ([A mod 100 / 10] ++ [A mod 10])%list.
    rewrite app_assoc, !digits_value_app, Hv. zlia.
Qed.

(** [parseFloat] of a decimal literal [I.F] with an optional minus
    sign. *)
Lemma parseFloat_point (neg : bool) ip fp :
  ip <> [] -> Forall (fun d => 0 <= d <= 9) (ip ++ fp)%list ->
  parseFloat ((if neg then "-" else "") ++ string_of_digits ip ++ "." ++ string_of_digits fp) =
  let q := (inject_Z (digits_value (ip ++ fp)%list) / pow10 (Z.of_nat (length fp)) * pow10 0)%Q in
  Fin (if neg then (- q)%Q else q).
Proof.
  intros Hne Hf. apply Forall_app in Hf as [Hi Hfp].
  destruct ip as [|d ip]; [done|]. inversion Hi as [|? ? Hd Hi']; subst.
  destruct (digit_char_digit d Hd) as [Hdig _].
  set (r := "." ++ string_of_digits fp).
  destruct (digit_start_facts (digit_char d) (string_of_digits ip ++ r) Hdig) as (Htrim & Hsign & Hinf).
  change (String (digit_char d) (string_of_digits ip ++ r)) with (string_of_digits (d :: ip) ++ r)
    in Htrim, Hsign, Hinf.
  assert (Hlit : decimal_literal (string_of_digits (d :: ip) ++ r) =
                 Some (inject_Z (digits_value ((d :: ip) ++ fp)%list) / pow10 (Z.of_nat (length fp))
                       * pow10 0)%Q).
  { destruct (digit_prefix_app (d :: ip) r Hi eq_refl) as [Hp Hdrop].
    destruct (digit_prefix_app fp "" Hfp eq_refl) as [Hp' Hdrop']. rewrite string_app_nil_r in Hp', Hdrop'.
    unfold decimal_literal. rewrite Hp, Hdrop. change r with (String "." (string_of_digits fp)).
    cbv beta iota. by rewrite Hp', Hdrop'. }
  unfold parseFloat. destruct neg.
  - change ("-" ++ (string_of_digits (d :: ip) ++ r)) with (String "-" (string_of_digits (d :: ip) ++ r)).
    change (trim_start (String "-" (string_of_digits (d :: ip) ++ r)))
      with (String "-" (string_of_digits (d :: ip) ++ r)).
    change (sign_split (String "-" (string_of_digits (d :: ip) ++ r)))
      with (true, string_of_digits (d :: ip) ++ r).
    cbv beta iota. by rewrite Hinf, Hlit.
  - rewrite string_app_nil_l, Htrim, Hsign. cbv beta iota. by rewrite Hinf, Hlit.
Qed.

(** [parseFloat] of the text PostgreSQL prints for a [numeric(p, 2)]
    value is that value. *)
Lemma api_num_of_numeric n : js_equiv (api_num n) (of_numeric n).
Proof.
  destruct n as [|c]; [exact I|]. unfold api_num, numeric_text.
  destruct (numeric_digits (Z.abs c) (Z.abs_nonneg c)) as (ds & Hs & Hne & Hf & Hv).
  rewrite Hs, (parseFloat_point (Z.ltb c 0)) by done. simpl. rewrite Hv.
  unfold pow10. simpl. destruct (Z.ltb_spec c 0); unfold Qeq; simpl; lia.
Qed.

Lemma api_num_NVal c : exists q, api_num (NVal c) = Fin q /\ q == c # 100.
Proof.
  pose proof (api_num_of_numeric (NVal c)) as H.
  destruct (api_num (NVal c)) as [q| |]; simpl in H; [eauto|done|done].
Qed.

(** The sums of the pages are the sums of the database's values when
    no value of the column is [NaN]. *)
Lemma sum_column_fold col invs a : Forall (fun i => col i <> NNaN) invs ->
  js_equiv (fold_left (fun sum inv => js_plus sum (api_num (col inv))) invs (Fin a))
           (Fin (a + column_sum col invs)).
Proof.
  revert a. induction invs as [|i invs IH]; intros a Hf; simpl.
  - by rewrite Qplus_0_r.
  - inversion Hf as [|? ? Hi Hf']; subst. destruct (col i) as [|c] eqn:Ec; [done|].
    destruct (api_num_NVal c) as (q & -> & Hq). simpl.
    rewrite (IH (a + q)%Q Hf'). simpl. rewrite Hq. ring.
Qed.

Lemma sum_column_spec col invs : Forall (fun i => col i <> NNaN) invs ->
  js_equiv (sum_column col invs) (Fin (column_sum col invs)).
Proof. intros Hf. unfold sum_column. rewrite (sum_column_fold col invs 0 Hf). simpl. ring. Qed.

Lemma api_num_val n c : n = NVal c -> js_equiv (api_num n) (Fin (c # 100)).
Proof. intros ->. apply api_num_of_numeric. Qed.

(** C34: refinement: the metrics the dashboard's investment card shows,
    computed from the API's texts with [parseFloat], are the exact sums
    of the database's columns: the invested total, the weight, their
    value at the current price per gram and at the sell price, the
    profit, and its percentage of the invested total (0 when that total
    is not positive), provided no value involved is [NaN]. *)
Theorem calculateMetrics_refines invs cp ppg sell :
  Forall (fun i => inv_purchasePrice i <> NNaN) invs -> Forall (fun i => inv_weight i <> NNaN) invs ->
  gp_pricePerGram cp = NVal ppg -> gp_sellPrice cp = NVal sell ->
  let I := column_sum inv_purchasePrice invs in
  let W := column_sum inv_weight invs in
  metrics_equiv (calculateMetrics (Some invs) (Some cp))
    {| totalInvestment := Fin I; totalWeight := Fin W; currentValue := Fin (W * (ppg # 100));
       totalProfit := Fin (W * (ppg # 100) - I);
       profitPercentage := Fin (if Qle_bool I 0 then 0 else (W * (ppg # 100) - I) / I * 100);
       profitIfSold := Fin (W * (sell # 100) - I) |}.
Proof.
  intros Hp Hw Hppg Hsell I W. unfold calculateMetrics, metrics_equiv.
  pose proof (sum_column_spec _ _ Hp) as HI. pose proof (sum_column_spec _ _ Hw) as HW.
  fold I in HI. fold W in HW. rewrite (js_gt0_Proper _ _ HI). simpl js_gt0.
  destruct (Qle_bool I 0) eqn:E; cbn [totalInvestment totalWeight currentValue totalProfit
    profitPercentage profitIfSold negb];
  rewrite ?HI, ?HW, ?(api_num_val _ _ Hppg), ?(api_num_val _ _ Hsell); simpl; split_and!; try reflexivity.
  destruct (Qeq_bool I 0) eqn:E0; [|reflexivity].
  apply Qeq_bool_iff in E0. rewrite (Qle_bool_compat I 0 0 0 E0 (Qeq_refl 0)) in E. discriminate.
Qed.

Lemma Qfloor_unique q z : (inject_Z z <= q)%Q -> (q < inject_Z (z + 1))%Q -> Qfloor q = z.
Proof.
  destruct q as [n d]. unfold Qle, Qlt, Qfloor. simpl. intros H1 H2.
  symmetry. apply (Z.div_unique_pos _ _ _ (n - z * Z.pos d)); nia.
Qed.

Lemma Qle_bool_pos x : (0 < x)%Q -> Qle_bool x 0 = false.
Proof. intros H. apply not_true_iff_false. rewrite Qle_bool_iff. intros H'. exact (Qlt_not_le _ _ H H'). Qed.

Lemma Qeq_bool_nonzero x : ~ x == 0 -> Qeq_bool x 0 = false.
Proof. intros H. apply not_true_iff_false. rewrite Qeq_bool_iff. exact H. Qed.

Lemma column_sum_zero col invs : Forall (fun i => col i = NVal 0) invs -> column_sum col invs == 0.
Proof.
  induction 1 as [|i invs Hi _ IH]; simpl; [reflexivity|]. rewrite Hi, IH. reflexivity.
Qed.

Lemma numeric_text_nonempty n : exists a r, numeric_text n = String a r.
Proof.
  destruct n as [|c]; [by do 2 eexists|]. unfold numeric_text.
  destruct (numeric_digits (Z.abs c) (Z.abs_nonneg c)) as ([|d ds] & -> & Hne & _); [done|].
  destruct (Z.ltb c 0); eauto.
Qed.

Lemma js_or_nonzero x d : ~ x == 0 -> js_or (Fin x) d = Fin x.
Proof. intros H. unfold js_or. by rewrite Qeq_bool_nonzero. Qed.

(** Equivalence: the totals of the investments page are the metrics
    of the dashboard's investment card whenever there is an investment
    and the invested total is positive. *)
Theorem calculateTotals_eq_metrics invs cur :
  invs <> [] -> Forall (fun i => inv_purchasePrice i <> NNaN) invs ->
  (0 < column_sum inv_purchasePrice invs)%Q ->
  calculateTotals (Some invs) cur = calculateMetrics (Some invs) cur.
Proof.
  intros Hne Hp Hpos. destruct invs as [|i rest]; [done|]. destruct cur as [cp|]; [|done].
  unfold calculateTotals, calculateMetrics. rewrite (js_gt0_Proper _ _ (sum_column_spec _ _ Hp)).
  cbn [js_gt0]. rewrite Qle_bool_pos by exact Hpos. reflexivity.
Qed.

(** When every investment was recorded with a purchase price of 0
    and the gold held has a value, the investments page computes its
    profit percentage as [profit / 0 * 100], [Infinity], while the
    dashboard's card guards the division and shows 0. *)
Theorem calculateTotals_zero_invested invs cp ppg :
  invs <> [] -> Forall (fun i => inv_purchasePrice i = NVal 0) invs ->
  Forall (fun i => inv_weight i <> NNaN) invs -> (0 < column_sum inv_weight invs)%Q ->
  gp_pricePerGram cp = NVal ppg -> 0 < ppg ->
  js_equiv (profitPercentage (calculateTotals (Some invs) (Some cp))) (Inf true) /\
  js_equiv (profitPercentage (calculateMetrics (Some invs) (Some cp))) (Fin 0).
Proof.
  intros Hne Hp Hw HW Hppg Hpos.
  assert (HI : js_equiv (sum_column inv_purchasePrice invs) (Fin 0)).
  { rewrite sum_column_spec; [apply column_sum_zero, Hp|].
    apply Forall_forall. intros i Hi. by rewrite (proj1 (Forall_forall _ _) Hp i Hi). }
  destruct invs as [|i rest]; [done|]. unfold calculateTotals, calculateMetrics. cbn [profitPercentage].
  rewrite (js_gt0_Proper _ _ HI). split; [|reflexivity].
  rewrite HI, (sum_column_spec _ _ Hw), (api_num_val _ _ Hppg). simpl.
  assert (Hv : (0 < column_sum inv_weight (i :: rest) * (ppg # 100) - 0)%Q).
  { setoid_replace (column_sum inv_weight (i :: rest) * (ppg # 100) - 0)%Q
      with (column_sum inv_weight (i :: rest) * (ppg # 100))%Q using relation Qeq by ring.
    apply Qmult_lt_0_compat; [done|]. unfold Qlt. simpl. lia. }
  rewrite Qeq_bool_nonzero by (intros H; rewrite H in Hv; discriminate).
  simpl. apply Qle_bool_iff, Qlt_le_weak, Hv.
Qed.

(** While the current price has not loaded (or when its request
    failed), each row of the investments page values the gold at 0: the
    profit is minus the purchase price and the percentage is -100. *)
Theorem investment_row_without_price inv w p :
  inv_weight inv = NVal w -> inv_purchasePrice inv = NVal p -> p <> 0 ->
  let '(cv, profit, pct) := investment_row None inv in
  js_equiv cv (Fin 0) /\ js_equiv profit (Fin (- (p # 100))) /\ js_equiv pct (Fin (-100)).
Proof.
  intros Hw Hp Hp0. unfold investment_row. rewrite (api_num_val _ _ Hw), (api_num_val _ _ Hp).
  simpl. split_and!; [ring|ring|].
  rewrite Qeq_bool_nonzero by (unfold Qeq; simpl; lia). simpl. field. unfold Qeq; simpl; lia.
Qed.

Lemma calculateGoldValue_run g weight purity type v w p :
  parseFloat weight = Fin w -> parseFloat purity = Fin p ->
  calculateGoldValue (Some g) weight purity type v =
  js_mult (js_mult (Fin w) (Fin p)) (api_num (if String.eqb type "buy" then gp_buyPrice g else gp_sellPrice g)).
Proof. intros Hw Hp. unfold calculateGoldValue. rewrite Hw, Hp. simpl. by destruct (String.eqb type "buy"). Qed.

Section calculators.
Variable string_to_number : string -> jsnum.
(** [ToNumber] reads the text of a [numeric] as [parseFloat] does. *)
Hypothesis Hnum : forall n, js_equiv (string_to_number (numeric_text n)) (of_numeric n).

Lemma dashboardCalculator_run g buy weight purity type v w p :
  gp_buyPrice g = NVal buy -> parseFloat weight = Fin w -> parseFloat purity = Fin p ->
  js_equiv (dashboardCalculator string_to_number (Some g) weight purity type v)
           (js_mult (js_mult (js_or (Fin w) (Fin 0)) (js_or (Fin p) (Fin (999 # 1000)))) (Fin (buy # 100))).
Proof.
  intros Hb Hw Hp. unfold dashboardCalculator, handleCalculate. simpl.
  destruct (numeric_text_nonempty (gp_buyPrice g)) as (a & r & Ha). rewrite Ha, <- Ha.
  rewrite Hw, Hp, (Hnum (gp_buyPrice g)), Hb. reflexivity.
Qed.

(** The dashboard's calculator ignores its Buy/Sell switch: with the
    Sell option and numeric inputs, the calculator page values the gold
    at the sell price while the dashboard's calculator uses the buy
    price it is given. *)
Theorem gold_calculators_disagree g buy sell weight purity w p v v' :
  gp_buyPrice g = NVal buy -> gp_sellPrice g = NVal sell ->
  parseFloat weight = Fin w -> parseFloat purity = Fin p -> ~ w == 0 -> ~ p == 0 ->
  js_equiv (calculateGoldValue (Some g) weight purity "sell" v) (Fin (w * p * (sell # 100))) /\
  js_equiv (dashboardCalculator string_to_number (Some g) weight purity "sell" v')
           (Fin (w * p * (buy # 100))).
Proof.
  intros Hb Hs Hw Hp Hw0 Hp0. split.
  - rewrite (calculateGoldValue_run g weight purity "sell" v w p Hw Hp). cbn -[api_num js_mult].
    rewrite (api_num_val _ _ Hs). reflexivity.
  - etransitivity; [exact (dashboardCalculator_run g buy weight purity "sell" v' w p Hb Hw Hp)|].
    rewrite !js_or_nonzero by done. reflexivity.
Qed.

(** A purity of 0 is falsy: the dashboard's calculator computes with
    the default 0.999 ([parseFloat(purity) || 0.999]), while the
    calculator page computes a value of 0. *)
Theorem dashboard_calculator_zero_purity g buy sell weight w v v' :
  gp_buyPrice g = NVal buy -> gp_sellPrice g = NVal sell ->
  parseFloat weight = Fin w -> ~ w == 0 ->
  js_equiv (calculateGoldValue (Some g) weight "0" "buy" v) (Fin 0) /\
  js_equiv (dashboardCalculator string_to_number (Some g) weight "0" "buy" v')
           (Fin (w * (999 # 1000) * (buy # 100))).
Proof.
  intros Hb Hs Hw Hw0. split.
  - rewrite (calculateGoldValue_run g weight "0" "buy" v w 0 Hw eq_refl). cbn -[api_num js_mult].
    rewrite (api_num_val _ _ Hb). simpl. ring.
  - etransitivity; [exact (dashboardCalculator_run g buy weight "0" "buy" v' w 0 Hb Hw eq_refl)|].
    rewrite js_or_nonzero by done. reflexivity.
Qed.
End calculators.


(** [formatWeight] chooses the singular by testing the number, not
    the text it prints: every weight other than 1 that [toFixed(1)]
    rounds to 1.0 is shown as "1.0 grams", while 1 is shown as
    "1.0 gram". *)
Theorem formatWeight_plural (number_to_string : Q -> string) x :
  (95 # 100 <= x < 105 # 100)%Q ->
  formatWeight number_to_string (VNumber (Fin x)) 1 = Ok (if Qeq_bool x 1 then "1.0 gram" else "1.0 grams").
Proof.
  intros [Hlo Hhi]. unfold formatWeight, toFixed. cbn [num_value Nat.ltb Nat.leb].
  rewrite (proj2 (Qle_bool_iff 0 x)) by lra.
  assert (Ha : Qabs x == x) by (apply Qabs_pos; lra).
  assert (Hbig : Qle_bool (inject_Z (10 ^ 21)) (Qabs x) = false).
  { apply not_true_iff_false. rewrite Qle_bool_iff, Ha. intros H.
    assert (H21 : (inject_Z (10 ^ 21) = 1000000000000000000000 # 1)%Q) by reflexivity.
    rewrite H21 in H. lra. }
  rewrite Hbig.
  assert (Hn : Qfloor (Qabs x * inject_Z (10 ^ Z.of_nat 1) + (1 # 2)) = 10).
  { rewrite Ha. change (inject_Z (10 ^ Z.of_nat 1)) with (10 # 1)%Q.
    apply Qfloor_unique; [change (inject_Z 10) with (10 # 1)%Q | change (inject_Z (10 + 1)) with (11 # 1)%Q];
      lra. }
  rewrite Hn. unfold js_is1. by destruct (Qeq_bool x 1).
Qed.

(** ** Witnesses *)

(** The two investments of the seed script and a snapshot of the
    scenario of the specification. *)
Definition sample_investment (id w p : Z) : Investment := {|
  inv_id := id; inv_purchaseDate := 0; inv_weight := NVal w; inv_purchasePrice := NVal p;
  inv_purity := N3Val 999; inv_notes := None; inv_createdAt := 0 |}.

Definition sample_investments : list Investment :=
  [sample_investment 1 200 210000000; sample_investment 2 300 315000000].

Definition sample_price : GoldPrice := {|
  gp_id := 1; gp_date := 0; gp_buyPrice := NVal 105800000; gp_sellPrice := NVal 96700000;
  gp_pricePerGram := NVal 105300000; gp_source := "pegadaian"; gp_highPrice := None; gp_lowPrice := None |}.

Ltac no_nan := repeat constructor; cbn; discriminate.

Lemma calculateMetrics_refines_witness :
  let I := column_sum inv_purchasePrice sample_investments in
  let W := column_sum inv_weight sample_investments in
  metrics_equiv (calculateMetrics (Some sample_investments) (Some sample_price))
    {| totalInvestment := Fin I; totalWeight := Fin W; currentValue := Fin (W * (105300000 # 100));
       totalProfit := Fin (W * (105300000 # 100) - I);
       profitPercentage := Fin (if Qle_bool I 0 then 0 else (W * (105300000 # 100) - I) / I * 100);
       profitIfSold := Fin (W * (96700000 # 100) - I) |}.
Proof. apply calculateMetrics_refines; [no_nan|no_nan|reflexivity|reflexivity]. Defined.

Lemma calculateTotals_eq_metrics_witness :
  calculateTotals (Some sample_investments) (Some sample_price) =
  calculateMetrics (Some sample_investments) (Some sample_price).
Proof. apply calculateTotals_eq_metrics; [discriminate|no_nan|reflexivity]. Defined.

Lemma calculateTotals_zero_invested_witness :
  js_equiv (profitPercentage (calculateTotals (Some [sample_investment 1 200 0]) (Some sample_price))) (Inf true) /\
  js_equiv (profitPercentage (calculateMetrics (Some [sample_investment 1 200 0]) (Some sample_price))) (Fin 0).
Proof.
  apply (calculateTotals_zero_invested _ _ 105300000); [discriminate|no_nan..|reflexivity|reflexivity|lia].
Defined.

Lemma investment_row_without_price_witness :
  let '(cv, profit, pct) := investment_row None (sample_investment 1 200 210000000) in
  js_equiv cv (Fin 0) /\ js_equiv profit (Fin (- (210000000 # 100))) /\ js_equiv pct (Fin (-100)).
Proof. apply (investment_row_without_price _ 200 210000000); [reflexivity|reflexivity|lia]. Defined.

Lemma gold_calculators_disagree_witness :
  js_equiv (calculateGoldValue (Some sample_price) "2" "0.999" "sell" (Fin 0)) (Fin (2 * (999 # 1000) * (96700000 # 100))) /\
  js_equiv (dashboardCalculator parseFloat (Some sample_price) "2" "0.999" "sell" (Fin 0))
           (Fin (2 * (999 # 1000) * (105800000 # 100))).
Proof.
  apply (gold_calculators_disagree parseFloat api_num_of_numeric); try reflexivity; discriminate.
Defined.

Lemma dashboard_calculator_zero_purity_witness :
  js_equiv (calculateGoldValue (Some sample_price) "2" "0" "buy" (Fin 0)) (Fin 0) /\
  js_equiv (dashboardCalculator parseFloat (Some sample_price) "2" "0" "buy" (Fin 0))
           (Fin (2 * (999 # 1000) * (105800000 # 100))).
Proof.
  apply (dashboard_calculator_zero_purity parseFloat api_num_of_numeric _ _ 96700000); try reflexivity.
  discriminate.
Defined.


Lemma formatWeight_plural_witness :
  formatWeight (fun _ => EmptyString) (VNumber (Fin (104 # 100))) 1 = Ok "1.0 grams".
Proof. apply (formatWeight_plural (fun _ => EmptyString) (104 # 100)). unfold Qle, Qlt. simpl. lia. Defined.

End Client.
