(* ===== verification/Forms.v ===== *)
(** * The dashboard's alert form ([src/client/src/pages/Notifications.tsx])

  The form's state is [AlertForm], one field per [useState] of the
  component.  [handleSubmit] either shows a warning or posts the JSON
  body it builds to [POST /api/alerts]; [JSON.stringify] writes a
  number as a JSON number and [NaN] and the infinities as [null].  The
  target price input is a plain text input, so its text is any string
  and [parseFloat] may read a number, a prefix of it, or nothing.  The
  theorem of this file composes the form with the route of [Api] and
  the alert rule of [Alerts]. *)

From S2P Require Import Prelude Text Schema Storage History Alerts Api Client.

Module Forms.
Import Text Schema Storage History Alerts Api Client.
Local Open Scope string_scope.

(** The state of the component (lines 19-25). *)
Record AlertForm := {
  notificationType : string;
  whatsAppEnabled : bool;
  telegramEnabled : bool;
  targetPrice : string;
  phoneNumber : string;
  telegramChatId : string;
  dailyTime : string
}.

(** The form's initial state and the state [resetForm] restores
    (lines 82-90). *)
Definition initial_form : AlertForm := {|
  notificationType := "increase"; whatsAppEnabled := true; telegramEnabled := false; targetPrice := "";
  phoneNumber := ""; telegramChatId := ""; dailyTime := "20:00" |}.

(** A JavaScript number in [JSON.stringify]. *)
Definition json_number (x : jsnum) : json :=
  match x with Fin q => Jnum q | _ => Jnull end.

(** [!s] for a string. *)
Definition empty_text (s : string) : bool := match s with EmptyString => true | _ => false end.

Inductive Submit :=
| Warning (description : string)
| PostAlert (body : json).

(** [handleSubmit] (lines 92-135). *)
Definition handleSubmit (f : AlertForm) : Submit :=
  if negb (whatsAppEnabled f) && negb (telegramEnabled f) then
    Warning "Please enable at least one notification channel"
  else if (whatsAppEnabled f && empty_text (phoneNumber f)) || (telegramEnabled f && empty_text (telegramChatId f)) then
    Warning "Please fill in all required fields for enabled channels"
  else if negb (String.eqb (notificationType f) "daily") && empty_text (targetPrice f) then
    Warning "Please enter a target price"
  else
    PostAlert (Jobj [
      ("alertType", Jstr (notificationType f));
      ("targetPrice", if String.eqb (notificationType f) "daily" then Jnull
                      else json_number (parseFloat (targetPrice f)));
      ("whatsappEnabled", Jbool (whatsAppEnabled f));
      ("telegramEnabled", Jbool (telegramEnabled f));
      ("phoneNumber", if whatsAppEnabled f then Jstr (phoneNumber f) else Jnull);
      ("telegramChatId", if telegramEnabled f then Jstr (telegramChatId f) else Jnull);
      ("dailyTime", if String.eqb (notificationType f) "daily" then Jstr (dailyTime f) else Jnull);
      ("active", Jbool true)]).

(** The delete mutation (lines 62-65) of the delete button of an alert
    (line 362): [DELETE /api/alerts/${alertId}], whose path parameter
    is [String(alert.id)]. *)
Definition deleteAlert (alertId : Z) : ST DB (Reply unit) :=
  deleteAlertRoute (Z_to_string alertId).

(** The second line of an alert in the list (lines 341-343). *)
Definition alert_description (a : PriceAlert) : string :=
  if String.eqb (pa_alertType a) "daily" then
    "Send at " ++ match pa_dailyTime a with Some t => t | None => "null" end ++ " daily"
  else
    "Alert when " ++ (if String.eqb (pa_alertType a) "increase" then ">" else "<") ++ " " ++
    formatCurrency (match pa_targetPrice a with Some n => VString (numeric_text n) | None => VNull end).

(** A Telegram alert whose target is typed with the currency's
    formatting, as the dashboard shows prices. *)
Definition sample_form : AlertForm := {|
  notificationType := "increase"; whatsAppEnabled := false; telegramEnabled := true;
  targetPrice := "Rp 1.060.000"; phoneNumber := ""; telegramChatId := "123456789"; dailyTime := "20:00" |}.

Definition sample_body : json :=
  Eval vm_compute in match handleSubmit sample_form with PostAlert b => b | Warning _ => Jnull end.

Definition sample_alert : option PriceAlert :=
  Eval vm_compute in match fst (postAlertRoute 0 sample_body empty_db) with Ok (RCreated a) => Some a | _ => None end.

(** ** Lemmas *)

Lemma createPriceAlert_row now ai db a db' :
  createPriceAlert now ai db = (Ok a, db') -> exists id, alert_row id now ai = Ok a.
Proof.
  unfold createPriceAlert, lift. st_simpl.
  destruct (alert_row _ now ai) as [r| |] eqn:E; simpl; try discriminate.
  destruct (decide _); simpl; [discriminate|]. intros [= <- _]. eauto.
Qed.

Lemma alert_row_untargeted id now ai a :
  alert_row id now ai = Ok a -> mjoin (ai_targetPrice ai) = None -> pa_targetPrice a = None.
Proof.
  unfold alert_row. intros H Ht. rewrite Ht in H. simpl in H.
  destruct (ai_alertType ai); simpl in H; [|discriminate]. by injection H as <-.
Qed.

(** An alert the route creates from a body whose [targetPrice] is
    [null] or missing has no target. *)
Lemma postAlert_created_untargeted now fields db a :
  json_get "targetPrice" fields = Some Jnull \/ json_get "targetPrice" fields = None ->
  fst (postAlertRoute now (Jobj fields) db) = Ok (RCreated a) -> pa_targetPrice a = None.
Proof.
  intros Ht. unfold postAlertRoute, validated.
  destruct (zod_parse priceAlertsInsertSchema (Jobj fields)) as [issues|obj] eqn:Ez; [by intros [=]|].
  assert (Hobj : json_get "targetPrice" obj = json_get "targetPrice" fields)
    by (rewrite (zod_parse_get _ _ _ _ Ez); reflexivity).
  unfold guarded, try_catch, lift. st_simpl.
  destruct (alert_input obj) as [ai| |] eqn:Ei; simpl; try by intros [=].
  destruct (createPriceAlert now ai db) as [[a'| |] db'] eqn:Ec; simpl; try by intros [=].
  intros [= <-]. destruct (createPriceAlert_row _ _ _ _ _ Ec) as (id & Er).
  unfold alert_input in Ei. destruct (id_of obj) as [oid| |]; simpl in Ei; try discriminate.
  injection Ei as <-. apply (alert_row_untargeted _ _ _ _ Er). simpl. unfold opt_field.
  rewrite Hobj. by destruct Ht as [-> | ->].
Qed.

Lemma untargeted_never_triggered a cp : pa_targetPrice a = None -> price_alert_triggered cp a = false.
Proof. intros Ht. unfold price_alert_triggered, alert_target. rewrite Ht. by destruct (String.eqb _ _). Qed.

(** Every alert the form creates through the route has no target. *)
Lemma dashboard_alert_untargeted f body now db a :
  handleSubmit f = PostAlert body -> fst (postAlertRoute now body db) = Ok (RCreated a) ->
  pa_targetPrice a = None.
Proof.
  intros Hs Hc. unfold handleSubmit in Hs.
  destruct (negb (whatsAppEnabled f) && negb (telegramEnabled f)); [discriminate|].
  destruct (_ || _); [discriminate|]. destruct (_ && _); [discriminate|]. injection Hs as <-.
  destruct (String.eqb (notificationType f) "daily") eqn:Ed;
    [|destruct (parseFloat (targetPrice f)) as [q|p|] eqn:Ep]; cbn [json_number] in Hc.
  2: { exfalso. match type of Hc with context [postAlertRoute _ (Jobj ?l) _] =>
         destruct (number_target_issue l q) as (issues & Hz & _); [reflexivity|] end.
       unfold postAlertRoute in Hc. rewrite (validated_rejects _ _ issues) in Hc by exact Hz. discriminate. }
  all: eapply (postAlert_created_untargeted now _ db a); [|exact Hc]; left; reflexivity.
Qed.

(** C15: no alert that the dashboard's form creates is ever triggered by
    the price: a target price that [parseFloat] reads is posted as a
    JSON number and rejected (400), a target it cannot read (such as
    "Rp 1.060.000") is posted as [null] and stored without target, and
    a daily alert has no target. *)
Theorem dashboard_alerts_never_fire f body now db a :
  handleSubmit f = PostAlert body -> fst (postAlertRoute now body db) = Ok (RCreated a) ->
  pa_targetPrice a = None /\ forall cp, price_alert_triggered cp a = false.
Proof.
  intros Hs Hc. pose proof (dashboard_alert_untargeted _ _ _ _ _ Hs Hc) as Ht.
  split; [done|intros cp; by apply untargeted_never_triggered].
Qed.

(** The alert list describes every increase or decrease alert the form
    creates as "Alert when > N/A" (or "<"): [formatCurrency(null)]. *)
Lemma dashboard_alert_listed_without_target f body now db a :
  handleSubmit f = PostAlert body -> fst (postAlertRoute now body db) = Ok (RCreated a) ->
  String.eqb (pa_alertType a) "daily" = false ->
  alert_description a = "Alert when " ++ (if String.eqb (pa_alertType a) "increase" then ">" else "<") ++ " N/A".
Proof.
  intros Hs Hc Hd. unfold alert_description. rewrite Hd, (dashboard_alert_untargeted _ _ _ _ _ Hs Hc).
  reflexivity.
Qed.

(** The delete button of an alert deletes exactly the alerts with its
    id and answers 204, unless a notification log refers to the alert
    (only the Emasku alert loop writes such logs; the notifiers' logs
    have no alert id): the foreign key of [notification_logs.alert_id]
    then rejects the [DELETE], the route answers 500 and nothing
    changes. *)
Theorem dashboard_delete_alert id db :
  deleteAlert id db =
  if decide (Exists (fun l => nl_alertId l = Some id) (notificationLogs db))
  then (Ok (RError "Error deleting price alert"), db)
  else (Ok RNoContent, set_priceAlerts (filter (fun b => pa_id b <> id) (priceAlerts db)) (seq_priceAlerts db) db).
Proof.
  unfold deleteAlert, deleteAlertRoute, guarded, param_id. rewrite parse_int_Z_to_string.
  unfold deletePriceAlert, lift. st_simpl. by destruct (decide _).
Qed.

(** ** Witnesses *)

Lemma dashboard_alerts_never_fire_witness : exists a,
  fst (postAlertRoute 0 sample_body empty_db) = Ok (RCreated a) /\ pa_targetPrice a = None /\
  price_alert_triggered (current_at 1100000) a = false.
Proof.
  destruct sample_alert as [a|] eqn:Ea; [|discriminate].
  exists a. assert (Hc : fst (postAlertRoute 0 sample_body empty_db) = Ok (RCreated a))
    by (vm_compute in Ea |- *; injection Ea as <-; reflexivity).
  destruct (dashboard_alerts_never_fire sample_form sample_body 0 empty_db a) as [Ht Hn];
    [vm_compute; reflexivity|exact Hc|].
  split; [exact Hc|split; [exact Ht|apply Hn]].
Defined.

Lemma dashboard_alert_listed_without_target_witness : exists a,
  fst (postAlertRoute 0 sample_body empty_db) = Ok (RCreated a) /\
  alert_description a = "Alert when > N/A".
Proof.
  destruct sample_alert as [a|] eqn:Ea; [|discriminate].
  exists a. assert (Hc : fst (postAlertRoute 0 sample_body empty_db) = Ok (RCreated a))
    by (vm_compute in Ea |- *; injection Ea as <-; reflexivity).
  split; [exact Hc|].
  rewrite (dashboard_alert_listed_without_target sample_form sample_body 0 empty_db a);
    [|vm_compute; reflexivity|exact Hc|vm_compute in Ea |- *; injection Ea as <-; reflexivity].
  vm_compute in Ea |- *; injection Ea as <-; reflexivity.
Defined.

End Forms.
