(* ===== verification/AlertsPage.v ===== *)
(** * The alerts page ([src/client/src/pages/Notifications.tsx])

  The component as a state machine over the page and the server's
  database: [PageState] holds the alert form ([Forms.AlertForm]), the
  dialog's [open] flag, the data of the two queries and the toasts
  shown; [page_step] runs one event (an input's handler, the dialog,
  the form's submission, a delete button, a query's fetch) and, for the
  two mutations, the route of [Api] that [apiRequest] calls, then the
  mutation's [onSuccess] or [onError].  [apiRequest] and the default
  query function live in [@/lib/queryClient], which is not part of the
  repository: the model takes a reply with a 2xx status as a success
  and the text of the [Error] thrown for any other reply as a
  parameter.  An [invalidateQueries] of an active query refetches it;
  the model runs that refetch at once.  What the page renders is a
  function of its state: the form's visible inputs, the cards of the
  alert list and the rows of the notification history. *)

From S2P Require Import Prelude Text Schema Storage History Alerts Api Client Forms.

Module AlertsPage.
Import Text Schema Storage History Alerts Api Client Forms.
Local Open Scope string_scope.

(** A toast: its title, its description, and whether it is
    [variant: "destructive"]. *)
Record Toast := {
  toast_title : string;
  toast_description : string;
  toast_destructive : bool
}.

(** The state of the component (lines 18-35): the form, the dialog,
    the data of the [/api/alerts] and [/api/notification-logs] queries
    ([None] until their first answer), and the toasts, newest first. *)
Record PageState := {
  form : AlertForm;
  open : bool;
  alerts : option (list PriceAlert);
  notificationLogs_data : option (list NotificationLog);
  toasts : list Toast
}.

Definition initial_page : PageState := {|
  form := initial_form; open := false; alerts := None; notificationLogs_data := None; toasts := [] |}.

(** What happens on the page. *)
Inductive PageEvent :=
| SetNotificationType (s : string)
| SetTargetPrice (s : string)
| SetDailyTime (s : string)
| SetWhatsAppEnabled (b : bool)
| SetPhoneNumber (s : string)
| SetTelegramEnabled (b : bool)
| SetTelegramChatId (s : string)
| SetOpen (b : bool)
| SubmitForm
| DeleteClicked (alertId : Z)
| FetchAlerts
| FetchLogs.

(** [res.ok]: the routes answer 200, 201 or 204 on success and 400,
    404 or 500 otherwise. *)
Definition reply_ok {A} (r : Reply A) : bool :=
  match r with RJson _ | RCreated _ | RNoContent => true | _ => false end.

Definition with_form (st : PageState) (f : AlertForm) : PageState := {|
  form := f; open := open st; alerts := alerts st; notificationLogs_data := notificationLogs_data st;
  toasts := toasts st |}.

Definition with_open (st : PageState) (b : bool) : PageState := {|
  form := form st; open := b; alerts := alerts st; notificationLogs_data := notificationLogs_data st;
  toasts := toasts st |}.

Definition with_alerts (st : PageState) (l : list PriceAlert) : PageState := {|
  form := form st; open := open st; alerts := Some l; notificationLogs_data := notificationLogs_data st;
  toasts := toasts st |}.

Definition with_logs (st : PageState) (l : list NotificationLog) : PageState := {|
  form := form st; open := open st; alerts := alerts st; notificationLogs_data := Some l;
  toasts := toasts st |}.

Definition push_toast (st : PageState) (t : Toast) : PageState := {|
  form := form st; open := open st; alerts := alerts st; notificationLogs_data := notificationLogs_data st;
  toasts := t :: toasts st |}.

(** The setters of the inputs (lines 174-271). *)
Definition set_field (f : AlertForm) (e : PageEvent) : AlertForm :=
  let '(t, w, tg, p, ph, c, d) := (notificationType f, whatsAppEnabled f, telegramEnabled f, targetPrice f,
                                  phoneNumber f, telegramChatId f, dailyTime f) in
  let mk t w tg p ph c d := {| notificationType := t; whatsAppEnabled := w; telegramEnabled := tg;
                               targetPrice := p; phoneNumber := ph; telegramChatId := c; dailyTime := d |} in
  match e with
  | SetNotificationType s => mk s w tg p ph c d
  | SetTargetPrice s => mk t w tg s ph c d
  | SetDailyTime s => mk t w tg p ph c s
  | SetWhatsAppEnabled b => mk t b tg p ph c d
  | SetPhoneNumber s => mk t w tg p s c d
  | SetTelegramEnabled b => mk t w b p ph c d
  | SetTelegramChatId s => mk t w tg p ph s d
  | _ => f
  end.

Section page.
(** The clock of the server, and the message of the [Error] that
    [apiRequest] throws for a reply whose status is not 2xx. *)
Variable now : Z.
Variable request_error : forall A, Reply A -> string.
Arguments request_error {A} _.

(** [await apiRequest(...)] against the server's database: the reply,
    the message of the error it throws, or [None] while it has not
    settled. *)
Definition request {A} (m : ST DB (Reply A)) (db : DB) : option (string + Reply A) * DB :=
  match m db with
  | (Ok r, db') => (Some (if reply_ok r then inr r else inl (request_error r)), db')
  | (Err e, db') => (Some (inl e), db')
  | (Hang, db') => (None, db')
  end.

(** The [/api/alerts] query (lines 28-30): its data is replaced by a
    successful answer and kept otherwise. *)
Definition fetch_alerts (st : PageState) (db : DB) : PageState :=
  match fst (getAlertsRoute db) with Ok (RJson l) => with_alerts st l | _ => st end.

(** The [/api/notification-logs] query (lines 33-35), without a
    [limit]. *)
Definition fetch_logs (st : PageState) (db : DB) : PageState :=
  match fst (getLogsRoute None db) with Ok (RJson l) => with_logs st l | _ => st end.

(** [createAlert] (lines 38-59) on the body [handleSubmit] built. *)
Definition createAlert (st : PageState) (body : json) (db : DB) : PageState * DB :=
  match request (postAlertRoute now body) db with
  | (None, db') => (st, db')
  | (Some (inl msg), db') =>
      (push_toast st {| toast_title := "Error"; toast_description := "Failed to create alert: " ++ msg;
                        toast_destructive := true |}, db')
  | (Some (inr _), db') =>
      let st1 := push_toast (fetch_alerts st db') {| toast_title := "Alert created";
                   toast_description := "Your price alert has been set successfully"; toast_destructive := false |} in
      (with_form (with_open st1 false) initial_form, db')
  end.

(** [deleteAlert] (lines 62-80) on the id of the button's alert. *)
Definition deleteAlert (st : PageState) (alertId : Z) (db : DB) : PageState * DB :=
  match request (Forms.deleteAlert alertId) db with
  | (None, db') => (st, db')
  | (Some (inl msg), db') =>
      (push_toast st {| toast_title := "Error"; toast_description := "Failed to delete alert: " ++ msg;
                        toast_destructive := true |}, db')
  | (Some (inr _), db') =>
      (push_toast (fetch_alerts st db') {| toast_title := "Alert deleted";
         toast_description := "Your price alert has been removed"; toast_destructive := false |}, db')
  end.

(** [handleSubmit] (lines 92-135): a warning toast, or the mutation. *)
Definition submit (st : PageState) (db : DB) : PageState * DB :=
  match handleSubmit (form st) with
  | Warning d => (push_toast st {| toast_title := "Warning"; toast_description := d; toast_destructive := true |}, db)
  | PostAlert body => createAlert st body db
  end.

(** One event on the page and its effect on the server. *)
Definition page_step (st : PageState) (e : PageEvent) (db : DB) : PageState * DB :=
  match e with
  | SetOpen b => (with_open st b, db)
  | SubmitForm => submit st db
  | DeleteClicked id => deleteAlert st id db
  | FetchAlerts => (fetch_alerts st db, db)
  | FetchLogs => (fetch_logs st db, db)
  | _ => (with_form st (set_field (form st) e), db)
  end.

(** The pairs of page and database reached from a database the page
    finds when it mounts, when the page is the only client. *)
Inductive page_reachable (db0 : DB) : PageState -> DB -> Prop :=
| page_init : page_reachable db0 initial_page db0
| page_next st db e : page_reachable db0 st db ->
    page_reachable db0 (fst (page_step st e db)) (snd (page_step st e db)).

(** A sequence of events from the page's mount. *)
Definition page_run (db0 : DB) (evs : list PageEvent) : PageState * DB :=
  run_events page_step (initial_page, db0) evs.
End page.

(** ** What the page renders *)

(** The form's inputs (lines 166-283): the label of the target price,
    shown unless the type is "daily", the daily time input, the phone
    number and chat id inputs shown when their channel is on. *)
Record FormView := {
  fv_targetLabel : option string;
  fv_dailyTime : bool;
  fv_phoneInput : bool;
  fv_chatIdInput : bool
}.

Definition form_view (f : AlertForm) : FormView := {|
  fv_targetLabel :=
    if String.eqb (notificationType f) "daily" then None
    else Some ("Target Price (when price " ++
               (if String.eqb (notificationType f) "increase" then "exceeds" else "falls below") ++ " this value)");
  fv_dailyTime := String.eqb (notificationType f) "daily";
  fv_phoneInput := whatsAppEnabled f;
  fv_chatIdInput := telegramEnabled f |}.

(** An alert of the list (lines 305-370): the icon's background and
    icon, the title, the description line, the channel badges. *)
Inductive IconColor := IconIncrease | IconDecrease | IconGray.
Inductive Icon := ArrowUp | ArrowDown | InfoCircle.

Record AlertCard := {
  card_color : IconColor;
  card_icons : list Icon;
  card_title : string;
  card_description : string;
  card_whatsapp : bool;
  card_telegram : bool;
  card_alertId : Z
}.

Definition alert_card (a : PriceAlert) : AlertCard := {|
  card_color := if String.eqb (pa_alertType a) "increase" then IconIncrease
                else if String.eqb (pa_alertType a) "decrease" then IconDecrease else IconGray;
  card_icons := (if String.eqb (pa_alertType a) "increase" then [ArrowUp] else []) ++
                (if String.eqb (pa_alertType a) "decrease" then [ArrowDown] else []) ++
                (if String.eqb (pa_alertType a) "daily" then [InfoCircle] else []);
  card_title := if String.eqb (pa_alertType a) "increase" then "Price increase alert"
                else if String.eqb (pa_alertType a) "decrease" then "Price decrease alert" else "Daily summary";
  card_description := alert_description a;
  card_whatsapp := bool_decide (pa_whatsappEnabled a = Some true);
  card_telegram := bool_decide (pa_telegramEnabled a = Some true);
  card_alertId := pa_id a |}.

(** The "Active Alerts" tab (lines 296-383). *)
Inductive AlertList := ListLoading | ListCards (cards : list AlertCard) | ListEmpty.

Definition alert_list (isLoading : bool) (alerts : option (list PriceAlert)) : AlertList :=
  if isLoading then ListLoading
  else match alerts with Some ((_ :: _) as l) => ListCards (map alert_card l) | _ => ListEmpty end.

(** A row of the "Notification History" tab (lines 406-435). *)
Record LogRow := {
  row_sentAt : string;
  row_channelGreen : bool;
  row_channel : string;
  row_message : string;
  row_statusGreen : bool;
  row_status : string;
  row_error : option string
}.

Section history.
(** [formatDateTime] of [log.sentAt]. *)
Variable formatDateTime : Z -> string.

Definition log_row (l : NotificationLog) : LogRow := {|
  row_sentAt := formatDateTime (nl_sentAt l);
  row_channelGreen := String.eqb (nl_channel l) "whatsapp";
  row_channel := if String.eqb (nl_channel l) "whatsapp" then "WhatsApp" else "Telegram";
  row_message := nl_message l;
  row_statusGreen := String.eqb (nl_status l) "sent";
  row_status := if String.eqb (nl_status l) "sent" then "Sent" else "Failed";
  row_error := if String.eqb (nl_status l) "failed" then
                 match nl_errorMessage l with Some ((String _ _) as e) => Some e | _ => None end
               else None |}.

(** The table's body: the rows, or the "No notification history
    found" row. *)
Definition history_rows (logs : option (list NotificationLog)) : option (list LogRow) :=
  match logs with Some ((_ :: _) as l) => Some (map log_row l) | _ => None end.
End history.

(** ** Lemmas *)

(** [GET /api/alerts] answers the active alerts and writes nothing. *)
Lemma getAlertsRoute_answers db :
  getAlertsRoute db = (Ok (RJson (order_desc pa_createdAt (filter (fun a => pa_active a = Some true) (priceAlerts db)))), db).
Proof. reflexivity. Qed.

Lemma getPriceAlerts_value db :
  getPriceAlerts db = (Ok (order_desc pa_createdAt (filter (fun a => pa_active a = Some true) (priceAlerts db))), db).
Proof. reflexivity. Qed.

Lemma to_numeric_no_hang q : to_numeric q <> Hang.
Proof. unfold to_numeric. by case_match. Qed.

(** Building the row of an alert never waits. *)
Lemma alert_row_no_hang id now ai : alert_row id now ai <> Hang.
Proof.
  unfold alert_row, numeric_opt, numeric_of_text. pose proof to_numeric_no_hang.
  unfold mbind, result_bind, mret, result_ret. repeat (case_match; simplify_eq/=); naive_solver.
Qed.

Lemma alert_input_no_hang obj : alert_input obj <> Hang.
Proof.
  unfold alert_input, id_of, int_of, mbind, result_bind, mret, result_ret.
  repeat (case_match; simplify_eq/=); naive_solver.
Qed.

(** [POST /api/alerts] always answers, and writes only when it answers
    201. *)
Lemma postAlertRoute_settles now body db : exists r db',
  postAlertRoute now body db = (Ok r, db') /\ (reply_ok r = false -> db' = db).
Proof.
  unfold postAlertRoute, validated. destruct (zod_parse _ _); [by eexists _, _|].
  unfold guarded, createPriceAlert, lift. st_simpl.
  repeat (case_match; simplify_eq/=); 
    try (exfalso; by eapply alert_row_no_hang); try (exfalso; by eapply alert_input_no_hang).
  all: eexists _, _; (split; [reflexivity|done]).
Qed.

(** [DELETE /api/alerts/:id] always answers, and writes only when it
    answers 204. *)
Lemma deleteAlert_settles id db : exists r db',
  Forms.deleteAlert id db = (Ok r, db') /\ (reply_ok r = false -> db' = db).
Proof.
  unfold Forms.deleteAlert, deleteAlertRoute, guarded, param_id, deletePriceAlert, lift. st_simpl.
  repeat (case_match; simplify_eq/=); eexists _, _; (split; [reflexivity|done]).
Qed.

(** The list the page holds, once loaded, is what [GET /api/alerts]
    answers for the database. *)
Definition alerts_fresh (st : PageState) (db : DB) : Prop :=
  forall l, alerts st = Some l -> getPriceAlerts db = (Ok l, db).

Lemma fetch_alerts_fresh st db : alerts_fresh (fetch_alerts st db) db.
Proof.
  unfold fetch_alerts. rewrite getAlertsRoute_answers. intros l [= <-]. apply getPriceAlerts_value.
Qed.

Section fresh.
Variables (now : Z) (request_error : forall A, Reply A -> string).

(** A mutation either refetches the list or leaves the database as it
    was. *)
Lemma createAlert_fresh st body db :
  alerts_fresh st db -> alerts_fresh (fst (createAlert now request_error st body db)) (snd (createAlert now request_error st body db)).
Proof.
  intros Hf. destruct (postAlertRoute_settles now body db) as (r & db' & E & Hun).
  unfold createAlert, request. rewrite E. destruct (reply_ok r) eqn:Ho; cbn [fst snd].
  - apply fetch_alerts_fresh.
  - by rewrite Hun.
Qed.

Lemma deleteAlert_fresh st id db :
  alerts_fresh st db -> alerts_fresh (fst (deleteAlert request_error st id db)) (snd (deleteAlert request_error st id db)).
Proof.
  intros Hf. destruct (deleteAlert_settles id db) as (r & db' & E & Hun).
  unfold deleteAlert, request. rewrite E. destruct (reply_ok r) eqn:Ho; cbn [fst snd].
  - apply fetch_alerts_fresh.
  - by rewrite Hun.
Qed.
End fresh.

Lemma page_run_reachable now request_error db0 evs :
  page_reachable now request_error db0 (fst (page_run now request_error db0 evs))
    (snd (page_run now request_error db0 evs)).
Proof. unfold page_run. apply (run_events_ind _ (page_reachable now request_error db0)); [by constructor|apply page_init]. Qed.

(** ** Properties *)

(** C9: the alert list of the page is never stale while the page is the
    only client of the server: in every state the page reaches, the
    list it holds, once loaded, is exactly what [GET /api/alerts]
    answers for the current database (the active alerts, newest
    first).  A creation or deletion that succeeds refetches the list
    ([invalidateQueries]); one that fails (a 400, a 500 of a foreign
    key) has written nothing. *)
Theorem page_alerts_fresh now request_error db0 st db :
  page_reachable now request_error db0 st db -> alerts_fresh st db.
Proof.
  induction 1 as [|st db e _ IH]; [done|].
  destruct e; cbn [page_step fst snd]; try exact IH.
  - unfold submit. destruct (handleSubmit (form st)); [exact IH|apply createAlert_fresh, IH].
  - by apply deleteAlert_fresh.
  - apply fetch_alerts_fresh.
Qed.

(** ** Witnesses *)

(** The page loads the list, creates a daily Telegram summary, deletes
    it, and creates an increase alert whose target the route rejects. *)
Definition sample_events : list PageEvent :=
  [FetchAlerts; SetNotificationType "daily"; SetWhatsAppEnabled false; SetTelegramEnabled true;
   SetTelegramChatId "123456789"; SubmitForm; DeleteClicked 1; SetNotificationType "increase";
   SetTargetPrice "1060000"; SetWhatsAppEnabled false; SetTelegramEnabled true;
   SetTelegramChatId "123456789"; SubmitForm; FetchLogs].

Lemma page_alerts_fresh_witness :
  alerts_fresh (fst (page_run 0 (fun _ _ => "400: Bad Request") empty_db sample_events))
    (snd (page_run 0 (fun _ _ => "400: Bad Request") empty_db sample_events)).
Proof.
  apply (page_alerts_fresh 0 (fun _ _ => "400: Bad Request") empty_db). apply page_run_reachable.
Defined.

End AlertsPage.
