(* ===== verification/Cards.v ===== *)
(** * The dashboard's widgets on the API's data
    ([src/client/src/components/dashboard/PriceCards.tsx],
    [RecentChanges.tsx], [PriceAlerts.tsx]) and the table of
    [src/client/src/pages/PriceHistory.tsx]

  Each widget is a function from the JSON it fetched to what it shows:
  a list of cards, of table rows or of alert items, as records of the
  texts and the styling decisions the component computes.  The JSON
  the browser reads is modelled by [jsarg]: a [decimal] column is a
  text, a computed number is a number, and [JSON.stringify] writes
  [NaN] and the infinities as [null].  [ToNumber] of a text (the
  arithmetic on [data.buyPrice]) and [formatDateTime] are parameters;
  the theorems that read the prices back assume only that [ToNumber]
  reads the text of a [numeric] as [parseFloat] does. *)

From Stdlib Require Import Qabs Lqa.
From S2P Require Import Prelude Text Schema Storage History Alerts Notifier Scheduler Client Forms.

Module Cards.
Import Text Schema Storage History Alerts Notifier Client Forms.
Local Open Scope string_scope.

(** ** The JSON of the API's answers *)

(** A JavaScript number after [JSON.stringify] and [JSON.parse]. *)
Definition json_num (x : jsnum) : jsarg :=
  match x with Fin q => VNumber (Fin q) | _ => VNull end.

(** A computed number of the server ([priceChange] and the like). *)
Definition json_jsval (v : jsval) : jsarg :=
  match v with JNum q => VNumber (Fin q) | JNaN | JNull => VNull end.

(** A [decimal] column: the text PostgreSQL prints. *)
Definition json_numeric (n : numeric) : jsarg := VString (numeric_text n).

(** The fields of [GET /api/gold-prices/current] the price cards read:
    the columns of the newest row and the three changes that
    [getCurrentGoldPrice] attaches to it (storage.js lines 35-49,
    routes.ts line 234).  [highPriceTime] is a text or absent. *)
Record CurrentData := {
  d_pricePerGram : jsarg;
  d_buyPrice : jsarg;
  d_sellPrice : jsarg;
  d_highPrice : jsarg;
  d_highPriceTime : option string;
  d_priceChange : jsarg;
  d_buyPriceChange : jsarg;
  d_sellPriceChange : jsarg
}.

Definition current_data (cp : CurrentPrice) : CurrentData := {|
  d_pricePerGram := json_numeric (gp_pricePerGram (cp_row cp));
  d_buyPrice := json_numeric (gp_buyPrice (cp_row cp));
  d_sellPrice := json_numeric (gp_sellPrice (cp_row cp));
  d_highPrice := match gp_highPrice (cp_row cp) with Some n => json_numeric n | None => VNull end;
  d_highPriceTime := None;
  d_priceChange := json_jsval (cp_priceChange cp);
  d_buyPriceChange := json_jsval (cp_buyPriceChange cp);
  d_sellPriceChange := json_jsval (cp_sellPriceChange cp) |}.

(** ** JavaScript on [jsarg] *)

(** [!!v] *)
Definition arg_truthy (v : jsarg) : bool :=
  match v with
  | VUndefined | VNull => false
  | VString s => negb (empty_text s)
  | VNumber (Fin q) => negb (Qeq_bool q 0)
  | VNumber (Inf _) => true
  | VNumber NaN => false
  end.

(** [v || d] *)
Definition arg_or (v d : jsarg) : jsarg := if arg_truthy v then v else d.

(** ** [formatDateTime] ([formatters.js] lines 18-66)

    The date a page shows: [new Date(v)] of an ISO text (its parser,
    [Date.parse], is a parameter) or of a number of milliseconds,
    compared with the local day of the clock, and written with the
    [en-US] formats of [Intl.DateTimeFormat] in the local time of a
    fixed offset [tz].  The separator ICU puts before "AM"/"PM" (a
    space, or U+202F in recent ICU data) is a parameter. *)

Definition month_short (m : Z) : string :=
  nth (Z.to_nat (m - 1)) ["Jan"; "Feb"; "Mar"; "Apr"; "May"; "Jun"; "Jul"; "Aug"; "Sep"; "Oct"; "Nov"; "Dec"] "".

(** [new Date(n)] of a number: truncated, and invalid beyond the range
    of 8.64e15 milliseconds. *)
Definition time_clip (x : jsnum) : option Z :=
  match x with
  | Fin q => let t := Z.quot (Qnum q) (Zpos (Qden q)) in
             if Z.leb (Z.abs t) 8640000000000000 then Some t else None
  | _ => None
  end.

Section format_date_time.
Variables (tz : Z) (date_parse : string -> option Z) (ampm_sep : string).

(** [{year: 'numeric', month: 'short', day: 'numeric'}] *)
Definition en_date (t : Z) : string :=
  let '(y, m, d) := civil_from_days (local_day tz t) in
  month_short m ++ " " ++ Z_to_string d ++ ", " ++ Z_to_string y.

(** [{hour: 'numeric', minute: '2-digit', hour12: true}] *)
Definition en_time (t : Z) : string :=
  let mins := time_in_day tz t / 60000 in
  let h := mins / 60 in
  Z_to_string (if Z.eqb (h mod 12) 0 then 12 else h mod 12) ++ ":" ++ Scheduler.pad2 (mins mod 60) ++
  ampm_sep ++ (if Z.ltb h 12 then "AM" else "PM").

Definition formatDateTime (now : Z) (v : jsarg) (type : string) : string :=
  if negb (arg_truthy v) then "N/A"
  else
    match (match v with VString s => date_parse s | VNumber x => time_clip x | _ => None end) with
    | None => "Invalid Date"
    | Some t =>
        let isToday := Z.eqb (local_day tz t) (local_day tz now) in
        let isYesterday := Z.eqb (local_day tz t) (local_day tz now - 1) in
        if String.eqb type "date" then en_date t
        else if isToday then "Today, " ++ en_time t
        else if isYesterday then "Yesterday, " ++ en_time t
        else en_date t ++ ", " ++ en_time t
    end.
End format_date_time.

Section views.
(** [ToNumber] of a text, and [Number::toString] of a number of
    [10^21] or more (for [toFixed]). *)
Variable string_to_number : string -> jsnum.
Variable number_to_string : Q -> string.

(** [ToNumber] of a value, as the arithmetic operators apply it. *)
Definition arg_number (v : jsarg) : jsnum :=
  match v with
  | VUndefined => NaN
  | VNull => Fin 0
  | VString s => string_to_number s
  | VNumber x => x
  end.

(** [v > 0] and [v >= 0] on a value that is a number or [null]. *)
Definition arg_gt0 (v : jsarg) : bool := js_gt0 (arg_number v).
Definition arg_ge0 (v : jsarg) : bool := js_ge0 (arg_number v).

(** ** [PriceCards.tsx] *)

(** What a [PriceCard] shows (lines 6-51): the title, the formatted
    value, whether it is styled as an increase (green, up arrow), the
    badge and the text under it. *)
Record PriceCard := {
  card_title : string;
  card_value : string;
  card_increase : bool;
  card_badge : string;
  card_text : string
}.

Definition price_card (title : string) (value change : jsarg) (changePercent changeText : string)
  : PriceCard :=
  let isIncrease := arg_gt0 change in
  {| card_title := title; card_value := formatCurrency value; card_increase := isIncrease;
     card_badge := (if isIncrease then "+" else "") ++ changePercent ++ "%";
     card_text := changeText |}.

(** [base ? ((change / base) * 100).toFixed(1) : "0.0"] (lines 87-89) *)
Definition change_percent (change base : jsarg) : result string :=
  if arg_truthy base then toFixed number_to_string 1 (js_times100 (js_div (arg_number change) (arg_number base)))
  else Ok "0.0".

(** [`${change >= 0 ? '+' : ''}${formatCurrency(change)} today`] *)
Definition change_text (change : jsarg) : string :=
  (if arg_ge0 change then "+" else "") ++ formatCurrency change ++ " today".

(** [PriceCards] (lines 53-154) once the query has settled: a message
    without data, otherwise the four cards. *)
Definition price_cards (data : option CurrentData) : result (list PriceCard) :=
  match data with
  | None => Ok []
  | Some d =>
      let buyPriceChange := arg_or (d_buyPriceChange d) (VNumber (Fin 0)) in
      let sellPriceChange := arg_or (d_sellPriceChange d) (VNumber (Fin 0)) in
      let priceChange := arg_or (d_priceChange d) (VNumber (Fin 0)) in
      buyP ← change_percent buyPriceChange (d_buyPrice d);
      sellP ← change_percent sellPriceChange (d_sellPrice d);
      p ← change_percent priceChange (d_pricePerGram d);
      mret [price_card "Current Price" (d_pricePerGram d) priceChange p (change_text priceChange);
            price_card "Buy Price" (d_buyPrice d) buyPriceChange buyP (change_text buyPriceChange);
            price_card "Sell Price" (d_sellPrice d) sellPriceChange sellP (change_text sellPriceChange);
            price_card "24h High" (arg_or (d_highPrice d) (d_pricePerGram d)) (VNumber (Fin 1)) "0.0"
              (match d_highPriceTime d with Some (String c s) => String c s | _ => "4 hours ago" end)]
  end.

End views.

(** ** [RecentChanges.tsx] *)

(** A row of the table (lines 69-88): the formatted date, the price,
    whether the change is styled as an increase, the change and its
    type. *)
Record ChangeRow := {
  row_date : string;
  row_price : string;
  row_increase : bool;
  row_change : string;
  row_type : string
}.

(** A widget with a query: loading, failed with the error's message, or
    shown. *)
Inductive Widget (A : Type) := WLoading | WError (message : string) | WShown (a : A).
Arguments WLoading {A}.
Arguments WError {A} message.
Arguments WShown {A} a.

Section recent.
(** [formatDateTime] of the [date] field. *)
Variable formatDateTime : Z -> string.

Definition change_row (c : RecentChange) : ChangeRow :=
  let ch := json_num (rc_change c) in
  let up := match ch with VNumber x => js_gt0 x | _ => false end in
  {| row_date := formatDateTime (rc_date c); row_price := formatCurrency (json_num (rc_price c));
     row_increase := up; row_change := (if up then "+" else "") ++ formatCurrency ch;
     row_type := rc_type c |}.

(** The rows of the table body (lines 72-93). *)
Definition recent_changes_view (l : list RecentChange) : list ChangeRow := map change_row l.

(** The widget (lines 9-107): skeletons while the query loads, the
    error's message, or the table, whose body is the rows or, for no
    data or an empty list, the message "No recent price changes
    available" ([None]). *)
Definition recent_changes_widget (isLoading : bool) (error : option string)
  (recentChanges : option (list RecentChange)) : Widget (option (list ChangeRow)) :=
  if isLoading then WLoading
  else match error with
       | Some m => WError m
       | None => WShown (match recentChanges with
                         | Some ((_ :: _) as l) => Some (recent_changes_view l)
                         | _ => None
                         end)
       end.
End recent.

(** ** [PriceAlerts.tsx] *)


(** An [AlertItem] (lines 47-135): its title, description and channel
    badges ([alert.whatsappEnabled && ...]: [null] shows none). *)
Record AlertItem := {
  it_title : string;
  it_description : string;
  it_whatsapp : bool;
  it_telegram : bool
}.

(** [getDescription] (lines 90-98) *)
Definition item_description (a : PriceAlert) : string :=
  if String.eqb (pa_alertType a) "increase" then
    "Alert when > " ++ formatCurrency (match pa_targetPrice a with Some n => json_numeric n | None => VNull end)
  else if String.eqb (pa_alertType a) "decrease" then
    "Alert when < " ++ formatCurrency (match pa_targetPrice a with Some n => json_numeric n | None => VNull end)
  else "Send at " ++ match pa_dailyTime a with Some t => t | None => "null" end ++ " daily".

(** [getTitle] (lines 100-108) *)
Definition item_title (a : PriceAlert) : string :=
  if String.eqb (pa_alertType a) "increase" then "Price increase"
  else if String.eqb (pa_alertType a) "decrease" then "Price decrease"
  else "Daily summary".

Definition alert_item (a : PriceAlert) : AlertItem := {|
  it_title := item_title a; it_description := item_description a;
  it_whatsapp := default false (pa_whatsappEnabled a); it_telegram := default false (pa_telegramEnabled a) |}.

(** The widget (lines 150-162): the first three alerts of the list. *)
Definition price_alerts_widget (alerts : list PriceAlert) : list AlertItem :=
  map alert_item (take 3 alerts).

(** The whole widget (lines 8-176): skeletons, the error, or the
    first three items with the "Configure Channels" button, or "No
    active price alerts" ([None]). *)
Definition price_alerts_view (isLoading : bool) (error : option string) (alerts : option (list PriceAlert))
  : Widget (option (list AlertItem)) :=
  if isLoading then WLoading
  else match error with
       | Some m => WError m
       | None => WShown (match alerts with
                         | Some ((_ :: _) as l) => Some (price_alerts_widget l)
                         | _ => None
                         end)
       end.

(** ** [PriceHistory.tsx] *)

(** [array.map(f)] when [f] may throw: the first exception ends the
    rendering. *)
Fixpoint map_ok {A B} (f : A -> result B) (l : list A) : result (list B) :=
  match l with
  | [] => Ok []
  | x :: r => y ← f x; ys ← map_ok f r; mret (y :: ys)
  end.

(** A row of the history table (lines 114-126): the date, the three
    prices, the styling of the change ([Some true] green, [Some false]
    red, [None] plain), the change and its percentage. *)
Record HistoryLine := {
  hl_date : string;
  hl_buy : string;
  hl_sell : string;
  hl_pricePerGram : string;
  hl_trend : option bool;
  hl_change : string;
  hl_percent : string
}.

(** [x > 0 ? up : x < 0 ? down : plain] on a value that is a number or
    [null]. *)
Definition trend (v : jsarg) : option bool :=
  match v with
  | VNumber x => if js_gt0 x then Some true else if js_ge0 x then None else if js_isNaN x then None else Some false
  | _ => None
  end.

(** The exception of [null.toFixed(2)]. *)
Definition null_percent_error : string := "TypeError: Cannot read properties of null (reading 'toFixed')".

Section history_page.
(** [format(new Date(item.date), 'MMM dd, yyyy')] of date-fns, and
    [Number::toString] for [toFixed]. *)
Variables (format_date : Z -> string) (n2s : Q -> string).

Definition history_line (h : HistoryRow) : result HistoryLine :=
  let dc := json_num (hr_dailyChange h) in
  match json_num (hr_changePercent h) with
  | VNumber x =>
      p ← toFixed n2s 2 x;
      mret {| hl_date := format_date (gp_date (hr_row h));
              hl_buy := formatCurrency (json_numeric (gp_buyPrice (hr_row h)));
              hl_sell := formatCurrency (json_numeric (gp_sellPrice (hr_row h)));
              hl_pricePerGram := formatCurrency (json_numeric (gp_pricePerGram (hr_row h)));
              hl_trend := trend dc;
              hl_change := (match trend dc with Some true => "+" | _ => "" end) ++ formatCurrency dc;
              hl_percent := (if js_gt0 x then "+" else "") ++ p ++ "%" |}
  | _ => Err null_percent_error
  end.

(** The table body (lines 110-131). *)
Definition history_table (rows : list HistoryRow) : result (list HistoryLine) := map_ok history_line rows.

(** The table's body with its loading and empty rows (lines 107-131). *)
Inductive HistoryBody := HistoryLoading | HistoryLines (lines : list HistoryLine) | HistoryEmpty.

Definition history_body (isLoading : bool) (historyData : option (list HistoryRow)) : result HistoryBody :=
  if isLoading then mret HistoryLoading
  else match historyData with
       | Some ((_ :: _) as l) => lines ← history_table l; mret (HistoryLines lines)
       | _ => mret HistoryEmpty
       end.
End history_page.

(** The page's own state (lines 11-12): the timeframe of its history
    query and the chart type of its tabs. *)
Record HistoryPage := { hp_timeframe : string; hp_chartType : string }.

Definition initial_history_page : HistoryPage := {| hp_timeframe := "7d"; hp_chartType := "line" |}.

Inductive HistoryEvent :=
| SetTimeframe (s : string)
| SetChartType (s : string)
| ExportCSV
| ExportPDF.

(** The select (line 36), the tabs (line 65) and the two export buttons,
    whose handlers (lines 19-25) have empty bodies. *)
Definition history_step (st : HistoryPage) (e : HistoryEvent) : HistoryPage :=
  match e with
  | SetTimeframe s => {| hp_timeframe := s; hp_chartType := hp_chartType st |}
  | SetChartType s => {| hp_timeframe := hp_timeframe st; hp_chartType := s |}
  | ExportCSV | ExportPDF => st
  end.

(** The chart card's text (lines 75-85): the same for every chart type. *)
Definition history_chart_text (isLoading : bool) : string :=
  if isLoading then "Loading chart data..." else "Chart visualization based on selected options".

(** ** Lemmas *)

Lemma arg_or_falsy v d : arg_truthy v = false -> arg_or v d = d.
Proof. unfold arg_or. by intros ->. Qed.

Lemma arg_or_truthy v d : arg_truthy v = true -> arg_or v d = v.
Proof. unfold arg_or. by intros ->. Qed.

Lemma numeric_truthy n : arg_truthy (json_numeric n) = true.
Proof. destruct (numeric_text_nonempty n) as (a & r & Hn). unfold json_numeric. by rewrite Hn. Qed.

Lemma toFixed_ok n2s f x : (f <= 100)%nat -> exists s, toFixed n2s f x = Ok s.
Proof.
  intros Hf. unfold toFixed. replace (Nat.ltb 100 f) with false by (symmetry; apply Nat.ltb_ge; lia).
  destruct x as [q| |]; [destruct (Qle_bool _ _)|..]; eauto.
Qed.

Lemma change_percent_ok s2n n2s c b : exists s, change_percent s2n n2s c b = Ok s.
Proof. unfold change_percent. destruct (arg_truthy b); [apply toFixed_ok; lia|eauto]. Qed.

(** [toFixed(1)] of zero. *)
Lemma toFixed1_zero n2s q : q == 0 -> toFixed n2s 1 (Fin q) = Ok "0.0".
Proof.
  intros Hq. unfold toFixed. cbn [Nat.ltb Nat.leb].
  assert (Ha : Qabs q == 0) by (rewrite Hq; reflexivity).
  rewrite (Qle_bool_compat 0 0 q 0), (Qle_bool_compat _ _ (Qabs q) 0) by (done || reflexivity).
  cbv zeta. rewrite (Qfloor_unique _ 0); [reflexivity| |]; rewrite Ha; unfold Qle, Qlt; simpl; lia.
Qed.

(** The cards once the three percentages are computed. *)
Lemma price_cards_run s2n n2s d bp sp p :
  change_percent s2n n2s (arg_or (d_buyPriceChange d) (VNumber (Fin 0))) (d_buyPrice d) = Ok bp ->
  change_percent s2n n2s (arg_or (d_sellPriceChange d) (VNumber (Fin 0))) (d_sellPrice d) = Ok sp ->
  change_percent s2n n2s (arg_or (d_priceChange d) (VNumber (Fin 0))) (d_pricePerGram d) = Ok p ->
  price_cards s2n n2s (Some d) = Ok
    [price_card s2n "Current Price" (d_pricePerGram d) (arg_or (d_priceChange d) (VNumber (Fin 0))) p
       (change_text s2n (arg_or (d_priceChange d) (VNumber (Fin 0))));
     price_card s2n "Buy Price" (d_buyPrice d) (arg_or (d_buyPriceChange d) (VNumber (Fin 0))) bp
       (change_text s2n (arg_or (d_buyPriceChange d) (VNumber (Fin 0))));
     price_card s2n "Sell Price" (d_sellPrice d) (arg_or (d_sellPriceChange d) (VNumber (Fin 0))) sp
       (change_text s2n (arg_or (d_sellPriceChange d) (VNumber (Fin 0))));
     price_card s2n "24h High" (arg_or (d_highPrice d) (d_pricePerGram d)) (VNumber (Fin 1)) "0.0"
       (match d_highPriceTime d with Some (String c s) => String c s | _ => "4 hours ago" end)].
Proof. intros H1 H2 H3. unfold price_cards. cbv zeta. by rewrite H1, H2, H3. Qed.

(** The card of a change the server reports as [0], [NaN] or [null]. *)
Lemma no_change_or v : v = JNum 0 \/ v = JNaN \/ v = JNull ->
  arg_or (json_jsval v) (VNumber (Fin 0)) = VNumber (Fin 0).
Proof. intros [-> | [-> | ->]]; reflexivity. Qed.

Lemma history_line_error fd n2s h m : history_line fd n2s h = Err m -> m = null_percent_error.
Proof.
  unfold history_line. destruct (json_num (hr_changePercent h)) as [| |s|x]; try (intros [= <-]; done).
  destruct (toFixed_ok n2s 2 x) as [p ->]; [lia|]. discriminate.
Qed.

Lemma map_ok_error_msg fd n2s l m : history_table fd n2s l = Err m -> m = null_percent_error.
Proof.
  unfold history_table. induction l as [|h l IH]; cbn [map_ok]; [discriminate|].
  destruct (history_line fd n2s h) as [y|m'|] eqn:E; cbn; [|intros [= <-]; by apply (history_line_error fd n2s h)|done].
  destruct (map_ok _ l); cbn; [discriminate|exact IH|discriminate].
Qed.

Lemma history_line_null fd n2s h : json_num (hr_changePercent h) = VNull -> history_line fd n2s h = Err null_percent_error.
Proof. unfold history_line. by intros ->. Qed.

(** The table throws as soon as one row has no percentage. *)
Lemma history_table_null fd n2s l h : In h l -> json_num (hr_changePercent h) = VNull ->
  history_table fd n2s l = Err null_percent_error.
Proof.
  intros Hin Hn. unfold history_table.
  induction l as [|x l IH]; [done|]. destruct Hin as [<-|Hin]; cbn [map_ok].
  - by rewrite history_line_null.
  - destruct (history_line fd n2s x) as [y|m|] eqn:Ex; cbn.
    + by rewrite IH.
    + f_equal. by apply (history_line_error fd n2s x).
    + exfalso. unfold history_line in Ex. destruct (json_num (hr_changePercent x)) as [| |s|x']; try discriminate.
      destruct (toFixed_ok n2s 2 x') as [p Hp]; [lia|]. rewrite Hp in Ex. discriminate.
Qed.

Lemma annotate_cons2 x y l : annotate (x :: y :: l) =
  {| hr_row := x;
     hr_dailyChange := js_minus (of_numeric (gp_pricePerGram x)) (of_numeric (gp_pricePerGram y));
     hr_changePercent := js_times100 (js_div (js_minus (of_numeric (gp_pricePerGram x)) (of_numeric (gp_pricePerGram y)))
                                             (of_numeric (gp_pricePerGram y))) |} :: annotate (y :: l).
Proof. reflexivity. Qed.

(** Each snapshot of the history but the oldest is annotated with the
    change from the next older one. *)
Lemma annotate_pair pre r p rest :
  In {| hr_row := r;
        hr_dailyChange := js_minus (of_numeric (gp_pricePerGram r)) (of_numeric (gp_pricePerGram p));
        hr_changePercent := js_times100 (js_div (js_minus (of_numeric (gp_pricePerGram r)) (of_numeric (gp_pricePerGram p)))
                                                (of_numeric (gp_pricePerGram p))) |}
     (annotate (pre ++ r :: p :: rest)%list).
Proof.
  induction pre as [|x pre IH]; [by left|]. cbn [app].
  destruct (pre ++ r :: p :: rest)%list as [|y l'] eqn:E; [by destruct pre|]. rewrite annotate_cons2. right. exact IH.
Qed.

(** ** Properties *)

(** The fourth card, "24h High", ignores the day: for every answer of
    the current-price route it shows the [highPrice] column of the
    newest row (or its price when the column is null), a green "+0.0%"
    badge and the text "4 hours ago", because the server never sends
    [highPriceTime]. *)
Theorem high_price_card s2n n2s cp :
  exists cards, price_cards s2n n2s (Some (current_data cp)) = Ok cards /\
    nth_error cards 3 = Some {| card_title := "24h High";
      card_value := formatCurrency (json_numeric (default (gp_pricePerGram (cp_row cp)) (gp_highPrice (cp_row cp))));
      card_increase := true; card_badge := "+0.0%"; card_text := "4 hours ago" |}.
Proof.
  destruct (change_percent_ok s2n n2s (arg_or (d_buyPriceChange (current_data cp)) (VNumber (Fin 0)))
              (d_buyPrice (current_data cp))) as [bp Hb].
  destruct (change_percent_ok s2n n2s (arg_or (d_sellPriceChange (current_data cp)) (VNumber (Fin 0)))
              (d_sellPrice (current_data cp))) as [sp Hs].
  destruct (change_percent_ok s2n n2s (arg_or (d_priceChange (current_data cp)) (VNumber (Fin 0)))
              (d_pricePerGram (current_data cp))) as [p Hp].
  eexists. split; [exact (price_cards_run _ _ _ _ _ _ Hb Hs Hp)|]. cbn [nth_error].
  unfold price_card. f_equal. f_equal. cbn [current_data d_highPrice d_pricePerGram].
  destruct (gp_highPrice (cp_row cp)) as [n|]; [by rewrite arg_or_truthy by apply numeric_truthy|done].
Qed.

(** C30: a price that did not change is shown as a fall: when the server
    reports the day's change as [0] (no snapshot yesterday) or as [NaN]
    or [null], the "Current Price" card is styled as a decrease (red,
    down arrow) with a "0.0%" badge while its text reads "+Rp 0 today",
    provided [ToNumber] reads the API's decimal texts. *)
Theorem unchanged_price_shown_as_fall s2n n2s cp c :
  (forall n, js_equiv (s2n (numeric_text n)) (of_numeric n)) ->
  gp_pricePerGram (cp_row cp) = NVal c -> c <> 0 ->
  cp_priceChange cp = JNum 0 \/ cp_priceChange cp = JNaN \/ cp_priceChange cp = JNull ->
  exists cards card, price_cards s2n n2s (Some (current_data cp)) = Ok cards /\ head cards = Some card /\
    card_title card = "Current Price" /\ card_increase card = false /\ card_badge card = "0.0%" /\
    card_text card = "+Rp" ++ nbsp ++ "0 today".
Proof.
  intros Hnum Hc Hc0 Hz.
  destruct (change_percent_ok s2n n2s (arg_or (d_buyPriceChange (current_data cp)) (VNumber (Fin 0)))
              (d_buyPrice (current_data cp))) as [bp Hb].
  destruct (change_percent_ok s2n n2s (arg_or (d_sellPriceChange (current_data cp)) (VNumber (Fin 0)))
              (d_sellPrice (current_data cp))) as [sp Hs].
  assert (Hp : change_percent s2n n2s (arg_or (d_priceChange (current_data cp)) (VNumber (Fin 0)))
                 (d_pricePerGram (current_data cp)) = Ok "0.0").
  { cbn [current_data d_priceChange d_pricePerGram]. rewrite (no_change_or _ Hz).
    unfold change_percent. rewrite numeric_truthy. cbn [arg_number json_numeric].
    specialize (Hnum (gp_pricePerGram (cp_row cp))). rewrite Hc in Hnum |- *.
    destruct (s2n (numeric_text (NVal c))) as [y| |]; cbn in Hnum; try done.
    assert (Hy : ~ y == 0) by (rewrite Hnum; unfold Qeq; simpl; lia).
    cbn [js_div js_times100].
    rewrite Qeq_bool_nonzero by exact Hy.
    apply toFixed1_zero. unfold Qdiv. ring. }
  do 2 eexists. split; [exact (price_cards_run _ _ _ _ _ _ Hb Hs Hp)|]. split; [reflexivity|].
  cbn [price_card card_title card_increase card_badge card_text current_data d_priceChange].
  rewrite (no_change_or _ Hz). split; [done|]. split; [reflexivity|]. split; reflexivity.
Qed.

(** The dashboard lists a change of a [NaN] sell price: when the
    two newest snapshots both have a [NaN] sell price (a dash in the
    Emasku table), the recent-changes table shows a "Sell Price" row
    dated at the newer one whose price and change both read "N/A", styled
    as a decrease, whenever the limit leaves room for every change. *)
Theorem dashboard_nan_sell_change fmt db limit cur prev rest :
  (2 * length (goldPrices db) <= Z.to_nat limit)%nat ->
  order_desc gp_date (goldPrices db) = cur :: prev :: rest ->
  gp_sellPrice cur = NNaN -> gp_sellPrice prev = NNaN ->
  exists l, fst (getRecentPriceChanges limit db) = Ok l /\
    Exists (fun r => row_type r = "Sell Price" /\ row_date r = fmt (gp_date cur) /\
                     row_price r = "N/A" /\ row_change r = "N/A" /\ row_increase r = false)
      (recent_changes_view fmt l).
Proof.
  intros Hlim Hord Hc Hp.
  destruct (recent_changes_nan_sell db limit cur prev rest Hlim Hord Hc Hp) as (l & Hl & Hex).
  exists l. split; [exact Hl|]. unfold recent_changes_view. apply Exists_map.
  eapply Exists_impl; [|exact Hex]. intros e (Ht & Hd & Hpr & Hch).
  unfold change_row. rewrite Hpr, Hch. cbn. by rewrite Ht, Hd.
Qed.

(** C28: the alerts widget of the dashboard and the alerts page describe
    an alert alike when its type is one of "increase", "decrease" and
    "daily"; the route accepts any other text as the type, and such an
    alert never fires, is titled "Daily summary" and described as sent
    daily by the widget, and described as a "<" alert by the page. *)
Theorem alert_views_agree a :
  (In (pa_alertType a) ["increase"; "decrease"; "daily"] -> item_description a = alert_description a) /\
  (~ In (pa_alertType a) ["increase"; "decrease"; "daily"] ->
     item_title a = "Daily summary" /\
     item_description a = "Send at " ++ match pa_dailyTime a with Some t => t | None => "null" end ++ " daily" /\
     alert_description a =
       "Alert when < " ++ formatCurrency (match pa_targetPrice a with Some n => json_numeric n | None => VNull end) /\
     forall cp, price_alert_triggered cp a = false).
Proof.
  split.
  - intros [H|[H|[H|[]]]]; unfold item_description, alert_description; rewrite <- H; reflexivity.
  - intros Hn. assert (Hi : String.eqb (pa_alertType a) "increase" = false)
      by (apply String.eqb_neq; intros E; apply Hn; rewrite E; left; done).
    assert (Hd : String.eqb (pa_alertType a) "decrease" = false)
      by (apply String.eqb_neq; intros E; apply Hn; rewrite E; right; left; done).
    assert (Hy : String.eqb (pa_alertType a) "daily" = false)
      by (apply String.eqb_neq; intros E; apply Hn; rewrite E; right; right; left; done).
    unfold item_title, item_description, alert_description, price_alert_triggered.
    rewrite Hi, Hd, Hy. split_and!; try reflexivity.
    intros cp. by destruct (alert_target a), (parse_float (gp_pricePerGram (cp_row cp))).
Qed.

(** The price history page throws (a [TypeError] of [null.toFixed])
    when a snapshot of the window other than the newest is followed by
    an older one whose price per gram is 0 or [NaN]: the percentage of
    its row is [Infinity] or [NaN], which the JSON carries as [null]. *)
Theorem price_history_page_throws fd n2s tz tf now db pre r p rest :
  order_desc gp_date (filter (fun x => history_cutoff tz tf now <= gp_date x) (goldPrices db)) =
    (pre ++ r :: p :: rest)%list ->
  gp_pricePerGram p = NVal 0 \/ gp_pricePerGram p = NNaN ->
  exists rows, getGoldPriceHistory tz tf now db = (Ok rows, db) /\
    history_table fd n2s rows = Err null_percent_error.
Proof.
  intros Hrows Hp. exists (annotate (pre ++ r :: p :: rest)%list). split.
  { unfold getGoldPriceHistory, gets. cbv beta zeta. by rewrite Hrows. }
  eapply history_table_null; [apply annotate_pair|].
  destruct Hp as [-> | ->]; destruct (gp_pricePerGram r) as [|c]; cbn; try reflexivity.
  match goal with |- context [Qeq_bool ?a 0] => by destruct (Qeq_bool a 0) end.
Qed.

(** ** Witnesses *)

(** The price of the specification's scenario with no snapshot
    yesterday, read back by [parseFloat]. *)
Lemma unchanged_price_shown_as_fall_witness :
  exists cards card,
    price_cards (fun s => parseFloat s) (fun _ => EmptyString) (Some (current_data (current_at 1058000))) = Ok cards /\
    head cards = Some card /\ card_title card = "Current Price" /\ card_increase card = false /\
    card_badge card = "0.0%" /\ card_text card = "+Rp" ++ nbsp ++ "0 today".
Proof.
  apply (unchanged_price_shown_as_fall (fun s => parseFloat s) (fun _ => EmptyString) (current_at 1058000) 105800000).
  - intros n. exact (api_num_of_numeric n).
  - reflexivity.
  - lia.
  - left. reflexivity.
Defined.

(** The two Emasku snapshots of [History] with a dash in the sell
    column, one hour apart. *)
Lemma dashboard_nan_sell_change_witness :
  exists l, fst (getRecentPriceChanges 5 db_nan_sell) = Ok l /\
    Exists (fun r => row_type r = "Sell Price" /\ row_date r = Z_to_string hour_ms /\
                     row_price r = "N/A" /\ row_change r = "N/A" /\ row_increase r = false)
      (recent_changes_view Z_to_string l).
Proof.
  apply (dashboard_nan_sell_change Z_to_string db_nan_sell 5 (nan_sell_row 2 hour_ms) (nan_sell_row 1 0) []);
    reflexivity || (simpl; lia).
Defined.

(** An alert stored with the type "Increase". *)
Lemma alert_views_agree_witness :
  item_title (Alerts.sample_alert 1 "Increase" (Some 1000000) 0) = "Daily summary" /\
  price_alert_triggered (current_at 2000000) (Alerts.sample_alert 1 "Increase" (Some 1000000) 0) = false.
Proof.
  destruct (alert_views_agree (Alerts.sample_alert 1 "Increase" (Some 1000000) 0)) as [_ H].
  destruct H as (Ht & _ & _ & Hf); [vm_compute; intros [E|[E|[E|[]]]]; discriminate|].
  split; [exact Ht|apply Hf].
Defined.

End Cards.
