(* ===== verification/Analytics.v ===== *)
(** * The profit analytics page ([src/client/src/pages/ProfitAnalytics.tsx])

  [calculateMetrics] of the page computes, from the investments and the
  price history the API answers, the totals of the portfolio, the
  annualised return, the best and the worst investment and the
  volatility of the price.  The totals are the sums of [Client] on the
  newest snapshot of the history.  [Math.pow] with a real exponent and
  [Math.sqrt] are parameters (their values are not rational);
  [Math.pow(x, 2)] is [x * x].  The best and worst investments are the
  first maximum and the first minimum of a [reduce], modelled by
  [select] on an ordering test. *)

From Stdlib Require Import Lqa.
From S2P Require Import Prelude Text Schema Storage History Client.

Module Analytics.
Import Text Schema Storage History Client.
Local Open Scope string_scope.

(** [a > b] on numbers: [NaN] compares false. *)
Definition js_gt (a b : jsnum) : bool :=
  match a, b with
  | Fin x, Fin y => negb (Qle_bool x y)
  | Inf p, Fin _ => p
  | Fin _, Inf q => negb q
  | Inf p, Inf q => p && negb q
  | _, _ => false
  end.

(** An element of [performanceData] (lines 68-81): the investment with
    its current value, profit and profit percentage. *)
Record Performance := {
  pf_inv : Investment;
  pf_currentValue : jsnum;
  pf_profit : jsnum;
  pf_profitPercentage : jsnum
}.

Definition performance (currentPrice : numeric) (inv : Investment) : Performance :=
  let invCurrentValue := js_mult (api_num (inv_weight inv)) (api_num currentPrice) in
  let invProfit := js_minus invCurrentValue (api_num (inv_purchasePrice inv)) in
  {| pf_inv := inv; pf_currentValue := invCurrentValue; pf_profit := invProfit;
     pf_profitPercentage := js_times100 (js_div invProfit (api_num (inv_purchasePrice inv))) |}.

(** [reduce((best, inv) => !best || better(inv, best) ? inv : best,
    null)] (lines 83-89) *)
Definition select (better : jsnum -> jsnum -> bool) (l : list Performance) : option Performance :=
  fold_left (fun best inv =>
               match best with
               | None => Some inv
               | Some b => if better (pf_profitPercentage inv) (pf_profitPercentage b) then Some inv else best
               end) l None.

(** The investment with the earliest purchase date (lines 49-53). *)
Definition oldest (invs : list Investment) : option Investment :=
  fold_left (fun o inv =>
               match o with
               | None => Some inv
               | Some x => if Z.ltb (inv_purchaseDate inv) (inv_purchaseDate x) then Some inv else o
               end) invs None.

(** The returns between consecutive snapshots of the history, newest
    first (lines 95-101). *)
Fixpoint returns (rows : list HistoryRow) : list jsnum :=
  match rows with
  | r :: ((p :: _) as rest) =>
      let todayPrice := api_num (gp_pricePerGram (hr_row r)) in
      let yesterdayPrice := api_num (gp_pricePerGram (hr_row p)) in
      js_div (js_minus todayPrice yesterdayPrice) yesterdayPrice :: returns rest
  | _ => []
  end.

Definition js_sum (l : list jsnum) : jsnum := fold_left js_plus l (Fin 0).

(** [Math.pow(x, 2)] *)
Definition square (x : jsnum) : jsnum := js_mult x x.

Record ProfitMetrics := {
  a_totalInvestment : jsnum;
  a_currentValue : jsnum;
  a_totalProfit : jsnum;
  a_profitPercentage : jsnum;
  a_annualizedReturn : jsnum;
  a_bestPerforming : option Performance;
  a_worstPerforming : option Performance;
  a_volatility : jsnum
}.

Definition zero_profit_metrics : ProfitMetrics := {|
  a_totalInvestment := Fin 0; a_currentValue := Fin 0; a_totalProfit := Fin 0; a_profitPercentage := Fin 0;
  a_annualizedReturn := Fin 0; a_bestPerforming := None; a_worstPerforming := None; a_volatility := Fin 0 |}.

Section analytics.
(** [Math.pow] with a real exponent, [Math.sqrt], the clock. *)
Variables (math_pow : jsnum -> jsnum -> jsnum) (math_sqrt : jsnum -> jsnum) (now : Z).

(** [calculateMetrics] (lines 21-120). *)
Definition calculateMetrics (investments : option (list Investment)) (priceHistory : option (list HistoryRow))
  : ProfitMetrics :=
  match investments, priceHistory with
  | Some ((_ :: _) as invs), Some ((h0 :: _) as hist) =>
      let currentPrice := gp_pricePerGram (hr_row h0) in
      let totalInvestment := sum_column inv_purchasePrice invs in
      let totalWeight := sum_column inv_weight invs in
      let currentValue := js_mult totalWeight (api_num currentPrice) in
      let totalProfit := js_minus currentValue totalInvestment in
      let profitPercentage := js_times100 (js_div totalProfit totalInvestment) in
      let daysHeld := match oldest invs with
                      | Some o => Fin (inject_Z (now - inv_purchaseDate o) / inject_Z day_ms)
                      | None => Fin 0
                      end in
      let annualizedReturn :=
        if js_gt0 daysHeld then
          js_times100 (js_minus (math_pow (js_plus (Fin 1) (js_div profitPercentage (Fin 100)))
                                          (js_div (Fin 365) daysHeld)) (Fin 1))
        else Fin 0 in
      let performanceData := map (performance currentPrice) invs in
      let volatility :=
        match hist with
        | _ :: _ :: _ =>
            let dailyReturns := returns hist in
            let n := Fin (inject_Z (Z.of_nat (length dailyReturns))) in
            let meanReturn := js_div (js_sum dailyReturns) n in
            let variance := js_div (js_sum (map (fun ret => square (js_minus ret meanReturn)) dailyReturns)) n in
            js_times100 (math_sqrt variance)
        | _ => Fin 0
        end in
      {| a_totalInvestment := totalInvestment; a_currentValue := currentValue; a_totalProfit := totalProfit;
         a_profitPercentage := profitPercentage; a_annualizedReturn := annualizedReturn;
         a_bestPerforming := select js_gt performanceData;
         a_worstPerforming := select (fun a b => js_gt b a) performanceData;
         a_volatility := volatility |}
  | _, _ => zero_profit_metrics
  end.
End analytics.

(** The text of the "Best Performing" card (lines 176-179). *)
Definition best_performing_text (n2s : Q -> string) (m : ProfitMetrics) : result string :=
  match a_bestPerforming m with
  | Some b => s ← toFixed n2s 2 (pf_profitPercentage b); mret ("+" ++ s ++ "%")
  | None => Ok "N/A"
  end.

(** What the page renders (lines 124-283): the four cards, the two
    chart placeholders, and the comparison card with its figures. *)
Record AnalyticsView := {
  av_profitGreen : bool;
  av_profit : string;
  av_overall : string;
  av_annualizedGreen : bool;
  av_annualized : string;
  av_best : string;
  av_bestWeight : string;
  av_volatility : string;
  av_performanceChart : string;
  av_distributionChart : string;
  av_comparison : string;
  av_comparisonFigures : list (string * string)
}.

Definition loading_text (isLoading : bool) (s : string) : string := if isLoading then "Loading..." else s.

(** A chart placeholder (lines 207-217 and 228-238). *)
Definition chart_placeholder (isLoading : bool) (investments : option (list Investment)) (text : string) : string :=
  if isLoading then "Loading chart data..."
  else match investments with Some (_ :: _) => text | _ => "No investment data available" end.

Section page_view.
Variable n2s : Q -> string.

Definition analytics_view (isLoading : bool) (timeframe : string) (investments : option (list Investment))
  (m : ProfitMetrics) : result AnalyticsView :=
  overall ← toFixed n2s 2 (a_profitPercentage m);
  annualized ← toFixed n2s 2 (a_annualizedReturn m);
  best ← best_performing_text n2s m;
  bestWeight ← (match a_bestPerforming m with
                | Some b => w ← toFixed n2s 1 (api_num (inv_weight (pf_inv b))); mret (w ++ "g purchased")
                | None => mret "No investments"
                end);
  volatility ← toFixed n2s 2 (a_volatility m);
  mret {|
    av_profitGreen := js_ge0 (a_totalProfit m);
    av_profit := loading_text isLoading (plus_sign (a_totalProfit m) ++ formatCurrency (VNumber (a_totalProfit m)));
    av_overall := if isLoading then "" else plus_sign (a_profitPercentage m) ++ overall ++ "% overall";
    av_annualizedGreen := js_ge0 (a_annualizedReturn m);
    av_annualized := loading_text isLoading (plus_sign (a_annualizedReturn m) ++ annualized ++ "%");
    av_best := loading_text isLoading best;
    av_bestWeight := bestWeight;
    av_volatility := loading_text isLoading (volatility ++ "%");
    av_performanceChart := chart_placeholder isLoading investments "Performance chart visualization";
    av_distributionChart := chart_placeholder isLoading investments "Value distribution chart";
    av_comparison := if isLoading then "Loading comparison data..."
                     else "Comparison chart between gold and other investments";
    av_comparisonFigures := [("Gold (" ++ timeframe ++ ")", "+4.8%"); ("Stocks (" ++ timeframe ++ ")", "+2.1%");
                             ("Inflation (" ++ timeframe ++ ")", "+3.2%")] |}.
End page_view.

(** ** Lemmas *)

Definition finite_pct (p : Performance) : Prop := exists q, pf_profitPercentage p = Fin q.

(** The value of a finite percentage. *)
Definition pct (p : Performance) : Q :=
  match pf_profitPercentage p with Fin q => q | _ => 0 end.

Lemma select_snoc better l x :
  select better (l ++ [x]) =
  match select better l with
  | None => Some x
  | Some b => if better (pf_profitPercentage x) (pf_profitPercentage b) then Some x else Some b
  end.
Proof. unfold select. rewrite fold_left_app. simpl. by destruct (fold_left _ l None). Qed.

Lemma js_gt_fin x y : js_gt (Fin x) (Fin y) = true <-> (y < x)%Q.
Proof. simpl. rewrite negb_true_iff, <- not_true_iff_false, Qle_bool_iff. split; [apply Qnot_le_lt|apply Qlt_not_le]. Qed.

Lemma finite_pct_pct p : finite_pct p -> pf_profitPercentage p = Fin (pct p).
Proof. intros [q Hq]. unfold pct. by rewrite Hq. Qed.

(** [select] with a strict order on finite percentages returns an
    element of the list that is at least as good as every element. *)
Lemma select_extremum (better : jsnum -> jsnum -> bool) (R : Q -> Q -> Prop) l :
  (forall x y, better (Fin x) (Fin y) = false -> R x y) ->
  (forall x y, better (Fin x) (Fin y) = true -> R y x) ->
  (forall x y z, R x y -> R y z -> R x z) -> (forall x, R x x) ->
  l <> [] -> Forall finite_pct l ->
  exists b, select better l = Some b /\ In b l /\ Forall (fun p => R (pct p) (pct b)) l.
Proof.
  intros Hf Ht Htr Hrefl. induction l as [|x l IH] using rev_ind; [done|]. intros _ Hfin.
  apply Forall_app in Hfin as [Hl Hx]. apply Forall_inv in Hx.
  rewrite select_snoc. destruct l as [|y l'].
  - exists x. split; [done|]. split; [by left|]. repeat constructor. apply Hrefl.
  - destruct IH as (b & -> & Hin & Hall); [done|exact Hl|].
    assert (Hb : finite_pct b) by (rewrite Forall_forall in Hl; by apply Hl).
    rewrite (finite_pct_pct x Hx), (finite_pct_pct b Hb).
    destruct (better (Fin (pct x)) (Fin (pct b))) eqn:E.
    + apply Ht in E. exists x. split; [done|]. split; [apply in_or_app; right; by left|].
      apply Forall_app. split; [|repeat constructor; apply Hrefl].
      eapply Forall_impl; [|exact Hall]. intros p Hp. exact (Htr _ _ _ Hp E).
    + apply Hf in E. exists b. split; [done|]. split; [apply in_or_app; by left|].
      apply Forall_app. split; [exact Hall|]. by repeat constructor.
Qed.

Lemma js_gt_false x y : js_gt (Fin x) (Fin y) = false -> (x <= y)%Q.
Proof. intros H. apply Qnot_lt_le. intros Hlt. apply js_gt_fin in Hlt. congruence. Qed.

Lemma js_gt_true x y : js_gt (Fin x) (Fin y) = true -> (y <= x)%Q.
Proof. intros H. apply Qlt_le_weak. by apply js_gt_fin. Qed.

(** ** Properties *)

(** C35: the best and the worst investment of the page are investments of
    the portfolio with the highest and the lowest profit percentage at
    the newest price of the history, whenever these percentages are
    numbers. *)
Theorem best_worst_performing pw sq now i invs h hist :
  Forall finite_pct (map (performance (gp_pricePerGram (hr_row h))) (i :: invs)) ->
  exists best worst,
    a_bestPerforming (calculateMetrics pw sq now (Some (i :: invs)) (Some (h :: hist))) = Some best /\
    a_worstPerforming (calculateMetrics pw sq now (Some (i :: invs)) (Some (h :: hist))) = Some worst /\
    In best (map (performance (gp_pricePerGram (hr_row h))) (i :: invs)) /\
    In worst (map (performance (gp_pricePerGram (hr_row h))) (i :: invs)) /\
    Forall (fun p => (pct worst <= pct p <= pct best)%Q) (map (performance (gp_pricePerGram (hr_row h))) (i :: invs)).
Proof.
  intros Hfin.
  destruct (select_extremum js_gt Qle (map (performance (gp_pricePerGram (hr_row h))) (i :: invs)) js_gt_false js_gt_true Qle_trans Qle_refl) as (b & Hb & Hbin & Hball);
    [done|exact Hfin|].
  destruct (select_extremum (fun a b => js_gt b a) (fun x y => y <= x)%Q
              (map (performance (gp_pricePerGram (hr_row h))) (i :: invs))) as (w & Hw & Hwin & Hwall);
    [intros x y; apply js_gt_false|intros x y; apply js_gt_true|intros x y z ? ?; eapply Qle_trans; eauto
    |apply Qle_refl|done|exact Hfin|].
  exists b, w. split; [exact Hb|]. split; [exact Hw|]. split; [done|]. split; [done|].
  rewrite Forall_forall in Hball, Hwall |- *. intros p Hp. split; [apply Hwall|apply Hball]; done.
Qed.

(** [toFixed] of a negative number starts with its minus sign. *)
Lemma toFixed_negative n2s f q : (f <= 100)%nat -> (q < 0)%Q -> exists s, toFixed n2s f (Fin q) = Ok ("-" ++ s).
Proof.
  intros Hf Hq. unfold toFixed. replace (Nat.ltb 100 f) with false by (symmetry; apply Nat.ltb_ge; lia).
  replace (Qle_bool 0 q) with false by (symmetry; apply not_true_iff_false; rewrite Qle_bool_iff; lra).
  cbv zeta. destruct (Qle_bool _ _); eauto.
Qed.

(** When every investment is at a loss, the "Best Performing" card
    shows the least loss with a plus sign before its minus sign
    ("+-3.50%"): the card always writes "+". *)
Theorem best_loss_shown_with_plus n2s pw sq now i invs h hist :
  Forall (fun p => exists q, pf_profitPercentage p = Fin q /\ (q < 0)%Q)
    (map (performance (gp_pricePerGram (hr_row h))) (i :: invs)) ->
  exists s, best_performing_text n2s (calculateMetrics pw sq now (Some (i :: invs)) (Some (h :: hist))) =
            Ok ("+-" ++ s ++ "%").
Proof.
  intros Hneg.
  destruct (select_extremum js_gt Qle (map (performance (gp_pricePerGram (hr_row h))) (i :: invs))
              js_gt_false js_gt_true Qle_trans Qle_refl) as (b & Hb & Hbin & _); [done| |].
  { eapply Forall_impl; [|exact Hneg]. intros p (q & Hq & _). by exists q. }
  rewrite Forall_forall in Hneg. destruct (Hneg b Hbin) as (q & Hq & Hq0).
  destruct (toFixed_negative n2s 2 q) as [s Hs]; [lia|exact Hq0|].
  exists s. unfold best_performing_text. change (select js_gt (map (performance (gp_pricePerGram (hr_row h))) (i :: invs))
    = Some b) in Hb. cbn [calculateMetrics a_bestPerforming]. rewrite Hb, Hq, Hs. reflexivity.
Qed.

(** The comparison card shows the same three figures whatever the
    investments, the history and the timeframe: only the timeframe's
    name in their captions changes. *)
Theorem comparison_figures_fixed n2s isLoading timeframe investments m v :
  analytics_view n2s isLoading timeframe investments m = Ok v ->
  av_comparisonFigures v = [("Gold (" ++ timeframe ++ ")", "+4.8%"); ("Stocks (" ++ timeframe ++ ")", "+2.1%");
                            ("Inflation (" ++ timeframe ++ ")", "+3.2%")].
Proof.
  unfold analytics_view, mbind, result_bind, mret, result_ret.
  repeat case_match; intros Hv; simplify_eq; reflexivity.
Qed.

(** ** Witnesses *)

(** Exhibits the computed percentage of a concrete performance. *)
Ltac pct_value :=
  match goal with
  | |- exists q, ?e = Fin q /\ _ =>
      let v := eval vm_compute in e in
      match v with Fin ?q => exists q; split; [vm_compute; reflexivity|vm_compute; reflexivity] end
  | |- exists q, ?e = Fin q =>
      let v := eval vm_compute in e in
      match v with Fin ?q => exists q; vm_compute; reflexivity end
  end.

(** The two investments of the seed script (1,050,000 a gram) and a
    history whose newest snapshot is at 1,000,000 a gram. *)
Definition loss_history : list HistoryRow :=
  [{| hr_row := sample_row 1 0 1000000; hr_dailyChange := Fin 0; hr_changePercent := Fin 0 |}].

Lemma best_worst_performing_witness : exists best worst,
  a_bestPerforming (calculateMetrics (fun x _ => x) (fun x => x) 0 (Some sample_investments) (Some loss_history))
    = Some best /\
  a_worstPerforming (calculateMetrics (fun x _ => x) (fun x => x) 0 (Some sample_investments) (Some loss_history))
    = Some worst.
Proof.
  destruct (best_worst_performing (fun x _ => x) (fun x => x) 0 (sample_investment 1 200 210000000)
              [sample_investment 2 300 315000000]
              {| hr_row := sample_row 1 0 1000000; hr_dailyChange := Fin 0; hr_changePercent := Fin 0 |} [])
    as (b & w & Hb & Hw & _).
  - cbn [map]. repeat constructor; unfold finite_pct; pct_value.
  - exists b, w. split; [exact Hb|exact Hw].
Defined.

Lemma best_loss_shown_with_plus_witness : exists s,
  best_performing_text (fun _ => EmptyString)
    (calculateMetrics (fun x _ => x) (fun x => x) 0 (Some sample_investments) (Some loss_history)) =
  Ok ("+-" ++ s ++ "%").
Proof.
  apply (best_loss_shown_with_plus (fun _ => EmptyString) (fun x _ => x) (fun x => x) 0
           (sample_investment 1 200 210000000) [sample_investment 2 300 315000000]
           {| hr_row := sample_row 1 0 1000000; hr_dailyChange := Fin 0; hr_changePercent := Fin 0 |} []).
  cbn [map]. repeat constructor; pct_value.
Defined.

End Analytics.
