(* ===== verification/Pages.v ===== *)
(** * The investments page and the calculator page
    ([src/client/src/pages/MyInvestments.tsx],
    [src/client/src/pages/Calculator.tsx])

  [Investments] models the investment form of [MyInvestments.tsx]: its
  state, [handleSubmit] with its warning and the JSON body it posts to
  [POST /api/investments], and the delete button of a row.
  [CalculatorPage] models the state of [Calculator.tsx] as a record and
  its events (typing in an input, choosing buy or sell, clicking a
  button, the price query answering) as a step function whose
  [useEffect] recomputes the value; reachability is an inductive
  relation and the page's invariant is proved by induction on it.
  [new Date(s).toISOString()] and [Math.pow] with a real exponent are
  parameters. *)

From S2P Require Import Prelude Text Schema Storage History Notifier Api Client Forms AlertsPage Cards.

Module Investments.
Import Text Schema Storage History Api Client Forms AlertsPage.
Local Open Scope string_scope.

(** The form's state (lines 20-24). *)
Record InvestmentForm := {
  purchaseDate : string;
  weight : string;
  purchasePrice : string;
  purity : string;
  notes : string
}.

(** The initial state and [resetForm] (lines 80-86). *)
Definition initial_investment_form : InvestmentForm := {|
  purchaseDate := ""; weight := ""; purchasePrice := ""; purity := "0.999"; notes := "" |}.

(** What [handleSubmit] does: a warning toast, the body it posts, or the
    [RangeError] that [toISOString] throws on an invalid date. *)
Inductive InvestmentSubmit :=
| InvWarning (description : string)
| InvPost (body : json)
| InvThrow (error : string).

Section investment_form.
(** [new Date(s).toISOString()]: [None] when the date is invalid. *)
Variable to_iso : string -> option string.

(** [handleSubmit] (lines 88-109). *)
Definition handleSubmit (f : InvestmentForm) : InvestmentSubmit :=
  if empty_text (purchaseDate f) || empty_text (weight f) || empty_text (purchasePrice f) then
    InvWarning "Please fill in all required fields"
  else
    match to_iso (purchaseDate f) with
    | None => InvThrow "RangeError: Invalid time value"
    | Some iso =>
        InvPost (Jobj [
          ("purchaseDate", Jstr iso);
          ("weight", json_number (parseFloat (weight f)));
          ("purchasePrice", json_number (parseFloat (purchasePrice f)));
          ("purity", json_number (parseFloat (purity f)));
          ("notes", match trim (notes f) with EmptyString => Jnull | t => Jstr t end)])
    end.
End investment_form.

(** The delete mutation (lines 60-64) of a row's delete button (line
    338): [DELETE /api/investments/${investmentId}]. *)
Definition deleteInvestment (investmentId : Z) : ST DB (Reply unit) :=
  deleteInvestmentRoute (Z_to_string investmentId).

(** ** The page as a state machine *)

(** The state of the component (lines 14-34): the form, the dialog,
    the data of the [/api/investments] and [/api/gold-prices/current]
    queries, and the toasts, newest first. *)
Record InvestmentsPage := {
  inv_form : InvestmentForm;
  inv_open : bool;
  investments_data : option (list Investment);
  currentGoldPrice : option GoldPrice;
  inv_toasts : list Toast
}.

Definition initial_investments_page : InvestmentsPage := {|
  inv_form := initial_investment_form; inv_open := false; investments_data := None;
  currentGoldPrice := None; inv_toasts := [] |}.

Inductive InvestmentsEvent :=
| SetPurchaseDate (s : string)
| SetWeight (s : string)
| SetPurchasePrice (s : string)
| SetPurity (s : string)
| SetNotes (s : string)
| SetDialogOpen (b : bool)
| SubmitInvestment
| DeleteInvestmentClicked (investmentId : Z)
| FetchInvestments
| CurrentPriceAnswer (g : option GoldPrice).

Definition with_inv_form (st : InvestmentsPage) (f : InvestmentForm) : InvestmentsPage := {|
  inv_form := f; inv_open := inv_open st; investments_data := investments_data st;
  currentGoldPrice := currentGoldPrice st; inv_toasts := inv_toasts st |}.

Definition with_inv_open (st : InvestmentsPage) (b : bool) : InvestmentsPage := {|
  inv_form := inv_form st; inv_open := b; investments_data := investments_data st;
  currentGoldPrice := currentGoldPrice st; inv_toasts := inv_toasts st |}.

Definition with_investments (st : InvestmentsPage) (l : option (list Investment)) (g : option GoldPrice)
  : InvestmentsPage := {|
  inv_form := inv_form st; inv_open := inv_open st; investments_data := l;
  currentGoldPrice := g; inv_toasts := inv_toasts st |}.

Definition push_inv_toast (st : InvestmentsPage) (t : Toast) : InvestmentsPage := {|
  inv_form := inv_form st; inv_open := inv_open st; investments_data := investments_data st;
  currentGoldPrice := currentGoldPrice st; inv_toasts := t :: inv_toasts st |}.

(** The setters of the form's inputs (lines 184-229). *)
Definition set_investment_field (f : InvestmentForm) (e : InvestmentsEvent) : InvestmentForm :=
  match e with
  | SetPurchaseDate s => {| purchaseDate := s; weight := weight f; purchasePrice := purchasePrice f;
                            purity := purity f; notes := notes f |}
  | SetWeight s => {| purchaseDate := purchaseDate f; weight := s; purchasePrice := purchasePrice f;
                      purity := purity f; notes := notes f |}
  | SetPurchasePrice s => {| purchaseDate := purchaseDate f; weight := weight f; purchasePrice := s;
                             purity := purity f; notes := notes f |}
  | SetPurity s => {| purchaseDate := purchaseDate f; weight := weight f; purchasePrice := purchasePrice f;
                      purity := s; notes := notes f |}
  | SetNotes s => {| purchaseDate := purchaseDate f; weight := weight f; purchasePrice := purchasePrice f;
                     purity := purity f; notes := s |}
  | _ => f
  end.

Section investments_page.
Variable to_iso : string -> option string.
Variable now : Z.
Variable request_error : forall A, Reply A -> string.

(** The [/api/investments] query (lines 32-34). *)
Definition fetch_investments (st : InvestmentsPage) (db : DB) : InvestmentsPage :=
  match fst (getInvestmentsRoute db) with
  | Ok (RJson l) => with_investments st (Some l) (currentGoldPrice st)
  | _ => st
  end.

(** [createInvestment] (lines 37-58). *)
Definition createInvestment (st : InvestmentsPage) (body : json) (db : DB) : InvestmentsPage * DB :=
  match request request_error (postInvestmentRoute now body) db with
  | (None, db') => (st, db')
  | (Some (inl msg), db') =>
      (push_inv_toast st {| toast_title := "Error"; toast_description := "Failed to record investment: " ++ msg;
                            toast_destructive := true |}, db')
  | (Some (inr _), db') =>
      let st1 := push_inv_toast (fetch_investments st db') {| toast_title := "Investment recorded";
                   toast_description := "Your gold investment has been added successfully";
                   toast_destructive := false |} in
      (with_inv_form (with_inv_open st1 false) initial_investment_form, db')
  end.

(** The delete mutation (lines 61-80). *)
Definition deleteInvestmentMutation (st : InvestmentsPage) (investmentId : Z) (db : DB) : InvestmentsPage * DB :=
  match request request_error (deleteInvestment investmentId) db with
  | (None, db') => (st, db')
  | (Some (inl msg), db') =>
      (push_inv_toast st {| toast_title := "Error"; toast_description := "Failed to delete investment: " ++ msg;
                            toast_destructive := true |}, db')
  | (Some (inr _), db') =>
      (push_inv_toast (fetch_investments st db') {| toast_title := "Investment deleted";
         toast_description := "Your investment record has been removed"; toast_destructive := false |}, db')
  end.

(** One event on the page; a [RangeError] thrown by [handleSubmit]
    escapes the event handler and changes nothing. *)
Definition investments_step (st : InvestmentsPage) (e : InvestmentsEvent) (db : DB) : InvestmentsPage * DB :=
  match e with
  | SetDialogOpen b => (with_inv_open st b, db)
  | SubmitInvestment =>
      match handleSubmit to_iso (inv_form st) with
      | InvWarning d => (push_inv_toast st {| toast_title := "Warning"; toast_description := d;
                                             toast_destructive := true |}, db)
      | InvThrow _ => (st, db)
      | InvPost body => createInvestment st body db
      end
  | DeleteInvestmentClicked id => deleteInvestmentMutation st id db
  | FetchInvestments => (fetch_investments st db, db)
  | CurrentPriceAnswer g => (with_investments st (investments_data st) g, db)
  | _ => (with_inv_form st (set_investment_field (inv_form st) e), db)
  end.

Inductive investments_reachable (db0 : DB) : InvestmentsPage -> DB -> Prop :=
| inv_init : investments_reachable db0 initial_investments_page db0
| inv_next st db e : investments_reachable db0 st db ->
    investments_reachable db0 (fst (investments_step st e db)) (snd (investments_step st e db)).

Definition investments_run (db0 : DB) (evs : list InvestmentsEvent) : InvestmentsPage * DB :=
  run_events investments_step (initial_investments_page, db0) evs.
End investments_page.

(** ** What the page renders *)

(** The four summary cards (lines 244-283) on the totals of
    [calculateTotals]. *)
Record SummaryCards := {
  sc_totalInvestment : string;
  sc_totalWeight : string;
  sc_currentValue : string;
  sc_profitGreen : bool;
  sc_profit : string;
  sc_roi : string;
  sc_ifSoldGreen : bool;
  sc_ifSold : string
}.

(** A row of the table (lines 309-349). *)
Record RowView := {
  rv_purchaseDate : string;
  rv_weight : string;
  rv_purchasePrice : string;
  rv_currentValue : string;
  rv_profitGreen : bool;
  rv_profit : string;
  rv_percentGreen : bool;
  rv_percent : string;
  rv_investmentId : Z
}.

(** The table's body (lines 303-362). *)
Inductive InvestmentsTable := TableLoading | TableRows (rows : list RowView) | TableEmpty.

Section investments_view.
(** [formatDateTime(d, "date")] and [Number::toString] of a number of
    [10^21] or more. *)
Variable format_date : Z -> string.
Variable n2s : Q -> string.

Definition summary_cards (m : Metrics) : result SummaryCards :=
  w ← toFixed n2s 1 (totalWeight m);
  roi ← toFixed n2s 2 (profitPercentage m);
  mret {|
    sc_totalInvestment := formatCurrency (VNumber (totalInvestment m));
    sc_totalWeight := w ++ " grams";
    sc_currentValue := formatCurrency (VNumber (currentValue m));
    sc_profitGreen := js_ge0 (totalProfit m);
    sc_profit := plus_sign (totalProfit m) ++ formatCurrency (VNumber (totalProfit m));
    sc_roi := plus_sign (profitPercentage m) ++ roi ++ "% ROI";
    sc_ifSoldGreen := js_ge0 (profitIfSold m);
    sc_ifSold := plus_sign (profitIfSold m) ++ formatCurrency (VNumber (profitIfSold m)) |}.

Definition row_view (currentGoldPrice : option GoldPrice) (inv : Investment) : result RowView :=
  let '(cv, profit, pct) := investment_row currentGoldPrice inv in
  w ← toFixed n2s 1 (api_num (inv_weight inv));
  p ← toFixed n2s 2 pct;
  mret {|
    rv_purchaseDate := format_date (inv_purchaseDate inv);
    rv_weight := w;
    rv_purchasePrice := formatCurrency (VString (numeric_text (inv_purchasePrice inv)));
    rv_currentValue := formatCurrency (VNumber cv);
    rv_profitGreen := js_ge0 profit;
    rv_profit := plus_sign profit ++ formatCurrency (VNumber profit);
    rv_percentGreen := js_ge0 pct;
    rv_percent := plus_sign pct ++ p ++ "%";
    rv_investmentId := inv_id inv |}.

Definition investments_table (isLoading : bool) (investments : option (list Investment))
  (currentGoldPrice : option GoldPrice) : result InvestmentsTable :=
  if isLoading then mret TableLoading
  else match investments with
       | Some ((_ :: _) as l) => rows ← Cards.map_ok (row_view currentGoldPrice) l; mret (TableRows rows)
       | _ => mret TableEmpty
       end.

(** The page's cards and table on its state. *)
Definition investments_view (isLoading : bool) (st : InvestmentsPage) : result (SummaryCards * InvestmentsTable) :=
  cards ← summary_cards (calculateTotals (investments_data st) (currentGoldPrice st));
  table ← investments_table isLoading (investments_data st) (currentGoldPrice st);
  mret (cards, table).
End investments_view.

(** ** Lemmas *)

(** The date column of the investment schema rejects the text of an ISO
    date. *)
Lemma purchaseDate_issue fields iso : json_get "purchaseDate" fields = Some (Jstr iso) ->
  exists issues, zod_parse investmentsInsertSchema (Jobj fields) = inl issues /\
    In ("purchaseDate", "Expected date, received string") issues.
Proof.
  intros Hd. apply (zod_parse_issue investmentsInsertSchema fields (zcol "purchaseDate" ZDate true false)).
  - simpl. tauto.
  - simpl. rewrite Hd. simpl. tauto.
Qed.

(** A body the form posts is rejected with a 400 that names
    [purchaseDate], and nothing is written. *)
Lemma form_post_rejected to_iso f body now db : handleSubmit to_iso f = InvPost body ->
  exists issues, postInvestmentRoute now body db = (Ok (RBadRequest issues), db) /\
    In ("purchaseDate", "Expected date, received string") issues.
Proof.
  unfold handleSubmit. destruct (_ || _ || _); [done|].
  destruct (to_iso (purchaseDate f)) as [iso|]; [|done]. intros [= <-].
  destruct (purchaseDate_issue
    [("purchaseDate", Jstr iso); ("weight", json_number (parseFloat (weight f)));
     ("purchasePrice", json_number (parseFloat (purchasePrice f)));
     ("purity", json_number (parseFloat (purity f)));
     ("notes", match trim (notes f) with EmptyString => Jnull | t => Jstr t end)] iso)
    as (issues & Hz & Hin); [reflexivity|].
  exists issues. split; [|exact Hin]. unfold postInvestmentRoute. by apply validated_rejects.
Qed.

(** The delete button of a row deletes exactly the investments with its
    id and answers 204: no table refers to investments. *)
Theorem investment_delete_button id db :
  deleteInvestment id db =
    (Ok RNoContent, set_investments (filter (fun i => inv_id i <> id) (investments db)) (seq_investments db) db).
Proof.
  unfold deleteInvestment, deleteInvestmentRoute, guarded, param_id. rewrite parse_int_Z_to_string.
  unfold Storage.deleteInvestment, lift. st_simpl. reflexivity.
Qed.

(** The delete button only removes investments. *)
Lemma deleteInvestment_subseteq id db : investments (snd (deleteInvestment id db)) ⊆ investments db.
Proof. rewrite investment_delete_button. apply list_subseteq_filter. Qed.

(** What the page has shown and done so far: no "Investment recorded"
    toast, and no investment the server did not have when the page
    mounted. *)
Definition nothing_recorded (db0 : DB) (st : InvestmentsPage) (db : DB) : Prop :=
  investments db ⊆ investments db0 /\ Forall (fun t => toast_title t <> "Investment recorded") (inv_toasts st).

Lemma fetch_investments_toasts st db : inv_toasts (fetch_investments st db) = inv_toasts st.
Proof. unfold fetch_investments. by destruct (fst _) as [[]| |]. Qed.

Lemma investments_step_nothing_recorded to_iso now request_error db0 st db e :
  nothing_recorded db0 st db ->
  nothing_recorded db0 (fst (investments_step to_iso now request_error st e db))
    (snd (investments_step to_iso now request_error st e db)).
Proof.
  intros [Hdb Ht]. destruct e; cbn [investments_step fst snd]; try (by split).
  - destruct (handleSubmit to_iso (inv_form st)) as [d|body|err] eqn:Hs; cbn [fst snd].
    + split; [done|by constructor].
    + destruct (form_post_rejected to_iso (inv_form st) body now db Hs) as (issues & Hp & _).
      unfold createInvestment, request. rewrite Hp. split; [done|by constructor].
    + by split.
  - unfold deleteInvestmentMutation, request. rewrite investment_delete_button. cbn.
    split; [etrans; [apply list_subseteq_filter|exact Hdb]|].
    constructor; [done|]. by rewrite fetch_investments_toasts.
Qed.

Lemma investments_run_reachable to_iso now request_error db0 evs :
  investments_reachable to_iso now request_error db0 (fst (investments_run to_iso now request_error db0 evs))
    (snd (investments_run to_iso now request_error db0 evs)).
Proof.
  unfold investments_run. apply (run_events_ind _ (investments_reachable to_iso now request_error db0));
    [by constructor|apply inv_init].
Qed.

(** While the current price has not loaded (or its request failed),
    each row of the table shows the gold as worth "Rp 0" and the
    purchase as a total loss of "-100.00%", styled as a loss. *)
Theorem row_shown_as_total_loss format_date n2s inv w p :
  Proper (Qeq ==> eq) n2s -> inv_weight inv = NVal w -> inv_purchasePrice inv = NVal p -> p <> 0 ->
  exists v, row_view format_date n2s None inv = Ok v /\
    rv_currentValue v = "Rp" ++ Notifier.nbsp ++ "0" /\ rv_percentGreen v = false /\ rv_percent v = "-100.00%".
Proof.
  intros Hn Hw Hp Hp0. unfold row_view.
  pose proof (investment_row_without_price inv w p Hw Hp Hp0) as H.
  destruct (investment_row None inv) as [[cv profit] pct]. destruct H as (Hcv & _ & Hpct).
  destruct (Cards.toFixed_ok n2s 1 (api_num (inv_weight inv))) as [ws Hws]; [lia|]. rewrite Hws.
  rewrite (toFixed_Proper n2s 2 Hn _ _ Hpct). cbn [mbind result_bind mret result_ret].
  eexists. split; [reflexivity|]. cbn [rv_currentValue rv_percentGreen rv_percent]. unfold plus_sign.
  rewrite (js_ge0_Proper _ _ Hpct). split_and!; [|reflexivity..].
  destruct cv as [x| |]; try contradiction. apply (format_idr0_Proper (Fin x) (Fin 0) Hcv).
Qed.

(** ** Properties *)

(** The investment form never records an investment: a submission
    shows a warning, throws on an invalid date, or posts a body whose
    [purchaseDate] is the text of an ISO date, which the insert schema
    (a [Date] for a timestamp column) rejects with a 400 and no write. *)
Theorem investment_form_never_records to_iso f now db :
  match handleSubmit to_iso f with
  | InvPost body => exists issues, postInvestmentRoute now body db = (Ok (RBadRequest issues), db) /\
                      In ("purchaseDate", "Expected date, received string") issues
  | InvWarning d => d = "Please fill in all required fields"
  | InvThrow e => e = "RangeError: Invalid time value"
  end.
Proof.
  destruct (handleSubmit to_iso f) as [d|body|e] eqn:Hs; [| by apply (form_post_rejected to_iso f) |].
  - revert Hs. unfold handleSubmit. destruct (_ || _ || _); [by intros [= <-]|].
    by destruct (to_iso (purchaseDate f)).
  - revert Hs. unfold handleSubmit. destruct (_ || _ || _); [done|].
    destruct (to_iso (purchaseDate f)); [done|]. by intros [= <-].
Qed.

(** C4: the investments page can never add an investment: in every
    state it reaches from the database it finds when it mounts, it has
    never shown the "Investment recorded" toast, and the server's
    investments are among those it had at mount (only the delete
    buttons write, and they only remove rows). *)
Theorem investments_page_never_records to_iso now request_error db0 st db :
  investments_reachable to_iso now request_error db0 st db -> nothing_recorded db0 st db.
Proof.
  induction 1; [by split|]. by apply investments_step_nothing_recorded.
Qed.

(** ** Witnesses *)

(** A purchase on 15 March 2023 of 2 grams for 2,100,000 typed in the
    form, with the date the browser converts. *)
Definition sample_form : InvestmentForm := {|
  purchaseDate := "2023-03-15"; weight := "2"; purchasePrice := "2100000"; purity := "0.999";
  notes := " first bar " |}.

Lemma investment_form_never_records_witness :
  exists issues, postInvestmentRoute 0
    (match handleSubmit (fun _ => Some "2023-03-15T00:00:00.000Z") sample_form with
     | InvPost b => b | _ => Jnull end) empty_db = (Ok (RBadRequest issues), empty_db) /\
    In ("purchaseDate", "Expected date, received string") issues.
Proof.
  exact (investment_form_never_records (fun _ => Some "2023-03-15T00:00:00.000Z") sample_form 0 empty_db).
Defined.

Lemma row_shown_as_total_loss_witness :
  exists v, row_view (fun _ => "Mar 15, 2023") (fun _ => "") None (Client.sample_investment 1 200 210000000) = Ok v /\
    rv_currentValue v = "Rp" ++ Notifier.nbsp ++ "0" /\ rv_percentGreen v = false /\ rv_percent v = "-100.00%".
Proof.
  apply (row_shown_as_total_loss _ _ _ 200 210000000); [by intros ?? _|reflexivity|reflexivity|lia].
Defined.

Definition sample_investments_db : DB := set_investments Client.sample_investments 4 empty_db.

(** The investments are loaded, one is deleted, a purchase is
    typed and submitted. *)
Definition sample_investments_events : list InvestmentsEvent :=
  [FetchInvestments; DeleteInvestmentClicked 1; SetDialogOpen true; SetPurchaseDate "2023-03-15";
   SetWeight "2"; SetPurchasePrice "2100000"; SubmitInvestment].

Lemma investments_page_never_records_witness :
  nothing_recorded sample_investments_db
    (fst (investments_run (fun _ => Some "2023-03-15T00:00:00.000Z") 0 (fun _ _ => "400: Bad Request")
            sample_investments_db sample_investments_events))
    (snd (investments_run (fun _ => Some "2023-03-15T00:00:00.000Z") 0 (fun _ _ => "400: Bad Request")
            sample_investments_db sample_investments_events)).
Proof.
  apply (investments_page_never_records (fun _ => Some "2023-03-15T00:00:00.000Z") 0
           (fun _ _ => "400: Bad Request") sample_investments_db).
  apply investments_run_reachable.
Defined.

End Investments.

Module CalculatorPage.
Import Text Schema Storage History Client Cards.
Local Open Scope string_scope.
#[export] Instance GoldPrice_eq_dec : EqDecision GoldPrice.
Proof. solve_decision. Defined.


(** The state of [Calculator.tsx] (lines 12-27): the price query's data
    and the [useState] hooks of its two calculators. *)
Record CalcState := {
  goldData : option GoldPrice;
  weight : string;
  purity : string;
  calculationType : string;
  calculatedValue : jsnum;
  investmentAmount : string;
  duration : string;
  expectedGrowthRate : string;
  projectedValue : jsnum;
  projectedWeight : jsnum
}.

Definition initial_calc : CalcState := {|
  goldData := None; weight := "1"; purity := "0.999"; calculationType := "buy"; calculatedValue := Fin 0;
  investmentAmount := "1000000"; duration := "1"; expectedGrowthRate := "5";
  projectedValue := Fin 0; projectedWeight := Fin 0 |}.

(** What the user or the query does. *)
Inductive CalcEvent :=
| SetWeight (s : string)
| SetPurity (s : string)
| SetCalculationType (s : string)
| ClickCalculate
| GoldData (g : option GoldPrice)
| SetInvestmentAmount (s : string)
| SetDuration (s : string)
| SetGrowthRate (s : string)
| ClickProject.

#[export] Instance CalcEvent_eq_dec : EqDecision CalcEvent.
Proof. solve_decision. Defined.

Section calculator_page.
(** [Math.pow] with a real exponent. *)
Variable math_pow : jsnum -> jsnum -> jsnum.

Definition with_inputs (st : CalcState) (g : option GoldPrice) (w p t : string) : CalcState := {|
  goldData := g; weight := w; purity := p; calculationType := t; calculatedValue := calculatedValue st;
  investmentAmount := investmentAmount st; duration := duration st; expectedGrowthRate := expectedGrowthRate st;
  projectedValue := projectedValue st; projectedWeight := projectedWeight st |}.

Definition with_value (st : CalcState) (v : jsnum) : CalcState := {|
  goldData := goldData st; weight := weight st; purity := purity st; calculationType := calculationType st;
  calculatedValue := v; investmentAmount := investmentAmount st; duration := duration st;
  expectedGrowthRate := expectedGrowthRate st; projectedValue := projectedValue st;
  projectedWeight := projectedWeight st |}.

Definition with_investment (st : CalcState) (a d r : string) (pv pw : jsnum) : CalcState := {|
  goldData := goldData st; weight := weight st; purity := purity st; calculationType := calculationType st;
  calculatedValue := calculatedValue st; investmentAmount := a; duration := d; expectedGrowthRate := r;
  projectedValue := pv; projectedWeight := pw |}.

(** [calculateGoldValue] on the page's state (lines 30-44). *)
Definition recalc (st : CalcState) : CalcState :=
  with_value st (calculateGoldValue (goldData st) (weight st) (purity st) (calculationType st) (calculatedValue st)).

(** [calculateInvestmentProjection] (lines 47-62): nothing without a
    price or when an input is not a number. *)
Definition project (st : CalcState) : CalcState :=
  match goldData st with
  | None => st
  | Some g =>
      let amount := parseFloat (investmentAmount st) in
      let years := parseFloat (duration st) in
      let growthRate := js_div (parseFloat (expectedGrowthRate st)) (Fin 100) in
      if js_isNaN amount || js_isNaN years || js_isNaN growthRate then st
      else with_investment st (investmentAmount st) (duration st) (expectedGrowthRate st)
             (js_mult amount (math_pow (js_plus (Fin 1) growthRate) years))
             (js_div amount (api_num (gp_buyPrice g)))
  end.

(** The effect of lines 65-69: [calculateGoldValue] when the price is
    loaded. *)
Definition effect (st : CalcState) : CalcState :=
  match goldData st with Some _ => recalc st | None => st end.

(** Whether a dependency of the effect ([weight], [purity],
    [calculationType], [goldData]) changed between two renders; the
    query keeps the same object while the data is deep-equal. *)
Definition deps_changed (st st' : CalcState) : bool :=
  negb (String.eqb (weight st) (weight st') && String.eqb (purity st) (purity st') &&
        String.eqb (calculationType st) (calculationType st') &&
        bool_decide (goldData st = goldData st')).

(** What an event sets before the next render: the [onChange] and
    [onValueChange] handlers of the inputs (lines 100, 106, 129, 141,
    187, 198, 209), the query's data, and the two buttons (lines 151,
    215). *)
Definition handle (st : CalcState) (e : CalcEvent) : CalcState :=
  match e with
  | SetWeight s => with_inputs st (goldData st) s (purity st) (calculationType st)
  | SetPurity s => with_inputs st (goldData st) (weight st) s (calculationType st)
  | SetCalculationType s => with_inputs st (goldData st) (weight st) (purity st) s
  | GoldData g => with_inputs st g (weight st) (purity st) (calculationType st)
  | ClickCalculate => recalc st
  | SetInvestmentAmount s =>
      with_investment st s (duration st) (expectedGrowthRate st) (projectedValue st) (projectedWeight st)
  | SetDuration s =>
      with_investment st (investmentAmount st) s (expectedGrowthRate st) (projectedValue st) (projectedWeight st)
  | SetGrowthRate s =>
      with_investment st (investmentAmount st) (duration st) s (projectedValue st) (projectedWeight st)
  | ClickProject => project st
  end.

(** One event, the render that follows it, and the effect when one of
    its dependencies changed. *)
Definition calc_step (st : CalcState) (e : CalcEvent) : CalcState :=
  let st' := handle st e in
  if deps_changed st st' then effect st' else st'.

(** The states the page reaches from its first render. *)
Inductive calc_reachable : CalcState -> Prop :=
| calc_init : calc_reachable initial_calc
| calc_next st e : calc_reachable st -> calc_reachable (calc_step st e).

Definition calc_run (evs : list CalcEvent) : CalcState := fold_left calc_step evs initial_calc.
End calculator_page.

(** [parseInt(s)] without a radix: after leading white space and a sign,
    the hexadecimal digits after [0x] or [0X], or else the decimal
    digits; [None] ([NaN]) when there is none. *)
Definition hex_digit (c : ascii) : option Z :=
  if is_digit c then Some (digit_value c)
  else let n := code (lower_char c) in
       if (97 <=? n)%nat && (n <=? 102)%nat then Some (Z.of_nat n - 87) else None.

Fixpoint hex_prefix (s : string) : list Z :=
  match s with
  | String c r => match hex_digit c with Some d => d :: hex_prefix r | None => [] end
  | EmptyString => []
  end.

Definition js_parseInt (s : string) : option Z :=
  let '(neg, r) := sign_split (trim_start s) in
  let '(base, ds) := match r with
                     | String "0" (String x r') =>
                         if Ascii.eqb x "x" || Ascii.eqb x "X" then (16, hex_prefix r') else (10, digit_prefix r)
                     | _ => (10, digit_prefix r)
                     end in
  match ds with
  | [] => None
  | _ => let v := fold_left (fun acc d => acc * base + d) ds 0 in Some (if neg then - v else v)
  end.

(** What the page shows (lines 159, 162, 225, 234-237, 259, 269, 279): the
    estimate, the gold amount, the projection and its caption, the buy
    and sell prices and the spread. *)
Record CalcView := {
  v_estimated : string;
  v_basis : string;
  v_amount : string;
  v_projected : string;
  v_caption : string;
  v_buy : string;
  v_sell : string;
  v_spread : string
}.

Section calc_view.
(** [ToNumber] of a text (the [-] of line 279), and [Number::toString]
    of a number of [10^21] or more (for [toFixed]). *)
Variable string_to_number : string -> jsnum.
Variable number_to_string : Q -> string.

(** [goldData?.col] *)
Definition price_arg (col : GoldPrice -> numeric) (g : option GoldPrice) : jsarg :=
  match g with Some g => json_numeric (col g) | None => VUndefined end.

Definition loading_or (isLoading : bool) (s : string) : string := if isLoading then "Loading..." else s.

Definition calc_view (isLoading : bool) (st : CalcState) : result CalcView :=
  amount ← (if isLoading then mret "Loading..."
            else w ← toFixed number_to_string 2 (projectedWeight st); mret (w ++ " grams"));
  mret {|
    v_estimated := loading_or isLoading (formatCurrency (VNumber (calculatedValue st)));
    v_basis := "Based on current " ++ (if String.eqb (calculationType st) "buy" then "buy" else "sell") ++ " price";
    v_amount := amount;
    v_projected := formatCurrency (VNumber (projectedValue st));
    v_caption := "After " ++ duration st ++ " " ++
                 (if bool_decide (js_parseInt (duration st) = Some 1) then "year" else "years") ++
                 " at " ++ expectedGrowthRate st ++ "% growth";
    v_buy := loading_or isLoading (formatCurrency (price_arg gp_buyPrice (goldData st)));
    v_sell := loading_or isLoading (formatCurrency (price_arg gp_sellPrice (goldData st)));
    v_spread := loading_or isLoading (formatCurrency (VNumber
                  (js_minus (arg_number string_to_number (price_arg gp_buyPrice (goldData st)))
                            (arg_number string_to_number (price_arg gp_sellPrice (goldData st)))))) |}.
End calc_view.

(** The value the page should show for its inputs. *)
Definition fresh_value (st : CalcState) : Prop :=
  forall g, goldData st = Some g ->
    js_isNaN (parseFloat (weight st)) = false -> js_isNaN (parseFloat (purity st)) = false ->
    calculatedValue st =
      js_mult (js_mult (parseFloat (weight st)) (parseFloat (purity st)))
        (api_num (if String.eqb (calculationType st) "buy" then gp_buyPrice g else gp_sellPrice g)).

(** ** Lemmas *)

(** [fresh_value] reads only the inputs, the price and the value. *)
Lemma fresh_value_ext st st' :
  goldData st = goldData st' -> weight st = weight st' -> purity st = purity st' ->
  calculationType st = calculationType st' -> calculatedValue st = calculatedValue st' ->
  fresh_value st -> fresh_value st'.
Proof. unfold fresh_value. intros -> -> -> -> ->. done. Qed.

Lemma recalc_fresh st : fresh_value (recalc st).
Proof.
  intros g Hg Hw Hp. cbn in *. unfold calculateGoldValue. rewrite Hg, Hw, Hp. simpl. by destruct (String.eqb _ _).
Qed.

Lemma effect_fresh st : fresh_value (effect st).
Proof. unfold effect. destruct (goldData st) eqn:E; [apply recalc_fresh|by intros g Hg; rewrite E in Hg]. Qed.

Lemma deps_unchanged st st' : deps_changed st st' = false ->
  weight st = weight st' /\ purity st = purity st' /\ calculationType st = calculationType st' /\
  goldData st = goldData st'.
Proof.
  unfold deps_changed. rewrite negb_false_iff, !andb_true_iff, !String.eqb_eq, bool_decide_eq_true.
  tauto.
Qed.

(** Only the Calculate button sets the value before the effect. *)
Lemma handle_value pow st e : e <> ClickCalculate ->
  calculatedValue (handle pow st e) = calculatedValue st.
Proof.
  destruct e; try done. intros _. simpl. unfold project.
  destruct (goldData st); [|done]. by destruct (_ || _ || _).
Qed.

(** ** Properties *)

(** C7: the calculator page never shows a stale estimate: in every state
    the page reaches, when the price is loaded and the weight and purity
    are numbers, the estimated value is weight x purity x the buy price
    (or the sell price when "sell" is chosen) of the current inputs; the
    [useEffect] on [weight], [purity], [calculationType] and [goldData]
    recomputes it after each change. *)
Theorem calc_reachable_fresh pow st : calc_reachable pow st -> fresh_value st.
Proof.
  induction 1 as [|st e _ IH].
  - by intros g Hg.
  - unfold calc_step. destruct (deps_changed st (handle pow st e)) eqn:Hd; [apply effect_fresh|].
    destruct (decide (e = ClickCalculate)) as [->|Hne]; [apply recalc_fresh|].
    destruct (deps_unchanged _ _ Hd) as (? & ? & ? & ?).
    apply (fresh_value_ext st); auto. by rewrite handle_value.
Qed.

(** What the estimate shows once the price has loaded. *)
Corollary calc_shows_estimate pow s2n n2s st g v :
  calc_reachable pow st -> goldData st = Some g ->
  js_isNaN (parseFloat (weight st)) = false -> js_isNaN (parseFloat (purity st)) = false ->
  calc_view s2n n2s false st = Ok v ->
  v_estimated v = formatCurrency (VNumber (js_mult (js_mult (parseFloat (weight st)) (parseFloat (purity st)))
                    (api_num (if String.eqb (calculationType st) "buy" then gp_buyPrice g else gp_sellPrice g)))).
Proof.
  intros Hr Hg Hw Hp. unfold calc_view. simpl.
  destruct (toFixed n2s 2 (projectedWeight st)); simpl; [intros [= <-]|done|done].
  simpl. by rewrite (calc_reachable_fresh pow st Hr g Hg Hw Hp).
Qed.

(** The projection is computed only by its button: typing another
    duration changes the caption under the projected value but not the
    value. *)
Theorem projection_not_recomputed pow st d :
  projectedValue (calc_step pow st (SetDuration d)) = projectedValue st /\
  projectedWeight (calc_step pow st (SetDuration d)) = projectedWeight st /\
  duration (calc_step pow st (SetDuration d)) = d.
Proof.
  unfold calc_step, deps_changed. cbn.
  rewrite !String.eqb_refl, bool_decide_eq_true_2 by done. done.
Qed.

(** A fractional duration such as "1.5" is captioned in the singular:
    [parseInt("1.5")] is 1. *)
Example fractional_duration_caption :
  exists v, calc_view (fun _ => NaN) (fun _ => "") false
    (calc_step (fun _ _ => Fin 1) initial_calc (SetDuration "1.5")) = Ok v /\
  v_caption v = "After 1.5 year at 5% growth".
Proof. eexists. split; reflexivity. Qed.

(** ** Witnesses *)

(** The price loads after the page's first render, then the weight is
    changed to 2 grams and "sell" is chosen. *)
Lemma calc_reachable_fresh_witness :
  fresh_value (calc_step (fun _ _ => Fin 1) (calc_step (fun _ _ => Fin 1)
    (calc_step (fun _ _ => Fin 1) initial_calc (GoldData (Some sample_price))) (SetWeight "2"))
    (SetCalculationType "sell")).
Proof.
  apply (calc_reachable_fresh (fun _ _ => Fin 1)).
  apply calc_next, calc_next, calc_next, calc_init.
Defined.

End CalculatorPage.
