(* ===== verification/Dashboard.v ===== *)
(** * The dashboard ([src/client/src/pages/Dashboard.tsx] and the
    widgets of [src/client/src/components/dashboard/])

  [Refresh] models the page's refresh setting: the [useEffect] that
  sets a [setInterval] for "hourly" and "realtime" and none for
  "daily", and the refresh button, as a state machine over time.
  [GoldCalc] models [GoldCalculator.tsx] as a state machine whose
  [useEffect] recomputes the value when an input or the [currentPrice]
  prop changes.  [Performance] models what [InvestmentPerformance.tsx]
  renders from its two queries, including the [TypeError] of its rows
  when the price query has no data.  [Chart] models what
  [PriceChart.tsx] renders and the callbacks it gives chart.js. *)

From S2P Require Import Prelude Text Schema Storage History Dates Notifier Scheduler Api Client Cards Pages.

(** ** The refresh setting of [Dashboard.tsx] *)
Module Refresh.
Import Text.
Local Open Scope string_scope.

(** The period of the interval the effect of lines 27-43 sets. *)
Definition refresh_period (refreshInterval : string) : option Z :=
  if String.eqb refreshInterval "hourly" then Some (60 * 60 * 1000)
  else if String.eqb refreshInterval "realtime" then Some (5 * 60 * 1000)
  else None.

(** The page's state: the setting, when its interval was set, the
    clock, and the number of [refetch()] calls so far. *)
Record DashState := {
  refreshInterval : string;
  interval_since : Z;
  dash_now : Z;
  refetches : Z
}.

Definition initial_dash (now : Z) : DashState := {|
  refreshInterval := "daily"; interval_since := now; dash_now := now; refetches := 0 |}.

Inductive DashEvent :=
| SetRefreshInterval (s : string)
| ClickRefresh
| Elapse (ms : Z).

(** How many times an interval of period [p] set at [since] has fired
    by [t]. *)
Definition fired (p : option Z) (since t : Z) : Z :=
  match p with Some p => (t - since) / p | None => 0 end.

(** One event: a new setting clears the old interval and sets a new one
    (the effect's cleanup and body; choosing the current setting again
    changes no dependency, so the effect does not run); the button calls [refetch()]
    (line 23); time passing fires the interval. *)
Definition dash_step (st : DashState) (e : DashEvent) : DashState :=
  match e with
  | SetRefreshInterval s =>
      if String.eqb s (refreshInterval st) then st
      else {| refreshInterval := s; interval_since := dash_now st; dash_now := dash_now st; refetches := refetches st |}
  | ClickRefresh =>
      {| refreshInterval := refreshInterval st; interval_since := interval_since st; dash_now := dash_now st;
         refetches := refetches st + 1 |}
  | Elapse ms =>
      let p := refresh_period (refreshInterval st) in
      let t := dash_now st + Z.max 0 ms in
      {| refreshInterval := refreshInterval st; interval_since := interval_since st; dash_now := t;
         refetches := refetches st + (fired p (interval_since st) t - fired p (interval_since st) (dash_now st)) |}
  end.

Definition elapse_all (st : DashState) (ds : list Z) : DashState := fold_left dash_step (map Elapse ds) st.

(** ** Lemmas *)

Lemma elapse_all_fields st ds :
  refreshInterval (elapse_all st ds) = refreshInterval st /\ interval_since (elapse_all st ds) = interval_since st /\
  dash_now (elapse_all st ds) = dash_now st + fold_left Z.add (map (Z.max 0) ds) 0 /\
  refetches (elapse_all st ds) =
    refetches st + (fired (refresh_period (refreshInterval st)) (interval_since st)
                      (dash_now st + fold_left Z.add (map (Z.max 0) ds) 0)
                    - fired (refresh_period (refreshInterval st)) (interval_since st) (dash_now st)).
Proof.
  unfold elapse_all. revert st. induction ds as [|d ds IH]; intros st; cbn -[Z.max].
  - rewrite Z.add_0_r. split_and!; [done..|lia].
  - destruct (IH (dash_step st (Elapse d))) as (H1 & H2 & H3 & H4). cbn -[Z.max] in *.
    rewrite H1, H2, H3, H4. rewrite (fold_left_add_from (Z.max 0 d)). split_and!; [done|done|lia|rewrite !Z.add_assoc; lia].
Qed.

(** ** Properties *)

(** C18: the refresh setting: once another setting is chosen, the
    dashboard refetches the current price exactly [d / 3600000] times
    in the next [d] milliseconds on "Hourly Updates", [d / 300000] times
    on "Real-time Updates", and never on "Daily Updates", which sets no
    interval at all. *)
Theorem refresh_count st s ds :
  String.eqb s (refreshInterval st) = false ->
  let st1 := dash_step st (SetRefreshInterval s) in
  let d := fold_left Z.add (map (Z.max 0) ds) 0 in
  refetches (elapse_all st1 ds) - refetches st =
    if String.eqb s "hourly" then d / 3600000
    else if String.eqb s "realtime" then d / 300000
    else 0.
Proof.
  intros Hs. cbn zeta. destruct (elapse_all_fields (dash_step st (SetRefreshInterval s)) ds) as (_ & _ & _ & H).
  rewrite H. cbn [dash_step]. rewrite Hs. cbn [refreshInterval interval_since dash_now refetches]. unfold fired, refresh_period.
  destruct (String.eqb s "hourly"); [|destruct (String.eqb s "realtime")];
    rewrite ?Z.add_simpl_l, ?Z.sub_diag, ?Zdiv_0_l, ?Z.sub_0_r; reflexivity.
Qed.

(** ** Witnesses *)

(** Hourly updates chosen on a freshly opened dashboard, then two and a
    half hours pass in three steps. *)
Lemma refresh_count_witness :
  String.eqb "hourly" (refreshInterval (initial_dash 0)) = false /\
  refetches (elapse_all (dash_step (initial_dash 0) (SetRefreshInterval "hourly")) [3600000; 3600000; 1800000])
    - refetches (initial_dash 0) = 2.
Proof.
  split; [reflexivity|]. rewrite (refresh_count (initial_dash 0) "hourly" _ eq_refl). reflexivity.
Defined.

End Refresh.

(** ** [GoldCalculator.tsx] *)
Module GoldCalc.
Import Text Schema Storage History Client.
Local Open Scope string_scope.

(** The component's state (lines 10-13) and its [currentPrice] prop. *)
Record CalcState := {
  weight : string;
  purity : string;
  calculationType : string;
  calculatedValue : jsnum;
  currentPrice : option string
}.

Definition initial_calc (currentPrice : option string) : CalcState := {|
  weight := "1"; purity := "0.999"; calculationType := "buy"; calculatedValue := Fin 0;
  currentPrice := currentPrice |}.

Inductive CalcEvent :=
| SetWeight (s : string)
| SetPurity (s : string)
| SetCalculationType (s : string)
| ClickCalculate
| NewPrice (p : option string).

#[export] Instance CalcEvent_eq_dec : EqDecision CalcEvent.
Proof. solve_decision. Defined.

Section gold_calc.
(** [ToNumber] of the price text that [*] converts. *)
Variable string_to_number : string -> jsnum.

Definition with_inputs (st : CalcState) (w p t : string) (price : option string) : CalcState := {|
  weight := w; purity := p; calculationType := t; calculatedValue := calculatedValue st; currentPrice := price |}.

(** [handleCalculate] (lines 22-32) on the component's state. *)
Definition recalc (st : CalcState) : CalcState := {|
  weight := weight st; purity := purity st; calculationType := calculationType st;
  calculatedValue := handleCalculate string_to_number (currentPrice st) (weight st) (purity st)
                       (calculationType st) (calculatedValue st);
  currentPrice := currentPrice st |}.

(** [if (currentPrice) handleCalculate()]: a non-empty text is truthy. *)
Definition price_truthy (p : option string) : bool :=
  match p with Some (String _ _) => true | _ => false end.

(** The dependencies of the effect of lines 16-20. *)
Definition deps_changed (st st' : CalcState) : bool :=
  negb (String.eqb (weight st) (weight st') && String.eqb (purity st) (purity st') &&
        String.eqb (calculationType st) (calculationType st') &&
        bool_decide (currentPrice st = currentPrice st')).

(** What an event sets: the inputs' handlers (lines 49, 55, 79, 96),
    the Calculate button (line 111), a new price from the dashboard. *)
Definition handle (st : CalcState) (e : CalcEvent) : CalcState :=
  match e with
  | SetWeight s => with_inputs st s (purity st) (calculationType st) (currentPrice st)
  | SetPurity s => with_inputs st (weight st) s (calculationType st) (currentPrice st)
  | SetCalculationType s => with_inputs st (weight st) (purity st) s (currentPrice st)
  | NewPrice p => with_inputs st (weight st) (purity st) (calculationType st) p
  | ClickCalculate => recalc st
  end.

Definition calc_step (st : CalcState) (e : CalcEvent) : CalcState :=
  let st' := handle st e in
  if deps_changed st st' && price_truthy (currentPrice st') then recalc st' else st'.

(** The first render and its effect, which runs on mount. *)
Definition mount (p : option string) : CalcState :=
  if price_truthy p then recalc (initial_calc p) else initial_calc p.

Inductive calc_reachable : CalcState -> Prop :=
| calc_init p : calc_reachable (mount p)
| calc_next st e : calc_reachable st -> calc_reachable (calc_step st e).
End gold_calc.

(** The value the calculator shows for its inputs: weight times purity
    (0 and 0.999 when they are not numbers or are 0) times the price,
    whatever Buy or Sell says. *)
Definition shows_buy_value (s2n : string -> jsnum) (st : CalcState) : Prop :=
  forall p, currentPrice st = Some p -> price_truthy (Some p) = true ->
    calculatedValue st =
      js_mult (js_mult (js_or (parseFloat (weight st)) (Fin 0)) (js_or (parseFloat (purity st)) (Fin (999 # 1000))))
        (s2n p).

(** ** Lemmas *)

Lemma recalc_shows s2n st : shows_buy_value s2n (recalc s2n st).
Proof. intros p Hp Ht. cbn in *. rewrite Hp. destruct p; [discriminate|reflexivity]. Qed.

Lemma shows_buy_value_ext s2n st st' :
  weight st = weight st' -> purity st = purity st' -> currentPrice st = currentPrice st' ->
  calculatedValue st = calculatedValue st' -> shows_buy_value s2n st -> shows_buy_value s2n st'.
Proof. unfold shows_buy_value. intros -> -> -> ->. done. Qed.

Lemma calc_deps_unchanged st st' : deps_changed st st' = false ->
  weight st = weight st' /\ purity st = purity st' /\ currentPrice st = currentPrice st'.
Proof.
  unfold deps_changed. rewrite negb_false_iff, !andb_true_iff, !String.eqb_eq, bool_decide_eq_true. tauto.
Qed.

Lemma gc_handle_value s2n st e : e <> ClickCalculate -> calculatedValue (handle s2n st e) = calculatedValue st.
Proof. by destruct e. Qed.

(** ** Properties *)

(** C8: the dashboard's calculator shows the buy value whatever "Sell
    Value" says: in every state it reaches, once the dashboard has
    passed it a price, the estimate is weight x purity x that price
    (the buy price, line 84 of [Dashboard.tsx]), with 0 and 0.999 for a
    weight or purity that is not a number or is 0; choosing "Sell
    Value" recomputes the same number. *)
Theorem gold_calc_shows_buy_value s2n st : calc_reachable s2n st -> shows_buy_value s2n st.
Proof.
  induction 1 as [p|st e _ IH].
  - unfold mount. destruct (price_truthy p) eqn:Hp; [apply recalc_shows|].
    intros q Hq Ht. cbn in Hq. subst p. by rewrite Ht in Hp.
  - unfold calc_step. destruct (deps_changed st (handle s2n st e) && price_truthy (currentPrice (handle s2n st e))) eqn:Hd;
      [apply recalc_shows|].
    destruct (decide (e = ClickCalculate)) as [->|Hne]; [apply recalc_shows|].
    apply andb_false_iff in Hd as [Hd|Hd].
    + destruct (calc_deps_unchanged _ _ Hd) as (? & ? & ?).
      apply (shows_buy_value_ext s2n st); auto. by rewrite gc_handle_value.
    + intros q Hq Ht. by rewrite Hq, Ht in Hd.
Qed.

(** ** Witnesses *)

(** The dashboard passes the buy price, then the user picks 22 karat,
    2 grams and "Sell Value". *)
Lemma gold_calc_shows_buy_value_witness :
  shows_buy_value parseFloat
    (fold_left (calc_step parseFloat) [SetPurity "0.916"; SetWeight "2"; SetCalculationType "sell"]
       (mount parseFloat (Some "1058000.00"))).
Proof.
  apply gold_calc_shows_buy_value.
  change (calc_reachable parseFloat (calc_step parseFloat (calc_step parseFloat (calc_step parseFloat
    (mount parseFloat (Some "1058000.00")) (SetPurity "0.916")) (SetWeight "2")) (SetCalculationType "sell"))).
  repeat constructor.
Defined.

End GoldCalc.

(** ** [InvestmentPerformance.tsx] *)
Module Performance.
Import Text Schema Storage History Client Pages.Investments.
Local Open Scope string_scope.

(** What the card renders (lines 61-201): skeletons while a query
    loads, the invitation when there is no investment, or the four
    summary cards and a row per investment. *)
Inductive PerfView :=
| PerfLoading
| PerfEmpty
| PerfShown (cards : SummaryCards) (rows : list RowView).

(** [currentPriceData.pricePerGram] on [undefined]. *)
Definition type_error : string := "TypeError: Cannot read properties of undefined (reading 'pricePerGram')".

(** The data of the [/api/gold-prices/current] query after an answer
    of the route: the row of a 200, nothing after a 404 or a 500. *)
Definition price_data (r : Scheduler.Response) : option GoldPrice :=
  match r with Scheduler.RJson cp => Some (cp_row cp) | Scheduler.RStatus _ _ => None end.

Section performance.
Variable format_date : Z -> string.
Variable n2s : Q -> string.

(** A row of the table (lines 155-183): the same numbers and texts as a
    row of the investments page, but it reads [currentPriceData]
    without a test. *)
Definition performance_row (currentPriceData : option GoldPrice) (inv : Investment) : result RowView :=
  match currentPriceData with
  | None => Err type_error
  | Some g => row_view format_date n2s (Some g) inv
  end.

Definition performance_view (investmentsLoading priceLoading : bool) (investments : option (list Investment))
  (currentPriceData : option GoldPrice) : result PerfView :=
  let metrics := calculateMetrics investments currentPriceData in
  if investmentsLoading || priceLoading then mret PerfLoading
  else match investments with
       | None | Some [] => mret PerfEmpty
       | Some l =>
           cards ← summary_cards n2s metrics;
           rows ← Cards.map_ok (performance_row currentPriceData) l;
           mret (PerfShown cards rows)
       end.
End performance.

(** ** Properties *)

(** C5: the dashboard's investment card crashes when the price is
    missing: once both queries have settled, if there is at least one
    investment and the current-price request answered with an error
    status (the 404 "No gold price data available" of an empty table
    whose sources failed, or a 500), the card's rows read
    [currentPriceData.pricePerGram] on [undefined] and rendering throws
    a [TypeError], although [calculateMetrics] guards the same case. *)
Theorem performance_crashes_without_price format_date n2s inv invs code msg :
  performance_view format_date n2s false false (Some (inv :: invs)) (price_data (Scheduler.RStatus code msg))
    = Err type_error.
Proof.
  unfold performance_view. cbn [price_data orb].
  destruct (summary_cards n2s (calculateMetrics (Some (inv :: invs)) None)) as [c| |] eqn:Hc.
  - cbn. reflexivity.
  - exfalso. revert Hc. unfold summary_cards. cbn. intros [=].
  - exfalso. revert Hc. unfold summary_cards. cbn. intros [=].
Qed.

End Performance.

(** ** [PriceChart.tsx] *)
Module Chart.
Import Text Schema Storage History Client Cards.
Local Open Scope string_scope.

(** [TIMEFRAME_OPTIONS] (lines 8-13). *)
Definition TIMEFRAME_OPTIONS : list (string * string) := [("1D", "1d"); ("1W", "1w"); ("1M", "1m"); ("1Y", "1y")].

(** The state of a chart query: still loading, failed with a message,
    or answered. *)
Inductive ChartQuery :=
| QLoading
| QError (message : string)
| QData (points : list ChartPoint).

(** What the widget renders (lines 107-162): the error card, or the
    timeframe buttons (label and whether it is the selected one) above
    the skeleton, the "No chart data available" text, or the canvas
    with the labels and prices it hands to chart.js. *)
Inductive ChartBody := ChartSkeleton | ChartEmpty | ChartCanvas (labels : list string) (prices : list jsarg).

Inductive ChartView :=
| ChartError (message : string)
| ChartCard (buttons : list (string * bool)) (body : ChartBody).

Definition chart_view (timeframe : string) (q : ChartQuery) : ChartView :=
  match q with
  | QError m => ChartError m
  | _ =>
      ChartCard (map (fun o => (fst o, String.eqb timeframe (snd o))) TIMEFRAME_OPTIONS)
        match q with
        | QData ((_ :: _) as l) => ChartCanvas (map cd_label l) (map (fun c => json_num (cd_price c)) l)
        | QLoading => ChartSkeleton
        | _ => ChartEmpty
        end
  end.

(** The tooltip's label callback (lines 66-75): [context.parsed.y] is
    the point's number, or [null] for a gap. *)
Definition tooltip_label (y : jsarg) : string :=
  "Gold Price (Rp): " ++ match y with VNull => "" | _ => formatCurrency y end.

Section ticks.
(** [Number::toString]. *)
Variable number_to_string : jsnum -> string.

(** The y axis' tick callback (lines 91-93). *)
Definition tick_label (value : jsnum) : string :=
  "Rp " ++ number_to_string (js_div value (Fin 1000)) ++ "K".
End ticks.

(** What a tooltip shows for each point of the canvas. *)
Definition chart_tooltips (v : ChartView) : list string :=
  match v with ChartCard _ (ChartCanvas _ prices) => map tooltip_label prices | _ => [] end.

(** ** Properties *)

(** A snapshot whose price per gram is [NaN] reaches chart.js as
    [null] ([JSON.stringify] writes [NaN] as [null]), a gap in the
    line, and the tooltip callback labels such a point with no price:
    "Gold Price (Rp): ". *)
Theorem nan_point_is_gap timeframe before after label :
  chart_tooltips (chart_view timeframe (QData (before ++ {| cd_label := label; cd_price := NaN |} :: after)%list)) =
  (map tooltip_label (map (fun c => json_num (cd_price c)) before) ++ ["Gold Price (Rp): "] ++
   map tooltip_label (map (fun c => json_num (cd_price c)) after))%list.
Proof.
  destruct before as [|b before]; cbn; [reflexivity|].
  by rewrite !map_app.
Qed.

End Chart.

(** ** The page: [Dashboard.tsx] lines 11-97 *)
Module Page.
Import Text Schema Storage History Client Cards Dates.
Local Open Scope string_scope.

(** The data of the current-price query (line 15) after an answer of
    [GET /api/gold-prices/current]: the body of a 200, nothing after
    an error status. *)
Definition gold_data (r : Scheduler.Response) : option CurrentPrice :=
  match r with Scheduler.RJson cp => Some cp | Scheduler.RStatus _ _ => None end.

Section page.
Variables (tz : Z) (date_parse : string -> option Z) (ampm_sep : string) (now : Z).
Variables (string_to_number : string -> jsnum) (number_to_string : Q -> string).

(** [lastUpdatedTime] (line 20): [formatDateTime] of the [date] of the
    JSON body, which [res.json] wrote with [toISOString()]. *)
Definition lastUpdatedTime (goldData : option CurrentPrice) : string :=
  match goldData with
  | Some cp => formatDateTime tz date_parse ampm_sep now (VString (toISOString (gp_date (cp_row cp)))) "datetime"
  | None => "Loading..."
  end.

(** What the page renders (lines 45-96): the header line, the select's
    value, the price cards ([None] while loading: the skeletons), and
    the [currentPrice] prop of [GoldCalculator] ([goldData?.buyPrice],
    the JSON text of the column). *)
Record DashboardView := {
  dv_lastUpdated : string;
  dv_refreshInterval : string;
  dv_cards : option (result (list PriceCard));
  dv_calculatorPrice : option string
}.

Definition dashboard_view (refreshInterval : string) (isLoading : bool) (goldData : option CurrentPrice)
  : DashboardView := {|
  dv_lastUpdated := "Last updated: " ++ lastUpdatedTime goldData;
  dv_refreshInterval := refreshInterval;
  dv_cards := if isLoading then None
              else Some (price_cards string_to_number number_to_string (option_map current_data goldData));
  dv_calculatorPrice := option_map (fun cp => numeric_text (gp_buyPrice (cp_row cp))) goldData |}.

(** What is assumed of the engine's [Date.parse]: on a text of the
    date-time string format it gives the format's time value. *)
Hypothesis parse_format : forall s t, date_parse_iso tz s = Some t -> date_parse s = Some t.

(** C27: the header shows the time of the snapshot the server holds: its
    [date] crosses the wire unchanged and is written "Today, h:mm AM",
    "Yesterday, ..." or with its date, by the browser's day. *)
Theorem last_updated_shows_snapshot_time cp :
  Z.abs (gp_date (cp_row cp)) <= max_time ->
  let t := gp_date (cp_row cp) in
  dv_lastUpdated (dashboard_view "daily" false (Some cp)) =
    "Last updated: " ++
    (if Z.eqb (local_day tz t) (local_day tz now) then "Today, " ++ en_time tz ampm_sep t
     else if Z.eqb (local_day tz t) (local_day tz now - 1) then "Yesterday, " ++ en_time tz ampm_sep t
     else en_date tz t ++ ", " ++ en_time tz ampm_sep t).
Proof.
  intros Ht t. cbn [dashboard_view dv_lastUpdated lastUpdatedTime]. f_equal.
  unfold formatDateTime. destruct (toISOString_nonempty (gp_date (cp_row cp))) as (c & s & Hs).
  rewrite (parse_format _ _ (date_parse_iso_toISOString tz _ Ht)), Hs. reflexivity.
Qed.
End page.

Lemma last_updated_shows_snapshot_time_witness :
  let cp := {| cp_row := {| gp_id := 1; gp_date := 1700000000123; gp_buyPrice := NVal 100000000;
                            gp_sellPrice := NVal 98000000; gp_pricePerGram := NVal 100000000;
                            gp_source := "pegadaian"; gp_highPrice := None; gp_lowPrice := None |};
               cp_priceChange := JNull; cp_buyPriceChange := JNull; cp_sellPriceChange := JNull |} in
  Z.abs (gp_date (cp_row cp)) <= max_time /\
  dv_lastUpdated (dashboard_view 25200000 (date_parse_iso 25200000) " " 1700000000123
                    (fun _ => NaN) (fun _ => "") "daily" false (Some cp)) =
    "Last updated: Today, " ++ en_time 25200000 " " 1700000000123.
Proof.
  intros cp. assert (H : Z.abs (gp_date (cp_row cp)) <= max_time) by (simpl; unfold max_time; lia).
  split; [exact H|].
  rewrite (last_updated_shows_snapshot_time 25200000 (date_parse_iso 25200000) " " 1700000000123
             (fun _ => NaN) (fun _ => "") (fun s t H => H) cp H).
  vm_compute. reflexivity.
Defined.
End Page.
