(* ===== verification/Nav.v ===== *)
(** * Navigation: the routes of [src/client/src/App.tsx], the links of
    [components/Sidebar.tsx] and [components/MobileNav.tsx], and the
    [components/Layout.tsx] that shows them

  [Router] is the [<Switch>] of [App.tsx]: the first [<Route>] whose
  path matches the location, and [NotFound] when none does.  wouter's
  matcher is a library and stays a parameter [matches]; the theorems
  assume of it only that it compares the six paths of the table as
  strings.  The two navigation bars are lists of links, each shown
  highlighted when [isActive] (the location equals the link's [href]).
  [Layout] keeps a [sidebarOpen] flag that its menu button toggles; the
  sidebar is [hidden md:flex] and the bottom bar [md:hidden], so which
  links a user sees depends on the viewport and on nothing else. *)

From stdpp Require Import base list strings.
From S2P Require Import Prelude.

Module Nav.
Local Open Scope string_scope.

(** The pages the [<Switch>] renders. *)
Inductive Page :=
  | Dashboard | PriceHistory | Calculator | Notifications
  | MyInvestments | ProfitAnalytics | NotFound.

#[export] Instance Page_eq_dec : EqDecision Page.
Proof. solve_decision. Defined.

(** The [<Route>]s of lines 18-23, in order. *)
Definition routes : list (string * Page) :=
  [("/", Dashboard); ("/price-history", PriceHistory);
   ("/calculator", Calculator); ("/notifications", Notifications);
   ("/my-investments", MyInvestments); ("/profit-analytics", ProfitAnalytics)].

Section router.
Variable matches : string -> string -> bool.

(** [<Switch>]: the first route that matches, else the path-less
    [<Route component={NotFound} />] of line 24. *)
Fixpoint switch (rs : list (string * Page)) (location : string) : Page :=
  match rs with
  | [] => NotFound
  | (path, page) :: rs => if matches path location then page else switch rs location
  end.

Definition Router (location : string) : Page := switch routes location.
End router.

(** A [<Link>] of a navigation bar: its target, its text and the
    number badge some of them carry. *)
Record NavLink := { href : string; label : string; badge : option string }.

(** The six links of [Sidebar.tsx], lines 24-62. *)
Definition sidebar_links : list NavLink :=
  [ {| href := "/"; label := "Dashboard"; badge := None |};
    {| href := "/price-history"; label := "Price History"; badge := None |};
    {| href := "/calculator"; label := "Calculator"; badge := None |};
    {| href := "/notifications"; label := "Notifications"; badge := Some "3" |};
    {| href := "/my-investments"; label := "My Investments"; badge := None |};
    {| href := "/profit-analytics"; label := "Profit Analytics"; badge := None |} ].

(** The four links of [MobileNav.tsx], lines 13-45. *)
Definition mobile_links : list NavLink :=
  [ {| href := "/"; label := "Dashboard"; badge := None |};
    {| href := "/price-history"; label := "History"; badge := None |};
    {| href := "/calculator"; label := "Calculator"; badge := None |};
    {| href := "/notifications"; label := "Alerts"; badge := Some "3" |} ].

(** [isActive] of both bars: [location === path]. *)
Definition isActive (location path : string) : bool := String.eqb location path.

(** A link as rendered: its class is the active one when [isActive]. *)
Record LinkView := { lv_href : string; lv_label : string; lv_badge : option string;
                     lv_active : bool }.

Definition link_view (location : string) (l : NavLink) : LinkView :=
  {| lv_href := href l; lv_label := label l; lv_badge := badge l;
     lv_active := isActive location (href l) |}.

Definition Sidebar (location : string) : list LinkView := map (link_view location) sidebar_links.
Definition MobileNav (location : string) : list LinkView := map (link_view location) mobile_links.

(** The viewport: below or from the [md] breakpoint. *)
Inductive Viewport := Narrow | Wide.

(** The links a page shows inside its content, in some state of its
    queries: on the dashboard, the alert widget's "Add alert", "Set up
    alerts" and "Configure Channels" ([PriceAlerts.tsx] lines 141, 154,
    166), the recent changes' "View All Changes" ([RecentChanges.tsx]
    line 99) and the investment card's "Add First Investment" and "Add
    New Investment" ([InvestmentPerformance.tsx] lines 90, 190).  No
    other page of [src/client/src/pages] renders a [<Link>]. *)
Definition page_links (p : Page) : list string :=
  match p with
  | Dashboard => ["/notifications"; "/price-history"; "/my-investments"]
  | _ => []
  end.

(** [Layout]'s state and wouter's location. *)
Record LayoutState := { location : string; sidebarOpen : bool }.

Inductive LayoutEvent :=
  | ToggleSidebar            (** the menu button, line 34 *)
  | ClickLink (to : string). (** a click on a link the screen shows *)

(** The links [Layout] shows: the sidebar from [md] on
    ([hidden md:flex]), the bottom bar below it ([md:hidden]).  The
    [sidebarOpen] flag is read by no element. *)
Definition visible_links (vp : Viewport) (st : LayoutState) : list LinkView :=
  match vp with
  | Wide => Sidebar (location st)
  | Narrow => MobileNav (location st)
  end.

Section layout.
Variable matches : string -> string -> bool.

(** What a click can follow: a link of the visible bar, or a link of
    the page the [<Switch>] renders inside the layout.  A page's links
    are counted whatever the state of its queries, so the set is never
    smaller than what the screen shows. *)
Definition clickable (vp : Viewport) (st : LayoutState) : list string :=
  map lv_href (visible_links vp st) ++ page_links (Router matches (location st)).

Definition layout_step (vp : Viewport) (st : LayoutState) (e : LayoutEvent) : LayoutState :=
  match e with
  | ToggleSidebar => {| location := location st; sidebarOpen := negb (sidebarOpen st) |}
  | ClickLink to =>
      if existsb (String.eqb to) (clickable vp st)
      then {| location := to; sidebarOpen := sidebarOpen st |}
      else st
  end.

Definition layout_run (vp : Viewport) (st : LayoutState) (evs : list LayoutEvent) : LayoutState :=
  fold_left (layout_step vp) evs st.
End layout.

(** ** Lemmas *)

Lemma visible_hrefs vp st :
  map lv_href (visible_links vp st) =
  map href (match vp with Wide => sidebar_links | Narrow => mobile_links end).
Proof. by destruct vp; unfold visible_links, Sidebar, MobileNav; rewrite map_map. Qed.

(** All the in-page links there are. *)
Definition all_page_links : list string := ["/notifications"; "/price-history"; "/my-investments"].

Lemma page_links_all p : forall to, In to (page_links p) -> In to all_page_links.
Proof. destruct p; simpl; tauto. Qed.

(** Every run stays at its start, at a link of the viewport's bar or
    at an in-page link. *)
Lemma layout_run_location matches vp st evs :
  location (layout_run matches vp st evs) = location st \/
  In (location (layout_run matches vp st evs))
     (map href (match vp with Wide => sidebar_links | Narrow => mobile_links end) ++ all_page_links).
Proof.
  unfold layout_run. revert st. induction evs as [|e evs IH]; intros st; [by left|].
  simpl. destruct (IH (layout_step matches vp st e)) as [-> | H]; [|by right].
  destruct e as [|to]; simpl; [by left|].
  destruct (existsb _ _) eqn:E; [|by left]. right. simpl.
  apply existsb_exists in E as [x [Hin Heq]]. apply String.eqb_eq in Heq as ->.
  unfold clickable in Hin. rewrite visible_hrefs in Hin.
  apply in_app_or in Hin as [Hin|Hin]; apply in_or_app; [by left|right].
  by eapply page_links_all.
Qed.

Section matcher.
Variable matches : string -> string -> bool.

(** What the theorems assume of wouter's matcher: on the paths of the
    route table it is string equality. *)
Hypothesis matches_paths :
  forall p q, In p (map fst routes) -> In q (map fst routes) -> matches p q = String.eqb p q.

Lemma switch_ext rs q :
  (forall p, In p (map fst rs) -> matches p q = String.eqb p q) ->
  switch matches rs q = switch String.eqb rs q.
Proof.
  induction rs as [|[p page] rs IH]; intros H; [done|]. simpl.
  rewrite H by (left; done). case_match; [done|]. apply IH. intros p' Hp'. apply H. by right.
Qed.

Lemma Router_paths q : In q (map fst routes) -> Router matches q = Router String.eqb q.
Proof. intros Hq. apply switch_ext. intros p Hp. by apply matches_paths. Qed.

(** Each link of either bar leads to its page, not to [NotFound], and
    at its location it is the one link highlighted. *)
Theorem links_route_and_highlight :
  map (fun l => Router matches (href l)) sidebar_links =
    [Dashboard; PriceHistory; Calculator; Notifications; MyInvestments; ProfitAnalytics] /\
  map (fun l => Router matches (href l)) mobile_links =
    [Dashboard; PriceHistory; Calculator; Notifications] /\
  (forall l, In l sidebar_links ->
     filter lv_active (Sidebar (href l)) = [link_view (href l) l]) /\
  (forall l, In l mobile_links ->
     filter lv_active (MobileNav (href l)) = [link_view (href l) l]).
Proof.
  split_and!.
  - cbn [map sidebar_links href]. rewrite !Router_paths by (simpl; tauto). reflexivity.
  - cbn [map mobile_links href]. rewrite !Router_paths by (simpl; tauto). reflexivity.
  - intros l Hl. repeat destruct Hl as [<-|Hl]; [reflexivity..|done].
  - intros l Hl. repeat destruct Hl as [<-|Hl]; [reflexivity..|done].
Qed.

(** From the dashboard, on a wide screen, every page of the table is
    a click away. *)
Theorem wide_reaches_every_page b p :
  p <> NotFound ->
  exists to, Router matches (location (layout_run matches Wide {| location := "/"; sidebarOpen := b |}
                                                [ClickLink to])) = p.
Proof.
  intros Hp. unfold layout_run, layout_step, clickable; simpl.
  rewrite (Router_paths "/") by (simpl; tauto).
  destruct p; [exists "/" | exists "/price-history" | exists "/calculator"
              | exists "/notifications" | exists "/my-investments"
              | exists "/profit-analytics" | done];
    simpl; rewrite Router_paths by (simpl; tauto); reflexivity.
Qed.

(** On a narrow screen My Investments is still reached, through the
    dashboard's investment card. *)
Theorem narrow_reaches_investments b :
  Router matches (location (layout_run matches Narrow {| location := "/"; sidebarOpen := b |}
                                      [ClickLink "/my-investments"])) = MyInvestments.
Proof.
  unfold layout_run, layout_step, clickable; simpl.
  rewrite (Router_paths "/") by (simpl; tauto). simpl.
  rewrite Router_paths by (simpl; tauto). reflexivity.
Qed.

(** C16: on a narrow screen the layout shows only the bottom bar, whose
    four links omit Profit Analytics, no page links to it, and the menu
    button only flips a [sidebarOpen] flag that nothing reads: from the
    dashboard, no sequence of menu presses and clicks on the links the
    screen shows ever renders Profit Analytics. *)
Theorem narrow_never_reaches_analytics b evs :
  Router matches (location (layout_run matches Narrow {| location := "/"; sidebarOpen := b |} evs))
    <> ProfitAnalytics.
Proof.
  destruct (layout_run_location matches Narrow {| location := "/"; sidebarOpen := b |} evs) as [H|H];
    simpl in H; [|repeat destruct H as [H|H]; try done; symmetry in H];
    rewrite H, Router_paths by (simpl; tauto); done.
Qed.
End matcher.

Lemma narrow_never_reaches_analytics_witness :
  (forall p q, In p (map fst routes) -> In q (map fst routes) -> String.eqb p q = String.eqb p q) /\
  Router String.eqb (location (layout_run String.eqb Narrow {| location := "/"; sidebarOpen := false |}
                                [ToggleSidebar; ClickLink "/my-investments"; ClickLink "/profit-analytics"]))
    <> ProfitAnalytics.
Proof.
  split; [done|].
  apply (narrow_never_reaches_analytics String.eqb (fun p q _ _ => eq_refl)).
Defined.

End Nav.
