(* ===== verification/Seed.v ===== *)
(** * The seed script ([src/db/seed.ts])

  [seed()] fills each of the tables [gold_prices], [price_alerts] and
  [investments] with sample rows when a [SELECT ... LIMIT 1] finds it
  empty, one multi-row [INSERT] per table, and catches every error.
  The three sample snapshots are dated now, yesterday and two days ago
  at the same local time ([setDate(getDate() - n)], [History.at_day]);
  the investments are dated [new Date("2023-03-15")] and
  [new Date("2023-02-28")], UTC midnight.  A multi-row [INSERT] is one
  statement: every row is converted, each takes the next value of the
  table's sequence, and the rows are stored together or not at all.
  Console output is not modelled. *)

From S2P Require Import Prelude Text Schema Storage History.

Module Seed.
Import Text Schema Storage History.
Local Open Scope string_scope.

(** A snapshot object of the seed: the decimal columns as text. *)
Record PriceSeed := {
  ps_date : Z;
  ps_buyPrice : string;
  ps_sellPrice : string;
  ps_pricePerGram : string;
  ps_source : string;
  ps_highPrice : string;
  ps_lowPrice : string
}.

Definition price_seed_row (id : Z) (p : PriceSeed) : result GoldPrice :=
  b ← numeric_of_text (ps_buyPrice p);
  s ← numeric_of_text (ps_sellPrice p);
  g ← numeric_of_text (ps_pricePerGram p);
  h ← numeric_of_text (ps_highPrice p);
  l ← numeric_of_text (ps_lowPrice p);
  mret {| gp_id := id; gp_date := ps_date p; gp_buyPrice := b; gp_sellPrice := s; gp_pricePerGram := g;
          gp_source := ps_source p; gp_highPrice := Some h; gp_lowPrice := Some l |}.

(** The rows of a multi-row [INSERT], the [k]-th taking the id
    [id + k]; the first error aborts the statement. *)
Fixpoint rows_from {I A} (mk : Z -> I -> result A) (id : Z) (inputs : list I) : result (list A) :=
  match inputs with
  | [] => Ok []
  | i :: rest => r ← mk id i; rs ← rows_from mk (id + 1) rest; mret (r :: rs)
  end.

(** [db.insert(goldPrices).values([...])] *)
Definition insert_prices (ps : list PriceSeed) : ST DB unit :=
  db ← get;
  rows ← lift (rows_from price_seed_row (seq_goldPrices db) ps);
  if decide (Exists (fun r => gp_id r ∈ map gp_id rows) (goldPrices db)) then throw (pk_violation "gold_prices")
  else put (set_goldPrices (goldPrices db ++ rows) (seq_goldPrices db + Z.of_nat (length ps)) db).

(** [db.insert(priceAlerts).values([...])]: a key missing from an
    object takes the column's default. *)
Definition insert_alerts (now : Z) (ais : list PriceAlertInput) : ST DB unit :=
  db ← get;
  rows ← lift (rows_from (fun id ai => alert_row id now ai) (seq_priceAlerts db) ais);
  if decide (Exists (fun a => pa_id a ∈ map pa_id rows) (priceAlerts db)) then throw (pk_violation "price_alerts")
  else put (set_priceAlerts (priceAlerts db ++ rows) (seq_priceAlerts db + Z.of_nat (length ais)) db).

(** [db.insert(investments).values([...])] *)
Definition insert_investments (now : Z) (ivs : list InvestmentInput) : ST DB unit :=
  db ← get;
  rows ← lift (rows_from (fun id iv => investment_row id now iv) (seq_investments db) ivs);
  if decide (Exists (fun i => inv_id i ∈ map inv_id rows) (investments db)) then throw (pk_violation "investments")
  else put (set_investments (investments db ++ rows) (seq_investments db + Z.of_nat (length ivs)) db).

(** The sample snapshots (lines 12-48). *)
Definition seed_prices (tz now : Z) : list PriceSeed :=
  let yesterday := at_day tz now (local_day tz now - 1) in
  let twoDaysAgo := at_day tz now (local_day tz now - 2) in
  [ {| ps_date := now; ps_buyPrice := "1058000"; ps_sellPrice := "967000"; ps_pricePerGram := "1053000";
       ps_source := "pegadaian"; ps_highPrice := "1059500"; ps_lowPrice := "1052000" |};
    {| ps_date := yesterday; ps_buyPrice := "1050500"; ps_sellPrice := "970000"; ps_pricePerGram := "1045000";
       ps_source := "pegadaian"; ps_highPrice := "1050500"; ps_lowPrice := "1040000" |};
    {| ps_date := twoDaysAgo; ps_buyPrice := "1045000"; ps_sellPrice := "968000"; ps_pricePerGram := "1042500";
       ps_source := "pegadaian"; ps_highPrice := "1048000"; ps_lowPrice := "1040000" |} ].

Definition seed_alert (type : string) (target : option string) (wa tg : bool) (phone chat daily : option string)
  : PriceAlertInput := {|
  ai_id := None; ai_alertType := Some type; ai_targetPrice := option_map Some target;
  ai_whatsappEnabled := Some (Some wa); ai_telegramEnabled := Some (Some tg);
  ai_phoneNumber := option_map Some phone; ai_telegramChatId := option_map Some chat;
  ai_active := Some (Some true); ai_dailyTime := option_map Some daily |}.

(** The sample alerts (lines 60-86). *)
Definition seed_alerts : list PriceAlertInput := [
  seed_alert "increase" (Some "1060000") true false (Some "+6281224942994") None None;
  seed_alert "decrease" (Some "1000000") false true None (Some "123456789") None;
  seed_alert "daily" None true true (Some "+6281224942994") (Some "123456789") (Some "20:00") ].

Definition seed_investment (date : Z) (weight price notes : string) : InvestmentInput := {|
  iv_id := None; iv_purchaseDate := Some date; iv_weight := Some weight; iv_purchasePrice := Some price;
  iv_purity := Some "0.999"; iv_notes := Some (Some notes) |}.

(** The sample investments (lines 98-117). *)
Definition seed_investments : list InvestmentInput := [
  seed_investment (days_from_civil 2023 3 15 * day_ms) "2.0" "2100000" "First gold investment";
  seed_investment (days_from_civil 2023 2 28 * day_ms) "3.0" "3150000" "Second gold investment" ].

(** [const existing = await db.select().from(table).limit(1);
     if (existing.length === 0) { ...insert... }]: one of the three
    phases of [seed()]. *)
Definition seed_table {A} (table : DB -> list A) (ins : ST DB unit) : ST DB unit :=
  existing ← gets (fun db => take 1 (table db));
  match existing with [] => ins | _ => mret tt end.

(** [seed()] (lines 5-127) at time [now] in the time zone [tz]. *)
Definition seed (tz now : Z) : ST DB unit :=
  try_catch
    (seed_table goldPrices (insert_prices (seed_prices tz now));;
     seed_table priceAlerts (insert_alerts now seed_alerts);;
     seed_table investments (insert_investments now seed_investments))
    (fun _ => mret tt).

(** ** Lemmas *)

(** The snapshot rows the seed stores from the sequence value [s]. *)
Definition price_row (id date buy sell ppg high low : Z) : GoldPrice := {|
  gp_id := id; gp_date := date; gp_buyPrice := NVal buy; gp_sellPrice := NVal sell; gp_pricePerGram := NVal ppg;
  gp_source := "pegadaian"; gp_highPrice := Some (NVal high); gp_lowPrice := Some (NVal low) |}.

Definition seed_price_rows (tz now s : Z) : list GoldPrice := [
  price_row s now 105800000 96700000 105300000 105950000 105200000;
  price_row (s + 1) (at_day tz now (local_day tz now - 1)) 105050000 97000000 104500000 105050000 104000000;
  price_row (s + 1 + 1) (at_day tz now (local_day tz now - 2)) 104500000 96800000 104250000 104800000 104000000].

Lemma seed_table_run {A} (table : DB -> list A) ins db :
  seed_table table ins db = match table db with [] => ins db | _ => (Ok tt, db) end.
Proof. unfold seed_table. st_simpl. by destruct (table db). Qed.

Lemma insert_prices_run tz now db : goldPrices db = [] ->
  insert_prices (seed_prices tz now) db =
    (Ok tt, set_goldPrices (seed_price_rows tz now (seq_goldPrices db)) (seq_goldPrices db + 3) db).
Proof.
  intros H. unfold insert_prices, lift. st_simpl.
  change (rows_from price_seed_row (seq_goldPrices db) (seed_prices tz now))
    with (Ok (seed_price_rows tz now (seq_goldPrices db)) : result (list GoldPrice)).
  simpl. rewrite H. reflexivity.
Qed.

Lemma insert_alerts_run now db : priceAlerts db = [] ->
  exists rows, insert_alerts now seed_alerts db =
    (Ok tt, set_priceAlerts rows (seq_priceAlerts db + 3) db) /\
    map pa_id rows = [seq_priceAlerts db; seq_priceAlerts db + 1; seq_priceAlerts db + 1 + 1].
Proof.
  intros H. unfold insert_alerts, lift. st_simpl. eexists. split; [simpl; rewrite H; reflexivity|reflexivity].
Qed.

Lemma insert_investments_run now db : investments db = [] ->
  exists rows, insert_investments now seed_investments db =
    (Ok tt, set_investments rows (seq_investments db + 2) db) /\
    map inv_id rows = [seq_investments db; seq_investments db + 1].
Proof.
  intros H. unfold insert_investments, lift. st_simpl. eexists. split; [simpl; rewrite H; reflexivity|reflexivity].
Qed.

Lemma NoDup_three (s : Z) : NoDup [s; s + 1; s + 1 + 1].
Proof. repeat constructor; rewrite ?elem_of_cons, ?elem_of_nil; lia. Qed.

Lemma NoDup_two (s : Z) : NoDup [s; s + 1].
Proof. repeat constructor; rewrite ?elem_of_cons, ?elem_of_nil; lia. Qed.

(** Each phase returns normally, leaves the other tables as they were,
    leaves its table non-empty and keeps the database well formed. *)
Lemma phase_prices tz now db : exists db',
  seed_table goldPrices (insert_prices (seed_prices tz now)) db = (Ok tt, db') /\
  goldPrices db' <> [] /\ priceAlerts db' = priceAlerts db /\ investments db' = investments db /\
  (wf_db db -> wf_db db').
Proof.
  rewrite seed_table_run. destruct (goldPrices db) as [|g gs] eqn:E; [|exists db; rewrite E; split_and!; auto].
  rewrite insert_prices_run by done. eexists. split_and!; [done|done|done|done|].
  intros (Hg & Ha & Hl & Hr & Hi). destruct Hg as (_ & _ & Hs). split_and!; try done.
  unfold ids_below. simpl. split_and!; [repeat constructor; simpl; lia|apply NoDup_three|lia].
Qed.

Lemma phase_alerts now db : exists db',
  seed_table priceAlerts (insert_alerts now seed_alerts) db = (Ok tt, db') /\
  goldPrices db' = goldPrices db /\ priceAlerts db' <> [] /\ investments db' = investments db /\
  (wf_db db -> wf_db db').
Proof.
  rewrite seed_table_run. destruct (priceAlerts db) as [|a als] eqn:E; [|exists db; rewrite E; split_and!; auto].
  destruct (insert_alerts_run now db E) as (rows & -> & Hids). eexists. split_and!; [done|done| |done|].
  { simpl. by destruct rows. }
  intros (Hg & Ha & Hl & Hr & Hi). split_and!; try done.
  - simpl. rewrite Hids. apply NoDup_three.
  - apply (logs_reference_weaken db); [done| |done]. intros aid Hex. rewrite E in Hex. inversion Hex.
Qed.

Lemma phase_investments now db : exists db',
  seed_table investments (insert_investments now seed_investments) db = (Ok tt, db') /\
  goldPrices db' = goldPrices db /\ priceAlerts db' = priceAlerts db /\ investments db' <> [] /\
  (wf_db db -> wf_db db').
Proof.
  rewrite seed_table_run. destruct (investments db) as [|i ivs] eqn:E; [|exists db; rewrite E; split_and!; auto].
  destruct (insert_investments_run now db E) as (rows & -> & Hids). eexists. split_and!; [done|done|done| |].
  { simpl. by destruct rows. }
  intros (Hg & Ha & Hl & Hr & Hi). split_and!; try done. simpl. rewrite Hids. apply NoDup_two.
Qed.

Lemma seed_run tz now db : exists db', seed tz now db = (Ok tt, db') /\
  goldPrices db' <> [] /\ priceAlerts db' <> [] /\ investments db' <> [] /\ (wf_db db -> wf_db db').
Proof.
  destruct (phase_prices tz now db) as (db1 & H1 & Hg1 & Ha1 & Hi1 & Hw1).
  destruct (phase_alerts now db1) as (db2 & H2 & Hg2 & Ha2 & Hi2 & Hw2).
  destruct (phase_investments now db2) as (db3 & H3 & Hg3 & Ha3 & Hi3 & Hw3).
  exists db3. split.
  - unfold seed. apply run_try_ok. rewrite (run_bind_ok _ _ _ _ _ H1), (run_bind_ok _ _ _ _ _ H2). exact H3.
  - split_and!; [congruence|congruence|done|auto].
Qed.

Lemma seed_skip tz now db : goldPrices db <> [] -> priceAlerts db <> [] -> investments db <> [] ->
  seed tz now db = (Ok tt, db).
Proof.
  intros Hg Ha Hi. unfold seed. apply run_try_ok.
  assert (H1 : seed_table goldPrices (insert_prices (seed_prices tz now)) db = (Ok tt, db))
    by (rewrite seed_table_run; by destruct (goldPrices db)).
  assert (H2 : seed_table priceAlerts (insert_alerts now seed_alerts) db = (Ok tt, db))
    by (rewrite seed_table_run; by destruct (priceAlerts db)).
  rewrite (run_bind_ok _ _ _ _ _ H1), (run_bind_ok _ _ _ _ _ H2), seed_table_run.
  by destruct (investments db).
Qed.

(** The seed script can be run again: a second run, at any time,
    finds every table filled by the first and changes nothing. *)
Theorem seed_idempotent tz now now' db :
  fst (seed tz now db) = Ok tt /\ seed tz now' (snd (seed tz now db)) = (Ok tt, snd (seed tz now db)).
Proof.
  destruct (seed_run tz now db) as (db' & -> & Hg & Ha & Hi & _). split; [done|]. by apply seed_skip.
Qed.

(** The seed keeps the database invariant of [Storage.wf_db]: its
    multi-row inserts take fresh, distinct ids from the sequences and
    advance them past the new rows. *)
Theorem seed_wf tz now db : wf_db db -> wf_db (snd (seed tz now db)).
Proof. destruct (seed_run tz now db) as (db' & -> & _ & _ & _ & Hw). exact Hw. Qed.

Lemma at_day_back tz t k : at_day tz t (local_day tz t - k) = t - k * day_ms.
Proof. unfold at_day, local_day, time_in_day, day_ms. zlia. Qed.

(** The snapshots of a seeded empty database. *)
Lemma seed_empty_prices tz now : goldPrices (snd (seed tz now empty_db)) = seed_price_rows tz now 1.
Proof.
  assert (H1 : seed_table goldPrices (insert_prices (seed_prices tz now)) empty_db =
               (Ok tt, set_goldPrices (seed_price_rows tz now 1) 4 empty_db))
    by (rewrite seed_table_run; apply insert_prices_run; reflexivity).
  destruct (phase_alerts now (set_goldPrices (seed_price_rows tz now 1) 4 empty_db)) as (db2 & H2 & Hg2 & _).
  destruct (phase_investments now db2) as (db3 & H3 & Hg3 & _).
  unfold seed. rewrite (run_try_ok _ _ _ tt db3); [simpl; rewrite Hg3, Hg2; reflexivity|].
  rewrite (run_bind_ok _ _ _ _ _ H1), (run_bind_ok _ _ _ _ _ H2). exact H3.
Qed.

(** On the seeded database, whenever the seed does not run exactly at
    local midnight, [getCurrentGoldPrice] returns the snapshot dated now
    with a daily change of 1,053,000 - 1,042,500 (the snapshot of two
    days ago) instead of 1,053,000 - 1,045,000 (yesterday's): the
    baseline window ends at the midnight that starts yesterday. *)
Theorem seed_current_baseline tz now : 0 < time_in_day tz now ->
  exists cp, getCurrentGoldPrice tz now (snd (seed tz now empty_db)) = (Ok (Some cp), snd (seed tz now empty_db)) /\
    gp_date (cp_row cp) = now /\
    cp_priceChange cp = js_sub (parse_float (NVal 105300000)) (parse_float (NVal 104250000)).
Proof.
  intros Htid. pose proof (seed_empty_prices tz now) as Hp.
  set (db := snd (seed tz now empty_db)) in *. clearbody db.
  unfold getCurrentGoldPrice, yesterday_price. st_simpl. rewrite Hp. unfold seed_price_rows. rewrite !at_day_back.
  unfold time_in_day in Htid. unfold yesterday_start, start_of_day. cbn [order_desc ins_desc gp_date price_row].
  repeat (cbn [ins_desc order_desc gp_date price_row];
    match goal with |- context [Z.leb ?a ?b] =>
      destruct (Z.leb_spec a b); try (exfalso; unfold day_ms in *; lia) end).
  cbn. repeat case_decide; try (exfalso; unfold day_ms in *; zlia).
  eexists. split_and!; reflexivity.
Qed.

(** ** Witnesses *)

Lemma seed_wf_witness : wf_db (snd (seed 0 0 empty_db)).
Proof.
  apply seed_wf. unfold wf_db, ids_below, logs_reference_alerts. simpl. repeat split; constructor || lia.
Defined.

Lemma seed_current_baseline_witness :
  exists cp, getCurrentGoldPrice 0 (10 * hour_ms) (snd (seed 0 (10 * hour_ms) empty_db)) =
               (Ok (Some cp), snd (seed 0 (10 * hour_ms) empty_db)) /\
    gp_date (cp_row cp) = 10 * hour_ms /\
    cp_priceChange cp = js_sub (parse_float (NVal 105300000)) (parse_float (NVal 104250000)).
Proof. apply seed_current_baseline. vm_compute. reflexivity. Defined.

End Seed.
